(** * ReShade graphics-resource abstraction layer: a shallow embedding

    The development embeds the parts of three backends that the
    specification's testable properties talk about:

    - [D3D9]   : render-pass emulation in [Direct3DDevice9::SetRenderTarget]
                 and [Direct3DDevice9::SetDepthStencilSurface]
                 (source/d3d9/d3d9_device.cpp);
    - [OpenGL] : emulated descriptor sets, query pools, render passes and
                 attachment queries (source/opengl/reshade_api_device.cpp);
    - [Vulkan] : the handle registry and the resource, query-pool and
                 render-pass operations built on it
                 (source/vulkan/reshade_api_device.{hpp,cpp}).

    Three further modules embed the code around these parts:
    [VulkanDevice] (views, render-pass destruction, pipeline layouts,
    pipelines and transient descriptor pools of the same two files),
    [VulkanHooks] (the layer entry points of
    source/vulkan/vulkan_hooks_device.cpp that feed the registry) and
    [OpenGLDevice] (destruction and the resource of a view, of
    source/opengl/reshade_api_device.cpp).

    Conventions.  Handles and native integers are [Z] with the wrap-around
    of their C++ type written out ([uint32]).  A C++ call that
    throws ([std::unordered_map::at] on a missing key) or has undefined
    behaviour (indexing a [std::vector] out of range, dereferencing a
    pointer that does not designate a live object) yields [None]; [assert]
    is compiled out, as in a release build.  Calls into the native API and
    into the add-on event sink are recorded, in program order, in a log
    carried by the device state; what the native API answers is an
    argument of the embedded function. *)

From Stdlib Require Import ZArith Lia List Bool.
From stdpp Require Import base option list gmap.

Local Open Scope Z_scope.

(** ** Fixed-width arithmetic *)

Definition uint32 (z : Z) : Z := z mod 2 ^ 32.

(** [static_cast<GLintptr>] and [static_cast<GLsizeiptr>] of a 64-bit
    unsigned value: the two's-complement reading on 64 bits. *)
Definition int64 (z : Z) : Z := (z + 2 ^ 63) mod 2 ^ 64 - 2 ^ 63.

(** [static_cast<float>] of an unsigned 32-bit integer, as the integer
    the resulting single-precision number is: exact below [2^24], rounded
    to the nearest number with a 24-bit significand (ties to even) above. *)
Definition static_cast_float (n : Z) : Z :=
  let e := Z.log2 n in
  if e <? 24 then n
  else
    let ulp := 2 ^ (e - 23) in
    let q := n / ulp in
    let r := n mod ulp in
    if 2 * r <? ulp then q * ulp
    else if ulp <? 2 * r then (q + 1) * ulp
    else if Z.even q then q * ulp else (q + 1) * ulp.

(** [for (uint32_t k = k0; n iterations; ++k) body], threading a state
    through a body that may fail. *)
Fixpoint for_range {S : Type} (n : nat) (k : Z) (body : Z -> S -> option S) (s : S)
  : option S :=
  match n with
  | O => Some s
  | Datatypes.S n' =>
      match body k s with
      | Some s' => for_range n' (uint32 (k + 1)) body s'
      | None => None
      end
  end.

(** [v[i] = x] on a [std::vector]: undefined out of range. *)
Definition vector_set {A : Type} (v : list A) (i : Z) (x : A) : option (list A) :=
  if decide (0 <= i < Z.of_nat (length v)) then Some (<[Z.to_nat i := x]> v) else None.

(** [v[i]] on a [std::vector]: undefined out of range. *)
Definition vector_get {A : Type} (v : list A) (i : Z) : option A :=
  if decide (0 <= i) then v !! Z.to_nat i else None.

(** ** Direct3D 9: render-pass emulation *)

Module D3D9.

(** The add-on events raised by the two attachment-binding hooks, with
    the arguments the hooks pass. *)
Inductive addon_event : Type :=
| finish_render_pass
| begin_render_pass (pass : Z)
| bind_viewports (first count : Z) (width height : Z).  (* viewport_data[2], [3]: floats *)

(** Modelled from the spec: [render_pass_impl] of the Direct3D 9
    backend, whose declaration is not among the sources: "the currently
    bound color/depth-stencil attachment set", by the two members the
    hooks use. *)
Record render_pass_impl : Type := {
  rtv : list Z;   (* IDirect3DSurface9 *rtv[8] *)
  dsv : Z         (* IDirect3DSurface9 *dsv *)
}.

Record Direct3DDevice9 : Type := {
  _current_pass : Z;              (* address of the pass object *)
  current_pass : render_pass_impl;  (* the object it points to *)
  events : list addon_event       (* add-on events raised so far *)
}.

Definition SUCCEEDED (hr : Z) : bool := 0 <=? hr.

Definition D3D_OK : Z := 0.

Definition raise (evs : list addon_event) (dev : Direct3DDevice9) : Direct3DDevice9 :=
  {| _current_pass := _current_pass dev;
     current_pass := current_pass dev;
     events := events dev ++ evs |}.

Definition set_rtv (i : Z) (p : Z) (dev : Direct3DDevice9) : option Direct3DDevice9 :=
  rtv' ← vector_set (rtv (current_pass dev)) i p;
  Some {| _current_pass := _current_pass dev;
          current_pass := {| rtv := rtv'; dsv := dsv (current_pass dev) |};
          events := events dev |}.

Definition set_dsv (p : Z) (dev : Direct3DDevice9) : Direct3DDevice9 :=
  {| _current_pass := _current_pass dev;
     current_pass := {| rtv := rtv (current_pass dev); dsv := p |};
     events := events dev |}.

Section Hooks.
(** [IDirect3DSurface9::GetDesc]: width and height of a surface, two
    [UINT]s. *)
Variable GetDesc : Z -> Z * Z.

(** [Direct3DDevice9::SetRenderTarget]; [hr] is what
    [_orig->SetRenderTarget] returned. *)
Definition SetRenderTarget (hr : Z) (RenderTargetIndex : Z) (pRenderTarget : Z)
    (dev : Direct3DDevice9) : option (Direct3DDevice9 * Z) :=
  if SUCCEEDED hr then
    prev ← vector_get (rtv (current_pass dev)) RenderTargetIndex;
    let dev1 :=
      if bool_decide (prev ≠ 0) then
        if bool_decide (RenderTargetIndex = 0) then raise [finish_render_pass] dev
        else dev
      else dev in
    dev2 ← set_rtv RenderTargetIndex pRenderTarget dev1;
    let dev3 :=
      if bool_decide (pRenderTarget ≠ 0) then
        let dev2' :=
          if bool_decide (RenderTargetIndex = 0)
          then raise [begin_render_pass (_current_pass dev2)] dev2
          else dev2 in
        let desc := GetDesc pRenderTarget in
        raise [bind_viewports 0 1 (static_cast_float (fst desc))
                 (static_cast_float (snd desc))] dev2'
      else dev2 in
    Some (dev3, hr)
  else Some (dev, hr).

(** [Direct3DDevice9::SetDepthStencilSurface]; [hr] is what
    [_orig->SetDepthStencilSurface] returned. *)
Definition SetDepthStencilSurface (hr : Z) (pNewZStencil : Z)
    (dev : Direct3DDevice9) : Direct3DDevice9 * Z :=
  if SUCCEEDED hr && bool_decide (pNewZStencil ≠ dsv (current_pass dev)) then
    let dev1 := raise [finish_render_pass] dev in
    let dev2 := set_dsv pNewZStencil dev1 in
    (raise [begin_render_pass (_current_pass dev2)] dev2, hr)
  else (dev, hr).
End Hooks.

(** The events a call added to the log. *)
Definition emitted (before after : Direct3DDevice9) : list addon_event :=
  drop (length (events before)) (events after).

End D3D9.

(** ** OpenGL backend *)

Module OpenGL.

(** Enumerants of the OpenGL registry used by the embedded code. *)
Definition GL_NONE : Z := 0.
Definition GL_BACK : Z := 0x0405.
Definition GL_TEXTURE : Z := 0x1702.
Definition GL_TEXTURE_1D : Z := 0x0DE0.
Definition GL_TEXTURE_2D : Z := 0x0DE1.
Definition GL_TEXTURE_3D : Z := 0x806F.
Definition GL_TEXTURE_RECTANGLE : Z := 0x84F5.
Definition GL_TEXTURE_CUBE_MAP : Z := 0x8513.
Definition GL_TEXTURE_1D_ARRAY : Z := 0x8C18.
Definition GL_TEXTURE_2D_ARRAY : Z := 0x8C1A.
Definition GL_TEXTURE_BUFFER : Z := 0x8C2A.
Definition GL_TEXTURE_CUBE_MAP_ARRAY : Z := 0x9009.
Definition GL_TEXTURE_2D_MULTISAMPLE : Z := 0x9100.
Definition GL_TEXTURE_2D_MULTISAMPLE_ARRAY : Z := 0x9102.
Definition GL_TEXTURE_TARGET : Z := 0x1006.
Definition GL_TEXTURE_INTERNAL_FORMAT : Z := 0x1003.
Definition GL_RENDERBUFFER : Z := 0x8D41.
Definition GL_FRAMEBUFFER : Z := 0x8D40.
Definition GL_FRAMEBUFFER_DEFAULT : Z := 0x8218.
Definition GL_FRAMEBUFFER_COMPLETE : Z := 0x8CD5.
Definition GL_FRAMEBUFFER_ATTACHMENT_OBJECT_TYPE : Z := 0x8CD0.
Definition GL_FRAMEBUFFER_ATTACHMENT_OBJECT_NAME : Z := 0x8CD1.
Definition GL_COLOR_ATTACHMENT0 : Z := 0x8CE0.
Definition GL_DEPTH_ATTACHMENT : Z := 0x8D00.
Definition GL_STENCIL_ATTACHMENT : Z := 0x8D20.
Definition GL_DEPTH_STENCIL_ATTACHMENT : Z := 0x821A.
Definition GL_TIMESTAMP : Z := 0x8E28.

(** [api::attachment_type], a bit mask (the values are fixed by the
    [static_assert] in [Direct3DDevice9::Clear]). *)
Definition attachment_type_color : Z := 1.
Definition attachment_type_depth : Z := 2.
Definition attachment_type_stencil : Z := 4.

(** Modelled from the spec: [api::descriptor_type], declared in
    reshade_api.hpp, which is not among the sources; the enumerators are
    the five the code switches over. *)
Inductive descriptor_type : Type :=
| sampler
| sampler_with_resource_view
| shader_resource_view
| unordered_access_view
| constant_buffer.

Global Instance descriptor_type_eq_dec : EqDecision descriptor_type.
Proof. solve_decision. Defined.

(** Modelled from the spec: [api::query_type] of reshade_api.hpp
    ("GPU timestamp/occlusion queries"); the code names [timestamp] and
    [pipeline_statistics]. *)
Inductive query_type : Type :=
| occlusion
| binary_occlusion
| timestamp
| pipeline_statistics.

Global Instance query_type_eq_dec : EqDecision query_type.
Proof. solve_decision. Defined.

(** Modelled from the spec: [api::resource_view_type] of
    reshade_api.hpp; the enumerators are those [create_resource_view]
    switches over, and [unknown]. *)
Inductive resource_view_type : Type :=
| view_unknown
| view_buffer
| view_texture_1d
| view_texture_1d_array
| view_texture_2d
| view_texture_2d_array
| view_texture_2d_multisample
| view_texture_2d_multisample_array
| view_texture_3d
| view_texture_cube
| view_texture_cube_array.

(** Modelled from the spec: the structures of reshade_api.hpp that
    describe layouts, writes, copies, render passes and views ("ordered
    list of ranges (type, count, visibility)"), each by the members the
    embedded functions read. *)
Record descriptor_range : Type := {
  range_binding : Z;
  range_type : descriptor_type;
  range_count : Z
}.

Record descriptor_set_layout_desc : Type := {
  num_ranges : Z;
  ranges : list descriptor_range
}.

(** Modelled from the spec: the shadow objects of the OpenGL backend's
    reshade_api_device.hpp, which is not among the sources: "a set is a
    heap-allocated flat array of handles sized by the layout's range". *)
Record descriptor_set_layout_impl : Type := {
  range : descriptor_range
}.

Record descriptor_set_impl : Type := {
  set_type : descriptor_type;
  descriptors : list Z          (* std::vector<uint64_t> *)
}.

Record query_pool_impl : Type := {
  queries : list Z              (* std::vector<GLuint> *)
}.

(** [api::descriptor_set_write] with the fields of its
    [descriptor] member flattened. *)
Record descriptor_set_write : Type := {
  write_set : Z;
  write_binding : Z;
  write_type : descriptor_type;
  write_sampler : Z;
  write_view : Z;
  write_resource : Z
}.

Record descriptor_set_copy : Type := {
  src_set : Z;
  src_binding : Z;
  dst_set : Z;
  dst_binding : Z;
  copy_count : Z;
  copy_type : descriptor_type
}.

Record render_pass_desc : Type := {
  render_targets : list Z;      (* api::resource_view render_targets[8] *)
  depth_stencil : Z
}.

Record resource_view_desc : Type := {
  view_type : resource_view_type;
  view_format : Z;
  first_level : Z;
  view_levels : Z;
  first_layer : Z;
  view_layers : Z;
  buffer_offset : Z;
  buffer_size : Z
}.

(** The OpenGL commands issued by the embedded functions. *)
Inductive gl_call : Type :=
| glGenQueries (n : Z)
| glQueryCounter (id target : Z)
| glBeginQuery (target id : Z)
| glEndQuery (target : Z)
| glGenFramebuffers (name : Z)
| glBindFramebuffer (target fbo : Z)
| glFramebufferTexture (target attachment texture level : Z)
| glFramebufferRenderbuffer (target attachment rbtarget rb : Z)
| glCheckFramebufferStatus (target : Z)
| glDeleteFramebuffers (name : Z)
| glGenTextures (name : Z)
| glTextureView (object target orig format minlevel numlevels minlayer numlayers : Z)
| glBindTexture (target object : Z)
| glTexBuffer (target format buffer : Z)
| glTexBufferRange (target format buffer offset size : Z).

(** The device: the objects allocated with [new], the framebuffer
    names that are alive in the context, and the commands issued. *)
Record device_impl : Type := {
  layouts : gmap Z descriptor_set_layout_impl;
  sets : gmap Z descriptor_set_impl;
  pools : gmap Z query_pool_impl;
  framebuffers : gset Z;
  _default_depth_format : Z;
  gl_log : list gl_call
}.

Definition with_layouts (f : gmap Z descriptor_set_layout_impl -> gmap Z descriptor_set_layout_impl)
    (d : device_impl) : device_impl :=
  {| layouts := f (layouts d); sets := sets d; pools := pools d;
     framebuffers := framebuffers d;
     _default_depth_format := _default_depth_format d; gl_log := gl_log d |}.

Definition with_sets (f : gmap Z descriptor_set_impl -> gmap Z descriptor_set_impl)
    (d : device_impl) : device_impl :=
  {| layouts := layouts d; sets := f (sets d); pools := pools d;
     framebuffers := framebuffers d;
     _default_depth_format := _default_depth_format d; gl_log := gl_log d |}.

Definition with_pools (f : gmap Z query_pool_impl -> gmap Z query_pool_impl)
    (d : device_impl) : device_impl :=
  {| layouts := layouts d; sets := sets d; pools := f (pools d);
     framebuffers := framebuffers d;
     _default_depth_format := _default_depth_format d; gl_log := gl_log d |}.

Definition with_framebuffers (f : gset Z -> gset Z) (d : device_impl) : device_impl :=
  {| layouts := layouts d; sets := sets d; pools := pools d;
     framebuffers := f (framebuffers d);
     _default_depth_format := _default_depth_format d; gl_log := gl_log d |}.

(** Issue commands. *)
Definition gl (cs : list gl_call) (d : device_impl) : device_impl :=
  {| layouts := layouts d; sets := sets d; pools := pools d;
     framebuffers := framebuffers d;
     _default_depth_format := _default_depth_format d; gl_log := gl_log d ++ cs |}.

(** *** Descriptor sets *)

(** [device_impl::create_descriptor_set_layout]; [p] is the address
    [new] returns. *)
Definition create_descriptor_set_layout (p : Z) (desc : descriptor_set_layout_desc)
    (d : device_impl) : option (device_impl * Z * bool) :=
  if bool_decide (num_ranges desc ≠ 1) then Some (d, 0, false)
  else
    r ← vector_get (ranges desc) 0;
    Some (with_layouts (insert p {| range := r |}) d, p, true).

(** The number of 64-bit slots of a set of [count] descriptors. *)
Definition slots_of (ty : descriptor_type) (count : Z) : Z :=
  uint32 (count * (if decide (ty = sampler_with_resource_view) then 2 else 1)).

(** [device_impl::create_descriptor_sets]; [operator_new i] is the
    address the [i]-th [new] returns.  The result carries [out]. *)
Definition create_descriptor_sets (operator_new : Z -> Z) (layout : Z) (count : Z)
    (d : device_impl) : option (device_impl * list Z * bool) :=
  layout_impl ← layouts d !! layout;
  '(d', out) ← for_range (Z.to_nat count) 0
    (fun i '(d, out) =>
       let set := {| set_type := range_type (range layout_impl);
                     descriptors :=
                       replicate (Z.to_nat (slots_of (range_type (range layout_impl))
                                                     (range_count (range layout_impl)))) 0 |} in
       Some (with_sets (insert (operator_new i) set) d, out ++ [operator_new i]))
    (d, []);
  Some (d', out, true).

(** [set_impl->descriptors[i] = v] through the pointer [set]. *)
Definition store_descriptor (set : Z) (i : Z) (v : Z) (d : device_impl) : option device_impl :=
  set_impl ← sets d !! set;
  ds ← vector_set (descriptors set_impl) i v;
  Some (with_sets (insert set {| set_type := set_type set_impl; descriptors := ds |}) d).

(** [set_impl->descriptors[i]] through the pointer [set]. *)
Definition load_descriptor (set : Z) (i : Z) (d : device_impl) : option Z :=
  set_impl ← sets d !! set;
  vector_get (descriptors set_impl) i.

(** One iteration of the loop over [writes]. *)
Definition apply_write (info : descriptor_set_write) (d : device_impl) : option device_impl :=
  match write_type info with
  | sampler =>
      store_descriptor (write_set info) (write_binding info) (write_sampler info) d
  | sampler_with_resource_view =>
      d1 ← store_descriptor (write_set info) (uint32 (uint32 (write_binding info * 2) + 0))
             (write_sampler info) d;
      store_descriptor (write_set info) (uint32 (uint32 (write_binding info * 2) + 1))
        (write_view info) d1
  | shader_resource_view | unordered_access_view =>
      store_descriptor (write_set info) (write_binding info) (write_view info) d
  | constant_buffer =>
      store_descriptor (write_set info) (write_binding info) (write_resource info) d
  end.

(** One iteration of the loop over [copies]. *)
Definition apply_copy (info : descriptor_set_copy) (d : device_impl) : option device_impl :=
  match copy_type info with
  | sampler | shader_resource_view | unordered_access_view | constant_buffer =>
      for_range (Z.to_nat (copy_count info)) 0
        (fun k d =>
           v ← load_descriptor (src_set info) (uint32 (src_binding info + k)) d;
           store_descriptor (dst_set info) (uint32 (dst_binding info + k)) v d)
        d
  | sampler_with_resource_view =>
      for_range (Z.to_nat (copy_count info)) 0
        (fun k d =>
           let src_binding := uint32 (uint32 (src_binding info + k) * 2) in
           let dst_binding := uint32 (uint32 (dst_binding info + k) * 2) in
           v0 ← load_descriptor (src_set info) (uint32 (src_binding + 0)) d;
           d1 ← store_descriptor (dst_set info) (uint32 (dst_binding + 0)) v0 d;
           v1 ← load_descriptor (src_set info) (uint32 (src_binding + 1)) d1;
           store_descriptor (dst_set info) (uint32 (dst_binding + 1)) v1 d1)
        d
  end.

Fixpoint foldM {A S : Type} (f : A -> S -> option S) (l : list A) (s : S) : option S :=
  match l with
  | [] => Some s
  | x :: l' => match f x s with Some s' => foldM f l' s' | None => None end
  end.

(** [device_impl::update_descriptor_sets]; [num_writes] and
    [num_copies] are the lengths of the two lists. *)
Definition update_descriptor_sets (writes : list descriptor_set_write)
    (copies : list descriptor_set_copy) (d : device_impl) : option device_impl :=
  d1 ← foldM apply_write writes d;
  foldM apply_copy copies d1.

(** What binding [i] of a set holds: one slot, or the sampler and the
    view slot of a combined descriptor. *)
Definition read_binding (s : descriptor_set_impl) (i : Z) : option (Z * option Z) :=
  match set_type s with
  | sampler_with_resource_view =>
      v0 ← vector_get (descriptors s) (i * 2);
      v1 ← vector_get (descriptors s) (i * 2 + 1);
      Some (v0, Some v1)
  | _ => v ← vector_get (descriptors s) i; Some (v, None)
  end.

(** *** Query pools *)

Section QueryPool.
(** [convert_query_type] of reshade_api_type_convert.hpp, which is not
    part of the embedded sources: the query target of a query type. *)
Variable convert_query_type : query_type -> Z.

(** The body of the loop that creates the query objects. *)
Definition init_query (type : query_type) (result : query_pool_impl) (i : Z)
    (d : device_impl) : option device_impl :=
  q ← vector_get (queries result) i;
  if decide (type = timestamp) then
    Some (gl [glQueryCounter q GL_TIMESTAMP] d)
  else
    let target := convert_query_type type in
    Some (gl [glBeginQuery target q; glEndQuery target] d).

(** [device_impl::create_query_pool]; [p] is the address [new] returns
    and [names i] the [i]-th name [glGenQueries] generates. *)
Definition create_query_pool (p : Z) (names : nat -> Z) (type : query_type) (size : Z)
    (d : device_impl) : option (device_impl * Z * bool) :=
  if decide (type = pipeline_statistics) then Some (d, 0, false)
  else
    let result := {| queries := map names (seq 0 (Z.to_nat size)) |} in
    let d1 := gl [glGenQueries size] d in
    d2 ← for_range (Z.to_nat size) 0 (init_query type result) d1;
    Some (with_pools (insert p result) d2, p, true).
End QueryPool.

(** *** Render passes *)

Section RenderPass.
(** The handle constructors of reshade_api_device.hpp, which is not part
    of the embedded sources.  [make_render_pass_handle fbo count flags]
    and [make_resource_view_handle target object extra_bits] are taken as
    they are; [default_render_pass_handle] is [make_render_pass_handle(0)]
    with the header's default arguments. *)
Variable make_render_pass_handle : Z -> Z -> Z -> Z.
Variable default_render_pass_handle : Z.
Variable make_resource_view_handle : Z -> Z -> Z -> Z.

(** The cases of the two [switch]es that attach a texture. *)
Definition is_texture_target (t : Z) : bool :=
  bool_decide (t = GL_TEXTURE) || bool_decide (t = GL_TEXTURE_BUFFER)
  || bool_decide (t = GL_TEXTURE_1D) || bool_decide (t = GL_TEXTURE_1D_ARRAY)
  || bool_decide (t = GL_TEXTURE_2D) || bool_decide (t = GL_TEXTURE_2D_ARRAY)
  || bool_decide (t = GL_TEXTURE_2D_MULTISAMPLE)
  || bool_decide (t = GL_TEXTURE_2D_MULTISAMPLE_ARRAY)
  || bool_decide (t = GL_TEXTURE_RECTANGLE).

(** The command that attaches the view [h] at [attachment], if its
    target is one the [switch] knows. *)
Definition attach (attachment : Z) (h : Z) : option gl_call :=
  let target := Z.shiftr h 40 in
  if is_texture_target target then
    Some (glFramebufferTexture GL_FRAMEBUFFER attachment (Z.land h 0xFFFFFFFF) 0)
  else if bool_decide (target = GL_RENDERBUFFER) then
    Some (glFramebufferRenderbuffer GL_FRAMEBUFFER attachment GL_RENDERBUFFER (Z.land h 0xFFFFFFFF))
  else None.

(** The outcome of the loop over the color attachments: it ran to its
    end, or hit the [default:] case. *)
Inductive attach_result : Type :=
| attached (calls : list gl_call) (num_color_attachments : Z) (has_srgb_attachment : bool)
| bad_attachment (calls : list gl_call).

(** [for (GLuint i = 0; i < 8 && desc.render_targets[i].handle != 0; ++i, ++num_color_attachments)];
    [fuel] is [8 - i]. *)
Fixpoint attach_colors (fuel : nat) (i : Z) (rts : list Z) (calls : list gl_call)
    (has_srgb_attachment : bool) : option attach_result :=
  match fuel with
  | O => Some (attached calls i has_srgb_attachment)
  | S fuel' =>
      h ← vector_get rts i;
      if bool_decide (h = 0) then Some (attached calls i has_srgb_attachment)
      else
        match attach (uint32 (GL_COLOR_ATTACHMENT0 + i)) h with
        | Some c =>
            attach_colors fuel' (i + 1) rts (calls ++ [c])
              (has_srgb_attachment || bool_decide (Z.land h 0x200000000 ≠ 0))
        | None => Some (bad_attachment calls)
        end
  end.

(** The failure exit shared by the [default:] cases and the
    completeness check: restore or keep the binding, delete the
    framebuffer object, write the zero handle. *)
Definition delete_fbo (fbo_object : Z) (d : device_impl) : device_impl :=
  with_framebuffers (fun s => s ∖ {[fbo_object]}) (gl [glDeleteFramebuffers fbo_object] d).

(** [device_impl::create_render_pass]; [prev_fbo] is the binding
    [glGetIntegerv] reports, [fbo_object] the name [glGenFramebuffers]
    generates and [status] what [glCheckFramebufferStatus] answers. *)
Definition create_render_pass (prev_fbo fbo_object status : Z) (desc : render_pass_desc)
    (d : device_impl) : option (device_impl * Z * bool) :=
  rt0 ← vector_get (render_targets desc) 0;
  if bool_decide (Z.shiftr rt0 40 = GL_FRAMEBUFFER_DEFAULT)
     && (bool_decide (depth_stencil desc = 0)
         || bool_decide (Z.shiftr (depth_stencil desc) 40 = GL_FRAMEBUFFER_DEFAULT))
  then Some (d, default_render_pass_handle, true)
  else
    let d1 := with_framebuffers (fun s => {[fbo_object]} ∪ s)
                (gl [glGenFramebuffers fbo_object; glBindFramebuffer GL_FRAMEBUFFER fbo_object] d) in
    r ← attach_colors 8 0 (render_targets desc) [] false;
    match r with
    | bad_attachment calls =>
        Some (delete_fbo fbo_object (gl (calls ++ [glBindFramebuffer GL_FRAMEBUFFER prev_fbo]) d1),
              0, false)
    | attached calls num_color_attachments has_srgb_attachment =>
        let d2 := gl calls d1 in
        let depth :=
          if bool_decide (depth_stencil desc ≠ 0)
          then Some (attach GL_DEPTH_STENCIL_ATTACHMENT (depth_stencil desc))
          else None in
        match depth with
        | Some None =>
            Some (delete_fbo fbo_object (gl [glBindFramebuffer GL_FRAMEBUFFER prev_fbo] d2),
                  0, false)
        | _ =>
            let d3 := match depth with Some (Some c) => gl [c] d2 | _ => d2 end in
            let d4 := gl [glCheckFramebufferStatus GL_FRAMEBUFFER;
                          glBindFramebuffer GL_FRAMEBUFFER prev_fbo] d3 in
            if bool_decide (status = GL_FRAMEBUFFER_COMPLETE) then
              Some (d4, make_render_pass_handle fbo_object num_color_attachments
                          (if has_srgb_attachment then 0x2 else 0), true)
            else Some (delete_fbo fbo_object d4, 0, false)
        end
    end.

(** [device_impl::get_attachment_count]. *)
Definition get_attachment_count (pass : Z) (type : Z) : Z :=
  if bool_decide (type = attachment_type_color) then uint32 (Z.shiftr pass 40) else 1.

(** [get_fbo_attachment_param] and [get_tex_param]: what the context
    answers to the two queries. *)
Variable get_fbo_attachment_param : Z -> Z -> Z -> Z.
Variable get_tex_param : Z -> Z -> Z -> Z.

(** The [switch] of [get_attachment] that picks the attachment point;
    [None] is an exit with the zero view. *)
Definition attachment_point (pass : Z) (type : Z) (index : Z) : option Z :=
  if bool_decide (type = attachment_type_color) then
    if bool_decide (Z.shiftr pass 40 <= index) then None
    else Some (uint32 (GL_COLOR_ATTACHMENT0 + index))
  else if bool_decide (type = attachment_type_depth) then Some GL_DEPTH_ATTACHMENT
  else if bool_decide (type = attachment_type_stencil) then Some GL_STENCIL_ATTACHMENT
  else if bool_decide (type = Z.lor attachment_type_depth attachment_type_stencil)
  then Some GL_DEPTH_STENCIL_ATTACHMENT
  else None.

(** [device_impl::get_attachment]: the view written to [out] and the
    result. *)
Definition get_attachment (d : device_impl) (pass : Z) (type : Z) (index : Z) : Z * bool :=
  let fbo_object := Z.land pass 0xFFFFFFFF in
  if bool_decide (fbo_object = 0) then
    if bool_decide (type = attachment_type_color) then
      (make_resource_view_handle GL_FRAMEBUFFER_DEFAULT GL_BACK 0, true)
    else if bool_decide (_default_depth_format d ≠ GL_NONE) then
      (make_resource_view_handle GL_FRAMEBUFFER_DEFAULT GL_DEPTH_STENCIL_ATTACHMENT 0, true)
    else (make_resource_view_handle 0 0 0, false)
  else
    match attachment_point pass type index with
    | None => (make_resource_view_handle 0 0 0, false)
    | Some attachment =>
        let target :=
          get_fbo_attachment_param fbo_object attachment GL_FRAMEBUFFER_ATTACHMENT_OBJECT_TYPE in
        if bool_decide (target ≠ GL_NONE) then
          let object :=
            get_fbo_attachment_param fbo_object attachment GL_FRAMEBUFFER_ATTACHMENT_OBJECT_NAME in
          let target :=
            if bool_decide (target = GL_TEXTURE)
            then get_tex_param target object GL_TEXTURE_TARGET else target in
          (make_resource_view_handle target object 0, true)
        else (make_resource_view_handle 0 0 0, false)
    end.
End RenderPass.

(** *** Resource views *)

Section ResourceView.
(** From headers that are not part of the embedded sources: the format
    conversion of reshade_api_type_convert.hpp, [api::format_to_default_typed]
    and the handle constructor; [get_tex_level_param] is what the context
    answers. *)
Variable convert_format : Z -> Z.
Variable format_to_default_typed : Z -> Z -> Z.
Variable make_resource_view_handle : Z -> Z -> Z -> Z.
Variable get_tex_level_param : Z -> Z -> Z -> Z -> Z.

(** The [switch] over [desc.type]; [None] is its [default:] case. *)
Definition view_target (t : resource_view_type) : option Z :=
  match t with
  | view_buffer => Some GL_TEXTURE_BUFFER
  | view_texture_1d => Some GL_TEXTURE_1D
  | view_texture_1d_array => Some GL_TEXTURE_1D_ARRAY
  | view_texture_2d => Some GL_TEXTURE_2D
  | view_texture_2d_array => Some GL_TEXTURE_2D_ARRAY
  | view_texture_2d_multisample => Some GL_TEXTURE_2D_MULTISAMPLE
  | view_texture_2d_multisample_array => Some GL_TEXTURE_2D_MULTISAMPLE_ARRAY
  | view_texture_3d => Some GL_TEXTURE_3D
  | view_texture_cube => Some GL_TEXTURE_CUBE_MAP
  | view_texture_cube_array => Some GL_TEXTURE_CUBE_MAP_ARRAY
  | view_unknown => None
  end.

(** [device_impl::create_resource_view].  [out] is what [*out] holds
    when the function is entered and the second component of the result
    what it holds on return; [is_event_handle] says whether
    [out == _current_event_handle]; [gen_name] is the name
    [glGenTextures] generates and [prev_object] the binding
    [glGetIntegerv] reports. *)
Definition create_resource_view (is_event_handle : bool) (gen_name prev_object : Z)
    (resource : Z) (desc : resource_view_desc) (out : Z) (d : device_impl)
    : device_impl * Z * bool :=
  let is_srgb_format :=
    bool_decide (view_format desc ≠ format_to_default_typed (view_format desc) 0)
    && bool_decide (view_format desc = format_to_default_typed (view_format desc) 1) in
  let resource_target := uint32 (Z.shiftr resource 40) in
  if bool_decide (resource_target = GL_RENDERBUFFER)
     || bool_decide (resource_target = GL_FRAMEBUFFER_DEFAULT)
  then (d, make_resource_view_handle resource_target (Z.land resource 0xFFFFFFFF)
             (Z.lor 0x1 (if is_srgb_format then 0x2 else 0)), true)
  else
    match view_target (view_type desc) with
    | None => (d, out, false)
    | Some target =>
        let internal_format := convert_format (view_format desc) in
        if bool_decide (internal_format = GL_NONE) then (d, out, false)
        else if bool_decide (target = resource_target)
                && bool_decide (first_level desc = 0) && bool_decide (first_layer desc = 0)
                && bool_decide (get_tex_level_param target (Z.land resource 0xFFFFFFFF) 0
                                  GL_TEXTURE_INTERNAL_FORMAT = internal_format)
        then (d, make_resource_view_handle target (Z.land resource 0xFFFFFFFF)
                   (Z.lor 0x1 (if is_srgb_format then 0x2 else 0)), true)
        else
          let object := if is_event_handle then Z.land out 0xFFFFFFFF else gen_name in
          let d1 := if is_event_handle then d else gl [glGenTextures gen_name] d in
          let d2 :=
            if bool_decide (target ≠ GL_TEXTURE_BUFFER) then
              gl [glTextureView object target (Z.land resource 0xFFFFFFFF) internal_format
                    (first_level desc) (view_levels desc) (first_layer desc) (view_layers desc)] d1
            else
              gl [glBindTexture target object;
                  if bool_decide (buffer_offset desc = 0)
                     && bool_decide (buffer_size desc = 2 ^ 64 - 1)
                  then glTexBuffer target internal_format (Z.land resource 0xFFFFFFFF)
                  else glTexBufferRange target internal_format (Z.land resource 0xFFFFFFFF)
                         (int64 (buffer_offset desc)) (int64 (buffer_size desc));
                  glBindTexture target prev_object] d1 in
          (d2, make_resource_view_handle target object (if is_srgb_format then 0x2 else 0), true)
    end.
End ResourceView.

End OpenGL.

(** ** Vulkan backend *)

Module Vulkan.

(** Enumerants of the Vulkan and VMA headers used by the embedded code. *)
Definition VK_SUCCESS : Z := 0.
Definition VK_ERROR_OUT_OF_DEVICE_MEMORY : Z := -2.
Definition VK_ERROR_MEMORY_MAP_FAILED : Z := -5.
Definition VK_NULL_HANDLE : Z := 0.
Definition VK_IMAGE_USAGE_TRANSFER_DST_BIT : Z := 0x2.
Definition VK_BUFFER_USAGE_TRANSFER_SRC_BIT : Z := 0x1.
Definition VK_IMAGE_ASPECT_COLOR_BIT : Z := 0x1.
Definition VK_IMAGE_ASPECT_DEPTH_BIT : Z := 0x2.
Definition VK_IMAGE_ASPECT_STENCIL_BIT : Z := 0x4.
Definition VK_IMAGE_LAYOUT_COLOR_ATTACHMENT_OPTIMAL : Z := 2.
Definition VK_IMAGE_LAYOUT_DEPTH_STENCIL_ATTACHMENT_OPTIMAL : Z := 3.
Definition VK_FORMAT_D16_UNORM : Z := 124.
Definition VK_FORMAT_D32_SFLOAT : Z := 126.
Definition VK_FORMAT_S8_UINT : Z := 127.
Definition VK_FORMAT_D16_UNORM_S8_UINT : Z := 128.
Definition VK_FORMAT_D32_SFLOAT_S8_UINT : Z := 130.
Definition VK_MEMORY_PROPERTY_HOST_COHERENT_BIT : Z := 0x4.
Definition VMA_MEMORY_USAGE_GPU_ONLY : Z := 1.
Definition VMA_MEMORY_USAGE_CPU_ONLY : Z := 2.
Definition VMA_MEMORY_USAGE_CPU_TO_GPU : Z := 3.
Definition VMA_MEMORY_USAGE_GPU_TO_CPU : Z := 4.
Definition UINT32_MAX : Z := 2 ^ 32 - 1.

(** Modelled from the spec: two values of the bit mask
    [api::resource_usage] of reshade_api.hpp; they only label barriers. *)
Definition resource_usage_undefined : Z := 0.
Definition resource_usage_copy_dest : Z := 0x400.

(** Modelled from the spec: [api::memory_heap], [api::resource_type]
    and [api::query_type] of reshade_api.hpp ("memory heap class"); the
    enumerators of the first two are those [create_resource] switches
    over. *)
Inductive memory_heap : Type :=
| heap_unknown
| gpu_only
| cpu_to_gpu
| gpu_to_cpu
| cpu_only.

Global Instance memory_heap_eq_dec : EqDecision memory_heap.
Proof. solve_decision. Defined.

Inductive resource_type : Type :=
| type_unknown
| type_buffer
| type_texture_1d
| type_texture_2d
| type_texture_3d
| type_surface.

Inductive query_type : Type :=
| occlusion
| binary_occlusion
| timestamp
| pipeline_statistics.

Record VkBufferCreateInfo : Type := {
  buffer_size : Z;
  buffer_usage : Z
}.

Record VkImageCreateInfo : Type := {
  image_format : Z;
  extent_width : Z;
  extent_height : Z;
  extent_depth : Z;
  mipLevels : Z;
  arrayLayers : Z;
  samples : Z;
  image_usage : Z
}.

Record VmaAllocationCreateInfo : Type := {
  vma_usage : Z;
  requiredFlags : Z
}.

(** The second anonymous union of [resource_data]; which member is
    active is what [type] tells. *)
Inductive resource_create_info : Type :=
| image_create_info (info : VkImageCreateInfo)
| buffer_create_info (info : VkBufferCreateInfo).

Record resource_data : Type := {
  object : Z;                       (* union { VkImage image; VkBuffer buffer; } *)
  create_info : resource_create_info;
  allocation : Z;
  owned : bool
}.

Definition is_image (data : resource_data) : bool :=
  match create_info data with image_create_info _ => true | buffer_create_info _ => false end.

(** [resource_view_data]: the view, whether it is an image view, and the
    image or buffer its create info names (both create-info structures
    keep that handle in the same place). *)
Record resource_view_data : Type := {
  view : Z;
  is_image_view : bool;
  view_resource : Z;
  view_owned : bool
}.

Record attachment : Type := {
  initial_layout : Z;
  clear_flags : Z;
  format_flags : Z
}.

Record render_pass_data : Type := {
  attachments : list attachment
}.

Record framebuffer_data : Type := {
  fbo_attachments : list Z;         (* std::vector<api::resource_view> attachments *)
  attachment_types : list Z
}.

(** Modelled from the spec: [render_pass_impl], whose declaration is
    not among the sources ("paired render-pass + framebuffer objects"),
    by the members the embedded code uses. *)
Record render_pass_impl : Type := {
  fbo : Z;
  render_pass : Z;
  render_area_width : Z;
  render_area_height : Z
}.

(** Modelled from the spec: [command_queue_impl] of
    reshade_api_command_queue.hpp, which is not among the sources: a
    queue and its immediate command list ([None]: a null pointer). *)
Record command_queue_impl : Type := {
  queue : Z;
  immediate_command_list : option Z
}.

(** Modelled from the spec: [api::resource_desc],
    [api::subresource_data] and [api::render_pass_desc] of
    reshade_api.hpp, each by the members the embedded functions read. *)
Record resource_desc : Type := {
  desc_type : resource_type;
  desc_heap : memory_heap;
  desc_usage : Z;
  texture_depth_or_layers : Z;
  texture_levels : Z
}.

Record subresource_data : Type := {
  data : Z;
  row_pitch : Z;
  slice_pitch : Z
}.

Record render_pass_desc : Type := {
  render_targets : list Z;          (* api::resource_view render_targets[8] *)
  render_targets_format : list Z;   (* api::format render_targets_format[8] *)
  depth_stencil : Z;
  depth_stencil_format : Z
}.

(** What the device does that the outside can see: calls into the
    driver, the allocator and the immediate command list (with what
    they answered), log lines, and the updates of the resource registry.
    The command-list and queue functions ([barrier],
    [copy_buffer_to_texture], [flush_and_wait],
    [flush_immediate_command_list]) are defined in files that are not
    among the sources; they record and submit commands ("batches
    recorded commands and flushes them synchronously to the backend's
    queue") and appear here as events only. *)
Inductive event : Type :=
| ev_vkCreateBuffer (info : VkBufferCreateInfo) (result object : Z)
| ev_vmaCreateBuffer (info : VkBufferCreateInfo) (alloc : VmaAllocationCreateInfo)
    (result object allocation : Z)
| ev_vkCreateImage (info : VkImageCreateInfo) (result object : Z)
| ev_vmaCreateImage (info : VkImageCreateInfo) (alloc : VmaAllocationCreateInfo)
    (result object allocation : Z)
| ev_vkDestroyImage (image : Z)
| ev_vkDestroyBuffer (buffer : Z)
| ev_vmaDestroyImage (image allocation : Z)
| ev_vmaDestroyBuffer (buffer allocation : Z)
| ev_vmaMapMemory (allocation result : Z)
| ev_vmaUnmapMemory (allocation : Z)
| ev_memcpy (source size : Z)
| ev_LOG_ERROR
| ev_barrier (cmd_list resource old_state new_state : Z)
| ev_copy_buffer_to_texture (cmd_list source dest dest_subresource : Z)
| ev_flush_and_wait (cmd_list queue : Z)
| ev_flush_immediate_command_list (queue : Z)
| ev_vkCreateQueryPool (type : query_type) (count result pool : Z)
| ev_vkCmdResetQueryPool (cmd_list pool first count : Z)
| ev_vkCreateRenderPass (formats : list Z) (color_count : Z) (result pass : Z)
| ev_vkCreateFramebuffer (pass : Z) (views : list Z) (width height layers result framebuffer : Z)
| ev_vkDestroyRenderPass (pass : Z)
| ev_vkDestroyFramebuffer (framebuffer : Z)
| ev_register_resource (handle : Z)
| ev_unregister_resource (handle : Z).

(** What the driver, the allocator and [operator new] answer; each
    answer may depend on everything that happened before. *)
Record driver : Type := {
  vkCreateBuffer : list event -> VkBufferCreateInfo -> Z * Z;
  vmaCreateBuffer : list event -> VkBufferCreateInfo -> VmaAllocationCreateInfo -> Z * Z * Z;
  vkCreateImage : list event -> VkImageCreateInfo -> Z * Z;
  vmaCreateImage : list event -> VkImageCreateInfo -> VmaAllocationCreateInfo -> Z * Z * Z;
  vmaMapMemory : list event -> Z -> Z * option Z;
  vkCreateQueryPool : list event -> query_type -> Z -> Z * Z;
  vkCreateRenderPass : list event -> list Z -> Z -> Z * Z;
  vkCreateFramebuffer : list event -> Z -> list Z -> Z * Z;
  operator_new : list event -> Z
}.

Record device_impl : Type := {
  _resources : gmap Z resource_data;
  _views : gmap Z resource_view_data;
  _render_pass_list : gmap Z render_pass_data;
  _framebuffer_list : gmap Z framebuffer_data;
  _queues : list command_queue_impl;
  render_passes : gmap Z render_pass_impl;   (* objects made by [new render_pass_impl] *)
  log : list event
}.

Definition with_resources (f : gmap Z resource_data -> gmap Z resource_data)
    (d : device_impl) : device_impl :=
  {| _resources := f (_resources d); _views := _views d;
     _render_pass_list := _render_pass_list d; _framebuffer_list := _framebuffer_list d;
     _queues := _queues d; render_passes := render_passes d; log := log d |}.

Definition with_render_pass_list (f : gmap Z render_pass_data -> gmap Z render_pass_data)
    (d : device_impl) : device_impl :=
  {| _resources := _resources d; _views := _views d;
     _render_pass_list := f (_render_pass_list d); _framebuffer_list := _framebuffer_list d;
     _queues := _queues d; render_passes := render_passes d; log := log d |}.

Definition with_framebuffer_list (f : gmap Z framebuffer_data -> gmap Z framebuffer_data)
    (d : device_impl) : device_impl :=
  {| _resources := _resources d; _views := _views d;
     _render_pass_list := _render_pass_list d; _framebuffer_list := f (_framebuffer_list d);
     _queues := _queues d; render_passes := render_passes d; log := log d |}.

Definition with_render_passes (f : gmap Z render_pass_impl -> gmap Z render_pass_impl)
    (d : device_impl) : device_impl :=
  {| _resources := _resources d; _views := _views d;
     _render_pass_list := _render_pass_list d; _framebuffer_list := _framebuffer_list d;
     _queues := _queues d; render_passes := f (render_passes d); log := log d |}.

Definition emit (evs : list event) (d : device_impl) : device_impl :=
  {| _resources := _resources d; _views := _views d;
     _render_pass_list := _render_pass_list d; _framebuffer_list := _framebuffer_list d;
     _queues := _queues d; render_passes := render_passes d; log := log d ++ evs |}.

(** [std::unordered_map::emplace]: an existing entry is kept. *)
Definition emplace {V : Type} (k : Z) (v : V) (m : gmap Z V) : gmap Z V :=
  match m !! k with
  | Some _ => m
  | None => <[k := v]> m
  end.

(** *** The registry (reshade_api_device.hpp) *)

Definition lookup_resource (d : device_impl) (resource : Z) : option resource_data :=
  _resources d !! resource.

Definition lookup_resource_view (d : device_impl) (v : Z) : option resource_view_data :=
  _views d !! v.

Definition register_image (image : Z) (info : VkImageCreateInfo) (allocation : Z)
    (owned : bool) (d : device_impl) : device_impl :=
  emit [ev_register_resource image]
    (with_resources (emplace image {| object := image; create_info := image_create_info info;
                                      allocation := allocation; owned := owned |}) d).

Definition register_buffer (buffer : Z) (info : VkBufferCreateInfo) (allocation : Z)
    (owned : bool) (d : device_impl) : device_impl :=
  emit [ev_register_resource buffer]
    (with_resources (emplace buffer {| object := buffer; create_info := buffer_create_info info;
                                       allocation := allocation; owned := owned |}) d).

(** [device_impl::is_resource_handle_valid]. *)
Definition is_resource_handle_valid (d : device_impl) (handle : Z) : bool :=
  if bool_decide (handle = 0) then false
  else bool_decide (is_Some (_resources d !! handle)).

(** The first queue that has an immediate command list: what the loops
    over [_queues] that end in [break] select. *)
Fixpoint first_immediate (qs : list command_queue_impl) : option (command_queue_impl * Z) :=
  match qs with
  | [] => None
  | q :: qs' =>
      match immediate_command_list q with
      | Some cl => Some (q, cl)
      | None => first_immediate qs'
      end
  end.

(** [aspect_flags_from_format]. *)
Definition aspect_flags_from_format (format : Z) : Z :=
  if bool_decide (VK_FORMAT_D16_UNORM <= format) && bool_decide (format <= VK_FORMAT_D32_SFLOAT)
  then VK_IMAGE_ASPECT_DEPTH_BIT
  else if bool_decide (format = VK_FORMAT_S8_UINT) then VK_IMAGE_ASPECT_STENCIL_BIT
  else if bool_decide (VK_FORMAT_D16_UNORM_S8_UINT <= format)
          && bool_decide (format <= VK_FORMAT_D32_SFLOAT_S8_UINT)
  then Z.lor VK_IMAGE_ASPECT_DEPTH_BIT VK_IMAGE_ASPECT_STENCIL_BIT
  else VK_IMAGE_ASPECT_COLOR_BIT.

Definition add_image_usage (bits : Z) (info : VkImageCreateInfo) : VkImageCreateInfo :=
  {| image_format := image_format info; extent_width := extent_width info;
     extent_height := extent_height info; extent_depth := extent_depth info;
     mipLevels := mipLevels info; arrayLayers := arrayLayers info; samples := samples info;
     image_usage := Z.lor (image_usage info) bits |}.

Section Device.
Variable drv : driver.

(** From reshade_api_type_convert.hpp, which is not part of the embedded
    sources: the two overloads of [convert_resource_desc] used by
    [create_resource], [convert_format] from an [api::format], and the
    bytes per pixel [api::format_bpp (convert_format f)] of a [VkFormat]. *)
Variable convert_resource_desc_buffer : resource_desc -> VkBufferCreateInfo.
Variable convert_resource_desc_image : resource_desc -> VkImageCreateInfo.
Variable convert_format : Z -> Z.
Variable format_bpp : Z -> Z.

(** *** Uploads *)

(** The copies that fill the upload buffer. *)
Definition fill_upload_buffer (sd : subresource_data)
    (width height depth row_size_packed slice_size_packed total_size : Z) : list event :=
  if (bool_decide (row_size_packed = row_pitch sd) || bool_decide (height = 1))
     && (bool_decide (slice_size_packed = slice_pitch sd) || bool_decide (depth = 1))
  then [ev_memcpy (data sd) total_size]
  else
    flat_map (fun z =>
      map (fun y => ev_memcpy (data sd + uint32 (Z.of_nat z * slice_pitch sd)
                                 + uint32 (Z.of_nat y * row_pitch sd))
                      row_size_packed)
          (seq 0 (Z.to_nat height)))
      (seq 0 (Z.to_nat depth)).

(** [device_impl::upload_texture_region]; [dst_box] is [None] for a
    null pointer. *)
Definition upload_texture_region (sd : subresource_data) (dst : Z) (dst_subresource : Z)
    (dst_box : option (list Z)) (d : device_impl) : option device_impl :=
  dst_data ← lookup_resource d dst;
  info ← match create_info dst_data with
         | image_create_info info => Some info
         | buffer_create_info _ => None
         end;
  '(width, height, depth) ←
    match dst_box with
    | None => Some (extent_width info, extent_height info,
                    uint32 (extent_depth info * arrayLayers info))
    | Some box =>
        b0 ← vector_get box 0; b1 ← vector_get box 1; b2 ← vector_get box 2;
        b3 ← vector_get box 3; b4 ← vector_get box 4; b5 ← vector_get box 5;
        Some (uint32 (b3 - b0), uint32 (b4 - b1), uint32 (b5 - b2))
    end;
  let row_size_packed := uint32 (width * format_bpp (image_format info)) in
  let slice_size_packed := uint32 (height * row_size_packed) in
  let total_size := uint32 (depth * slice_size_packed) in
  let buffer_info := {| buffer_size := total_size;
                        buffer_usage := VK_BUFFER_USAGE_TRANSFER_SRC_BIT |} in
  let alloc_info := {| vma_usage := VMA_MEMORY_USAGE_CPU_ONLY; requiredFlags := 0 |} in
  let '(result, intermediate, intermediate_mem) :=
    vmaCreateBuffer drv (log d) buffer_info alloc_info in
  let d1 := emit [ev_vmaCreateBuffer buffer_info alloc_info result intermediate intermediate_mem] d in
  if bool_decide (result ≠ VK_SUCCESS) then Some (emit [ev_LOG_ERROR] d1)
  else
    let map_result := fst (vmaMapMemory drv (log d1) intermediate_mem) in
    let d2 := emit [ev_vmaMapMemory intermediate_mem map_result] d1 in
    let d3 :=
      if bool_decide (map_result = VK_SUCCESS) then
        let d2' := emit (fill_upload_buffer sd width height depth row_size_packed
                           slice_size_packed total_size
                         ++ [ev_vmaUnmapMemory intermediate_mem]) d2 in
        match first_immediate (_queues d2') with
        | Some (q, cl) =>
            emit [ev_copy_buffer_to_texture cl intermediate dst dst_subresource;
                  ev_flush_and_wait cl (queue q)] d2'
        | None => d2'
        end
      else d2 in
    Some (emit [ev_vmaDestroyBuffer intermediate intermediate_mem] d3).

(** *** Resources *)

Definition alloc_info_of (heap : memory_heap) : VmaAllocationCreateInfo :=
  match heap with
  | cpu_to_gpu => {| vma_usage := VMA_MEMORY_USAGE_CPU_TO_GPU;
                     requiredFlags := VK_MEMORY_PROPERTY_HOST_COHERENT_BIT |}
  | gpu_to_cpu => {| vma_usage := VMA_MEMORY_USAGE_GPU_TO_CPU; requiredFlags := 0 |}
  | cpu_only => {| vma_usage := VMA_MEMORY_USAGE_CPU_ONLY; requiredFlags := 0 |}
  | heap_unknown | gpu_only => {| vma_usage := VMA_MEMORY_USAGE_GPU_ONLY; requiredFlags := 0 |}
  end.

(** The native creation of a buffer: the state, the result, the object
    and the allocation ([VK_NULL_HANDLE] without the allocator). *)
Definition native_create_buffer (heap : memory_heap) (info : VkBufferCreateInfo)
    (d : device_impl) : device_impl * Z * Z * Z :=
  if decide (heap = heap_unknown) then
    let '(r, o) := vkCreateBuffer drv (log d) info in
    (emit [ev_vkCreateBuffer info r o] d, r, o, VK_NULL_HANDLE)
  else
    let '(r, o, a) := vmaCreateBuffer drv (log d) info (alloc_info_of heap) in
    (emit [ev_vmaCreateBuffer info (alloc_info_of heap) r o a] d, r, o, a).

Definition native_create_image (heap : memory_heap) (info : VkImageCreateInfo)
    (d : device_impl) : device_impl * Z * Z * Z :=
  if decide (heap = heap_unknown) then
    let '(r, o) := vkCreateImage drv (log d) info in
    (emit [ev_vkCreateImage info r o] d, r, o, VK_NULL_HANDLE)
  else
    let '(r, o, a) := vmaCreateImage drv (log d) info (alloc_info_of heap) in
    (emit [ev_vmaCreateImage info (alloc_info_of heap) r o a] d, r, o, a).

(** The transition of a new image into its initial state, with the
    upload of the initial data, on the command list [cl]. *)
Definition initialize_image (desc : resource_desc) (initial_data : option (list subresource_data))
    (initial_state : Z) (cl : Z) (out : Z) (d : device_impl) : option device_impl :=
  match initial_data with
  | Some initial_data =>
      let d1 := emit [ev_barrier cl out resource_usage_undefined resource_usage_copy_dest] d in
      d2 ← for_range
             (Z.to_nat (uint32 (uint32 (texture_depth_or_layers desc) * texture_levels desc))) 0
             (fun subresource d =>
                sd ← vector_get initial_data subresource;
                upload_texture_region sd out subresource None d)
             d1;
      Some (emit [ev_barrier cl out resource_usage_copy_dest initial_state] d2)
  | None => Some (emit [ev_barrier cl out resource_usage_undefined initial_state] d)
  end.

(** [device_impl::create_resource]; [initial_data] is [None] for a null
    pointer.  The result carries [*out] and the return value. *)
Definition create_resource (desc : resource_desc) (initial_data : option (list subresource_data))
    (initial_state : Z) (d : device_impl) : option (device_impl * Z * bool) :=
  match desc_type desc with
  | type_buffer =>
      let info := convert_resource_desc_buffer desc in
      let '(d1, result, object, allocation) := native_create_buffer (desc_heap desc) info d in
      if bool_decide (result = VK_SUCCESS)
      then Some (register_buffer object info allocation true d1, object, true)
      else Some (d1, 0, false)
  | type_texture_1d | type_texture_2d | type_texture_3d =>
      let info := convert_resource_desc_image desc in
      let info := match initial_data with
                  | Some _ => add_image_usage VK_IMAGE_USAGE_TRANSFER_DST_BIT info
                  | None => info
                  end in
      let '(d1, result, object, allocation) := native_create_image (desc_heap desc) info d in
      if bool_decide (result = VK_SUCCESS) then
        let d2 := register_image object info allocation true d1 in
        if bool_decide (initial_state ≠ resource_usage_undefined) then
          match first_immediate (_queues d2) with
          | Some (q, cl) =>
              d3 ← initialize_image desc initial_data initial_state cl object d2;
              Some (emit [ev_flush_immediate_command_list (queue q)] d3, object, true)
          | None => Some (d2, object, true)
          end
        else Some (d2, object, true)
      else Some (d1, 0, false)
  | type_unknown | type_surface => Some (d, 0, false)
  end.

(** [device_impl::destroy_resource]. *)
Definition destroy_resource (handle : Z) (d : device_impl) : option device_impl :=
  if bool_decide (handle = 0) then Some d
  else
    data ← lookup_resource d handle;
    let destroy :=
      if bool_decide (allocation data = VK_NULL_HANDLE) then
        if is_image data then ev_vkDestroyImage (object data)
        else ev_vkDestroyBuffer (object data)
      else
        if is_image data then ev_vmaDestroyImage (object data) (allocation data)
        else ev_vmaDestroyBuffer (object data) (allocation data) in
    Some (emit [ev_unregister_resource handle]
            (with_resources (delete handle) (emit [destroy] d))).

(** [device_impl::map_resource].  [row_pitch] and [slice_pitch] are
    [None] for a null pointer and hold the pointee otherwise; [data0]
    is what [*data] holds on entry.  The result carries [*data],
    [*row_pitch], [*slice_pitch] and the return value. *)
Definition map_resource (resource : Z) (subresource : Z) (data0 : Z)
    (row_pitch slice_pitch : option Z) (d : device_impl)
    : option (device_impl * (Z * option Z * option Z) * bool) :=
  let row_pitch := (fun _ => 0) <$> row_pitch in
  let slice_pitch := (fun _ => 0) <$> slice_pitch in
  res_data ← lookup_resource d resource;
  if bool_decide (allocation res_data ≠ 0) then
    let '(result, written) := vmaMapMemory drv (log d) (allocation res_data) in
    Some (emit [ev_vmaMapMemory (allocation res_data) result] d,
          (default data0 written, row_pitch, slice_pitch),
          bool_decide (result = VK_SUCCESS))
  else Some (d, (0, row_pitch, slice_pitch), false).

(** *** Query pools *)

(** [device_impl::create_query_pool]. *)
Definition create_query_pool (type : query_type) (count : Z) (d : device_impl)
    : device_impl * Z * bool :=
  let '(result, pool) := vkCreateQueryPool drv (log d) type count in
  let d1 := emit [ev_vkCreateQueryPool type count result pool] d in
  if bool_decide (result = VK_SUCCESS) then
    let d2 :=
      match first_immediate (_queues d1) with
      | Some (q, cl) =>
          emit [ev_vkCmdResetQueryPool cl pool 0 count;
                ev_flush_immediate_command_list (queue q)] d1
      | None => d1
      end in
    (d2, pool, true)
  else (d1, 0, false).

(** *** Render passes *)

(** What the two attachment loops of [create_render_pass] accumulate. *)
Record pass_builder : Type := {
  width : Z;
  height : Z;
  num_layers : Z;
  formats : list Z;                 (* attachment_descs, by format *)
  pass_data : render_pass_data;
  fbo_data : framebuffer_data
}.

Definition empty_builder : pass_builder :=
  {| width := UINT32_MAX; height := UINT32_MAX; num_layers := UINT32_MAX; formats := [];
     pass_data := {| attachments := [] |};
     fbo_data := {| fbo_attachments := []; attachment_types := [] |} |}.

(** The body shared by the color loop and the depth-stencil block:
    look the view and its image up, describe the attachment, record it. *)
Definition add_attachment (d : device_impl) (v : Z) (format : Z) (layout : Z) (type : Z)
    (b : pass_builder) : option pass_builder :=
  view_info ← lookup_resource_view d v;
  resource_info ← lookup_resource d (view_resource view_info);
  info ← match create_info resource_info with
         | image_create_info info => Some info
         | buffer_create_info _ => None
         end;
  Some {| width := Z.min (extent_width info) (width b);
          height := Z.min (extent_height info) (height b);
          num_layers := Z.min (arrayLayers info) (num_layers b);
          formats := formats b ++ [format];
          pass_data :=
            {| attachments := attachments (pass_data b)
                 ++ [{| initial_layout := layout; clear_flags := 0;
                        format_flags := aspect_flags_from_format format |}] |};
          fbo_data :=
            {| fbo_attachments := fbo_attachments (fbo_data b) ++ [v];
               attachment_types := attachment_types (fbo_data b) ++ [type] |} |}.

(** [for (uint32_t i = 0; i < 8 && desc.render_targets[i].handle != 0; ++i, ++num_color_attachments)];
    [fuel] is [8 - i].  The result carries [num_color_attachments]. *)
Fixpoint add_colors (d : device_impl) (desc : render_pass_desc) (fuel : nat) (i : Z)
    (b : pass_builder) : option (pass_builder * Z) :=
  match fuel with
  | O => Some (b, i)
  | S fuel' =>
      v ← vector_get (render_targets desc) i;
      if bool_decide (v = 0) then Some (b, i)
      else
        f ← vector_get (render_targets_format desc) i;
        b' ← add_attachment d v (convert_format f) VK_IMAGE_LAYOUT_COLOR_ATTACHMENT_OPTIMAL
               VK_IMAGE_ASPECT_COLOR_BIT b;
        add_colors d desc fuel' (i + 1) b'
  end.

(** [device_impl::create_render_pass]. *)
Definition create_render_pass (desc : render_pass_desc) (d : device_impl)
    : option (device_impl * Z * bool) :=
  '(b, num_color_attachments) ← add_colors d desc 8 0 empty_builder;
  b ← (if bool_decide (depth_stencil desc ≠ 0) then
         let format := convert_format (depth_stencil_format desc) in
         add_attachment d (depth_stencil desc) format
           VK_IMAGE_LAYOUT_DEPTH_STENCIL_ATTACHMENT_OPTIMAL (aspect_flags_from_format format) b
       else Some b);
  let '(result, pass) := vkCreateRenderPass drv (log d) (formats b) num_color_attachments in
  let d1 := emit [ev_vkCreateRenderPass (formats b) num_color_attachments result pass] d in
  if bool_decide (result ≠ VK_SUCCESS) then Some (d1, 0, false)
  else
    let views :=
      take (Z.to_nat num_color_attachments) (render_targets desc)
      ++ (if bool_decide (depth_stencil desc ≠ 0) then [depth_stencil desc] else []) in
    let '(result, framebuffer) := vkCreateFramebuffer drv (log d1) pass views in
    let d2 := emit [ev_vkCreateFramebuffer pass views (width b) (height b) (num_layers b)
                      result framebuffer] d1 in
    if bool_decide (result ≠ VK_SUCCESS)
    then Some (emit [ev_vkDestroyRenderPass pass] d2, 0, false)
    else
      let d3 := with_framebuffer_list (emplace framebuffer (fbo_data b))
                  (with_render_pass_list (emplace pass (pass_data b)) d2) in
      let p := operator_new drv (log d3) in
      Some (with_render_passes
              (insert p {| fbo := framebuffer; render_pass := pass;
                           render_area_width := width b; render_area_height := height b |}) d3,
            p, true).

(** The loop of [get_attachment] from position [i] on. *)
Fixpoint find_attachment (atts : list attachment) (i : Z) (views : list Z) (type : Z)
    (index : Z) : option (Z * bool) :=
  match atts with
  | [] => Some (0, false)
  | a :: atts' =>
      if bool_decide (Z.land (format_flags a) (uint32 type) ≠ 0) then
        if bool_decide (index = 0) then
          v ← vector_get views i;
          Some (v, true)
        else find_attachment atts' (i + 1) views type (uint32 (index - 1))
      else find_attachment atts' (i + 1) views type index
  end.

(** [device_impl::get_attachment]: the view written to [out] and the
    result. *)
Definition get_attachment (d : device_impl) (pass : Z) (type : Z) (index : Z)
    : option (Z * bool) :=
  pass_impl ← render_passes d !! pass;
  info ← _framebuffer_list d !! fbo pass_impl;
  pass_info ← _render_pass_list d !! render_pass pass_impl;
  find_attachment (attachments pass_info) 0 (fbo_attachments info) type index.

(** The loop of [get_attachment_count]. *)
Fixpoint count_attachments (atts : list attachment) (type : Z) (count : Z) : Z :=
  match atts with
  | [] => count
  | a :: atts' =>
      count_attachments atts' type
        (if bool_decide (Z.land (format_flags a) (uint32 type) ≠ 0)
         then uint32 (count + 1) else count)
  end.

(** [device_impl::get_attachment_count]. *)
Definition get_attachment_count (d : device_impl) (pass : Z) (type : Z) : option Z :=
  pass_impl ← render_passes d !! pass;
  pass_info ← _render_pass_list d !! render_pass pass_impl;
  Some (count_attachments (attachments pass_info) type 0).

End Device.

(** The views of a framebuffer whose render-pass attachment matches
    [type], in declaration order. *)
Fixpoint matching_views (atts : list attachment) (views : list Z) (type : Z) : list Z :=
  match atts, views with
  | a :: atts', v :: views' =>
      if bool_decide (Z.land (format_flags a) (uint32 type) ≠ 0)
      then v :: matching_views atts' views' type
      else matching_views atts' views' type
  | _, _ => []
  end.

End Vulkan.

(** ** Vulkan backend, continued: views, render-pass destruction, pipelines

    The remaining functions of source/vulkan/reshade_api_device.{hpp,cpp}
    over the device of [Vulkan].  The native calls that [Vulkan.event]
    has no constructor for are recorded in a second log, [calls], kept
    beside the device together with the members of [device_impl] that
    only these functions use. *)

Module VulkanDevice.
Import Vulkan.

Definition with_views (f : gmap Z resource_view_data -> gmap Z resource_view_data)
    (d : device_impl) : device_impl :=
  {| _resources := _resources d; _views := f (_views d);
     _render_pass_list := _render_pass_list d; _framebuffer_list := _framebuffer_list d;
     _queues := _queues d; render_passes := render_passes d; log := log d |}.

(** *** The registry, continued (reshade_api_device.hpp) *)

Definition register_image_view (image_view : Z) (image : Z) (owned : bool)
    (d : device_impl) : device_impl :=
  with_views (emplace image_view {| view := image_view; is_image_view := true;
                                    view_resource := image; view_owned := owned |}) d.

Definition register_buffer_view (buffer_view : Z) (buffer : Z) (owned : bool)
    (d : device_impl) : device_impl :=
  with_views (emplace buffer_view {| view := buffer_view; is_image_view := false;
                                     view_resource := buffer; view_owned := owned |}) d.

Definition register_render_pass (pass : Z) (data : render_pass_data)
    (d : device_impl) : device_impl :=
  with_render_pass_list (emplace pass data) d.

Definition register_framebuffer (fbo : Z) (data : framebuffer_data)
    (d : device_impl) : device_impl :=
  with_framebuffer_list (emplace fbo data) d.


Definition unregister_buffer (buffer : Z) (d : device_impl) : device_impl :=
  emit [ev_unregister_resource buffer] (with_resources (delete buffer) d).

Definition unregister_render_pass (pass : Z) (d : device_impl) : device_impl :=
  with_render_pass_list (delete pass) d.

Definition unregister_framebuffer (fbo : Z) (d : device_impl) : device_impl :=
  with_framebuffer_list (delete fbo) d.

Definition lookup_render_pass (d : device_impl) (pass : Z) : option render_pass_data :=
  _render_pass_list d !! pass.

(** [device_impl::get_subresource_index]; the image must be registered
    as an image for [image_create_info] to be the active member. *)
Definition get_subresource_index (d : device_impl) (image : Z)
    (mipLevel baseArrayLayer : Z) (layer : Z) : option Z :=
  data ← _resources d !! image;
  info ← match create_info data with
         | image_create_info info => Some info
         | buffer_create_info _ => None
         end;
  Some (uint32 (mipLevel + uint32 (uint32 (baseArrayLayer + layer) * mipLevels info))).

(** [device_impl::is_resource_view_handle_valid]. *)
Definition is_resource_view_handle_valid (d : device_impl) (handle : Z) : bool :=
  if bool_decide (handle = 0) then false
  else bool_decide (is_Some (_views d !! handle)).

(** [device_impl::get_resource_from_view]: what is written to [*out]. *)
Definition get_resource_from_view (d : device_impl) (v : Z) : option Z :=
  data ← lookup_resource_view d v;
  Some (if is_image_view data then view_resource data else view_resource data).

(** [device_impl::unmap_resource]. *)
Definition unmap_resource (resource : Z) (subresource : Z) (d : device_impl)
    : option device_impl :=
  res_data ← lookup_resource d resource;
  if bool_decide (allocation res_data ≠ 0)
  then Some (emit [ev_vmaUnmapMemory (allocation res_data)] d)
  else Some d.

(** [device_impl::destroy_render_pass]; the handle is the address of a
    [render_pass_impl]. *)
Definition destroy_render_pass (handle : Z) (d : device_impl) : option device_impl :=
  if bool_decide (handle = 0) then Some d
  else
    pass_impl ← render_passes d !! handle;
    let d1 := emit [ev_vkDestroyRenderPass (render_pass pass_impl);
                    ev_vkDestroyFramebuffer (fbo pass_impl)] d in
    let d2 := with_render_pass_list (delete (render_pass pass_impl)) d1 in
    let d3 := with_framebuffer_list (delete (fbo pass_impl)) d2 in
    Some (with_render_passes (delete handle) d3).

(** *** The device, continued *)

Definition VK_COMPONENT_SWIZZLE_IDENTITY : Z := 0.
Definition VK_COMPONENT_SWIZZLE_ZERO : Z := 1.
Definition VK_COMPONENT_SWIZZLE_ONE : Z := 2.
Definition VK_COMPONENT_SWIZZLE_R : Z := 3.
Definition VK_COMPONENT_SWIZZLE_G : Z := 4.
Definition VK_COMPONENT_SWIZZLE_B : Z := 5.
Definition VK_SHADER_STAGE_VERTEX_BIT : Z := 0x1.
Definition VK_SHADER_STAGE_TESSELLATION_CONTROL_BIT : Z := 0x2.
Definition VK_SHADER_STAGE_TESSELLATION_EVALUATION_BIT : Z := 0x4.
Definition VK_SHADER_STAGE_GEOMETRY_BIT : Z := 0x8.
Definition VK_SHADER_STAGE_FRAGMENT_BIT : Z := 0x10.
Definition VK_DYNAMIC_STATE_VIEWPORT : Z := 0.
Definition VK_DYNAMIC_STATE_SCISSOR : Z := 1.
Definition VK_DYNAMIC_STATE_BLEND_CONSTANTS : Z := 4.
Definition VK_DYNAMIC_STATE_STENCIL_COMPARE_MASK : Z := 6.
Definition VK_DYNAMIC_STATE_STENCIL_WRITE_MASK : Z := 7.
Definition VK_DYNAMIC_STATE_STENCIL_REFERENCE : Z := 8.
Definition VK_VERTEX_INPUT_RATE_VERTEX : Z := 0.
Definition VK_VERTEX_INPUT_RATE_INSTANCE : Z := 1.

(** The create-info structures of the native calls below, each by the
    members the embedded code sets or reads. *)
Record VkImageViewCreateInfo : Type := {
  iv_image : Z;
  iv_format : Z;
  iv_aspectMask : Z;            (* subresourceRange.aspectMask *)
  iv_components : list Z
}.

Record VkBufferViewCreateInfo : Type := {
  bv_buffer : Z;
  bv_format : Z;
  bv_offset : Z;
  bv_range : Z
}.

Record VkVertexInputBindingDescription : Type := {
  vib_binding : Z;
  vib_stride : Z;
  vib_inputRate : Z
}.

Record VkVertexInputAttributeDescription : Type := {
  via_location : Z;
  via_binding : Z;
  via_format : Z;
  via_offset : Z
}.

Record VkPushConstantRange : Type := {
  pc_stageFlags : Z;
  pc_offset : Z;
  pc_size : Z
}.

Record VkGraphicsPipelineCreateInfo : Type := {
  gp_layout : Z;
  gp_stages : list (Z * Z);     (* pStages[0 .. stageCount): stage and module *)
  gp_dynamic_states : list Z;
  gp_vertex_bindings : list VkVertexInputBindingDescription;
  gp_vertex_attributes : list VkVertexInputAttributeDescription;
  gp_attachmentCount : Z;       (* pColorBlendState->attachmentCount *)
  gp_renderPass : Z
}.

(** The native calls of the functions below, with what they answered. *)
Inductive call : Type :=
| ev_vkCreateImageView (info : VkImageViewCreateInfo) (result view : Z)
| ev_vkCreateBufferView (info : VkBufferViewCreateInfo) (result view : Z)
| ev_vkDestroyImageView (view : Z)
| ev_vkDestroyBufferView (view : Z)
| ev_vkCreateDescriptorSetLayout (bindingCount : Z) (result layout : Z)
| ev_vkDestroyDescriptorSetLayout (layout : Z)
| ev_vkCreatePipelineLayout (set_layouts : list Z) (ranges : list VkPushConstantRange)
    (result layout : Z)
| ev_vkDestroyPipelineLayout (layout : Z)
| ev_vkCreateShaderModule (stage code code_size : Z) (result module : Z)
| ev_vkDestroyShaderModule (module : Z)
| ev_vkCreateComputePipelines (layout stage module : Z) (result pipeline : Z)
| ev_vkCreateGraphicsPipelines (info : VkGraphicsPipelineCreateInfo) (result pipeline : Z)
| ev_vkResetDescriptorPool (pool : Z).

(** What the dispatch table [vk] answers: the result and what the call
    left in its output variable; each answer may depend on the calls
    made before. *)
Record dispatch_table : Type := {
  CreateImageView : list call -> VkImageViewCreateInfo -> Z * Z;
  CreateBufferView : list call -> VkBufferViewCreateInfo -> Z * Z;
  CreateDescriptorSetLayout : list call -> Z -> Z * Z;
  CreatePipelineLayout : list call -> list Z -> list VkPushConstantRange -> Z * Z;
  CreateShaderModule : list call -> Z -> Z -> Z -> Z * Z;
  CreateComputePipelines : list call -> Z -> Z -> Z -> Z * Z;
  CreateGraphicsPipelines : list call -> VkGraphicsPipelineCreateInfo -> Z * Z
}.

(** [device_impl] with the members that only the functions below use. *)
Record device : Type := {
  impl : device_impl;
  _pipeline_layout_list : gmap Z (list Z);
  _transient_descriptor_pool : list Z;    (* VkDescriptorPool [4] *)
  _transient_index : Z;
  CmdPushDescriptorSetKHR : bool;         (* vk.CmdPushDescriptorSetKHR != nullptr *)
  calls : list call
}.

Definition with_impl (f : device_impl -> device_impl) (s : device) : device :=
  {| impl := f (impl s); _pipeline_layout_list := _pipeline_layout_list s;
     _transient_descriptor_pool := _transient_descriptor_pool s;
     _transient_index := _transient_index s;
     CmdPushDescriptorSetKHR := CmdPushDescriptorSetKHR s; calls := calls s |}.

Definition with_pipeline_layout_list (f : gmap Z (list Z) -> gmap Z (list Z)) (s : device)
    : device :=
  {| impl := impl s; _pipeline_layout_list := f (_pipeline_layout_list s);
     _transient_descriptor_pool := _transient_descriptor_pool s;
     _transient_index := _transient_index s;
     CmdPushDescriptorSetKHR := CmdPushDescriptorSetKHR s; calls := calls s |}.

Definition with_transient_index (i : Z) (s : device) : device :=
  {| impl := impl s; _pipeline_layout_list := _pipeline_layout_list s;
     _transient_descriptor_pool := _transient_descriptor_pool s;
     _transient_index := i;
     CmdPushDescriptorSetKHR := CmdPushDescriptorSetKHR s; calls := calls s |}.

Definition record (cs : list call) (s : device) : device :=
  {| impl := impl s; _pipeline_layout_list := _pipeline_layout_list s;
     _transient_descriptor_pool := _transient_descriptor_pool s;
     _transient_index := _transient_index s;
     CmdPushDescriptorSetKHR := CmdPushDescriptorSetKHR s; calls := calls s ++ cs |}.

(** [device_impl::advance_transient_descriptor_pool]. *)
Definition advance_transient_descriptor_pool (s : device) : option device :=
  if CmdPushDescriptorSetKHR s then Some s
  else
    let index := uint32 (_transient_index s + 1) in
    next_pool ← vector_get (_transient_descriptor_pool s) (index mod 4);
    Some (record [ev_vkResetDescriptorPool next_pool] (with_transient_index index s)).

(** Modelled from the spec: the enumerators of [api::format] and the
    bit of [api::resource_usage] that [create_resource_view] compares
    with; reshade_api.hpp and reshade_api_format.hpp are not among the
    sources, so their values are left open. *)
Record api_enumerators : Type := {
  a8_unorm : Z;
  r8g8b8x8_unorm : Z;
  r8g8b8x8_unorm_srgb : Z;
  b8g8r8x8_unorm : Z;
  b8g8r8x8_unorm_srgb : Z;
  b5g5r5x1_unorm : Z;
  x24_unorm_g8_uint : Z;
  x32_float_g8_uint : Z;
  format_unknown : Z;
  shader_resource : Z
}.

(** Modelled from the spec: [api::shader_desc], [api::input_layout_element],
    [api::dynamic_state], [api::pipeline_stage], [api::pipeline_desc],
    [api::constant_range] and [api::pipeline_layout_desc] of
    reshade_api.hpp, each by the members the embedded functions read
    ("pipeline state objects", "pipeline layouts"); an enumerator the
    code does not name is [other]. *)
Record shader_desc : Type := {
  code : Z;
  code_size : Z
}.

Record input_layout_element : Type := {
  location : Z;
  element_format : Z;
  buffer_binding : Z;
  offset : Z;
  stride : Z;
  instance_step_rate : Z
}.

Inductive dynamic_state : Type :=
| dynamic_state_unknown
| blend_constant
| stencil_read_mask
| stencil_write_mask
| stencil_reference_value
| dynamic_state_other (value : Z).

Inductive pipeline_stage : Type :=
| all_compute
| all_graphics
| pipeline_stage_other (value : Z).

Record pipeline_desc : Type := {
  pipeline_type : pipeline_stage;
  layout : Z;
  compute_shader : shader_desc;
  vertex_shader : shader_desc;
  hull_shader : shader_desc;
  domain_shader : shader_desc;
  geometry_shader : shader_desc;
  pixel_shader : shader_desc;
  dynamic_states : list dynamic_state;
  input_layout : list input_layout_element;   (* input_layout[16] *)
  render_pass_template : Z
}.

Record constant_range : Type := {
  range_offset : Z;
  range_count : Z;
  range_visibility : Z
}.

Record pipeline_layout_desc : Type := {
  num_set_layouts : Z;
  set_layouts : list Z;
  num_constant_ranges : Z;
  constant_ranges : list constant_range
}.

Section Objects.
Variable vk : dispatch_table.
Variable api : api_enumerators.

(** The two overloads of [convert_resource_view_desc] and
    [convert_format] of reshade_api_type_convert.hpp, which is not part
    of the embedded sources. *)
Variable convert_resource_view_desc_image : OpenGL.resource_view_desc -> VkImageViewCreateInfo.
Variable convert_resource_view_desc_buffer : OpenGL.resource_view_desc -> VkBufferViewCreateInfo.
Variable convert_format : Z -> Z.

(** *** Views *)

(** The component mapping [create_resource_view] picks for a format. *)
Definition components_of (format : Z) : list Z :=
  if bool_decide (format = a8_unorm api) then
    [VK_COMPONENT_SWIZZLE_ZERO; VK_COMPONENT_SWIZZLE_ZERO; VK_COMPONENT_SWIZZLE_ZERO;
     VK_COMPONENT_SWIZZLE_R]
  else if bool_decide (format = r8g8b8x8_unorm api)
          || bool_decide (format = r8g8b8x8_unorm_srgb api)
          || bool_decide (format = b8g8r8x8_unorm api)
          || bool_decide (format = b8g8r8x8_unorm_srgb api)
          || bool_decide (format = b5g5r5x1_unorm api) then
    [VK_COMPONENT_SWIZZLE_R; VK_COMPONENT_SWIZZLE_G; VK_COMPONENT_SWIZZLE_B;
     VK_COMPONENT_SWIZZLE_ONE]
  else
    [VK_COMPONENT_SWIZZLE_IDENTITY; VK_COMPONENT_SWIZZLE_IDENTITY;
     VK_COMPONENT_SWIZZLE_IDENTITY; VK_COMPONENT_SWIZZLE_IDENTITY].

(** The aspect mask [create_resource_view] asks for. *)
Definition view_aspect_mask (format : Z) (usage_type : Z) (native_format : Z) : Z :=
  let aspectMask := aspect_flags_from_format native_format in
  if bool_decide (format = x24_unorm_g8_uint api) || bool_decide (format = x32_float_g8_uint api)
  then Z.land aspectMask (uint32 (Z.lnot VK_IMAGE_ASPECT_DEPTH_BIT))
  else if bool_decide (Z.land usage_type (shader_resource api) ≠ resource_usage_undefined)
  then Z.land aspectMask (uint32 (Z.lnot VK_IMAGE_ASPECT_STENCIL_BIT))
  else aspectMask.

(** [device_impl::create_resource_view]. *)
Definition create_resource_view (resource : Z) (usage_type : Z)
    (desc : OpenGL.resource_view_desc) (s : device) : option (device * Z * bool) :=
  data ← lookup_resource (impl s) resource;
  if is_image data then
    let converted := convert_resource_view_desc_image desc in
    let create_info :=
      {| iv_image := object data;
         iv_format := iv_format converted;
         iv_aspectMask := view_aspect_mask (OpenGL.view_format desc) usage_type
                            (iv_format converted);
         iv_components := components_of (OpenGL.view_format desc) |} in
    let '(result, image_view) := CreateImageView vk (calls s) create_info in
    let s1 := record [ev_vkCreateImageView create_info result image_view] s in
    if bool_decide (result = VK_SUCCESS)
    then Some (with_impl (register_image_view image_view (iv_image create_info) true) s1,
               image_view, true)
    else Some (s1, 0, false)
  else
    let converted := convert_resource_view_desc_buffer desc in
    let create_info :=
      {| bv_buffer := object data; bv_format := bv_format converted;
         bv_offset := bv_offset converted; bv_range := bv_range converted |} in
    let '(result, buffer_view) := CreateBufferView vk (calls s) create_info in
    let s1 := record [ev_vkCreateBufferView create_info result buffer_view] s in
    if bool_decide (result = VK_SUCCESS)
    then Some (with_impl (register_buffer_view buffer_view (bv_buffer create_info) true) s1,
               buffer_view, true)
    else Some (s1, 0, false).

(** [device_impl::destroy_resource_view]. *)
Definition destroy_resource_view (handle : Z) (s : device) : option device :=
  if bool_decide (handle = 0) then Some s
  else
    data ← lookup_resource_view (impl s) handle;
    let destroy :=
      if is_image_view data then ev_vkDestroyImageView (view data)
      else ev_vkDestroyBufferView (view data) in
    Some (with_impl (with_views (delete handle)) (record [destroy] s)).

(** *** Pipeline layouts *)

(** The outcome of the loop over the set layouts: it returned from the
    function, or ran to its end with the dummy layout and the resolved
    layouts. *)
Inductive resolved : Type :=
| returned_false (s : device)
| resolved_layouts (dummy_layout : Z) (internal_set_layouts : list Z) (s : device).

(** [for (uint32_t i = 0; i < desc.num_set_layouts; ++i)]; [n] is the
    number of iterations left. *)
Fixpoint resolve_set_layouts (n : nat) (i : Z) (desc : pipeline_layout_desc)
    (dummy_layout : Z) (internal_set_layouts : list Z) (s : device) : option resolved :=
  match n with
  | O => Some (resolved_layouts dummy_layout internal_set_layouts s)
  | S n' =>
      handle ← vector_get (set_layouts desc) i;
      if bool_decide (handle = 0) then
        if bool_decide (dummy_layout = VK_NULL_HANDLE) then
          let '(result, object) := CreateDescriptorSetLayout vk (calls s) 0 in
          let s1 := record [ev_vkCreateDescriptorSetLayout 0 result object] s in
          if bool_decide (result ≠ VK_SUCCESS) then Some (returned_false s1)
          else
            internal ← vector_set internal_set_layouts i object;
            resolve_set_layouts n' (uint32 (i + 1)) desc object internal s1
        else
          internal ← vector_set internal_set_layouts i dummy_layout;
          resolve_set_layouts n' (uint32 (i + 1)) desc dummy_layout internal s
      else
        internal ← vector_set internal_set_layouts i handle;
        resolve_set_layouts n' (uint32 (i + 1)) desc dummy_layout internal s
  end.

(** The loop that fills [push_constant_ranges]. *)
Definition convert_constant_ranges (desc : pipeline_layout_desc)
    : option (list VkPushConstantRange) :=
  for_range (Z.to_nat (num_constant_ranges desc)) 0
    (fun i ranges =>
       r ← vector_get (constant_ranges desc) i;
       vector_set ranges i {| pc_stageFlags := range_visibility r;
                              pc_offset := uint32 (range_offset r * 4);
                              pc_size := uint32 (range_count r * 4) |})
    (replicate (Z.to_nat (num_constant_ranges desc))
       {| pc_stageFlags := 0; pc_offset := 0; pc_size := 0 |}).

(** [device_impl::create_pipeline_layout]. *)
Definition create_pipeline_layout (desc : pipeline_layout_desc) (s : device)
    : option (device * Z * bool) :=
  r ← resolve_set_layouts (Z.to_nat (num_set_layouts desc)) 0 desc VK_NULL_HANDLE
         (replicate (Z.to_nat (num_set_layouts desc)) VK_NULL_HANDLE) s;
  match r with
  | returned_false s1 => Some (s1, 0, false)
  | resolved_layouts dummy_layout internal_set_layouts s1 =>
      push_constant_ranges ← convert_constant_ranges desc;
      let '(result, object) :=
        CreatePipelineLayout vk (calls s1) internal_set_layouts push_constant_ranges in
      let s2 := record [ev_vkCreatePipelineLayout internal_set_layouts push_constant_ranges
                          result object] s1 in
      if bool_decide (result = VK_SUCCESS) then
        Some (record [ev_vkDestroyDescriptorSetLayout dummy_layout]
                (with_pipeline_layout_list (insert object internal_set_layouts) s2),
              object, true)
      else
        Some (record [ev_vkDestroyDescriptorSetLayout dummy_layout] s2, 0, false)
  end.

(** [device_impl::destroy_pipeline_layout]. *)
Definition destroy_pipeline_layout (handle : Z) (s : device) : device :=
  record [ev_vkDestroyPipelineLayout handle]
    (with_pipeline_layout_list (delete handle) s).

(** *** Pipelines *)

(** [device_impl::create_shader_module]: the state, the module left in
    [stage_info.module] and the result. *)
Definition create_shader_module (stage : Z) (desc : shader_desc) (s : device)
    : device * Z * bool :=
  let '(result, module) := CreateShaderModule vk (calls s) stage (code desc) (code_size desc) in
  (record [ev_vkCreateShaderModule stage (code desc) (code_size desc) result module] s,
   module, bool_decide (result = VK_SUCCESS)).


(** The five optional stages of a graphics pipeline, in the order the
    function creates them. *)
Definition graphics_stages (desc : pipeline_desc) : list (Z * shader_desc) :=
  [(VK_SHADER_STAGE_VERTEX_BIT, vertex_shader desc);
   (VK_SHADER_STAGE_TESSELLATION_CONTROL_BIT, hull_shader desc);
   (VK_SHADER_STAGE_TESSELLATION_EVALUATION_BIT, domain_shader desc);
   (VK_SHADER_STAGE_GEOMETRY_BIT, geometry_shader desc);
   (VK_SHADER_STAGE_FRAGMENT_BIT, pixel_shader desc)].

(** The five [if] blocks that create the shader modules: the state,
    [shader_stage_info[0 .. stageCount)] and whether none of them jumped
    to [exit_failure]. *)
Fixpoint create_stages (stages : list (Z * shader_desc)) (shader_stage_info : list (Z * Z))
    (s : device) : device * list (Z * Z) * bool :=
  match stages with
  | [] => (s, shader_stage_info, true)
  | (stage, desc) :: stages' =>
      if bool_decide (code_size desc ≠ 0) then
        let '(s1, module, ok) := create_shader_module stage desc s in
        if ok then create_stages stages' (shader_stage_info ++ [(stage, module)]) s1
        else (s1, shader_stage_info, false)
      else create_stages stages' shader_stage_info s
  end.

(** The loop over [desc.graphics.dynamic_states]; [None] is the jump to
    [exit_failure] of its [default:] case. *)
Fixpoint convert_dynamic_states (states : list dynamic_state) (dyn_states : list Z)
    : option (list Z) :=
  match states with
  | [] => Some dyn_states
  | dynamic_state_unknown :: _ => Some dyn_states
  | blend_constant :: states' =>
      convert_dynamic_states states' (dyn_states ++ [VK_DYNAMIC_STATE_BLEND_CONSTANTS])
  | stencil_read_mask :: states' =>
      convert_dynamic_states states' (dyn_states ++ [VK_DYNAMIC_STATE_STENCIL_COMPARE_MASK])
  | stencil_write_mask :: states' =>
      convert_dynamic_states states' (dyn_states ++ [VK_DYNAMIC_STATE_STENCIL_WRITE_MASK])
  | stencil_reference_value :: states' =>
      convert_dynamic_states states' (dyn_states ++ [VK_DYNAMIC_STATE_STENCIL_REFERENCE])
  | dynamic_state_other _ :: _ => None
  end.

(** [std::find_if] over [vertex_bindings] for a buffer binding. *)
Definition find_binding (vertex_bindings : list VkVertexInputBindingDescription) (binding : Z)
    : option VkVertexInputBindingDescription :=
  List.find (fun input_binding => bool_decide (vib_binding input_binding = binding))
    vertex_bindings.

(** The loop over [desc.graphics.input_layout]; [fuel] is [16 - i].
    The outer [option] is undefined behaviour (reading past the array),
    the inner one the jump to [exit_failure]. *)
Fixpoint convert_input_layout (fuel : nat) (i : Z) (elements : list input_layout_element)
    (vertex_bindings : list VkVertexInputBindingDescription)
    (vertex_attributes : list VkVertexInputAttributeDescription)
    : option (option (list VkVertexInputBindingDescription
                      * list VkVertexInputAttributeDescription)) :=
  match fuel with
  | O => Some (Some (vertex_bindings, vertex_attributes))
  | S fuel' =>
      element ← vector_get elements i;
      if bool_decide (element_format element = format_unknown api)
      then Some (Some (vertex_bindings, vertex_attributes))
      else
        let attribute := {| via_location := location element;
                            via_binding := buffer_binding element;
                            via_format := convert_format (element_format element);
                            via_offset := offset element |} in
        let vertex_attributes := vertex_attributes ++ [attribute] in
        let input_rate := if bool_decide (instance_step_rate element > 0)
                          then VK_VERTEX_INPUT_RATE_INSTANCE
                          else VK_VERTEX_INPUT_RATE_VERTEX in
        match find_binding vertex_bindings (buffer_binding element) with
        | Some it =>
            if bool_decide (vib_inputRate it ≠ input_rate)
               || bool_decide (vib_stride it ≠ stride element)
            then Some None
            else convert_input_layout fuel' (i + 1) elements vertex_bindings vertex_attributes
        | None =>
            convert_input_layout fuel' (i + 1) elements
              (vertex_bindings ++ [{| vib_binding := buffer_binding element;
                                      vib_stride := stride element;
                                      vib_inputRate := input_rate |}])
              vertex_attributes
        end
  end.

(** The loop that counts the color attachments of the framebuffer. *)
Fixpoint count_color_attachments (attachment_types : list Z) (num_color_attachments : Z) : Z :=
  match attachment_types with
  | [] => num_color_attachments
  | format_flags :: rest =>
      count_color_attachments rest
        (if bool_decide (format_flags = VK_IMAGE_ASPECT_COLOR_BIT)
         then uint32 (num_color_attachments + 1) else num_color_attachments)
  end.

(** [exit_failure:] of [create_graphics_pipeline], and the same loop on
    the success path. *)
Definition destroy_stages (shader_stage_info : list (Z * Z)) (s : device) : device :=
  record (map (fun stage_info => ev_vkDestroyShaderModule (snd stage_info)) shader_stage_info) s.

(** [device_impl::create_graphics_pipeline]. *)
Definition create_graphics_pipeline (desc : pipeline_desc) (s : device)
    : option (device * Z * bool) :=
  if bool_decide (render_pass_template desc = 0) then Some (s, 0, false)
  else
    let '(s1, shader_stage_info, ok) := create_stages (graphics_stages desc) [] s in
    if negb ok then Some (destroy_stages shader_stage_info s1, 0, false)
    else
      match convert_dynamic_states (dynamic_states desc)
              [VK_DYNAMIC_STATE_SCISSOR; VK_DYNAMIC_STATE_VIEWPORT] with
      | None => Some (destroy_stages shader_stage_info s1, 0, false)
      | Some dyn_states =>
          layout_result ← convert_input_layout 16 0 (input_layout desc) [] [];
          match layout_result with
          | None => Some (destroy_stages shader_stage_info s1, 0, false)
          | Some (vertex_bindings, vertex_attributes) =>
              pass_impl ← render_passes (impl s1) !! render_pass_template desc;
              framebuffer_data ← _framebuffer_list (impl s1) !! fbo pass_impl;
              let create_info :=
                {| gp_layout := layout desc;
                   gp_stages := shader_stage_info;
                   gp_dynamic_states := dyn_states;
                   gp_vertex_bindings := vertex_bindings;
                   gp_vertex_attributes := vertex_attributes;
                   gp_attachmentCount :=
                     count_color_attachments (attachment_types framebuffer_data) 0;
                   gp_renderPass := render_pass pass_impl |} in
              let '(result, object) := CreateGraphicsPipelines vk (calls s1) create_info in
              let s2 := record [ev_vkCreateGraphicsPipelines create_info result object] s1 in
              if bool_decide (result = VK_SUCCESS)
              then Some (destroy_stages shader_stage_info s2, object, true)
              else Some (destroy_stages shader_stage_info s2, 0, false)
          end
      end.


End Objects.

End VulkanDevice.

(** ** OpenGL backend, continued: destruction and the resource of a view

    The functions of source/opengl/reshade_api_device.cpp that take a
    handle apart.  They issue one command at most and touch nothing of
    the device, so each is embedded as the command it issues or the
    handle it writes. *)

Module OpenGLDevice.
Import OpenGL.

Definition GL_BUFFER : Z := 0x82E0.
Definition GL_ARRAY_BUFFER : Z := 0x8892.
Definition GL_ELEMENT_ARRAY_BUFFER : Z := 0x8893.
Definition GL_PIXEL_PACK_BUFFER : Z := 0x88EB.
Definition GL_PIXEL_UNPACK_BUFFER : Z := 0x88EC.
Definition GL_UNIFORM_BUFFER : Z := 0x8A11.
Definition GL_TRANSFORM_FEEDBACK_BUFFER : Z := 0x8C8E.
Definition GL_COPY_READ_BUFFER : Z := 0x8F36.
Definition GL_COPY_WRITE_BUFFER : Z := 0x8F37.
Definition GL_DRAW_INDIRECT_BUFFER : Z := 0x8F3F.
Definition GL_SHADER_STORAGE_BUFFER : Z := 0x90D2.
Definition GL_DISPATCH_INDIRECT_BUFFER : Z := 0x90EE.
Definition GL_QUERY_BUFFER : Z := 0x9192.
Definition GL_ATOMIC_COUNTER_BUFFER : Z := 0x92C0.

(** The commands that delete an object. *)
Inductive gl_delete : Type :=
| glDeleteBuffers (object : Z)
| glDeleteTextures (object : Z)
| glDeleteRenderbuffers (object : Z).

(** The first group of [case] labels of [destroy_resource]. *)
Definition is_buffer_target (t : Z) : bool :=
  bool_decide (t = GL_BUFFER) || bool_decide (t = GL_ARRAY_BUFFER)
  || bool_decide (t = GL_ELEMENT_ARRAY_BUFFER) || bool_decide (t = GL_PIXEL_PACK_BUFFER)
  || bool_decide (t = GL_PIXEL_UNPACK_BUFFER) || bool_decide (t = GL_UNIFORM_BUFFER)
  || bool_decide (t = GL_TRANSFORM_FEEDBACK_BUFFER) || bool_decide (t = GL_COPY_READ_BUFFER)
  || bool_decide (t = GL_COPY_WRITE_BUFFER) || bool_decide (t = GL_DRAW_INDIRECT_BUFFER)
  || bool_decide (t = GL_SHADER_STORAGE_BUFFER) || bool_decide (t = GL_DISPATCH_INDIRECT_BUFFER)
  || bool_decide (t = GL_QUERY_BUFFER) || bool_decide (t = GL_ATOMIC_COUNTER_BUFFER).

(** The second group: the texture targets, here with the 3D and the
    cube-map targets. *)
Definition is_texture_object_target (t : Z) : bool :=
  bool_decide (t = GL_TEXTURE) || bool_decide (t = GL_TEXTURE_BUFFER)
  || bool_decide (t = GL_TEXTURE_1D) || bool_decide (t = GL_TEXTURE_1D_ARRAY)
  || bool_decide (t = GL_TEXTURE_2D) || bool_decide (t = GL_TEXTURE_2D_ARRAY)
  || bool_decide (t = GL_TEXTURE_2D_MULTISAMPLE)
  || bool_decide (t = GL_TEXTURE_2D_MULTISAMPLE_ARRAY)
  || bool_decide (t = GL_TEXTURE_3D) || bool_decide (t = GL_TEXTURE_CUBE_MAP)
  || bool_decide (t = GL_TEXTURE_CUBE_MAP_ARRAY) || bool_decide (t = GL_TEXTURE_RECTANGLE).

(** [device_impl::destroy_resource]: the command issued, if any. *)
Definition destroy_resource (handle : Z) : option gl_delete :=
  let object := Z.land handle 0xFFFFFFFF in
  let target := Z.shiftr handle 40 in
  if is_buffer_target target then Some (glDeleteBuffers object)
  else if is_texture_object_target target then Some (glDeleteTextures object)
  else if bool_decide (target = GL_RENDERBUFFER) then Some (glDeleteRenderbuffers object)
  else None.

(** [device_impl::destroy_resource_view]. *)
Definition destroy_resource_view (handle : Z) : option gl_delete :=
  if bool_decide (Z.land handle 0x100000000 = 0) then destroy_resource handle else None.

(** [device_impl::get_resource_from_view]: what is written to [*out]. *)
Definition get_resource_from_view (view : Z) : Z := Z.land view 0xFFFFFF00FFFFFFFF.

End OpenGLDevice.

(** ** Vulkan layer entry points (source/vulkan/vulkan_hooks_device.cpp)

    The hooks that keep the registry of [Vulkan] in step with the
    objects of the application, each on the [device_impl] that
    [g_vulkan_devices.at] yields for its [VkDevice], built with
    [RESHADE_ADDON].  In the buffer and image hooks the call of the next
    layer ([trampoline]) is answered by the [Vulkan.driver] and recorded
    in the log; in the render-pass and framebuffer hooks what the next
    layer returned is an argument of the hook. *)

Module VulkanHooks.
Import Vulkan.

Definition VK_ATTACHMENT_LOAD_OP_CLEAR : Z := 1.

(** The members of [VkAttachmentDescription] the hooks read. *)
Record VkAttachmentDescription : Type := {
  att_format : Z;
  att_loadOp : Z;
  att_stencilLoadOp : Z;
  att_initialLayout : Z
}.

Section Resources.
Variable drv : driver.

(** From reshade_api_type_convert.hpp, which is not part of the embedded
    sources: the overload of [convert_resource_desc] that reads a
    [VkBufferCreateInfo]. *)
Variable convert_resource_desc : VkBufferCreateInfo -> resource_desc.

(** [reshade::invoke_addon_event] of addon_manager.hpp, which is not
    part of the embedded sources, at the three resource events.  The
    callbacks of the add-ons run on the device and may change it;
    [create_resource] also answers with what the callbacks left in
    [replacement] (zero when none wrote it) and whether one of them
    handled the event. *)
Variable invoke_create_resource : resource_desc -> Z -> device_impl -> device_impl * Z * bool.
Variable invoke_init_resource : resource_desc -> Z -> Z -> device_impl -> device_impl.
Variable invoke_destroy_resource : Z -> device_impl -> device_impl.

(** [vkCreateBuffer]: the state, the result and [*pBuffer]. *)
Definition vkCreateBuffer (pCreateInfo : VkBufferCreateInfo) (d : device_impl)
    : device_impl * Z * Z :=
  let desc := convert_resource_desc pCreateInfo in
  let '(d1, replacement, handled) :=
    invoke_create_resource desc resource_usage_undefined d in
  if handled then (d1, VK_SUCCESS, replacement)
  else
    let '(result, buffer) := Vulkan.vkCreateBuffer drv (log d1) pCreateInfo in
    let d2 := emit [ev_vkCreateBuffer pCreateInfo result buffer] d1 in
    if bool_decide (result >= VK_SUCCESS) then
      (invoke_init_resource desc resource_usage_undefined buffer
         (register_buffer buffer pCreateInfo VK_NULL_HANDLE false d2),
       result, buffer)
    else (d2, result, buffer).

(** [vkDestroyBuffer]. *)
Definition vkDestroyBuffer (buffer : Z) (d : device_impl) : option device_impl :=
  data ← lookup_resource d buffer;
  if owned data then destroy_resource buffer d
  else
    let d1 := invoke_destroy_resource buffer d in
    Some (emit [ev_vkDestroyBuffer buffer] (VulkanDevice.unregister_buffer buffer d1)).

End Resources.

(** The element that the loop of [vkCreateRenderPass] (and of
    [vkCreateRenderPass2], which has the same body) pushes for one
    attachment. *)
Definition attachment_of (a : VkAttachmentDescription) : attachment :=
  let clear_flags := aspect_flags_from_format (att_format a) in
  let format_flags := clear_flags in
  let clear_flags :=
    if bool_decide (att_loadOp a ≠ VK_ATTACHMENT_LOAD_OP_CLEAR)
    then Z.land clear_flags
           (uint32 (Z.lnot (Z.lor VK_IMAGE_ASPECT_COLOR_BIT VK_IMAGE_ASPECT_DEPTH_BIT)))
    else clear_flags in
  let clear_flags :=
    if bool_decide (att_stencilLoadOp a ≠ VK_ATTACHMENT_LOAD_OP_CLEAR)
    then Z.land clear_flags (uint32 (Z.lnot VK_IMAGE_ASPECT_STENCIL_BIT))
    else clear_flags in
  {| initial_layout := att_initialLayout a; clear_flags := clear_flags;
     format_flags := format_flags |}.

(** [vkCreateRenderPass]; [result] and [pRenderPass] are what the next
    layer returned and wrote to [*pRenderPass]. *)
Definition vkCreateRenderPass (result pRenderPass : Z) (attachmentCount : Z)
    (pAttachments : list VkAttachmentDescription) (d : device_impl)
    : option (device_impl * Z) :=
  if bool_decide (result >= VK_SUCCESS) then
    renderpass_data ← for_range (Z.to_nat attachmentCount) 0
      (fun attachment attachments =>
         a ← vector_get pAttachments attachment;
         Some (attachments ++ [attachment_of a]))
      [];
    Some (VulkanDevice.register_render_pass pRenderPass {| attachments := renderpass_data |} d,
          result)
  else Some (d, result).

(** [vkCreateFramebuffer]; [result] and [pFramebuffer] are what the next
    layer returned and wrote to [*pFramebuffer]. *)
Definition vkCreateFramebuffer (result pFramebuffer : Z) (renderPass : Z)
    (attachmentCount : Z) (pAttachments : list Z) (d : device_impl)
    : option (device_impl * Z) :=
  if bool_decide (result >= VK_SUCCESS) then
    render_pass_info ← VulkanDevice.lookup_render_pass d renderPass;
    data ← for_range (Z.to_nat attachmentCount) 0
      (fun i data =>
         v ← vector_get pAttachments i;
         a ← vector_get (attachments render_pass_info) i;
         views ← vector_set (fbo_attachments data) i v;
         types ← vector_set (attachment_types data) i (format_flags a);
         Some {| fbo_attachments := views; attachment_types := types |})
      {| fbo_attachments := replicate (Z.to_nat attachmentCount) 0;
         attachment_types := replicate (Z.to_nat attachmentCount) 0 |};
    Some (VulkanDevice.register_framebuffer pFramebuffer data d, result)
  else Some (d, result).

(** [vkDestroyFramebuffer] and [vkDestroyRenderPass]: what they do to
    the device before they call the next layer. *)
Definition vkDestroyFramebuffer (framebuffer : Z) (d : device_impl) : device_impl :=
  VulkanDevice.unregister_framebuffer framebuffer d.

Definition vkDestroyRenderPass (renderPass : Z) (d : device_impl) : device_impl :=
  VulkanDevice.unregister_render_pass renderPass d.

End VulkanHooks.

(** * Concrete states and proof invariants *)

(** A device whose pass has surface [0x1000] bound as color target 0. *)
Definition d3d9_bound : D3D9.Direct3DDevice9 :=
  {| D3D9._current_pass := 0x5000;
     D3D9.current_pass := {| D3D9.rtv := [0x1000; 0; 0; 0; 0; 0; 0; 0]; D3D9.dsv := 0x2000 |};
     D3D9.events := [] |}.

(** The invariant of the copy loops: the source is untouched and the
    destination agrees with it on the slots [lo, hi). *)
Definition copied (S1 S2 : Z) (D1 : list Z) (ty : OpenGL.descriptor_type) (L2 : nat)
    (lo hi : Z) (d : OpenGL.device_impl) : Prop :=
  exists t1 t2,
    OpenGL.sets d !! S1 = Some t1 /\ OpenGL.sets d !! S2 = Some t2
    /\ OpenGL.descriptors t1 = D1 /\ OpenGL.set_type t2 = ty
    /\ length (OpenGL.descriptors t2) = L2
    /\ forall j, lo <= j < hi -> vector_get (OpenGL.descriptors t2) j = vector_get D1 j.

(** Two sampler-with-resource-view sets of four bindings each. *)
Definition gl_set_a : OpenGL.descriptor_set_impl :=
  {| OpenGL.set_type := OpenGL.sampler_with_resource_view;
     OpenGL.descriptors := [11; 12; 21; 22; 31; 32; 41; 42] |}.

Definition gl_set_b : OpenGL.descriptor_set_impl :=
  {| OpenGL.set_type := OpenGL.sampler_with_resource_view;
     OpenGL.descriptors := [0; 0; 0; 0; 0; 0; 0; 0] |}.

Definition gl_two_sets : OpenGL.device_impl :=
  {| OpenGL.layouts := ∅;
     OpenGL.sets := <[0x100 := gl_set_a]> (<[0x200 := gl_set_b]> ∅);
     OpenGL.pools := ∅;
     OpenGL.framebuffers := ∅;
     OpenGL._default_depth_format := 0;
     OpenGL.gl_log := [] |}.

(** A context whose default framebuffer has no depth buffer. *)
Definition gl_no_depth : OpenGL.device_impl :=
  {| OpenGL.layouts := ∅; OpenGL.sets := ∅; OpenGL.pools := ∅;
     OpenGL.framebuffers := ∅;
     OpenGL._default_depth_format := OpenGL.GL_NONE;
     OpenGL.gl_log := [] |}.

(** The commands that bring one query object into existence. *)
Definition init_calls (target : Z) (type : OpenGL.query_type) (q : Z) : list OpenGL.gl_call :=
  if decide (type = OpenGL.timestamp) then [OpenGL.glQueryCounter q OpenGL.GL_TIMESTAMP]
  else [OpenGL.glBeginQuery target q; OpenGL.glEndQuery target].

(** A driver and allocator that grant every request. *)
Definition vk_granting : Vulkan.driver :=
  {| Vulkan.vkCreateBuffer := fun _ _ => (Vulkan.VK_SUCCESS, 0x10);
     Vulkan.vmaCreateBuffer := fun _ _ _ => (Vulkan.VK_SUCCESS, 0x20, 0x21);
     Vulkan.vkCreateImage := fun _ _ => (Vulkan.VK_SUCCESS, 0x30);
     Vulkan.vmaCreateImage := fun _ _ _ => (Vulkan.VK_SUCCESS, 0x40, 0x41);
     Vulkan.vmaMapMemory := fun _ _ => (Vulkan.VK_SUCCESS, Some 0x50);
     Vulkan.vkCreateQueryPool := fun _ _ _ => (Vulkan.VK_SUCCESS, 0x70);
     Vulkan.vkCreateRenderPass := fun _ _ _ => (Vulkan.VK_SUCCESS, 0x80);
     Vulkan.vkCreateFramebuffer := fun _ _ _ => (Vulkan.VK_SUCCESS, 0x90);
     Vulkan.operator_new := fun _ => 0xA0 |}.

(** A device as its constructor leaves it: nothing registered and no
    queue yet (the hook creates the queues after the device). *)
Definition vk_fresh : Vulkan.device_impl :=
  {| Vulkan._resources := ∅; Vulkan._views := ∅;
     Vulkan._render_pass_list := ∅; Vulkan._framebuffer_list := ∅;
     Vulkan._queues := []; Vulkan.render_passes := ∅; Vulkan.log := [] |}.

(** The same device with one graphics queue. *)
Definition vk_one_queue : Vulkan.device_impl :=
  {| Vulkan._resources := ∅; Vulkan._views := ∅;
     Vulkan._render_pass_list := ∅; Vulkan._framebuffer_list := ∅;
     Vulkan._queues := [{| Vulkan.queue := 0x1; Vulkan.immediate_command_list := Some 0x2 |}];
     Vulkan.render_passes := ∅; Vulkan.log := [] |}.

(** An image the hook registered for the application: the abstraction
    made no allocation for it. *)
Definition vk_app_image : Vulkan.resource_data :=
  {| Vulkan.object := 0x30;
     Vulkan.create_info :=
       Vulkan.image_create_info
         {| Vulkan.image_format := 37; Vulkan.extent_width := 256; Vulkan.extent_height := 256;
            Vulkan.extent_depth := 1; Vulkan.mipLevels := 1; Vulkan.arrayLayers := 1;
            Vulkan.samples := 1; Vulkan.image_usage := 0x10 |};
     Vulkan.allocation := Vulkan.VK_NULL_HANDLE;
     Vulkan.owned := false |}.

Definition vk_with_app_image : Vulkan.device_impl :=
  {| Vulkan._resources := {[ 0x30 := vk_app_image ]}; Vulkan._views := ∅;
     Vulkan._render_pass_list := ∅; Vulkan._framebuffer_list := ∅;
     Vulkan._queues := []; Vulkan.render_passes := ∅; Vulkan.log := [] |}.

(** The two events that change the resource registry. *)
Definition is_registry_event (e : Vulkan.event) : bool :=
  match e with
  | Vulkan.ev_register_resource _ | Vulkan.ev_unregister_resource _ => true
  | _ => false
  end.

(** [d'] comes from [d] by steps that leave the registry and the queues
    alone. *)
Definition quiet (d d' : Vulkan.device_impl) : Prop :=
  Vulkan._resources d' = Vulkan._resources d
  /\ Vulkan._queues d' = Vulkan._queues d
  /\ exists evs, Vulkan.log d' = Vulkan.log d ++ evs
                 /\ Forall (fun e => is_registry_event e = false) evs.

(** The resource types the texture branch of [create_resource] takes. *)
Definition is_texture (t : Vulkan.resource_type) : bool :=
  match t with
  | Vulkan.type_texture_1d | Vulkan.type_texture_2d | Vulkan.type_texture_3d => true
  | _ => false
  end.

(** The two native calls that create an image. *)
Definition is_image_creation (e : Vulkan.event) : bool :=
  match e with
  | Vulkan.ev_vkCreateImage _ _ _ | Vulkan.ev_vmaCreateImage _ _ _ _ _ => true
  | _ => false
  end.

(** A driver that creates images but has no memory left for the
    staging buffer of an upload. *)
Definition vk_no_staging : Vulkan.driver :=
  {| Vulkan.vkCreateBuffer := fun _ _ => (Vulkan.VK_SUCCESS, 0x10);
     Vulkan.vmaCreateBuffer := fun _ _ _ => (Vulkan.VK_ERROR_OUT_OF_DEVICE_MEMORY, 0, 0);
     Vulkan.vkCreateImage := fun _ _ => (Vulkan.VK_SUCCESS, 0x30);
     Vulkan.vmaCreateImage := fun _ _ _ => (Vulkan.VK_SUCCESS, 0x40, 0x41);
     Vulkan.vmaMapMemory := fun _ _ => (Vulkan.VK_ERROR_MEMORY_MAP_FAILED, None);
     Vulkan.vkCreateQueryPool := fun _ _ _ => (Vulkan.VK_SUCCESS, 0x70);
     Vulkan.vkCreateRenderPass := fun _ _ _ => (Vulkan.VK_SUCCESS, 0x80);
     Vulkan.vkCreateFramebuffer := fun _ _ _ => (Vulkan.VK_SUCCESS, 0x90);
     Vulkan.operator_new := fun _ => 0xA0 |}.

Definition vk_buffer_info : Vulkan.VkBufferCreateInfo :=
  {| Vulkan.buffer_size := 64; Vulkan.buffer_usage := 0x20 |}.

Definition vk_image_info : Vulkan.VkImageCreateInfo :=
  {| Vulkan.image_format := 37; Vulkan.extent_width := 256; Vulkan.extent_height := 256;
     Vulkan.extent_depth := 1; Vulkan.mipLevels := 1; Vulkan.arrayLayers := 1;
     Vulkan.samples := 1; Vulkan.image_usage := 0x14 |}.

(** A 64-byte buffer and a 256x256 texture with one subresource, both
    in device-local memory. *)
Definition vk_buffer_desc : Vulkan.resource_desc :=
  {| Vulkan.desc_type := Vulkan.type_buffer; Vulkan.desc_heap := Vulkan.gpu_only;
     Vulkan.desc_usage := 0x1; Vulkan.texture_depth_or_layers := 0;
     Vulkan.texture_levels := 0 |}.

Definition vk_texture_desc : Vulkan.resource_desc :=
  {| Vulkan.desc_type := Vulkan.type_texture_2d; Vulkan.desc_heap := Vulkan.gpu_only;
     Vulkan.desc_usage := 0xC0; Vulkan.texture_depth_or_layers := 1;
     Vulkan.texture_levels := 1 |}.

Definition vk_pixels : Vulkan.subresource_data :=
  {| Vulkan.data := 0x7000; Vulkan.row_pitch := 1024; Vulkan.slice_pitch := 262144 |}.

(** A device with one render pass of two color attachments and a
    combined depth-stencil attachment. *)
Definition vk_with_pass : Vulkan.device_impl :=
  {| Vulkan._resources := ∅; Vulkan._views := ∅;
     Vulkan._render_pass_list :=
       {[ 0x80 := {| Vulkan.attachments :=
                       [ {| Vulkan.initial_layout := 2; Vulkan.clear_flags := 0;
                            Vulkan.format_flags := 1 |};
                         {| Vulkan.initial_layout := 2; Vulkan.clear_flags := 0;
                            Vulkan.format_flags := 1 |};
                         {| Vulkan.initial_layout := 3; Vulkan.clear_flags := 0;
                            Vulkan.format_flags := 6 |} ] |} ]};
     Vulkan._framebuffer_list :=
       {[ 0x90 := {| Vulkan.fbo_attachments := [0x501; 0x502; 0x503];
                     Vulkan.attachment_types := [1; 1; 6] |} ]};
     Vulkan._queues := [];
     Vulkan.render_passes :=
       {[ 0xA0 := {| Vulkan.fbo := 0x90; Vulkan.render_pass := 0x80;
                     Vulkan.render_area_width := 256; Vulkan.render_area_height := 256 |} ]};
     Vulkan.log := [] |}.

(** What the attachment loops of the Vulkan [create_render_pass] keep
    true of the two records they build: one view for each attachment,
    none of them null, at most [n] of them. *)
Definition builder_ok (n : nat) (b : Vulkan.pass_builder) : Prop :=
  length (Vulkan.attachments (Vulkan.pass_data b))
  = length (Vulkan.fbo_attachments (Vulkan.fbo_data b))
  /\ Forall (fun v => v ≠ 0) (Vulkan.fbo_attachments (Vulkan.fbo_data b))
  /\ (length (Vulkan.attachments (Vulkan.pass_data b)) <= n)%nat.

(** A texture and a view request whose format has no OpenGL counterpart. *)
Definition gl_texture_2d_5 : Z := Z.lor (Z.shiftl OpenGL.GL_TEXTURE_2D 40) 5.

Definition gl_view_desc_unknown_format : OpenGL.resource_view_desc :=
  {| OpenGL.view_type := OpenGL.view_texture_2d; OpenGL.view_format := 0;
     OpenGL.first_level := 0; OpenGL.view_levels := 1;
     OpenGL.first_layer := 0; OpenGL.view_layers := 1;
     OpenGL.buffer_offset := 0; OpenGL.buffer_size := 0 |}.

(** The render pass of framebuffer object 7 with one color attachment,
    and what the context answers about that framebuffer object: texture
    5 at [GL_COLOR_ATTACHMENT0], nothing at any other attachment point. *)
Definition gl_pass_color_only : Z := Z.lor (Z.shiftl 1 40) 7.

Definition gl_color_only_fbo (fbo attachment pname : Z) : Z :=
  if bool_decide (fbo = 7) && bool_decide (attachment = OpenGL.GL_COLOR_ATTACHMENT0) then
    if bool_decide (pname = OpenGL.GL_FRAMEBUFFER_ATTACHMENT_OBJECT_TYPE) then OpenGL.GL_TEXTURE
    else 5
  else OpenGL.GL_NONE.

(** A driver whose allocator creates every resource in device-local
    memory that cannot be mapped: [vmaMapMemory] fails and writes
    nothing. *)
Definition vk_unmappable : Vulkan.driver :=
  {| Vulkan.vkCreateBuffer := fun _ _ => (Vulkan.VK_SUCCESS, 0x10);
     Vulkan.vmaCreateBuffer := fun _ _ _ => (Vulkan.VK_SUCCESS, 0x20, 0x21);
     Vulkan.vkCreateImage := fun _ _ => (Vulkan.VK_SUCCESS, 0x30);
     Vulkan.vmaCreateImage := fun _ _ _ => (Vulkan.VK_SUCCESS, 0x40, 0x41);
     Vulkan.vmaMapMemory := fun _ _ => (Vulkan.VK_ERROR_MEMORY_MAP_FAILED, None);
     Vulkan.vkCreateQueryPool := fun _ _ _ => (Vulkan.VK_SUCCESS, 0x70);
     Vulkan.vkCreateRenderPass := fun _ _ _ => (Vulkan.VK_SUCCESS, 0x80);
     Vulkan.vkCreateFramebuffer := fun _ _ _ => (Vulkan.VK_SUCCESS, 0x90);
     Vulkan.operator_new := fun _ => 0xA0 |}.

(** A color image and a depth-stencil image of the application, with
    two views of the first and one of the second. *)
Definition vk_depth_image : Vulkan.resource_data :=
  {| Vulkan.object := 0x31;
     Vulkan.create_info :=
       Vulkan.image_create_info
         {| Vulkan.image_format := 130; Vulkan.extent_width := 256; Vulkan.extent_height := 128;
            Vulkan.extent_depth := 1; Vulkan.mipLevels := 1; Vulkan.arrayLayers := 1;
            Vulkan.samples := 1; Vulkan.image_usage := 0x20 |};
     Vulkan.allocation := Vulkan.VK_NULL_HANDLE;
     Vulkan.owned := false |}.

Definition vk_with_views : Vulkan.device_impl :=
  {| Vulkan._resources := {[ 0x30 := vk_app_image; 0x31 := vk_depth_image ]};
     Vulkan._views :=
       {[ 0x501 := {| Vulkan.view := 0x501; Vulkan.is_image_view := true;
                      Vulkan.view_resource := 0x30; Vulkan.view_owned := false |};
          0x502 := {| Vulkan.view := 0x502; Vulkan.is_image_view := true;
                      Vulkan.view_resource := 0x30; Vulkan.view_owned := false |};
          0x503 := {| Vulkan.view := 0x503; Vulkan.is_image_view := true;
                      Vulkan.view_resource := 0x31; Vulkan.view_owned := false |} ]};
     Vulkan._render_pass_list := ∅; Vulkan._framebuffer_list := ∅;
     Vulkan._queues := []; Vulkan.render_passes := ∅; Vulkan.log := [] |}.

(** Two color targets of format 37 and a depth-stencil target of
    format 130 ([VK_FORMAT_D32_SFLOAT_S8_UINT]). *)
Definition vk_pass_desc : Vulkan.render_pass_desc :=
  {| Vulkan.render_targets := [0x501; 0x502; 0; 0; 0; 0; 0; 0];
     Vulkan.render_targets_format := [37; 37; 0; 0; 0; 0; 0; 0];
     Vulkan.depth_stencil := 0x503;
     Vulkan.depth_stencil_format := 130 |}.

Definition color_attachment (convert_format : Z -> Z) (f : Z) : Vulkan.attachment :=
  {| Vulkan.initial_layout := Vulkan.VK_IMAGE_LAYOUT_COLOR_ATTACHMENT_OPTIMAL;
     Vulkan.clear_flags := 0;
     Vulkan.format_flags := Vulkan.aspect_flags_from_format (convert_format f) |}.

(** The depth-stencil attachment [create_render_pass] describes. *)
Definition depth_stencil_attachment (convert_format : Z -> Z) (desc : Vulkan.render_pass_desc)
    : Vulkan.attachment :=
  {| Vulkan.initial_layout := Vulkan.VK_IMAGE_LAYOUT_DEPTH_STENCIL_ATTACHMENT_OPTIMAL;
     Vulkan.clear_flags := 0;
     Vulkan.format_flags :=
       Vulkan.aspect_flags_from_format (convert_format (Vulkan.depth_stencil_format desc)) |}.

(** What a successful [create_render_pass] of the Vulkan backend leaves:
    [n] is the number of leading non-null render targets. *)
Definition created_pass (drv : Vulkan.driver) (convert_format : Z -> Z)
    (desc : Vulkan.render_pass_desc) (d d' : Vulkan.device_impl) (out : Z) (n : nat)
    (pass framebuffer : Z) : Prop :=
  let ds := bool_decide (Vulkan.depth_stencil desc ≠ 0) in
  let views := take n (Vulkan.render_targets desc)
               ++ (if ds then [Vulkan.depth_stencil desc] else []) in
  let fmts := take n (Vulkan.render_targets_format desc) in
  (n <= 8)%nat
  /\ length (take n (Vulkan.render_targets desc)) = n
  /\ length fmts = n
  /\ Forall (fun v => v ≠ 0) (take n (Vulkan.render_targets desc))
  /\ ((n < 8)%nat -> Vulkan.render_targets desc !! n = Some 0)
  /\ (exists l f c, pass = snd (Vulkan.vkCreateRenderPass drv l f c))
  /\ (exists l p v, framebuffer = snd (Vulkan.vkCreateFramebuffer drv l p v))
  /\ (exists l, out = Vulkan.operator_new drv l)
  /\ Vulkan._resources d' = Vulkan._resources d
  /\ Vulkan._views d' = Vulkan._views d
  /\ Vulkan._queues d' = Vulkan._queues d
  /\ (exists w h, Vulkan.render_passes d'
       = <[out := {| Vulkan.fbo := framebuffer; Vulkan.render_pass := pass;
                     Vulkan.render_area_width := w; Vulkan.render_area_height := h |}]>
           (Vulkan.render_passes d))
  /\ (exists pd, Vulkan._render_pass_list d' = Vulkan.emplace pass pd (Vulkan._render_pass_list d)
        /\ Vulkan.attachments pd
           = map (color_attachment convert_format) fmts
             ++ (if ds then [depth_stencil_attachment convert_format desc] else []))
  /\ (exists fd, Vulkan._framebuffer_list d'
                 = Vulkan.emplace framebuffer fd (Vulkan._framebuffer_list d)
        /\ Vulkan.fbo_attachments fd = views
        /\ Vulkan.attachment_types fd
           = replicate n Vulkan.VK_IMAGE_ASPECT_COLOR_BIT
             ++ (if ds then [Vulkan.aspect_flags_from_format
                               (convert_format (Vulkan.depth_stencil_format desc))] else []))
  /\ (exists fs w h layers,
        Vulkan.log d'
        = Vulkan.log d
          ++ [Vulkan.ev_vkCreateRenderPass fs (Z.of_nat n) Vulkan.VK_SUCCESS pass;
              Vulkan.ev_vkCreateFramebuffer pass views w h layers Vulkan.VK_SUCCESS framebuffer]).

(** The events that begin or end the life of a buffer. *)
Definition is_buffer_lifetime_event (e : Vulkan.event) : bool :=
  match e with
  | Vulkan.ev_vkCreateBuffer _ _ _ | Vulkan.ev_vmaCreateBuffer _ _ _ _ _
  | Vulkan.ev_vkDestroyBuffer _ | Vulkan.ev_vmaDestroyBuffer _ _ => true
  | _ => false
  end.

(** A device with one image of three mip levels and four array layers. *)
Definition vk_with_mip_array : Vulkan.device_impl :=
  {| Vulkan._resources :=
       {[ 0x32 := {| Vulkan.object := 0x32;
                     Vulkan.create_info :=
                       Vulkan.image_create_info
                         {| Vulkan.image_format := 37; Vulkan.extent_width := 64;
                            Vulkan.extent_height := 64; Vulkan.extent_depth := 1;
                            Vulkan.mipLevels := 3; Vulkan.arrayLayers := 4;
                            Vulkan.samples := 1; Vulkan.image_usage := 0x4 |};
                     Vulkan.allocation := Vulkan.VK_NULL_HANDLE;
                     Vulkan.owned := false |} ]};
     Vulkan._views := ∅;
     Vulkan._render_pass_list := ∅; Vulkan._framebuffer_list := ∅;
     Vulkan._queues := []; Vulkan.render_passes := ∅; Vulkan.log := [] |}.

(** Sample values for the enumerators of [api::format] and
    [api::resource_usage] that the Vulkan view and pipeline functions
    compare with. *)
Definition vk_api_values : VulkanDevice.api_enumerators :=
  {| VulkanDevice.a8_unorm := 65;
     VulkanDevice.r8g8b8x8_unorm := 1001;
     VulkanDevice.r8g8b8x8_unorm_srgb := 1002;
     VulkanDevice.b8g8r8x8_unorm := 88;
     VulkanDevice.b8g8r8x8_unorm_srgb := 93;
     VulkanDevice.b5g5r5x1_unorm := 1003;
     VulkanDevice.x24_unorm_g8_uint := 47;
     VulkanDevice.x32_float_g8_uint := 22;
     VulkanDevice.format_unknown := 0;
     VulkanDevice.shader_resource := 0x40 |}.

(** A dispatch table that grants every request, with a counter for
    shader modules: the [k]-th call of the device yields module
    [0x700 + k]. *)
Definition vk_dispatch : VulkanDevice.dispatch_table :=
  {| VulkanDevice.CreateImageView := fun _ _ => (Vulkan.VK_SUCCESS, 0x510);
     VulkanDevice.CreateBufferView := fun _ _ => (Vulkan.VK_SUCCESS, 0x520);
     VulkanDevice.CreateDescriptorSetLayout := fun _ _ => (Vulkan.VK_SUCCESS, 0x600);
     VulkanDevice.CreatePipelineLayout := fun _ _ _ => (Vulkan.VK_SUCCESS, 0x610);
     VulkanDevice.CreateShaderModule :=
       fun calls _ _ _ => (Vulkan.VK_SUCCESS, 0x700 + Z.of_nat (length calls));
     VulkanDevice.CreateComputePipelines := fun _ _ _ _ => (Vulkan.VK_SUCCESS, 0x800);
     VulkanDevice.CreateGraphicsPipelines := fun _ _ => (Vulkan.VK_SUCCESS, 0x810) |}.

(** A dispatch table of a driver that is out of memory. *)
Definition vk_dispatch_failing : VulkanDevice.dispatch_table :=
  {| VulkanDevice.CreateImageView := fun _ _ => (Vulkan.VK_ERROR_OUT_OF_DEVICE_MEMORY, 0);
     VulkanDevice.CreateBufferView := fun _ _ => (Vulkan.VK_ERROR_OUT_OF_DEVICE_MEMORY, 0);
     VulkanDevice.CreateDescriptorSetLayout :=
       fun _ _ => (Vulkan.VK_ERROR_OUT_OF_DEVICE_MEMORY, 0);
     VulkanDevice.CreatePipelineLayout := fun _ _ _ => (Vulkan.VK_ERROR_OUT_OF_DEVICE_MEMORY, 0);
     VulkanDevice.CreateShaderModule :=
       fun calls _ _ _ =>
         if bool_decide (length calls = 0%nat) then (Vulkan.VK_SUCCESS, 0x700)
         else (Vulkan.VK_ERROR_OUT_OF_DEVICE_MEMORY, 0);
     VulkanDevice.CreateComputePipelines :=
       fun _ _ _ _ => (Vulkan.VK_ERROR_OUT_OF_DEVICE_MEMORY, 0);
     VulkanDevice.CreateGraphicsPipelines := fun _ _ => (Vulkan.VK_ERROR_OUT_OF_DEVICE_MEMORY, 0) |}.

(** A Vulkan device around [impl] without the push-descriptor
    extension, with four transient pools, that has not made a call yet. *)
Definition vk_device (impl : Vulkan.device_impl) : VulkanDevice.device :=
  {| VulkanDevice.impl := impl;
     VulkanDevice._pipeline_layout_list := ∅;
     VulkanDevice._transient_descriptor_pool := [0xD0; 0xD1; 0xD2; 0xD3];
     VulkanDevice._transient_index := 0;
     VulkanDevice.CmdPushDescriptorSetKHR := false;
     VulkanDevice.calls := [] |}.

(** What the overloads of [convert_resource_view_desc] are taken to be
    in the examples: the format is kept, everything else is zero. *)
Definition vk_convert_image_view (desc : OpenGL.resource_view_desc)
    : VulkanDevice.VkImageViewCreateInfo :=
  {| VulkanDevice.iv_image := 0; VulkanDevice.iv_format := OpenGL.view_format desc;
     VulkanDevice.iv_aspectMask := 0; VulkanDevice.iv_components := [] |}.

Definition vk_convert_buffer_view (desc : OpenGL.resource_view_desc)
    : VulkanDevice.VkBufferViewCreateInfo :=
  {| VulkanDevice.bv_buffer := 0; VulkanDevice.bv_format := OpenGL.view_format desc;
     VulkanDevice.bv_offset := OpenGL.buffer_offset desc;
     VulkanDevice.bv_range := OpenGL.buffer_size desc |}.

Definition vk_view_desc : OpenGL.resource_view_desc :=
  {| OpenGL.view_type := OpenGL.view_texture_2d; OpenGL.view_format := 37;
     OpenGL.first_level := 0; OpenGL.view_levels := 1;
     OpenGL.first_layer := 0; OpenGL.view_layers := 1;
     OpenGL.buffer_offset := 0; OpenGL.buffer_size := 0 |}.



(** A pipeline layout of three descriptor sets, the last two left
    null, and one range of push constants. *)
Definition vk_layout_desc : VulkanDevice.pipeline_layout_desc :=
  {| VulkanDevice.num_set_layouts := 3;
     VulkanDevice.set_layouts := [0x601; 0; 0];
     VulkanDevice.num_constant_ranges := 1;
     VulkanDevice.constant_ranges :=
       [{| VulkanDevice.range_offset := 0; VulkanDevice.range_count := 4;
           VulkanDevice.range_visibility := 0x10 |}] |}.

(** The shader modules that a sequence of calls has created. *)
Definition created_modules (cs : list VulkanDevice.call) : list Z :=
  flat_map (fun c => match c with
                     | VulkanDevice.ev_vkCreateShaderModule _ _ _ result module =>
                         if bool_decide (result = Vulkan.VK_SUCCESS) then [module] else []
                     | _ => []
                     end) cs.

Definition is_module_creation (c : VulkanDevice.call) : bool :=
  match c with
  | VulkanDevice.ev_vkCreateShaderModule _ _ _ _ _ => true
  | _ => false
  end.

(** A graphics pipeline with a vertex and a pixel shader, one dynamic
    state, and two vertex attributes that share buffer binding 0 with
    the same stride. *)
Definition vk_no_shader : VulkanDevice.shader_desc :=
  {| VulkanDevice.code := 0; VulkanDevice.code_size := 0 |}.

Definition vk_no_element : VulkanDevice.input_layout_element :=
  {| VulkanDevice.location := 0; VulkanDevice.element_format := 0;
     VulkanDevice.buffer_binding := 0; VulkanDevice.offset := 0;
     VulkanDevice.stride := 0; VulkanDevice.instance_step_rate := 0 |}.

Definition vk_pipeline_desc : VulkanDevice.pipeline_desc :=
  {| VulkanDevice.pipeline_type := VulkanDevice.all_graphics;
     VulkanDevice.layout := 0x610;
     VulkanDevice.compute_shader := vk_no_shader;
     VulkanDevice.vertex_shader :=
       {| VulkanDevice.code := 0x9000; VulkanDevice.code_size := 100 |};
     VulkanDevice.hull_shader := vk_no_shader;
     VulkanDevice.domain_shader := vk_no_shader;
     VulkanDevice.geometry_shader := vk_no_shader;
     VulkanDevice.pixel_shader :=
       {| VulkanDevice.code := 0x9100; VulkanDevice.code_size := 200 |};
     VulkanDevice.dynamic_states :=
       [VulkanDevice.blend_constant; VulkanDevice.dynamic_state_unknown];
     VulkanDevice.input_layout :=
       {| VulkanDevice.location := 0; VulkanDevice.element_format := 6;
          VulkanDevice.buffer_binding := 0; VulkanDevice.offset := 0;
          VulkanDevice.stride := 20; VulkanDevice.instance_step_rate := 0 |}
       :: {| VulkanDevice.location := 1; VulkanDevice.element_format := 16;
             VulkanDevice.buffer_binding := 0; VulkanDevice.offset := 12;
             VulkanDevice.stride := 20; VulkanDevice.instance_step_rate := 0 |}
       :: replicate 14 vk_no_element;
     VulkanDevice.render_pass_template := 0xA0 |}.

(** The vertex binding and the vertex attribute that
    [create_graphics_pipeline] derives from an input-layout element. *)
Definition binding_of (e : VulkanDevice.input_layout_element)
    : VulkanDevice.VkVertexInputBindingDescription :=
  {| VulkanDevice.vib_binding := VulkanDevice.buffer_binding e;
     VulkanDevice.vib_stride := VulkanDevice.stride e;
     VulkanDevice.vib_inputRate :=
       if bool_decide (VulkanDevice.instance_step_rate e > 0)
       then VulkanDevice.VK_VERTEX_INPUT_RATE_INSTANCE
       else VulkanDevice.VK_VERTEX_INPUT_RATE_VERTEX |}.

Definition attribute_of (convert_format : Z -> Z) (e : VulkanDevice.input_layout_element)
    : VulkanDevice.VkVertexInputAttributeDescription :=
  {| VulkanDevice.via_location := VulkanDevice.location e;
     VulkanDevice.via_binding := VulkanDevice.buffer_binding e;
     VulkanDevice.via_format := convert_format (VulkanDevice.element_format e);
     VulkanDevice.via_offset := VulkanDevice.offset e |}.

(** What the loop over the input layout keeps true after [i] elements:
    the binding numbers are distinct, the attributes are those of the
    elements seen, every element seen has its binding in the list, and
    every binding in the list is that of an element seen. *)
Definition input_layout_inv (convert_format : Z -> Z)
    (elements : list VulkanDevice.input_layout_element) (i : nat)
    (vertex_bindings : list VulkanDevice.VkVertexInputBindingDescription)
    (vertex_attributes : list VulkanDevice.VkVertexInputAttributeDescription) : Prop :=
  NoDup (map VulkanDevice.vib_binding vertex_bindings)
  /\ vertex_attributes = map (attribute_of convert_format) (take i elements)
  /\ length (take i elements) = i
  /\ (forall e, e ∈ take i elements -> binding_of e ∈ vertex_bindings)
  /\ (forall b, b ∈ vertex_bindings ->
        exists (k : nat) e, (k < i)%nat /\ elements !! k = Some e /\ b = binding_of e).

(** The create info that the driver gets for [vk_pipeline_desc] on the
    device with pass [0xA0]. *)
Definition vk_pipeline_create_info : VulkanDevice.VkGraphicsPipelineCreateInfo :=
  {| VulkanDevice.gp_layout := 0x610;
     VulkanDevice.gp_stages := [(0x1, 0x700); (0x10, 0x701)];
     VulkanDevice.gp_dynamic_states := [1; 0; 4];
     VulkanDevice.gp_vertex_bindings :=
       [{| VulkanDevice.vib_binding := 0; VulkanDevice.vib_stride := 20;
           VulkanDevice.vib_inputRate := 0 |}];
     VulkanDevice.gp_vertex_attributes :=
       [{| VulkanDevice.via_location := 0; VulkanDevice.via_binding := 0;
           VulkanDevice.via_format := 6; VulkanDevice.via_offset := 0 |};
        {| VulkanDevice.via_location := 1; VulkanDevice.via_binding := 0;
           VulkanDevice.via_format := 16; VulkanDevice.via_offset := 12 |}];
     VulkanDevice.gp_attachmentCount := 2;
     VulkanDevice.gp_renderPass := 0x80 |}.

(** [n] calls of [advance_transient_descriptor_pool] in a row. *)
Fixpoint advance_times (n : nat) (s : VulkanDevice.device) : option VulkanDevice.device :=
  match n with
  | O => Some s
  | S n' =>
      s1 ← VulkanDevice.advance_transient_descriptor_pool s;
      advance_times n' s1
  end.

(** The pool that the [k]-th advance after index [index] resets. *)
Definition pool_after (pools : list Z) (index : Z) (k : nat) : Z :=
  default 0 (pools !! Z.to_nat ((index + Z.of_nat k) mod 4)).

(** A device whose transient index is two steps before the wrap-around
    of its 32-bit counter. *)
Definition vk_device_near_wrap : VulkanDevice.device :=
  {| VulkanDevice.impl := vk_fresh;
     VulkanDevice._pipeline_layout_list := ∅;
     VulkanDevice._transient_descriptor_pool := [0xD0; 0xD1; 0xD2; 0xD3];
     VulkanDevice._transient_index := 2 ^ 32 - 2;
     VulkanDevice.CmdPushDescriptorSetKHR := false;
     VulkanDevice.calls := [] |}.

(** A call of one of the two attachment-binding hooks of Direct3D 9,
    with what the native call returned. *)
Inductive d3d9_call : Type :=
| call_SetRenderTarget (hr RenderTargetIndex pRenderTarget : Z)
| call_SetDepthStencilSurface (hr pNewZStencil : Z).

Definition d3d9_step (GetDesc : Z -> Z * Z) (c : d3d9_call) (dev : D3D9.Direct3DDevice9)
    : option D3D9.Direct3DDevice9 :=
  match c with
  | call_SetRenderTarget hr i p => fst <$> D3D9.SetRenderTarget GetDesc hr i p dev
  | call_SetDepthStencilSurface hr p => Some (fst (D3D9.SetDepthStencilSurface hr p dev))
  end.

(** The calls of a list, one after the other. *)
Fixpoint d3d9_run (GetDesc : Z -> Z * Z) (cs : list d3d9_call) (dev : D3D9.Direct3DDevice9)
    : option D3D9.Direct3DDevice9 :=
  match cs with
  | [] => Some dev
  | c :: cs' =>
      match d3d9_step GetDesc c dev with
      | Some dev' => d3d9_run GetDesc cs' dev'
      | None => None
      end
  end.

Definition is_pass_event (e : D3D9.addon_event) : bool :=
  match e with
  | D3D9.finish_render_pass | D3D9.begin_render_pass _ => true
  | D3D9.bind_viewports _ _ _ _ => false
  end.

(** A call that, where the native call succeeded, names one of the
    eight color slots and does not put a null target in slot 0. *)
Definition d3d9_in_range (c : d3d9_call) : Prop :=
  match c with
  | call_SetRenderTarget hr i p =>
      D3D9.SUCCEEDED hr = true -> 0 <= i < 8 /\ (i = 0 -> p ≠ 0)
  | call_SetDepthStencilSurface _ _ => True
  end.

(** The device has its eight color slots and a target in slot 0. *)
Definition d3d9_target_bound (dev : D3D9.Direct3DDevice9) : Prop :=
  length (D3D9.rtv (D3D9.current_pass dev)) = 8%nat
  /\ exists p, D3D9.rtv (D3D9.current_pass dev) !! 0%nat = Some p /\ p ≠ 0.

(** [k] times a [finish_render_pass] followed by a [begin_render_pass]
    of the pass object at [pass]. *)
Fixpoint pass_pairs (k : nat) (pass : Z) : list D3D9.addon_event :=
  match k with
  | O => []
  | S k' => D3D9.finish_render_pass :: D3D9.begin_render_pass pass :: pass_pairs k' pass
  end.





(** The handle layout of the OpenGL backend, as the accessors of the
    embedded functions read it: the target or the count from bit 40,
    the flags in bits 32 to 39, the object name in the low 32 bits. *)
Definition gl_pack (high low flags : Z) : Z :=
  Z.lor (Z.shiftl high 40) (Z.lor (Z.shiftl flags 32) low).


(** A 2D-array view of a 2D texture in a format with an OpenGL
    counterpart. *)
Definition gl_view_desc_array : OpenGL.resource_view_desc :=
  {| OpenGL.view_type := OpenGL.view_texture_2d_array; OpenGL.view_format := 28;
     OpenGL.first_level := 0; OpenGL.view_levels := 1;
     OpenGL.first_layer := 0; OpenGL.view_layers := 1;
     OpenGL.buffer_offset := 0; OpenGL.buffer_size := 0 |}.

(** An add-on sink without add-ons: no callback runs, nothing is
    replaced. *)
Definition no_create_resource (desc : Vulkan.resource_desc) (initial_state : Z)
    (d : Vulkan.device_impl) : Vulkan.device_impl * Z * bool := (d, 0, false).

Definition no_init_resource (desc : Vulkan.resource_desc) (initial_state : Z) (handle : Z)
    (d : Vulkan.device_impl) : Vulkan.device_impl := d.

Definition no_destroy_resource (handle : Z) (d : Vulkan.device_impl) : Vulkan.device_impl := d.

(** A conversion of buffer create infos for the examples: only the
    usage is kept. *)
Definition vk_hook_desc (info : Vulkan.VkBufferCreateInfo) : Vulkan.resource_desc :=
  {| Vulkan.desc_type := Vulkan.type_buffer; Vulkan.desc_heap := Vulkan.heap_unknown;
     Vulkan.desc_usage := Vulkan.buffer_usage info;
     Vulkan.texture_depth_or_layers := 0; Vulkan.texture_levels := 0 |}.


(** The views of a framebuffer whose render-pass attachment has a
    format with one of the aspects of [type], in declaration order. *)
Fixpoint views_of_aspect (descs : list VulkanHooks.VkAttachmentDescription) (views : list Z)
    (type : Z) : list Z :=
  match descs, views with
  | a :: descs', v :: views' =>
      if bool_decide (Z.land (Vulkan.aspect_flags_from_format (VulkanHooks.att_format a))
                        (uint32 type) ≠ 0)
      then v :: views_of_aspect descs' views' type
      else views_of_aspect descs' views' type
  | _, _ => []
  end.

(** A render pass of the application with two color attachments, the
    second one loaded rather than cleared, and a depth-stencil
    attachment. *)
Definition vk_app_attachments : list VulkanHooks.VkAttachmentDescription :=
  [ {| VulkanHooks.att_format := 37; VulkanHooks.att_loadOp := 1;
       VulkanHooks.att_stencilLoadOp := 2; VulkanHooks.att_initialLayout := 0 |};
    {| VulkanHooks.att_format := 44; VulkanHooks.att_loadOp := 0;
       VulkanHooks.att_stencilLoadOp := 2; VulkanHooks.att_initialLayout := 2 |};
    {| VulkanHooks.att_format := 129; VulkanHooks.att_loadOp := 1;
       VulkanHooks.att_stencilLoadOp := 1; VulkanHooks.att_initialLayout := 0 |} ].

(** A device on which the command list has made a pass object for the
    application's render pass [0x80] and framebuffer [0x90]. *)
Definition vk_app_pass : Vulkan.device_impl :=
  {| Vulkan._resources := ∅; Vulkan._views := ∅;
     Vulkan._render_pass_list := ∅; Vulkan._framebuffer_list := ∅;
     Vulkan._queues := [];
     Vulkan.render_passes :=
       {[ 0xA0 := {| Vulkan.fbo := 0x90; Vulkan.render_pass := 0x80;
                     Vulkan.render_area_width := 640; Vulkan.render_area_height := 480 |} ]};
     Vulkan.log := [] |}.


(** * Properties *)

(** ** Conversions of the fixed-width layer *)

(** [static_cast<float>] is exact on the integers below [2^24], the
    sizes a Direct3D 9 surface can have among them; above, it rounds to
    even. *)
Lemma static_cast_float_exact (n : Z) : n < 2 ^ 24 -> static_cast_float n = n.
Proof.
  intros Hn. unfold static_cast_float.
  destruct (Z.ltb_spec (Z.log2 n) 24) as [_|He]; [reflexivity|].
  exfalso. destruct (Z.le_gt_cases n 0) as [H0|H0].
  - rewrite Z.log2_nonpos in He by exact H0. lia.
  - apply Z.log2_le_pow2 in He; lia.
Qed.

Lemma static_cast_float_rounds :
  static_cast_float (2 ^ 24 + 1) = 2 ^ 24 /\ static_cast_float (2 ^ 24 + 3) = 2 ^ 24 + 4
  /\ static_cast_float (2 ^ 32 - 1) = 2 ^ 32.
Proof. repeat split; reflexivity. Qed.

(** [static_cast<GLsizeiptr>] keeps a size below [2^63] and turns the
    all-ones size into -1. *)
Lemma int64_small (z : Z) : 0 <= z < 2 ^ 63 -> int64 z = z.
Proof. intros Hz. unfold int64. rewrite Z.mod_small by lia. lia. Qed.

Lemma int64_all_ones : int64 (2 ^ 64 - 1) = -1.
Proof. reflexivity. Qed.

(** ** Render-pass emulation of the Direct3D 9 hooks *)

(** Rebinding the depth-stencil surface that is already bound changes
    nothing and raises no event: the hook compares before it notifies. *)
Lemma SetDepthStencilSurface_same (hr : Z) (dev : D3D9.Direct3DDevice9) :
  D3D9.SetDepthStencilSurface hr (D3D9.dsv (D3D9.current_pass dev)) dev = (dev, hr).
Proof.
  unfold D3D9.SetDepthStencilSurface.
  rewrite (bool_decide_eq_false_2 (_ ≠ _)) by (intros H; apply H; reflexivity).
  rewrite andb_false_r. reflexivity.
Qed.

(** Binding a different depth-stencil surface closes the pass and opens
    a new one. *)
Lemma SetDepthStencilSurface_other (hr p : Z) (dev : D3D9.Direct3DDevice9) :
  D3D9.SUCCEEDED hr = true -> p ≠ D3D9.dsv (D3D9.current_pass dev) ->
  D3D9.events (fst (D3D9.SetDepthStencilSurface hr p dev))
  = D3D9.events dev ++ [D3D9.finish_render_pass; D3D9.begin_render_pass (D3D9._current_pass dev)]
  /\ D3D9.dsv (D3D9.current_pass (fst (D3D9.SetDepthStencilSurface hr p dev))) = p.
Proof.
  intros Hhr Hp. unfold D3D9.SetDepthStencilSurface.
  rewrite Hhr, (bool_decide_eq_true_2 _ Hp). simpl.
  rewrite <- app_assoc. split; reflexivity.
Qed.

(** Rebinding the color target that is already bound at index 0 raises
    [finish_render_pass] and [begin_render_pass] again: the color hook
    tests the old and the new target against null only, never against
    each other. *)
Lemma SetRenderTarget_same (GetDesc : Z -> Z * Z) (hr rt : Z) (dev : D3D9.Direct3DDevice9) :
  D3D9.SUCCEEDED hr = true -> rt ≠ 0 ->
  vector_get (D3D9.rtv (D3D9.current_pass dev)) 0 = Some rt ->
  exists dev',
    D3D9.SetRenderTarget GetDesc hr 0 rt dev = Some (dev', hr)
    /\ D3D9.current_pass dev' = D3D9.current_pass dev
    /\ D3D9.emitted dev dev'
       = [D3D9.finish_render_pass; D3D9.begin_render_pass (D3D9._current_pass dev);
          D3D9.bind_viewports 0 1 (static_cast_float (fst (GetDesc rt)))
            (static_cast_float (snd (GetDesc rt)))].
Proof.
  intros Hhr Hrt Hget. unfold D3D9.SetRenderTarget. rewrite Hhr, Hget. simpl.
  rewrite !(bool_decide_eq_true_2 _ Hrt).
  unfold D3D9.set_rtv, vector_set. simpl.
  unfold vector_get in Hget. simpl in Hget.
  destruct (D3D9.rtv (D3D9.current_pass dev)) as [|r0 rest] eqn:Hrtv; [discriminate|].
  simpl in Hget. injection Hget as ->.
  rewrite decide_True by (simpl; lia). simpl.
  eexists. split; [reflexivity|]. split.
  - simpl. destruct dev as [a [r dz] e]. simpl in *. subst. reflexivity.
  - unfold D3D9.emitted. simpl. rewrite <- !app_assoc. rewrite drop_app_length. reflexivity.
Qed.

(** C1, on the code: with surface [0x1000] bound as color target 0,
    binding [0x1000] again (no other bind in between, the native call
    succeeding) leaves the bound set as it was and still raises a
    [finish_render_pass] / [begin_render_pass] pair; the same redundant
    rebind of the depth-stencil surface raises nothing. *)
Theorem d3d9_rebind_same_color_target_raises_pass_pair :
  D3D9.SetRenderTarget (fun _ => (640, 480)) D3D9.D3D_OK 0 0x1000 d3d9_bound
  = Some ({| D3D9._current_pass := 0x5000;
             D3D9.current_pass := D3D9.current_pass d3d9_bound;
             D3D9.events := [D3D9.finish_render_pass; D3D9.begin_render_pass 0x5000;
                             D3D9.bind_viewports 0 1 640 480] |}, D3D9.D3D_OK)
  /\ D3D9.SetDepthStencilSurface D3D9.D3D_OK 0x2000 d3d9_bound = (d3d9_bound, D3D9.D3D_OK).
Proof. split; reflexivity. Qed.

(** ** Emulated descriptor sets of the OpenGL backend *)

Lemma sets_with_sets f d : OpenGL.sets (OpenGL.with_sets f d) = f (OpenGL.sets d).
Proof. reflexivity. Qed.

Lemma store_descriptor_Some (set i v : Z) (d : OpenGL.device_impl) (s : OpenGL.descriptor_set_impl) :
  OpenGL.sets d !! set = Some s ->
  0 <= i < Z.of_nat (length (OpenGL.descriptors s)) ->
  OpenGL.store_descriptor set i v d
  = Some (OpenGL.with_sets
            (insert set {| OpenGL.set_type := OpenGL.set_type s;
                           OpenGL.descriptors := <[Z.to_nat i := v]> (OpenGL.descriptors s) |}) d).
Proof.
  intros Hs Hi. unfold OpenGL.store_descriptor, vector_set. rewrite Hs. simpl.
  rewrite decide_True by assumption. reflexivity.
Qed.

(** C7: a layout with one sampler-with-resource-view range of count 4,
    one set allocated from it, binding 2 written with sampler [s] and
    view [v]: the set holds exactly [s] and [v] at binding 2, and
    bindings 0, 1 and 3 still hold the zero they were created with. *)
Theorem opengl_write_binding_2_of_4 (d : OpenGL.device_impl) (p_layout p_set b s v r : Z) :
  let desc :=
    {| OpenGL.num_ranges := 1;
       OpenGL.ranges := [{| OpenGL.range_binding := b;
                            OpenGL.range_type := OpenGL.sampler_with_resource_view;
                            OpenGL.range_count := 4 |}] |} in
  let write :=
    {| OpenGL.write_set := p_set; OpenGL.write_binding := 2;
       OpenGL.write_type := OpenGL.sampler_with_resource_view;
       OpenGL.write_sampler := s; OpenGL.write_view := v; OpenGL.write_resource := r |} in
  exists d1 d2 d3 set,
    OpenGL.create_descriptor_set_layout p_layout desc d = Some (d1, p_layout, true)
    /\ OpenGL.create_descriptor_sets (fun _ => p_set) p_layout 1 d1 = Some (d2, [p_set], true)
    /\ OpenGL.sets d2 !! p_set
       = Some {| OpenGL.set_type := OpenGL.sampler_with_resource_view;
                 OpenGL.descriptors := [0; 0; 0; 0; 0; 0; 0; 0] |}
    /\ OpenGL.update_descriptor_sets [write] [] d2 = Some d3
    /\ OpenGL.sets d3 !! p_set = Some set
    /\ OpenGL.descriptors set = [0; 0; 0; 0; s; v; 0; 0]
    /\ OpenGL.read_binding set 2 = Some (s, Some v)
    /\ OpenGL.read_binding set 0 = Some (0, Some 0)
    /\ OpenGL.read_binding set 1 = Some (0, Some 0)
    /\ OpenGL.read_binding set 3 = Some (0, Some 0).
Proof.
  intros desc write.
  set (set0 := {| OpenGL.set_type := OpenGL.sampler_with_resource_view;
                  OpenGL.descriptors := [0; 0; 0; 0; 0; 0; 0; 0] |}).
  set (d1 := OpenGL.with_layouts
               (insert p_layout {| OpenGL.range := {| OpenGL.range_binding := b;
                    OpenGL.range_type := OpenGL.sampler_with_resource_view;
                    OpenGL.range_count := 4 |} |}) d).
  set (d2 := OpenGL.with_sets (insert p_set set0) d1).
  assert (H2 : OpenGL.sets d2 !! p_set = Some set0) by apply lookup_insert_eq.
  assert (Hc : OpenGL.create_descriptor_sets (fun _ => p_set) p_layout 1 d1
               = Some (d2, [p_set], true)).
  { unfold OpenGL.create_descriptor_sets.
    replace (OpenGL.layouts d1 !! p_layout)
      with (Some {| OpenGL.range := {| OpenGL.range_binding := b;
                    OpenGL.range_type := OpenGL.sampler_with_resource_view;
                    OpenGL.range_count := 4 |} |})
      by (symmetry; apply lookup_insert_eq).
    reflexivity. }
  set (set1 := {| OpenGL.set_type := OpenGL.sampler_with_resource_view;
                  OpenGL.descriptors := [0; 0; 0; 0; s; 0; 0; 0] |}).
  set (set2 := {| OpenGL.set_type := OpenGL.sampler_with_resource_view;
                  OpenGL.descriptors := [0; 0; 0; 0; s; v; 0; 0] |}).
  set (d3a := OpenGL.with_sets (insert p_set set1) d2).
  set (d3 := OpenGL.with_sets (insert p_set set2) d3a).
  assert (H3a : OpenGL.sets d3a !! p_set = Some set1) by apply lookup_insert_eq.
  assert (Hu : OpenGL.update_descriptor_sets [write] [] d2 = Some d3).
  { unfold OpenGL.update_descriptor_sets, OpenGL.foldM, OpenGL.apply_write. simpl.
    change (uint32 (uint32 (2 * 2) + 0)) with 4.
    change (uint32 (uint32 (2 * 2) + 1)) with 5.
    rewrite (store_descriptor_Some p_set 4 s d2 set0 H2) by (simpl; lia). simpl.
    fold set1. fold d3a.
    rewrite (store_descriptor_Some p_set 5 v d3a set1 H3a) by (simpl; lia). reflexivity. }
  exists d1, d2, d3, set2.
  repeat split; try assumption; try reflexivity.
  apply lookup_insert_eq.
Qed.

(** *** Copies *)

Lemma uint32_small (z : Z) : 0 <= z < 2 ^ 32 -> uint32 z = z.
Proof. intros H. unfold uint32. apply Z.mod_small. exact H. Qed.

(** A loop whose counter stays below [2^32] carries an invariant. *)
Lemma for_range_invariant {St : Type} (P : Z -> St -> Prop) (body : Z -> St -> option St)
    (n : nat) (k : Z) (s : St) :
  0 <= k -> k + Z.of_nat n <= 2 ^ 32 -> P k s ->
  (forall j s, k <= j < k + Z.of_nat n -> P j s -> exists s', body j s = Some s' /\ P (j + 1) s') ->
  exists s', for_range n k body s = Some s' /\ P (k + Z.of_nat n) s'.
Proof.
  revert k s. induction n as [|n IH]; intros k s Hk Hn HP Hbody.
  - exists s. split; [reflexivity|]. replace (k + Z.of_nat 0) with k by lia. exact HP.
  - destruct (Hbody k s ltac:(lia) HP) as (s1 & Hb & HP1).
    simpl. rewrite Hb.
    destruct n as [|n'].
    + exists s1. split; [reflexivity|]. replace (k + Z.of_nat 1) with (k + 1) by lia. exact HP1.
    + rewrite uint32_small by lia.
      destruct (IH (k + 1) s1 ltac:(lia) ltac:(lia) HP1) as (s' & Hf & HP').
      { intros j s0 Hj. apply Hbody. lia. }
      exists s'. split; [exact Hf|].
      replace (k + Z.of_nat (S (S n'))) with (k + 1 + Z.of_nat (S n')) by lia. exact HP'.
Qed.

Lemma vector_get_lookup {A : Type} (l : list A) (i : Z) :
  0 <= i -> vector_get l i = l !! Z.to_nat i.
Proof. intros H. unfold vector_get. rewrite decide_True by exact H. reflexivity. Qed.

Lemma vector_get_is_Some {A : Type} (l : list A) (i : Z) :
  0 <= i < Z.of_nat (length l) -> is_Some (vector_get l i).
Proof.
  intros H. rewrite vector_get_lookup by lia. apply lookup_lt_is_Some. lia.
Qed.

(** Copying slot [i] of the set at [S1] to slot [i] of the set at [S2]
    (which may be the same set) leaves the source as it was and changes
    the destination at slot [i] only. *)
Lemma copy_slot (d : OpenGL.device_impl) (S1 S2 i : Z) (t1 t2 : OpenGL.descriptor_set_impl) :
  OpenGL.sets d !! S1 = Some t1 -> OpenGL.sets d !! S2 = Some t2 ->
  0 <= i < Z.of_nat (length (OpenGL.descriptors t1)) ->
  i < Z.of_nat (length (OpenGL.descriptors t2)) ->
  exists v d' t1' t2',
    OpenGL.load_descriptor S1 i d = Some v
    /\ OpenGL.store_descriptor S2 i v d = Some d'
    /\ OpenGL.sets d' !! S1 = Some t1' /\ OpenGL.sets d' !! S2 = Some t2'
    /\ OpenGL.descriptors t1' = OpenGL.descriptors t1
    /\ OpenGL.set_type t2' = OpenGL.set_type t2
    /\ length (OpenGL.descriptors t2') = length (OpenGL.descriptors t2)
    /\ vector_get (OpenGL.descriptors t2') i = vector_get (OpenGL.descriptors t1) i
    /\ (forall j, j ≠ i ->
          vector_get (OpenGL.descriptors t2') j = vector_get (OpenGL.descriptors t2) j).
Proof.
  intros H1 H2 Hi1 Hi2.
  destruct (vector_get_is_Some (OpenGL.descriptors t1) i Hi1) as [v Hv].
  set (t2' := {| OpenGL.set_type := OpenGL.set_type t2;
                 OpenGL.descriptors := <[Z.to_nat i := v]> (OpenGL.descriptors t2) |}).
  assert (Hst : OpenGL.store_descriptor S2 i v d
                = Some (OpenGL.with_sets (insert S2 t2') d))
    by (apply store_descriptor_Some; [exact H2|lia]).
  assert (Hv' : OpenGL.descriptors t1 !! Z.to_nat i = Some v)
    by (rewrite <- vector_get_lookup by lia; exact Hv).
  assert (Hnew : vector_get (OpenGL.descriptors t2') i = vector_get (OpenGL.descriptors t1) i).
  { rewrite Hv, vector_get_lookup by lia. simpl.
    apply list_lookup_insert_eq. lia. }
  assert (Hold : forall j, j ≠ i ->
            vector_get (OpenGL.descriptors t2') j = vector_get (OpenGL.descriptors t2) j).
  { intros j Hj. unfold vector_get. destruct (decide (0 <= j)); [|reflexivity].
    simpl. apply list_lookup_insert_ne. lia. }
  destruct (decide (S1 = S2)) as [->|Hne].
  - assert (t1 = t2) by congruence. subst t2.
    exists v, (OpenGL.with_sets (insert S2 t2') d), t2', t2'.
    split; [unfold OpenGL.load_descriptor; rewrite H1; exact Hv|].
    split; [exact Hst|].
    rewrite sets_with_sets, lookup_insert_eq.
    repeat split; try reflexivity; try assumption.
    + simpl. apply list_insert_id. exact Hv'.
    + simpl. apply length_insert.
  - exists v, (OpenGL.with_sets (insert S2 t2') d), t1, t2'.
    split; [unfold OpenGL.load_descriptor; rewrite H1; exact Hv|].
    split; [exact Hst|].
    rewrite sets_with_sets, lookup_insert_eq, lookup_insert_ne by congruence.
    repeat split; try reflexivity; try assumption.
    simpl. apply length_insert.
Qed.

Lemma copied_step (S1 S2 : Z) (D1 : list Z) (ty : OpenGL.descriptor_type) (L2 : nat)
    (lo i : Z) (d : OpenGL.device_impl) :
  copied S1 S2 D1 ty L2 lo i d ->
  0 <= i < Z.of_nat (length D1) -> i < Z.of_nat L2 ->
  exists v d',
    OpenGL.load_descriptor S1 i d = Some v
    /\ OpenGL.store_descriptor S2 i v d = Some d'
    /\ copied S1 S2 D1 ty L2 lo (i + 1) d'.
Proof.
  intros (t1 & t2 & H1 & H2 & HD & Hty & HL & Hag) Hi1 Hi2. subst D1 L2.
  destruct (copy_slot d S1 S2 i t1 t2 H1 H2 Hi1 Hi2)
    as (v & d' & t1' & t2' & Hl & Hs & H1' & H2' & HD' & Hty' & HL' & Hnew & Hold).
  exists v, d'. split; [exact Hl|]. split; [exact Hs|].
  exists t1', t2'. repeat split; try assumption; try congruence.
  intros j Hj. destruct (decide (j = i)) as [->|Hne].
  - exact Hnew.
  - rewrite Hold by exact Hne. apply Hag. lia.
Qed.

(** C6: one copy of [k] descriptors from binding [b] of the set at [S1]
    to binding [b] of the set at [S2], both sets of the copy's type and
    holding the bindings [b, b + k): afterwards every binding in
    [b, b + k) of the destination reads what the source held there
    before the call: the one slot, or the sampler and the view slot of
    a sampler-with-resource-view set. *)
Theorem opengl_copy_descriptors (d : OpenGL.device_impl) (S1 S2 b k : Z)
    (ty : OpenGL.descriptor_type) (s1 s2 : OpenGL.descriptor_set_impl) :
  OpenGL.sets d !! S1 = Some s1 -> OpenGL.sets d !! S2 = Some s2 ->
  OpenGL.set_type s1 = ty -> OpenGL.set_type s2 = ty ->
  0 <= b -> 0 <= k ->
  (if decide (ty = OpenGL.sampler_with_resource_view) then 2 else 1) * (b + k)
    <= Z.of_nat (length (OpenGL.descriptors s1)) ->
  (if decide (ty = OpenGL.sampler_with_resource_view) then 2 else 1) * (b + k)
    <= Z.of_nat (length (OpenGL.descriptors s2)) ->
  Z.of_nat (length (OpenGL.descriptors s1)) < 2 ^ 32 ->
  exists d' s2',
    OpenGL.update_descriptor_sets []
      [{| OpenGL.src_set := S1; OpenGL.src_binding := b;
          OpenGL.dst_set := S2; OpenGL.dst_binding := b;
          OpenGL.copy_count := k; OpenGL.copy_type := ty |}] d = Some d'
    /\ OpenGL.sets d' !! S2 = Some s2'
    /\ forall i, b <= i < b + k ->
         is_Some (OpenGL.read_binding s1 i)
         /\ OpenGL.read_binding s2' i = OpenGL.read_binding s1 i.
Proof.
  intros H1 H2 Hty1 Hty2 Hb Hk Hlen1 Hlen2 Hsz.
  unfold OpenGL.update_descriptor_sets.
  change (OpenGL.foldM OpenGL.apply_write [] d) with (Some d).
  set (D1 := OpenGL.descriptors s1). set (L2 := length (OpenGL.descriptors s2)).
  assert (Hstart : forall lo, copied S1 S2 D1 ty L2 lo lo d).
  { intros lo. exists s1, s2. repeat split; try assumption; try reflexivity. intros j Hj. lia. }
  destruct (decide (ty = OpenGL.sampler_with_resource_view)) as [Hsw|Hflat].
  - (* two slots for each binding *)
    destruct (for_range_invariant
                (fun j => copied S1 S2 D1 ty L2 (2 * b) (2 * (b + j)))
                (fun k0 d0 =>
                   let src_binding := uint32 (uint32 (b + k0) * 2) in
                   let dst_binding := uint32 (uint32 (b + k0) * 2) in
                   v0 ← OpenGL.load_descriptor S1 (uint32 (src_binding + 0)) d0;
                   d1 ← OpenGL.store_descriptor S2 (uint32 (dst_binding + 0)) v0 d0;
                   v1 ← OpenGL.load_descriptor S1 (uint32 (src_binding + 1)) d1;
                   OpenGL.store_descriptor S2 (uint32 (dst_binding + 1)) v1 d1)
                (Z.to_nat k) 0 d) as (d' & Hrun & Hinv).
    + lia.
    + lia.
    + replace (2 * (b + 0)) with (2 * b) by lia. apply Hstart.
    + intros j d0 Hj Hc. simpl.
      rewrite (uint32_small (b + j)) by lia.
      rewrite (uint32_small ((b + j) * 2)) by lia.
      rewrite (uint32_small ((b + j) * 2 + 0)) by lia.
      rewrite (uint32_small ((b + j) * 2 + 1)) by lia.
      replace ((b + j) * 2 + 0) with (2 * (b + j)) by lia.
      replace ((b + j) * 2 + 1) with (2 * (b + j) + 1) by lia.
      destruct (copied_step S1 S2 D1 ty L2 (2 * b) (2 * (b + j)) d0 Hc)
        as (v0 & d1 & Hl0 & Hs0 & Hc1); [subst D1; lia | subst L2; lia |].
      destruct (copied_step S1 S2 D1 ty L2 (2 * b) (2 * (b + j) + 1) d1 Hc1)
        as (v1 & d2 & Hl1 & Hs1 & Hc2); [subst D1; lia | subst L2; lia |].
      exists d2. rewrite Hl0. simpl. rewrite Hs0. simpl. rewrite Hl1. simpl.
      split; [exact Hs1|].
      replace (2 * (b + (j + 1))) with (2 * (b + j) + 1 + 1) by lia. exact Hc2.
    + destruct Hinv as (t1 & t2 & _ & Ht2 & _ & Hty & _ & Hag).
      assert (Hres : OpenGL.apply_copy
                {| OpenGL.src_set := S1; OpenGL.src_binding := b;
                   OpenGL.dst_set := S2; OpenGL.dst_binding := b;
                   OpenGL.copy_count := k; OpenGL.copy_type := ty |} d = Some d').
      { unfold OpenGL.apply_copy. rewrite Hsw. exact Hrun. }
      exists d', t2. split; [simpl; rewrite Hres; reflexivity|]. split; [exact Ht2|].
      intros i Hi. unfold OpenGL.read_binding. rewrite Hty, Hty1, Hsw.
      rewrite !Hag by lia. fold D1.
      destruct (vector_get_is_Some D1 (i * 2)) as [v0 Hv0]; [subst D1; lia|].
      destruct (vector_get_is_Some D1 (i * 2 + 1)) as [v1 Hv1]; [subst D1; lia|].
      rewrite Hv0, Hv1. simpl. split; [eexists; reflexivity | reflexivity].
  - (* one slot for each binding *)
    destruct (for_range_invariant
                (fun j => copied S1 S2 D1 ty L2 b (b + j))
                (fun k0 d0 =>
                   v ← OpenGL.load_descriptor S1 (uint32 (b + k0)) d0;
                   OpenGL.store_descriptor S2 (uint32 (b + k0)) v d0)
                (Z.to_nat k) 0 d) as (d' & Hrun & Hinv).
    + lia.
    + lia.
    + replace (b + 0) with b by lia. apply Hstart.
    + intros j d0 Hj Hc.
      rewrite (uint32_small (b + j)) by lia.
      destruct (copied_step S1 S2 D1 ty L2 b (b + j) d0 Hc)
        as (v & d1 & Hl & Hs & Hc1); [subst D1; lia | subst L2; lia |].
      exists d1. rewrite Hl. simpl. split; [exact Hs|].
      replace (b + (j + 1)) with (b + j + 1) by lia. exact Hc1.
    + destruct Hinv as (t1 & t2 & _ & Ht2 & _ & Hty & _ & Hag).
      assert (Hres : OpenGL.apply_copy
                {| OpenGL.src_set := S1; OpenGL.src_binding := b;
                   OpenGL.dst_set := S2; OpenGL.dst_binding := b;
                   OpenGL.copy_count := k; OpenGL.copy_type := ty |} d = Some d').
      { unfold OpenGL.apply_copy. simpl. destruct ty; try exact Hrun. congruence. }
      exists d', t2. split; [simpl; rewrite Hres; reflexivity|]. split; [exact Ht2|].
      intros i Hi.
      assert (Hrd : forall s, OpenGL.set_type s = ty ->
                 OpenGL.read_binding s i
                 = (v ← vector_get (OpenGL.descriptors s) i; Some (v, None))).
      { intros s Hs. unfold OpenGL.read_binding. rewrite Hs.
        destruct ty; try reflexivity. congruence. }
      rewrite (Hrd t2 Hty), (Hrd s1 Hty1). rewrite Hag by lia. fold D1.
      destruct (vector_get_is_Some D1 i) as [v Hv]; [subst D1; lia|].
      rewrite Hv. simpl. split; [eexists; reflexivity | reflexivity].
Qed.

(** A concrete copy: bindings 1 and 2 of [gl_set_a] into [gl_set_b]. *)
Lemma opengl_copy_descriptors_witness :
  exists d' s2',
    OpenGL.update_descriptor_sets []
      [{| OpenGL.src_set := 0x100; OpenGL.src_binding := 1;
          OpenGL.dst_set := 0x200; OpenGL.dst_binding := 1;
          OpenGL.copy_count := 2; OpenGL.copy_type := OpenGL.sampler_with_resource_view |}]
      gl_two_sets = Some d'
    /\ OpenGL.sets d' !! 0x200 = Some s2'
    /\ forall i, 1 <= i < 1 + 2 ->
         is_Some (OpenGL.read_binding gl_set_a i)
         /\ OpenGL.read_binding s2' i = OpenGL.read_binding gl_set_a i.
Proof.
  apply (opengl_copy_descriptors gl_two_sets 0x100 0x200 1 2
           OpenGL.sampler_with_resource_view gl_set_a gl_set_b);
    try reflexivity; simpl; lia.
Defined.

(** ** Attachment queries of the OpenGL backend *)

(** C10: for every type other than color, [get_attachment_count] is the
    constant 1, whatever the pass; yet [get_attachment] for that type
    fails on the default framebuffer when the pixel format has no depth
    buffer, and on a framebuffer object that has nothing attached at the
    attachment point of that type (whatever else is attached to it: a
    framebuffer object with color attachments only, asked for depth). *)
Theorem opengl_attachment_count_one_for_non_color
    (make_resource_view_handle get_fbo_attachment_param get_tex_param : Z -> Z -> Z -> Z)
    (d : OpenGL.device_impl) (pass type index : Z) :
  type ≠ OpenGL.attachment_type_color ->
  OpenGL.get_attachment_count pass type = 1
  /\ (Z.land pass 0xFFFFFFFF = 0 -> OpenGL._default_depth_format d = OpenGL.GL_NONE ->
      OpenGL.get_attachment make_resource_view_handle get_fbo_attachment_param get_tex_param
        d pass type index = (make_resource_view_handle 0 0 0, false))
  /\ (Z.land pass 0xFFFFFFFF ≠ 0 ->
      (forall a, OpenGL.attachment_point pass type index = Some a ->
                 get_fbo_attachment_param (Z.land pass 0xFFFFFFFF) a
                   OpenGL.GL_FRAMEBUFFER_ATTACHMENT_OBJECT_TYPE = OpenGL.GL_NONE) ->
      OpenGL.get_attachment make_resource_view_handle get_fbo_attachment_param get_tex_param
        d pass type index = (make_resource_view_handle 0 0 0, false)).
Proof.
  intros Hty. split; [|split].
  - unfold OpenGL.get_attachment_count. rewrite bool_decide_eq_false_2 by exact Hty. reflexivity.
  - intros Hfbo Hdepth. unfold OpenGL.get_attachment.
    rewrite (bool_decide_eq_true_2 _ Hfbo).
    rewrite (bool_decide_eq_false_2 _ Hty).
    rewrite bool_decide_eq_false_2 by (intros H; apply H; exact Hdepth). reflexivity.
  - intros Hfbo Hnone. unfold OpenGL.get_attachment.
    rewrite (bool_decide_eq_false_2 _ Hfbo).
    destruct (OpenGL.attachment_point pass type index) as [a|]; [|reflexivity].
    rewrite (Hnone a eq_refl).
    rewrite bool_decide_eq_false_2 by (intros H; apply H; reflexivity). reflexivity.
Qed.

(** The default framebuffer of a context without depth buffer, asked
    for its depth attachment; and the framebuffer object 7 with one
    color attachment (texture 5) and nothing else, asked for its depth
    attachment: the count is 1, the query for color attachment 0
    succeeds, the query for the depth attachment fails. *)
Lemma opengl_attachment_count_one_for_non_color_witness :
  (OpenGL.get_attachment_count (2 ^ 40) OpenGL.attachment_type_depth = 1
   /\ OpenGL.get_attachment (fun t o e => Z.lor (Z.shiftl t 40) (Z.lor (Z.shiftl e 32) o))
        (fun _ _ _ => 0) (fun _ _ _ => 0) gl_no_depth (2 ^ 40) OpenGL.attachment_type_depth 0
      = (0, false))
  /\ (OpenGL.get_attachment_count gl_pass_color_only OpenGL.attachment_type_depth = 1
      /\ OpenGL.get_attachment (fun t o e => Z.lor (Z.shiftl t 40) (Z.lor (Z.shiftl e 32) o))
           gl_color_only_fbo (fun _ _ _ => OpenGL.GL_TEXTURE_2D) gl_no_depth
           gl_pass_color_only OpenGL.attachment_type_color 0
         = (Z.lor (Z.shiftl OpenGL.GL_TEXTURE_2D 40) 5, true)
      /\ OpenGL.get_attachment (fun t o e => Z.lor (Z.shiftl t 40) (Z.lor (Z.shiftl e 32) o))
           gl_color_only_fbo (fun _ _ _ => OpenGL.GL_TEXTURE_2D) gl_no_depth
           gl_pass_color_only OpenGL.attachment_type_depth 0
         = (0, false)).
Proof.
  split.
  - pose proof (opengl_attachment_count_one_for_non_color
                  (fun t o e => Z.lor (Z.shiftl t 40) (Z.lor (Z.shiftl e 32) o))
                  (fun _ _ _ => 0) (fun _ _ _ => 0) gl_no_depth (2 ^ 40)
                  OpenGL.attachment_type_depth 0) as H.
    destruct H as (Hc & Hd & _); [discriminate|].
    split; [exact Hc|]. apply Hd; reflexivity.
  - pose proof (opengl_attachment_count_one_for_non_color
                  (fun t o e => Z.lor (Z.shiftl t 40) (Z.lor (Z.shiftl e 32) o))
                  gl_color_only_fbo (fun _ _ _ => OpenGL.GL_TEXTURE_2D) gl_no_depth
                  gl_pass_color_only OpenGL.attachment_type_depth 0) as H.
    destruct H as (Hc & _ & Hf); [discriminate|].
    split; [exact Hc|]. split; [reflexivity|].
    apply Hf; [discriminate|].
    intros a Ha. injection Ha as <-. reflexivity.
Defined.

(** ** Query pools *)

Lemma gl_gl (xs ys : list OpenGL.gl_call) (d : OpenGL.device_impl) :
  OpenGL.gl ys (OpenGL.gl xs d) = OpenGL.gl (xs ++ ys) d.
Proof. unfold OpenGL.gl. simpl. rewrite app_assoc. reflexivity. Qed.

Lemma gl_nil (d : OpenGL.device_impl) : OpenGL.gl [] d = d.
Proof. destruct d. unfold OpenGL.gl. simpl. rewrite app_nil_r. reflexivity. Qed.

(** The creation loop visits the queries one after the other and issues
    the commands of each. *)
Lemma init_query_loop (convert_query_type : OpenGL.query_type -> Z) (type : OpenGL.query_type)
    (l2 l1 : list Z) (d : OpenGL.device_impl) :
  Z.of_nat (length (l1 ++ l2)) <= 2 ^ 32 ->
  for_range (length l2) (Z.of_nat (length l1))
    (OpenGL.init_query convert_query_type type {| OpenGL.queries := l1 ++ l2 |}) d
  = Some (OpenGL.gl (flat_map (init_calls (convert_query_type type) type) l2) d).
Proof.
  revert l1 d. induction l2 as [|q l2 IH]; intros l1 d Hlen.
  - simpl. rewrite gl_nil. reflexivity.
  - simpl. unfold OpenGL.init_query at 1. simpl.
    rewrite vector_get_lookup by lia. rewrite Nat2Z.id.
    rewrite list_lookup_middle by reflexivity. simpl.
    rewrite length_app in Hlen. simpl in Hlen.
    assert (Hnext : forall d1,
              for_range (length l2) (uint32 (Z.of_nat (length l1) + 1))
                (OpenGL.init_query convert_query_type type {| OpenGL.queries := l1 ++ q :: l2 |}) d1
              = Some (OpenGL.gl (flat_map (init_calls (convert_query_type type) type) l2) d1)).
    { intros d1. destruct l2 as [|q' l2'].
      - simpl. rewrite gl_nil. reflexivity.
      - rewrite uint32_small by (simpl in Hlen; lia).
        replace (l1 ++ q :: q' :: l2') with ((l1 ++ [q]) ++ q' :: l2')
          by (rewrite <- app_assoc; reflexivity).
        replace (Z.of_nat (length l1) + 1) with (Z.of_nat (length (l1 ++ [q])))
          by (rewrite length_app; simpl; lia).
        apply IH. rewrite !length_app. simpl in *. lia. }
    unfold init_calls at 1.
    destruct (decide (type = OpenGL.timestamp)); rewrite Hnext, gl_gl; reflexivity.
Qed.

(** What a successful [create_query_pool] of the OpenGL backend has
    done when it returns: generated the names and, for each query in
    turn, issued its timestamp or its begin/end pair. *)
Lemma opengl_create_query_pool_log (convert_query_type : OpenGL.query_type -> Z) (p : Z)
    (names : nat -> Z) (type : OpenGL.query_type) (size : Z) (d : OpenGL.device_impl) :
  0 <= size < 2 ^ 32 -> type ≠ OpenGL.pipeline_statistics ->
  exists d',
    OpenGL.create_query_pool convert_query_type p names type size d = Some (d', p, true)
    /\ OpenGL.pools d' !! p = Some {| OpenGL.queries := map names (seq 0 (Z.to_nat size)) |}
    /\ OpenGL.gl_log d'
       = OpenGL.gl_log d
         ++ OpenGL.glGenQueries size
            :: flat_map (init_calls (convert_query_type type) type)
                 (map names (seq 0 (Z.to_nat size))).
Proof.
  intros Hsize Hty. unfold OpenGL.create_query_pool.
  rewrite decide_False by exact Hty.
  set (qs := map names (seq 0 (Z.to_nat size))).
  assert (Hlen : length qs = Z.to_nat size) by (subst qs; rewrite length_map, length_seq; reflexivity).
  pose proof (init_query_loop convert_query_type type qs [] (OpenGL.gl [OpenGL.glGenQueries size] d))
    as Hloop.
  change (length (@nil Z)) with O in Hloop. change (Z.of_nat 0) with 0 in Hloop.
  change ([] ++ qs) with qs in Hloop. rewrite Hlen in Hloop.
  unfold mbind, option_bind. rewrite Hloop by lia.
  eexists. split; [reflexivity|]. split.
  - apply lookup_insert_eq.
  - simpl. rewrite <- app_assoc. reflexivity.
Qed.

(** C8, on the code: on a Vulkan device that has no queue with an
    immediate command list (as when the pool is created from the
    [init_device] event, before any queue exists), [create_query_pool]
    succeeds and hands out the pool although no reset of it has been
    recorded: the only native call made is the creation of the pool. *)
Lemma vulkan_create_query_pool_without_queue_not_reset :
  exists d' pool,
    Vulkan.create_query_pool vk_granting Vulkan.timestamp 4 vk_fresh = (d', pool, true)
    /\ Vulkan.log d' = [Vulkan.ev_vkCreateQueryPool Vulkan.timestamp 4 Vulkan.VK_SUCCESS pool]
    /\ ~ (exists cl first count,
            In (Vulkan.ev_vkCmdResetQueryPool cl pool first count) (Vulkan.log d')).
Proof.
  eexists. eexists. split; [reflexivity|]. split; [reflexivity|].
  intros (cl & first & count & [H|[]]). discriminate.
Qed.

(** Where the initialization does happen: a successful
    [create_query_pool] of the OpenGL backend returns a pool each of
    whose queries has had its timestamp ([timestamp] pools) or its
    begin/end pair (other pools) issued, in order; a successful
    [create_query_pool] of the Vulkan backend on a device one of whose
    queues has an immediate command list has recorded a reset of the
    whole pool on the first such list and flushed it. *)
Theorem create_query_pool_initializes :
  (forall convert_query_type p names type size d d' out,
      0 <= size < 2 ^ 32 ->
      OpenGL.create_query_pool convert_query_type p names type size d = Some (d', out, true) ->
      OpenGL.pools d' !! out = Some {| OpenGL.queries := map names (seq 0 (Z.to_nat size)) |}
      /\ OpenGL.gl_log d'
         = OpenGL.gl_log d
           ++ OpenGL.glGenQueries size
              :: flat_map (init_calls (convert_query_type type) type)
                   (map names (seq 0 (Z.to_nat size))))
  /\ (forall drv type count d d' pool q cl,
        Vulkan.create_query_pool drv type count d = (d', pool, true) ->
        Vulkan.first_immediate (Vulkan._queues d) = Some (q, cl) ->
        Vulkan.log d'
        = Vulkan.log d
          ++ [Vulkan.ev_vkCreateQueryPool type count Vulkan.VK_SUCCESS pool;
              Vulkan.ev_vkCmdResetQueryPool cl pool 0 count;
              Vulkan.ev_flush_immediate_command_list (Vulkan.queue q)]).
Proof.
  split.
  - intros cqt p names type size d d' out Hsize Hrun.
    destruct (decide (type = OpenGL.pipeline_statistics)) as [->|Hty].
    + unfold OpenGL.create_query_pool in Hrun. simpl in Hrun. discriminate.
    + destruct (opengl_create_query_pool_log cqt p names type size d Hsize Hty)
        as (d1 & Hrun1 & Hpool & Hlog).
      rewrite Hrun1 in Hrun. injection Hrun as <- <-. split; assumption.
  - intros drv type count d d' pool q cl Hrun Hq.
    unfold Vulkan.create_query_pool in Hrun.
    destruct (Vulkan.vkCreateQueryPool drv (Vulkan.log d) type count) as [result pool0].
    destruct (bool_decide (result = Vulkan.VK_SUCCESS)) eqn:Hres.
    + apply bool_decide_eq_true_1 in Hres. subst result.
      simpl in Hrun. rewrite Hq in Hrun. injection Hrun as <- <-.
      simpl. rewrite <- app_assoc. reflexivity.
    + discriminate.
Qed.

(** A pool of three timestamp queries on OpenGL, and a pool of four on
    a Vulkan device with one graphics queue. *)
Lemma create_query_pool_initializes_witness :
  (exists d',
      OpenGL.create_query_pool (fun _ => 0) 0x900 (fun i => Z.of_nat i + 7) OpenGL.timestamp 3
        gl_no_depth = Some (d', 0x900, true)
      /\ OpenGL.pools d' !! 0x900 = Some {| OpenGL.queries := [7; 8; 9] |}
      /\ OpenGL.gl_log d'
         = [OpenGL.glGenQueries 3;
            OpenGL.glQueryCounter 7 OpenGL.GL_TIMESTAMP;
            OpenGL.glQueryCounter 8 OpenGL.GL_TIMESTAMP;
            OpenGL.glQueryCounter 9 OpenGL.GL_TIMESTAMP])
  /\ (exists d',
        Vulkan.create_query_pool vk_granting Vulkan.timestamp 4 vk_one_queue = (d', 0x70, true)
        /\ Vulkan.log d'
           = [Vulkan.ev_vkCreateQueryPool Vulkan.timestamp 4 Vulkan.VK_SUCCESS 0x70;
              Vulkan.ev_vkCmdResetQueryPool 0x2 0x70 0 4;
              Vulkan.ev_flush_immediate_command_list 0x1]).
Proof.
  split.
  - eexists. split; [reflexivity|].
    apply (proj1 create_query_pool_initializes (fun _ => 0) 0x900
             (fun i => Z.of_nat i + 7) OpenGL.timestamp 3 gl_no_depth _ 0x900).
    + lia.
    + reflexivity.
  - eexists. split; [reflexivity|].
    apply (proj2 create_query_pool_initializes vk_granting Vulkan.timestamp 4 vk_one_queue
             _ 0x70 {| Vulkan.queue := 0x1; Vulkan.immediate_command_list := Some 0x2 |} 0x2).
    + reflexivity.
    + reflexivity.
Defined.

(** ** Mapping resources of the Vulkan backend *)

(** The branch of [map_resource] for a registered resource that has no
    allocation of the abstraction's allocator (a resource the
    application created): it returns false and writes the null pointer
    to [*data] (and zero to the two pitches), without calling the
    allocator. *)
Theorem vulkan_map_resource_without_allocation (drv : Vulkan.driver) (d : Vulkan.device_impl)
    (resource subresource data0 : Z) (row_pitch slice_pitch : option Z)
    (res_data : Vulkan.resource_data) :
  Vulkan.lookup_resource d resource = Some res_data ->
  Vulkan.allocation res_data = Vulkan.VK_NULL_HANDLE ->
  Vulkan.map_resource drv resource subresource data0 row_pitch slice_pitch d
  = Some (d, (0, (fun _ => 0) <$> row_pitch, (fun _ => 0) <$> slice_pitch), false).
Proof.
  intros Hl Ha. unfold Vulkan.map_resource. rewrite Hl. simpl. rewrite Ha.
  reflexivity.
Qed.

Lemma vulkan_map_resource_without_allocation_witness :
  Vulkan.map_resource vk_granting 0x30 0 0xDEAD (Some 77) None vk_with_app_image
  = Some (vk_with_app_image, (0, Some 0, None), false).
Proof.
  apply (vulkan_map_resource_without_allocation vk_granting vk_with_app_image 0x30 0 0xDEAD
           (Some 77) None vk_app_image); reflexivity.
Defined.

(** With an allocation, the outcome is the allocator's: the call returns
    whether [vmaMapMemory] succeeded and [*data] holds what the
    allocator wrote, or what it held before when the allocator wrote
    nothing. *)
Lemma vulkan_map_resource_with_allocation (drv : Vulkan.driver) (d : Vulkan.device_impl)
    (resource subresource data0 : Z) (row_pitch slice_pitch : option Z)
    (res_data : Vulkan.resource_data) :
  Vulkan.lookup_resource d resource = Some res_data ->
  Vulkan.allocation res_data ≠ Vulkan.VK_NULL_HANDLE ->
  exists d' data1,
    Vulkan.map_resource drv resource subresource data0 row_pitch slice_pitch d
    = Some (d', (data1, (fun _ => 0) <$> row_pitch, (fun _ => 0) <$> slice_pitch),
            bool_decide (fst (Vulkan.vmaMapMemory drv (Vulkan.log d) (Vulkan.allocation res_data))
                         = Vulkan.VK_SUCCESS))
    /\ data1 = default data0 (snd (Vulkan.vmaMapMemory drv (Vulkan.log d)
                                     (Vulkan.allocation res_data))).
Proof.
  intros Hl Ha. unfold Vulkan.map_resource. rewrite Hl. simpl.
  rewrite bool_decide_eq_true_2 by exact Ha.
  destruct (Vulkan.vmaMapMemory drv (Vulkan.log d) (Vulkan.allocation res_data)) as [r w].
  eexists. eexists. split; reflexivity.
Qed.

(** ** The resource registry of the Vulkan backend *)

Lemma quiet_refl (d : Vulkan.device_impl) : quiet d d.
Proof.
  split; [reflexivity|]. split; [reflexivity|].
  exists []. split; [rewrite app_nil_r; reflexivity | constructor].
Qed.

Lemma quiet_trans (d1 d2 d3 : Vulkan.device_impl) : quiet d1 d2 -> quiet d2 d3 -> quiet d1 d3.
Proof.
  intros (Hr1 & Hq1 & e1 & Hl1 & Hf1) (Hr2 & Hq2 & e2 & Hl2 & Hf2).
  split; [congruence|]. split; [congruence|].
  exists (e1 ++ e2). split.
  - rewrite Hl2, Hl1, app_assoc. reflexivity.
  - apply Forall_app. split; assumption.
Qed.

Lemma quiet_emit (evs : list Vulkan.event) (d : Vulkan.device_impl) :
  Forall (fun e => is_registry_event e = false) evs -> quiet d (Vulkan.emit evs d).
Proof.
  intros H. split; [reflexivity|]. split; [reflexivity|]. exists evs. split; [reflexivity|exact H].
Qed.

Lemma quiet_emit_r (evs : list Vulkan.event) (d d0 : Vulkan.device_impl) :
  quiet d d0 -> Forall (fun e => is_registry_event e = false) evs ->
  quiet d (Vulkan.emit evs d0).
Proof. intros H Hf. eapply quiet_trans; [exact H|]. apply quiet_emit. exact Hf. Qed.

Lemma fill_upload_buffer_quiet (sd : Vulkan.subresource_data) (w h dep r s t : Z) :
  Forall (fun e => is_registry_event e = false) (Vulkan.fill_upload_buffer sd w h dep r s t).
Proof.
  unfold Vulkan.fill_upload_buffer.
  destruct (_ && _).
  - repeat constructor.
  - apply Forall_forall. intros e He.
    apply list_elem_of_In, in_flat_map in He. destruct He as (z & _ & He).
    apply in_map_iff in He. destruct He as (y & <- & _). reflexivity.
Qed.

(** Peel the events off a state reached by [emit] alone. *)
Ltac quiet_steps :=
  repeat first
    [ apply quiet_refl
    | apply quiet_emit_r;
      [| first [ apply Forall_app; split; [apply fill_upload_buffer_quiet | repeat constructor]
               | repeat constructor ] ] ].

(** An upload that returns has touched neither registry nor queues. *)
Lemma upload_texture_region_quiet (drv : Vulkan.driver) (format_bpp : Z -> Z)
    (sd : Vulkan.subresource_data) (dst sub : Z) (dst_box : option (list Z))
    (d d' : Vulkan.device_impl) :
  Vulkan.upload_texture_region drv format_bpp sd dst sub dst_box d = Some d' -> quiet d d'.
Proof.
  intros H. unfold Vulkan.upload_texture_region in H.
  apply bind_Some in H as (dst_data & Hl & H).
  apply bind_Some in H as (info & Hi & H).
  apply bind_Some in H as ([[w h] dep] & Hbox & H).
  destruct (Vulkan.vmaCreateBuffer drv _ _ _) as [[result buf] mem].
  destruct (bool_decide (result ≠ Vulkan.VK_SUCCESS)).
  - injection H as <-. quiet_steps.
  - injection H as <-.
    apply quiet_emit_r; [|repeat constructor].
    destruct (bool_decide (_ = Vulkan.VK_SUCCESS)); [|quiet_steps].
    match goal with
    | |- quiet ?a (match Vulkan.first_immediate ?qs with _ => _ end) =>
        destruct (Vulkan.first_immediate qs) as [[q cl]|]
    end; quiet_steps.
Qed.

(** An upload of a whole subresource into a registered image returns,
    whatever the allocator and the driver answer. *)
Lemma upload_texture_region_returns (drv : Vulkan.driver) (format_bpp : Z -> Z)
    (sd : Vulkan.subresource_data) (dst sub : Z) (d : Vulkan.device_impl)
    (dst_data : Vulkan.resource_data) (info : Vulkan.VkImageCreateInfo) :
  Vulkan.lookup_resource d dst = Some dst_data ->
  Vulkan.create_info dst_data = Vulkan.image_create_info info ->
  is_Some (Vulkan.upload_texture_region drv format_bpp sd dst sub None d).
Proof.
  intros Hl Hi. unfold Vulkan.upload_texture_region. rewrite Hl. simpl. rewrite Hi. simpl.
  destruct (Vulkan.vmaCreateBuffer drv _ _ _) as [[result buf] mem].
  destruct (bool_decide (result ≠ Vulkan.VK_SUCCESS)); eexists; reflexivity.
Qed.

(** A loop whose body respects a preorder respects it. *)
Lemma for_range_rel {St : Type} (R : St -> St -> Prop) (body : Z -> St -> option St) :
  (forall s, R s s) -> (forall s1 s2 s3, R s1 s2 -> R s2 s3 -> R s1 s3) ->
  (forall k s s', body k s = Some s' -> R s s') ->
  forall n k s s', for_range n k body s = Some s' -> R s s'.
Proof.
  intros Hrefl Htrans Hbody. induction n as [|n IH]; intros k s s' H.
  - injection H as <-. apply Hrefl.
  - simpl in H. destruct (body k s) as [s1|] eqn:Hb; [|discriminate].
    eapply Htrans; [eapply Hbody; exact Hb | eapply IH; exact H].
Qed.

Lemma initialize_image_quiet (drv : Vulkan.driver) (format_bpp : Z -> Z)
    (desc : Vulkan.resource_desc) (initial_data : option (list Vulkan.subresource_data))
    (initial_state cl out : Z) (d d' : Vulkan.device_impl) :
  Vulkan.initialize_image drv format_bpp desc initial_data initial_state cl out d = Some d' ->
  quiet d d'.
Proof.
  intros H. unfold Vulkan.initialize_image in H. destruct initial_data as [datas|].
  - apply bind_Some in H as (d2 & Hloop & H). injection H as <-.
    apply quiet_emit_r; [|repeat constructor].
    apply (quiet_trans _ (Vulkan.emit [Vulkan.ev_barrier cl out Vulkan.resource_usage_undefined
                                         Vulkan.resource_usage_copy_dest] d));
      [apply quiet_emit; repeat constructor|].
    revert Hloop. apply for_range_rel.
    + apply quiet_refl.
    + apply quiet_trans.
    + intros k s s' Hb. apply bind_Some in Hb as (sd & _ & Hb).
      eapply upload_texture_region_quiet. exact Hb.
  - injection H as <-. quiet_steps.
Qed.

(** With a data record for every subresource, the initialization of a
    registered image returns. *)
Lemma initialize_image_returns (drv : Vulkan.driver) (format_bpp : Z -> Z)
    (desc : Vulkan.resource_desc) (initial_data : option (list Vulkan.subresource_data))
    (initial_state cl out : Z) (d : Vulkan.device_impl)
    (out_data : Vulkan.resource_data) (info : Vulkan.VkImageCreateInfo) :
  Vulkan.lookup_resource d out = Some out_data ->
  Vulkan.create_info out_data = Vulkan.image_create_info info ->
  (forall datas, initial_data = Some datas ->
     uint32 (uint32 (Vulkan.texture_depth_or_layers desc) * Vulkan.texture_levels desc)
     <= Z.of_nat (length datas)) ->
  is_Some (Vulkan.initialize_image drv format_bpp desc initial_data initial_state cl out d).
Proof.
  intros Hl Hi Hlen. unfold Vulkan.initialize_image. destruct initial_data as [datas|].
  - specialize (Hlen datas eq_refl).
    set (n := uint32 (uint32 (Vulkan.texture_depth_or_layers desc) * Vulkan.texture_levels desc))
      in *.
    assert (Hn : 0 <= n < 2 ^ 32) by (subst n; unfold uint32; apply Z.mod_pos_bound; lia).
    set (d1 := Vulkan.emit [Vulkan.ev_barrier cl out Vulkan.resource_usage_undefined
                              Vulkan.resource_usage_copy_dest] d).
    destruct (for_range_invariant (fun _ s => quiet d1 s)
                (fun subresource d0 =>
                   sd ← vector_get datas subresource;
                   Vulkan.upload_texture_region drv format_bpp sd out subresource None d0)
                (Z.to_nat n) 0 d1) as (d2 & Hrun & _).
    + lia.
    + lia.
    + apply quiet_refl.
    + intros j s Hj Hq.
      destruct (vector_get_is_Some datas j) as [sd Hsd]; [lia|].
      rewrite Hsd. simpl.
      destruct (upload_texture_region_returns drv format_bpp sd out j s out_data info)
        as [s' Hs']; [|exact Hi|].
      * unfold Vulkan.lookup_resource in *. destruct Hq as (Hr & _). rewrite Hr. exact Hl.
      * exists s'. split; [exact Hs'|].
        eapply quiet_trans; [exact Hq|]. eapply upload_texture_region_quiet. exact Hs'.
    + rewrite Hrun. simpl. eexists. reflexivity.
  - eexists. reflexivity.
Qed.

Lemma emplace_is_Some {V : Type} (k : Z) (v : V) (m : gmap Z V) :
  is_Some (Vulkan.emplace k v m !! k).
Proof.
  unfold Vulkan.emplace. destruct (m !! k) eqn:H.
  - rewrite H. eexists. reflexivity.
  - rewrite lookup_insert_eq. eexists. reflexivity.
Qed.

Lemma emplace_fresh {V : Type} (k : Z) (v : V) (m : gmap Z V) :
  m !! k = None -> Vulkan.emplace k v m !! k = Some v.
Proof. intros H. unfold Vulkan.emplace. rewrite H. apply lookup_insert_eq. Qed.

Lemma native_create_image_log (drv : Vulkan.driver) (heap : Vulkan.memory_heap)
    (info : Vulkan.VkImageCreateInfo) (d d1 : Vulkan.device_impl) (r o a : Z) :
  Vulkan.native_create_image drv heap info d = (d1, r, o, a) ->
  exists creation,
    d1 = Vulkan.emit [creation] d /\ is_image_creation creation = true.
Proof.
  unfold Vulkan.native_create_image. intros H. destruct (decide (heap = Vulkan.heap_unknown)).
  - destruct (Vulkan.vkCreateImage drv _ _) as [r0 o0]. injection H as <- <- <- <-.
    eexists. split; reflexivity.
  - destruct (Vulkan.vmaCreateImage drv _ _ _) as [[r0 o0] a0]. injection H as <- <- <- <-.
    eexists. split; reflexivity.
Qed.

(** A successful [create_resource] leaves its handle in the registry. *)
Lemma create_resource_registers (drv : Vulkan.driver)
    (convert_resource_desc_buffer : Vulkan.resource_desc -> Vulkan.VkBufferCreateInfo)
    (convert_resource_desc_image : Vulkan.resource_desc -> Vulkan.VkImageCreateInfo)
    (format_bpp : Z -> Z) (desc : Vulkan.resource_desc)
    (initial_data : option (list Vulkan.subresource_data)) (initial_state : Z)
    (d d1 : Vulkan.device_impl) (h : Z) :
  Vulkan.create_resource drv convert_resource_desc_buffer convert_resource_desc_image format_bpp
    desc initial_data initial_state d = Some (d1, h, true) ->
  is_Some (Vulkan._resources d1 !! h).
Proof.
  unfold Vulkan.create_resource. intros H.
  destruct (Vulkan.desc_type desc); try discriminate.
  - destruct (Vulkan.native_create_buffer drv _ _ d) as [[[d0 r] o] a].
    destruct (bool_decide (r = Vulkan.VK_SUCCESS)); [|discriminate].
    injection H as <- <-. apply emplace_is_Some.
  - destruct (Vulkan.native_create_image drv _ _ d) as [[[d0 r] o] a].
    destruct (bool_decide (r = Vulkan.VK_SUCCESS)); [|discriminate].
    destruct (bool_decide (initial_state ≠ _)); [|injection H as <- <-; apply emplace_is_Some].
    destruct (Vulkan.first_immediate _) as [[q cl]|]; [|injection H as <- <-; apply emplace_is_Some].
    apply bind_Some in H as (d3 & Hinit & H). injection H as <- <-.
    apply initialize_image_quiet in Hinit as (Hr & _). simpl. rewrite Hr. apply emplace_is_Some.
  - destruct (Vulkan.native_create_image drv _ _ d) as [[[d0 r] o] a].
    destruct (bool_decide (r = Vulkan.VK_SUCCESS)); [|discriminate].
    destruct (bool_decide (initial_state ≠ _)); [|injection H as <- <-; apply emplace_is_Some].
    destruct (Vulkan.first_immediate _) as [[q cl]|]; [|injection H as <- <-; apply emplace_is_Some].
    apply bind_Some in H as (d3 & Hinit & H). injection H as <- <-.
    apply initialize_image_quiet in Hinit as (Hr & _). simpl. rewrite Hr. apply emplace_is_Some.
  - destruct (Vulkan.native_create_image drv _ _ d) as [[[d0 r] o] a].
    destruct (bool_decide (r = Vulkan.VK_SUCCESS)); [|discriminate].
    destruct (bool_decide (initial_state ≠ _)); [|injection H as <- <-; apply emplace_is_Some].
    destruct (Vulkan.first_immediate _) as [[q cl]|]; [|injection H as <- <-; apply emplace_is_Some].
    apply bind_Some in H as (d3 & Hinit & H). injection H as <- <-.
    apply initialize_image_quiet in Hinit as (Hr & _). simpl. rewrite Hr. apply emplace_is_Some.
Qed.

(** A buffer is registered right after its native creation and that
    is all [create_resource] does for it: its initial data is not
    looked at. *)
Lemma create_resource_buffer (drv : Vulkan.driver)
    (convert_resource_desc_buffer : Vulkan.resource_desc -> Vulkan.VkBufferCreateInfo)
    (convert_resource_desc_image : Vulkan.resource_desc -> Vulkan.VkImageCreateInfo)
    (format_bpp : Z -> Z) (desc : Vulkan.resource_desc)
    (initial_data : option (list Vulkan.subresource_data)) (initial_state : Z)
    (d d1 : Vulkan.device_impl) (object allocation : Z) :
  Vulkan.desc_type desc = Vulkan.type_buffer ->
  Vulkan.native_create_buffer drv (Vulkan.desc_heap desc) (convert_resource_desc_buffer desc) d
  = (d1, Vulkan.VK_SUCCESS, object, allocation) ->
  Vulkan.create_resource drv convert_resource_desc_buffer convert_resource_desc_image format_bpp
    desc initial_data initial_state d
  = Some (Vulkan.register_buffer object (convert_resource_desc_buffer desc) allocation true d1,
          object, true).
Proof.
  intros Hty Hnative. unfold Vulkan.create_resource. rewrite Hty, Hnative. reflexivity.
Qed.

(** A resource that [create_resource] has made in a memory heap of the
    allocator is registered with the allocation the allocator returned. *)
Lemma create_resource_allocation (drv : Vulkan.driver)
    (convert_resource_desc_buffer : Vulkan.resource_desc -> Vulkan.VkBufferCreateInfo)
    (convert_resource_desc_image : Vulkan.resource_desc -> Vulkan.VkImageCreateInfo)
    (format_bpp : Z -> Z) (desc : Vulkan.resource_desc)
    (initial_data : option (list Vulkan.subresource_data)) (initial_state : Z)
    (d d1 : Vulkan.device_impl) (h : Z) :
  Vulkan.desc_heap desc ≠ Vulkan.heap_unknown ->
  Vulkan.create_resource drv convert_resource_desc_buffer convert_resource_desc_image format_bpp
    desc initial_data initial_state d = Some (d1, h, true) ->
  Vulkan._resources d !! h = None ->
  exists data,
    Vulkan.lookup_resource d1 h = Some data
    /\ Vulkan.owned data = true
    /\ ((exists l info,
           Vulkan.vmaCreateBuffer drv l info (Vulkan.alloc_info_of (Vulkan.desc_heap desc))
           = (Vulkan.VK_SUCCESS, h, Vulkan.allocation data))
        \/ (exists l info,
              Vulkan.vmaCreateImage drv l info (Vulkan.alloc_info_of (Vulkan.desc_heap desc))
              = (Vulkan.VK_SUCCESS, h, Vulkan.allocation data))).
Proof.
  intros Hheap H Hfresh. unfold Vulkan.create_resource in H.
  assert (Himg : forall info,
            (let '(d1', result, object, allocation) :=
               Vulkan.native_create_image drv (Vulkan.desc_heap desc) info d in
             if bool_decide (result = Vulkan.VK_SUCCESS) then
               let d2 := Vulkan.register_image object info allocation true d1' in
               if bool_decide (initial_state ≠ Vulkan.resource_usage_undefined) then
                 match Vulkan.first_immediate (Vulkan._queues d2) with
                 | Some (q, cl) =>
                     d3 ← Vulkan.initialize_image drv format_bpp desc initial_data
                            initial_state cl object d2;
                     Some (Vulkan.emit [Vulkan.ev_flush_immediate_command_list (Vulkan.queue q)] d3,
                           object, true)
                 | None => Some (d2, object, true)
                 end
               else Some (d2, object, true)
             else Some (d1', 0, false)) = Some (d1, h, true) ->
            exists data,
              Vulkan.lookup_resource d1 h = Some data
              /\ Vulkan.owned data = true
              /\ exists l info',
                   Vulkan.vmaCreateImage drv l info'
                     (Vulkan.alloc_info_of (Vulkan.desc_heap desc))
                   = (Vulkan.VK_SUCCESS, h, Vulkan.allocation data)).
  { intros info. unfold Vulkan.native_create_image.
    rewrite decide_False by exact Hheap.
    destruct (Vulkan.vmaCreateImage drv _ _ _) as [[r o] a] eqn:Hvma.
    destruct (bool_decide (r = Vulkan.VK_SUCCESS)) eqn:Hr; [|discriminate].
    apply bool_decide_eq_true_1 in Hr. subst r.
    assert (Hreg : forall d2 : Vulkan.device_impl,
              Vulkan._resources d2
              = Vulkan._resources
                  (Vulkan.register_image o info a true
                     (Vulkan.emit [Vulkan.ev_vmaCreateImage info
                                     (Vulkan.alloc_info_of (Vulkan.desc_heap desc))
                                     Vulkan.VK_SUCCESS o a] d)) ->
              h = o ->
              exists data,
                Vulkan.lookup_resource d2 h = Some data
                /\ Vulkan.owned data = true
                /\ exists l info',
                     Vulkan.vmaCreateImage drv l info'
                       (Vulkan.alloc_info_of (Vulkan.desc_heap desc))
                     = (Vulkan.VK_SUCCESS, h, Vulkan.allocation data)).
    { intros d2 Hres ->. unfold Vulkan.lookup_resource. rewrite Hres. simpl.
      rewrite (emplace_fresh _ _ _ Hfresh).
      eexists. split; [reflexivity|]. split; [reflexivity|].
      simpl. do 2 eexists. exact Hvma. }
    destruct (bool_decide (initial_state ≠ _)).
    - destruct (Vulkan.first_immediate _) as [[q cl]|].
      + intros H'. apply bind_Some in H' as (d3 & Hinit & H'). injection H' as <- <-.
        apply initialize_image_quiet in Hinit as (Hr & _).
        apply Hreg; [simpl; exact Hr|reflexivity].
      + intros H'. injection H' as <- <-. apply Hreg; reflexivity.
    - intros H'. injection H' as <- <-. apply Hreg; reflexivity. }
  destruct (Vulkan.desc_type desc); try discriminate.
  - unfold Vulkan.native_create_buffer in H. rewrite decide_False in H by exact Hheap.
    destruct (Vulkan.vmaCreateBuffer drv _ _ _) as [[r o] a] eqn:Hvma.
    destruct (bool_decide (r = Vulkan.VK_SUCCESS)) eqn:Hr; [|discriminate].
    apply bool_decide_eq_true_1 in Hr. subst r. injection H as <- <-.
    unfold Vulkan.lookup_resource. simpl. rewrite (emplace_fresh _ _ _ Hfresh).
    eexists. split; [reflexivity|]. split; [reflexivity|].
    left. simpl. do 2 eexists. exact Hvma.
  - destruct (Himg _ H) as (data & H1 & H2 & H3). exists data. auto.
  - destruct (Himg _ H) as (data & H1 & H2 & H3). exists data. auto.
  - destruct (Himg _ H) as (data & H1 & H2 & H3). exists data. auto.
Qed.

(** C9, on the code: [map_resource] on a device-local resource does
    not write the null pointer.  A resource that [create_resource] made
    in the [gpu_only] heap is registered with the allocation the
    allocator gave it, so [map_resource] takes the branch that calls
    [vmaMapMemory]; when the allocator refuses to map that memory (it
    fails and writes nothing), [map_resource] returns false, as the
    claim says, but [*data] still holds what the caller had put there:
    only the branch for a resource without allocation writes the null
    pointer. *)
Theorem vulkan_map_device_local_resource_leaves_data (drv : Vulkan.driver)
    (convert_resource_desc_buffer : Vulkan.resource_desc -> Vulkan.VkBufferCreateInfo)
    (convert_resource_desc_image : Vulkan.resource_desc -> Vulkan.VkImageCreateInfo)
    (format_bpp : Z -> Z) (desc : Vulkan.resource_desc)
    (initial_data : option (list Vulkan.subresource_data)) (initial_state : Z)
    (d d1 : Vulkan.device_impl) (h subresource data0 : Z) (row_pitch slice_pitch : option Z) :
  Vulkan.desc_heap desc = Vulkan.gpu_only ->
  Vulkan.create_resource drv convert_resource_desc_buffer convert_resource_desc_image format_bpp
    desc initial_data initial_state d = Some (d1, h, true) ->
  Vulkan._resources d !! h = None ->
  (forall l info ai r o a, Vulkan.vmaCreateBuffer drv l info ai = (r, o, a) ->
                           r = Vulkan.VK_SUCCESS -> a ≠ Vulkan.VK_NULL_HANDLE) ->
  (forall l info ai r o a, Vulkan.vmaCreateImage drv l info ai = (r, o, a) ->
                           r = Vulkan.VK_SUCCESS -> a ≠ Vulkan.VK_NULL_HANDLE) ->
  (forall l a, fst (Vulkan.vmaMapMemory drv l a) ≠ Vulkan.VK_SUCCESS
               /\ snd (Vulkan.vmaMapMemory drv l a) = None) ->
  exists d2 result,
    Vulkan.map_resource drv h subresource data0 row_pitch slice_pitch d1
    = Some (d2, (data0, (fun _ => 0) <$> row_pitch, (fun _ => 0) <$> slice_pitch), false)
    /\ result ≠ Vulkan.VK_SUCCESS
    /\ exists a, a ≠ Vulkan.VK_NULL_HANDLE
         /\ Vulkan.log d2 = Vulkan.log d1 ++ [Vulkan.ev_vmaMapMemory a result]
         /\ Vulkan._resources d2 = Vulkan._resources d1.
Proof.
  intros Hheap Hcreate Hfresh Hbuf Himg Hmap.
  assert (Hh : Vulkan.desc_heap desc ≠ Vulkan.heap_unknown) by (rewrite Hheap; discriminate).
  destruct (create_resource_allocation _ _ _ _ _ _ _ _ _ _ Hh Hcreate Hfresh)
    as (data & Hl & _ & Halloc).
  assert (Ha : Vulkan.allocation data ≠ Vulkan.VK_NULL_HANDLE).
  { destruct Halloc as [(l & info & E)|(l & info & E)].
    - exact (Hbuf _ _ _ _ _ _ E eq_refl).
    - exact (Himg _ _ _ _ _ _ E eq_refl). }
  unfold Vulkan.map_resource. rewrite Hl. simpl.
  rewrite (bool_decide_eq_true_2 (Vulkan.allocation data ≠ 0)) by exact Ha.
  destruct (Hmap (Vulkan.log d1) (Vulkan.allocation data)) as (Hr & Hw).
  destruct (Vulkan.vmaMapMemory drv (Vulkan.log d1) (Vulkan.allocation data)) as [r w].
  simpl in Hr, Hw. subst w.
  exists (Vulkan.emit [Vulkan.ev_vmaMapMemory (Vulkan.allocation data) r] d1), r.
  split.
  { simpl. rewrite (bool_decide_eq_false_2 _ Hr). reflexivity. }
  split; [exact Hr|].
  exists (Vulkan.allocation data). split; [exact Ha|]. split; reflexivity.
Qed.

(** A texture created in the [gpu_only] heap on a device whose
    allocator creates everything but maps nothing, mapped with [*data]
    holding [0xDEAD] on entry: false is returned and [*data] still holds
    [0xDEAD]. *)
Lemma vulkan_map_device_local_resource_leaves_data_witness :
  exists d1 d2,
    Vulkan.create_resource vk_unmappable (fun _ => vk_buffer_info) (fun _ => vk_image_info)
      (fun _ => 4) vk_texture_desc None 0 vk_fresh = Some (d1, 0x40, true)
    /\ Vulkan.map_resource vk_unmappable 0x40 0 0xDEAD (Some 77) None d1
       = Some (d2, (0xDEAD, Some 0, None), false).
Proof.
  eexists.
  destruct (vulkan_map_device_local_resource_leaves_data vk_unmappable
              (fun _ => vk_buffer_info) (fun _ => vk_image_info) (fun _ => 4) vk_texture_desc
              None 0 vk_fresh _ 0x40 0 0xDEAD (Some 77) None eq_refl eq_refl eq_refl)
    as (d2 & result & Hmap & _).
  - intros l info ai r o a H _. injection H as <- <- <-. discriminate.
  - intros l info ai r o a H _. injection H as <- <- <-. discriminate.
  - intros l a. split; [discriminate|reflexivity].
  - exists d2. split; [reflexivity|exact Hmap].
Defined.

(** C4 as stated fails in its last part: a buffer is created and
    destroyed, the handle is no longer valid, and the second
    [destroy_resource] on it does not return -- the registry lookup
    throws. *)
Lemma vulkan_second_destroy_throws :
  exists d1 d2,
    Vulkan.create_resource vk_granting (fun _ => vk_buffer_info) (fun _ => vk_image_info)
      (fun _ => 4) vk_buffer_desc None 0 vk_fresh = Some (d1, 0x20, true)
    /\ Vulkan.is_resource_handle_valid d1 0x20 = true
    /\ Vulkan.destroy_resource 0x20 d1 = Some d2
    /\ Vulkan.is_resource_handle_valid d2 0x20 = false
    /\ Vulkan.destroy_resource 0x20 d2 = None.
Proof.
  eexists. eexists.
  split; [reflexivity|]. split; [reflexivity|]. split; [reflexivity|].
  split; reflexivity.
Qed.

(** C4, amended: a handle returned by a successful [create_resource]
    (the driver having handed out a non-null object) is valid; after
    [destroy_resource] it is not valid any more; and [destroy_resource]
    on it once more does not return normally: the registry lookup
    throws, only the zero handle being ignored. *)
Theorem vulkan_resource_handle_lifetime (drv : Vulkan.driver)
    (convert_resource_desc_buffer : Vulkan.resource_desc -> Vulkan.VkBufferCreateInfo)
    (convert_resource_desc_image : Vulkan.resource_desc -> Vulkan.VkImageCreateInfo)
    (format_bpp : Z -> Z) (desc : Vulkan.resource_desc)
    (initial_data : option (list Vulkan.subresource_data)) (initial_state : Z)
    (d d1 : Vulkan.device_impl) (h : Z) :
  Vulkan.create_resource drv convert_resource_desc_buffer convert_resource_desc_image format_bpp
    desc initial_data initial_state d = Some (d1, h, true) ->
  h ≠ 0 ->
  Vulkan.is_resource_handle_valid d1 h = true
  /\ exists d2,
       Vulkan.destroy_resource h d1 = Some d2
       /\ Vulkan.is_resource_handle_valid d2 h = false
       /\ Vulkan.destroy_resource h d2 = None
       /\ Vulkan.destroy_resource 0 d2 = Some d2.
Proof.
  intros Hcreate Hh.
  pose proof (create_resource_registers _ _ _ _ _ _ _ _ _ _ Hcreate) as [data Hdata].
  split.
  - unfold Vulkan.is_resource_handle_valid.
    rewrite bool_decide_eq_false_2 by exact Hh.
    apply bool_decide_eq_true_2. rewrite Hdata. eexists. reflexivity.
  - unfold Vulkan.destroy_resource at 1. rewrite bool_decide_eq_false_2 by exact Hh.
    unfold Vulkan.lookup_resource. rewrite Hdata. simpl.
    eexists. split; [reflexivity|].
    split; [|split].
    + unfold Vulkan.is_resource_handle_valid.
      rewrite bool_decide_eq_false_2 by exact Hh.
      apply bool_decide_eq_false_2. simpl. rewrite lookup_delete_eq.
      intros [x Hx]. discriminate.
    + unfold Vulkan.destroy_resource. rewrite bool_decide_eq_false_2 by exact Hh.
      unfold Vulkan.lookup_resource. simpl. rewrite lookup_delete_eq. reflexivity.
    + reflexivity.
Qed.

Lemma vulkan_resource_handle_lifetime_witness :
  exists d1,
    Vulkan.create_resource vk_granting (fun _ => vk_buffer_info) (fun _ => vk_image_info)
      (fun _ => 4) vk_buffer_desc None 0 vk_fresh = Some (d1, 0x20, true)
    /\ Vulkan.is_resource_handle_valid d1 0x20 = true
    /\ exists d2,
         Vulkan.destroy_resource 0x20 d1 = Some d2
         /\ Vulkan.is_resource_handle_valid d2 0x20 = false
         /\ Vulkan.destroy_resource 0x20 d2 = None
         /\ Vulkan.destroy_resource 0 d2 = Some d2.
Proof.
  eexists. split; [reflexivity|].
  apply (vulkan_resource_handle_lifetime vk_granting (fun _ => vk_buffer_info)
           (fun _ => vk_image_info) (fun _ => 4) vk_buffer_desc None 0 vk_fresh).
  - reflexivity.
  - discriminate.
Defined.

(** ** Creation with initial data *)

(** C3: a texture is created with initial data, the native creation
    succeeding with a fresh non-null image and the caller supplying a
    data record for every subresource.  Then [create_resource] returns
    true with the image as handle, whatever happens to the uploads
    (the staging buffer or its mapping may fail for any subresource);
    the handle is valid on return; the registration is the first thing
    done after the native creation, so every step of every upload comes
    after it; and nothing undoes the registration. *)
Theorem vulkan_create_resource_registers_before_upload (drv : Vulkan.driver)
    (convert_resource_desc_buffer : Vulkan.resource_desc -> Vulkan.VkBufferCreateInfo)
    (convert_resource_desc_image : Vulkan.resource_desc -> Vulkan.VkImageCreateInfo)
    (format_bpp : Z -> Z) (desc : Vulkan.resource_desc)
    (datas : list Vulkan.subresource_data) (initial_state : Z)
    (d d1 : Vulkan.device_impl) (object allocation : Z) :
  is_texture (Vulkan.desc_type desc) = true ->
  Vulkan.native_create_image drv (Vulkan.desc_heap desc)
    (Vulkan.add_image_usage Vulkan.VK_IMAGE_USAGE_TRANSFER_DST_BIT
       (convert_resource_desc_image desc)) d
  = (d1, Vulkan.VK_SUCCESS, object, allocation) ->
  object ≠ 0 ->
  Vulkan._resources d !! object = None ->
  uint32 (uint32 (Vulkan.texture_depth_or_layers desc) * Vulkan.texture_levels desc)
    <= Z.of_nat (length datas) ->
  exists d' creation rest,
    Vulkan.create_resource drv convert_resource_desc_buffer convert_resource_desc_image
      format_bpp desc (Some datas) initial_state d = Some (d', object, true)
    /\ Vulkan.is_resource_handle_valid d' object = true
    /\ Vulkan.log d'
       = Vulkan.log d ++ creation :: Vulkan.ev_register_resource object :: rest
    /\ is_image_creation creation = true
    /\ Forall (fun e => is_registry_event e = false) rest.
Proof.
  intros Htex Hnative Hobj Hfresh Hlen.
  destruct (native_create_image_log _ _ _ _ _ _ _ _ Hnative) as (creation & Hd1 & Hcre).
  set (info := Vulkan.add_image_usage Vulkan.VK_IMAGE_USAGE_TRANSFER_DST_BIT
                 (convert_resource_desc_image desc)) in *.
  set (d2 := Vulkan.register_image object info allocation true d1).
  assert (Hreg : Vulkan.lookup_resource d2 object
                 = Some {| Vulkan.object := object;
                           Vulkan.create_info := Vulkan.image_create_info info;
                           Vulkan.allocation := allocation; Vulkan.owned := true |}).
  { unfold Vulkan.lookup_resource. subst d2 d1. simpl. apply emplace_fresh. exact Hfresh. }
  assert (Hlog2 : Vulkan.log d2
                  = Vulkan.log d ++ creation :: Vulkan.ev_register_resource object :: []).
  { subst d2 d1. simpl. rewrite <- app_assoc. reflexivity. }
  assert (Hvalid : forall d', quiet d2 d' -> Vulkan.is_resource_handle_valid d' object = true).
  { intros d' (Hr & _). unfold Vulkan.is_resource_handle_valid.
    rewrite bool_decide_eq_false_2 by exact Hobj.
    apply bool_decide_eq_true_2. rewrite Hr. unfold Vulkan.lookup_resource in Hreg.
    rewrite Hreg. eexists. reflexivity. }
  assert (Hlog : forall d', quiet d2 d' ->
            exists rest, Vulkan.log d'
                         = Vulkan.log d ++ creation :: Vulkan.ev_register_resource object :: rest
                         /\ Forall (fun e => is_registry_event e = false) rest).
  { intros d' (_ & _ & evs & Hl & Hf). exists evs. split; [|exact Hf].
    rewrite Hl, Hlog2, <- app_assoc. reflexivity. }
  assert (Hbody : exists d',
            (if bool_decide (initial_state ≠ Vulkan.resource_usage_undefined) then
               match Vulkan.first_immediate (Vulkan._queues d2) with
               | Some (q, cl) =>
                   d3 ← Vulkan.initialize_image drv format_bpp desc (Some datas) initial_state
                          cl object d2;
                   Some (Vulkan.emit [Vulkan.ev_flush_immediate_command_list (Vulkan.queue q)] d3,
                         object, true)
               | None => Some (d2, object, true)
               end
             else Some (d2, object, true)) = Some (d', object, true)
            /\ quiet d2 d').
  { destruct (bool_decide (initial_state ≠ _)); [|exists d2; split; [reflexivity|apply quiet_refl]].
    destruct (Vulkan.first_immediate _) as [[q cl]|];
      [|exists d2; split; [reflexivity|apply quiet_refl]].
    destruct (initialize_image_returns drv format_bpp desc (Some datas) initial_state cl object
                d2 _ info Hreg eq_refl) as [d3 Hinit].
    { intros ds Hds. injection Hds as <-. exact Hlen. }
    rewrite Hinit. simpl. eexists. split; [reflexivity|].
    apply quiet_emit_r; [|repeat constructor].
    eapply initialize_image_quiet. exact Hinit. }
  destruct Hbody as (d' & Hrun & Hq).
  destruct (Hlog d' Hq) as (rest & Hl & Hf).
  exists d', creation, rest.
  split; [|split; [apply Hvalid; exact Hq | split; [exact Hl | split; [exact Hcre | exact Hf]]]].
  unfold Vulkan.create_resource.
  destruct (Vulkan.desc_type desc); try discriminate Htex;
    fold info; rewrite Hnative; simpl; exact Hrun.
Qed.

(** One subresource, a graphics queue, and no memory for the staging
    buffer: the upload fails and is logged, the texture stays
    registered. *)
Lemma vulkan_create_resource_registers_before_upload_witness :
  exists d' creation rest,
    Vulkan.create_resource vk_no_staging (fun _ => vk_buffer_info) (fun _ => vk_image_info)
      (fun _ => 4) vk_texture_desc (Some [vk_pixels]) 0xC0 vk_one_queue = Some (d', 0x40, true)
    /\ Vulkan.is_resource_handle_valid d' 0x40 = true
    /\ Vulkan.log d'
       = Vulkan.log vk_one_queue ++ creation :: Vulkan.ev_register_resource 0x40 :: rest
    /\ is_image_creation creation = true
    /\ Forall (fun e => is_registry_event e = false) rest.
Proof.
  eapply (vulkan_create_resource_registers_before_upload vk_no_staging (fun _ => vk_buffer_info)
            (fun _ => vk_image_info) (fun _ => 4) vk_texture_desc [vk_pixels] 0xC0
            vk_one_queue _ 0x40 0x41).
  - reflexivity.
  - reflexivity.
  - discriminate.
  - reflexivity.
  - vm_compute. discriminate.
Defined.

(** ** Attachment queries of the Vulkan backend *)

Lemma matching_views_subset (atts : list Vulkan.attachment) (views : list Z) (type v : Z) :
  v ∈ Vulkan.matching_views atts views type -> v ∈ views.
Proof.
  revert views. induction atts as [|a atts IH]; intros views H.
  - simpl in H. destruct views; inversion H.
  - destruct views as [|w views]; [inversion H|]. simpl in H.
    destruct (bool_decide _).
    + apply elem_of_cons in H as [->|H]; [left | right; apply IH; exact H].
    + right. apply IH. exact H.
Qed.

(** The counting loop counts the matching views. *)
Lemma count_attachments_spec (atts : list Vulkan.attachment) (views : list Z) (type c : Z) :
  (length atts <= length views)%nat -> 0 <= c -> c + Z.of_nat (length atts) < 2 ^ 32 ->
  Vulkan.count_attachments atts type c
  = c + Z.of_nat (length (Vulkan.matching_views atts views type)).
Proof.
  revert views c. induction atts as [|a atts IH]; intros views c Hlen Hc Hbound.
  - simpl. lia.
  - destruct views as [|w views]; [simpl in Hlen; lia|].
    simpl in Hlen, Hbound. simpl.
    destruct (bool_decide _).
    + rewrite uint32_small by lia. rewrite (IH views) by lia. simpl. lia.
    + apply IH; lia.
Qed.

(** The search loop returns the view of the [index]-th matching
    attachment, or fails with the zero view when there is none. *)
Lemma find_attachment_spec (type : Z) (views : list Z) (atts : list Vulkan.attachment)
    (i : nat) (index : Z) :
  0 <= index < 2 ^ 32 -> (length atts <= length (drop i views))%nat ->
  Vulkan.find_attachment atts (Z.of_nat i) views type index
  = Some (match Vulkan.matching_views atts (drop i views) type !! Z.to_nat index with
          | Some v => (v, true)
          | None => (0, false)
          end).
Proof.
  revert i index. induction atts as [|a atts IH]; intros i index Hidx Hlen.
  - reflexivity.
  - assert (Hi : (i < length views)%nat).
    { rewrite length_drop in Hlen. simpl in Hlen. lia. }
    destruct (lookup_lt_is_Some_2 views i Hi) as [w Hw].
    rewrite (drop_S _ _ _ Hw) in *. simpl in Hlen. simpl.
    replace (Z.of_nat i + 1) with (Z.of_nat (S i)) by lia.
    destruct (bool_decide (Z.land _ _ ≠ 0)).
    + destruct (bool_decide (index = 0)) eqn:H0.
      * apply bool_decide_eq_true_1 in H0. subst index.
        rewrite vector_get_lookup by lia. rewrite Nat2Z.id, Hw. reflexivity.
      * apply bool_decide_eq_false_1 in H0.
        rewrite uint32_small by lia. rewrite IH by lia.
        replace (Z.to_nat index) with (S (Z.to_nat (index - 1))) by lia. reflexivity.
    + apply IH; [exact Hidx | lia].
Qed.

(** The two loops in terms of the matching views: the count is their
    number, an index below it yields the view at that position, the
    count itself as index fails with the zero view. *)
Lemma attachment_loops_spec (atts : list Vulkan.attachment) (views : list Z) (type : Z) :
  length atts = length views ->
  Forall (fun v => v ≠ 0) views ->
  Z.of_nat (length atts) < 2 ^ 32 ->
  let matching := Vulkan.matching_views atts views type in
  Vulkan.count_attachments atts type 0 = Z.of_nat (length matching)
  /\ (forall (i : nat) (v : Z), matching !! i = Some v ->
        Vulkan.find_attachment atts 0 views type (Z.of_nat i) = Some (v, true) /\ v ≠ 0)
  /\ Vulkan.find_attachment atts 0 views type (Z.of_nat (length matching)) = Some (0, false).
Proof.
  intros Hlen Hnz Hbound matching.
  assert (Hm : (length matching <= length atts)%nat).
  { subst matching. clear. revert views.
    induction atts as [|a atts IH]; intros views; [simpl; lia|].
    destruct views as [|w views]; [simpl; lia|]. simpl.
    destruct (bool_decide _); simpl; specialize (IH views); lia. }
  assert (Hfind : forall index, 0 <= index < 2 ^ 32 ->
            Vulkan.find_attachment atts 0 views type index
            = Some (match matching !! Z.to_nat index with
                    | Some v => (v, true)
                    | None => (0, false)
                    end)).
  { intros index Hidx.
    apply (find_attachment_spec type views atts 0%nat index Hidx).
    rewrite drop_0. lia. }
  split; [|split].
  - rewrite (count_attachments_spec _ views) by lia. reflexivity.
  - intros i v Hv.
    assert (Hi : (i < length matching)%nat) by (apply lookup_lt_is_Some; eexists; exact Hv).
    rewrite Hfind by lia. rewrite Nat2Z.id, Hv. split; [reflexivity|].
    rewrite Forall_forall in Hnz. apply Hnz.
    eapply matching_views_subset. apply list_elem_of_lookup. exists i. exact Hv.
  - rewrite Hfind by lia. rewrite Nat2Z.id.
    rewrite (lookup_ge_None_2 matching (length matching)) by lia. reflexivity.
Qed.

(** C5: for a render pass whose framebuffer record holds one non-null
    view for each attachment of the render-pass record,
    [get_attachment_count] is the number [N] of attachments whose
    format flags meet the requested type; [get_attachment] succeeds for
    an index below [N] with the view of the attachment that is the
    [index]-th of the matching ones in declaration order, which is not
    null; and it fails with the zero view for the index [N]. *)
Theorem vulkan_get_attachment_by_type (d : Vulkan.device_impl) (pass type : Z)
    (pass_impl : Vulkan.render_pass_impl) (info : Vulkan.framebuffer_data)
    (pass_info : Vulkan.render_pass_data) :
  Vulkan.render_passes d !! pass = Some pass_impl ->
  Vulkan._framebuffer_list d !! Vulkan.fbo pass_impl = Some info ->
  Vulkan._render_pass_list d !! Vulkan.render_pass pass_impl = Some pass_info ->
  length (Vulkan.attachments pass_info) = length (Vulkan.fbo_attachments info) ->
  Forall (fun v => v ≠ 0) (Vulkan.fbo_attachments info) ->
  Z.of_nat (length (Vulkan.attachments pass_info)) < 2 ^ 32 ->
  let matching :=
    Vulkan.matching_views (Vulkan.attachments pass_info) (Vulkan.fbo_attachments info) type in
  Vulkan.get_attachment_count d pass type = Some (Z.of_nat (length matching))
  /\ (forall (i : nat) (v : Z), matching !! i = Some v ->
        Vulkan.get_attachment d pass type (Z.of_nat i) = Some (v, true) /\ v ≠ 0)
  /\ Vulkan.get_attachment d pass type (Z.of_nat (length matching)) = Some (0, false).
Proof.
  intros Hp Hf Hr Hlen Hnz Hbound matching.
  destruct (attachment_loops_spec (Vulkan.attachments pass_info) (Vulkan.fbo_attachments info)
              type Hlen Hnz Hbound) as (Hcount & Hlt & Heq).
  assert (Hget : forall index,
            Vulkan.get_attachment d pass type index
            = Vulkan.find_attachment (Vulkan.attachments pass_info) 0
                (Vulkan.fbo_attachments info) type index).
  { intros index. unfold Vulkan.get_attachment. rewrite Hp. simpl. rewrite Hf. simpl.
    rewrite Hr. reflexivity. }
  split; [|split].
  - unfold Vulkan.get_attachment_count. rewrite Hp. simpl. rewrite Hr. simpl.
    rewrite Hcount. reflexivity.
  - intros i v Hv. rewrite Hget. apply Hlt. exact Hv.
  - rewrite Hget. exact Heq.
Qed.

(** The color attachments of a pass with two of them and a
    depth-stencil attachment. *)
Lemma vulkan_get_attachment_by_type_witness :
  Vulkan.get_attachment_count vk_with_pass 0xA0 1 = Some 2
  /\ (forall (i : nat) (v : Z), [0x501; 0x502] !! i = Some v ->
        Vulkan.get_attachment vk_with_pass 0xA0 1 (Z.of_nat i) = Some (v, true) /\ v ≠ 0)
  /\ Vulkan.get_attachment vk_with_pass 0xA0 1 2 = Some (0, false).
Proof.
  apply (vulkan_get_attachment_by_type vk_with_pass 0xA0 1
           {| Vulkan.fbo := 0x90; Vulkan.render_pass := 0x80;
              Vulkan.render_area_width := 256; Vulkan.render_area_height := 256 |}
           {| Vulkan.fbo_attachments := [0x501; 0x502; 0x503];
              Vulkan.attachment_types := [1; 1; 6] |}
           {| Vulkan.attachments :=
                [ {| Vulkan.initial_layout := 2; Vulkan.clear_flags := 0;
                     Vulkan.format_flags := 1 |};
                  {| Vulkan.initial_layout := 2; Vulkan.clear_flags := 0;
                     Vulkan.format_flags := 1 |};
                  {| Vulkan.initial_layout := 3; Vulkan.clear_flags := 0;
                     Vulkan.format_flags := 6 |} ] |}).
  - reflexivity.
  - reflexivity.
  - reflexivity.
  - reflexivity.
  - repeat constructor; discriminate.
  - simpl. lia.
Defined.

(** ** Atomicity of the creation functions *)

(** C2, on the code: [create_resource_view] of the OpenGL backend has
    two failure exits that return false and leave [*out] as the caller
    passed it: an unknown view type, and a format without OpenGL
    counterpart.  No zero handle is written there, unlike at every other
    failure exit of the creation functions. *)
Theorem opengl_create_resource_view_failure_leaves_out
    (convert_format : Z -> Z) (format_to_default_typed : Z -> Z -> Z)
    (make_resource_view_handle : Z -> Z -> Z -> Z)
    (get_tex_level_param : Z -> Z -> Z -> Z -> Z)
    (is_event_handle : bool) (gen_name prev_object resource : Z)
    (desc : OpenGL.resource_view_desc) (out : Z) (d : OpenGL.device_impl) :
  uint32 (Z.shiftr resource 40) ≠ OpenGL.GL_RENDERBUFFER ->
  uint32 (Z.shiftr resource 40) ≠ OpenGL.GL_FRAMEBUFFER_DEFAULT ->
  OpenGL.view_target (OpenGL.view_type desc) = None
  \/ convert_format (OpenGL.view_format desc) = OpenGL.GL_NONE ->
  OpenGL.create_resource_view convert_format format_to_default_typed make_resource_view_handle
    get_tex_level_param is_event_handle gen_name prev_object resource desc out d
  = (d, out, false).
Proof.
  intros Hrb Hdf Hfail. unfold OpenGL.create_resource_view.
  rewrite (bool_decide_eq_false_2 _ Hrb), (bool_decide_eq_false_2 _ Hdf). simpl.
  destruct (OpenGL.view_target (OpenGL.view_type desc)) as [target|]; [|reflexivity].
  destruct Hfail as [Hfail|Hfail]; [discriminate|].
  rewrite (bool_decide_eq_true_2 _ Hfail). reflexivity.
Qed.

(** A 2D view of texture 5 in a format that converts to [GL_NONE],
    with [*out] holding [0xDEAD] on entry: false is returned and [*out]
    still holds [0xDEAD]. *)
Lemma opengl_create_resource_view_failure_leaves_out_witness :
  OpenGL.create_resource_view (fun f => if bool_decide (f = 0) then OpenGL.GL_NONE else 0x8058)
    (fun f _ => f) (fun t o e => Z.lor (Z.shiftl t 40) (Z.lor (Z.shiftl e 32) o))
    (fun _ _ _ _ => 0x8058) false 9 0 gl_texture_2d_5 gl_view_desc_unknown_format 0xDEAD
    gl_no_depth
  = (gl_no_depth, 0xDEAD, false).
Proof.
  apply (opengl_create_resource_view_failure_leaves_out
           (fun f => if bool_decide (f = 0) then OpenGL.GL_NONE else 0x8058)
           (fun f _ => f) (fun t o e => Z.lor (Z.shiftl t 40) (Z.lor (Z.shiftl e 32) o))
           (fun _ _ _ _ => 0x8058) false 9 0 gl_texture_2d_5 gl_view_desc_unknown_format 0xDEAD
           gl_no_depth).
  - vm_compute. discriminate.
  - vm_compute. discriminate.
  - right. reflexivity.
Defined.

(** [create_render_pass] of the OpenGL backend is atomic: on failure the
    zero handle is written and the framebuffer object it generated is
    deleted again; on success the handle is the default one (no object
    made) or packs the generated framebuffer object, which is alive. *)
Lemma opengl_create_render_pass_atomic (make_render_pass_handle : Z -> Z -> Z -> Z)
    (default_render_pass_handle prev_fbo fbo_object status : Z)
    (desc : OpenGL.render_pass_desc) (d d' : OpenGL.device_impl) (out : Z) (ok : bool) :
  fbo_object ∉ OpenGL.framebuffers d ->
  OpenGL.create_render_pass make_render_pass_handle default_render_pass_handle prev_fbo
    fbo_object status desc d = Some (d', out, ok) ->
  if ok then
    (out = default_render_pass_handle /\ d' = d)
    \/ (exists n flags, out = make_render_pass_handle fbo_object n flags
                        /\ OpenGL.framebuffers d' = {[fbo_object]} ∪ OpenGL.framebuffers d)
  else
    out = 0 /\ OpenGL.framebuffers d' = OpenGL.framebuffers d
    /\ OpenGL.layouts d' = OpenGL.layouts d /\ OpenGL.sets d' = OpenGL.sets d
    /\ OpenGL.pools d' = OpenGL.pools d.
Proof.
  intros Hfresh.
  assert (Hdel : ({[fbo_object]} ∪ OpenGL.framebuffers d) ∖ {[fbo_object]}
                 = OpenGL.framebuffers d).
  { apply set_eq. intros x.
    rewrite elem_of_difference, elem_of_union, !elem_of_singleton. split.
    - intros [[Hx|Hx] Hn]; [contradiction|exact Hx].
    - intros Hx. split; [right; exact Hx|]. intros ->. contradiction. }
  intros H. unfold OpenGL.create_render_pass in H.
  apply bind_Some in H as (rt0 & _ & H).
  destruct (_ && _).
  { injection H as <- <- <-. left. split; reflexivity. }
  apply bind_Some in H as (r & _ & H).
  destruct r as [calls n srgb|calls].
  - destruct (bool_decide (OpenGL.depth_stencil desc ≠ 0)).
    + destruct (OpenGL.attach _ _) as [c|].
      * destruct (bool_decide (status = _)); injection H as <- <- <-.
        -- right. eexists. eexists. split; reflexivity.
        -- simpl. rewrite Hdel. repeat split; reflexivity.
      * injection H as <- <- <-. simpl. rewrite Hdel. repeat split; reflexivity.
    + destruct (bool_decide (status = _)); injection H as <- <- <-.
      * right. eexists. eexists. split; reflexivity.
      * simpl. rewrite Hdel. repeat split; reflexivity.
  - injection H as <- <- <-. simpl. rewrite Hdel. repeat split; reflexivity.
Qed.

Lemma add_attachment_ok (d : Vulkan.device_impl) (v format layout type : Z)
    (b b' : Vulkan.pass_builder) (n : nat) :
  Vulkan.add_attachment d v format layout type b = Some b' -> v ≠ 0 ->
  builder_ok n b -> builder_ok (S n) b'.
Proof.
  intros H Hv (Hlen & Hnz & Hn). unfold Vulkan.add_attachment in H.
  apply bind_Some in H as (vi & _ & H).
  apply bind_Some in H as (ri & _ & H).
  apply bind_Some in H as (ii & _ & H).
  injection H as <-. unfold builder_ok. simpl. rewrite !length_app. simpl.
  split; [lia|]. split; [|lia].
  apply Forall_app. split; [exact Hnz|]. repeat constructor. exact Hv.
Qed.

Lemma add_colors_ok (convert_format : Z -> Z) (d : Vulkan.device_impl)
    (desc : Vulkan.render_pass_desc) (fuel : nat) (i k : Z) (b b' : Vulkan.pass_builder)
    (n : nat) :
  Vulkan.add_colors convert_format d desc fuel i b = Some (b', k) ->
  builder_ok n b -> builder_ok (n + fuel) b'.
Proof.
  revert i b n. induction fuel as [|fuel IH]; intros i b n H Hb.
  - injection H as <- <-. destruct Hb as (H1 & H2 & H3). repeat split; [exact H1|exact H2|lia].
  - simpl in H. apply bind_Some in H as (v & _ & H).
    destruct (bool_decide (v = 0)) eqn:Hv.
    + injection H as <- <-. destruct Hb as (H1 & H2 & H3). repeat split; [exact H1|exact H2|lia].
    + apply bool_decide_eq_false_1 in Hv.
      apply bind_Some in H as (f & _ & H).
      apply bind_Some in H as (b1 & Hadd & H).
      replace (n + S fuel)%nat with (S n + fuel)%nat by lia.
      eapply IH; [exact H|]. eapply add_attachment_ok; [exact Hadd|exact Hv|exact Hb].
Qed.

(** [create_render_pass] of the Vulkan backend is atomic.  On failure
    the zero handle is written, no table has changed, and either the
    render pass was never created or it was created and destroyed
    again after the framebuffer creation failed.  On success the handle
    designates a pass object whose render pass and framebuffer are both
    in their tables. *)
Lemma vulkan_create_render_pass_atomic (drv : Vulkan.driver) (convert_format : Z -> Z)
    (desc : Vulkan.render_pass_desc) (d d' : Vulkan.device_impl) (out : Z) (ok : bool) :
  Vulkan.create_render_pass drv convert_format desc d = Some (d', out, ok) ->
  if ok then
    exists pass_impl,
      Vulkan.render_passes d' !! out = Some pass_impl
      /\ is_Some (Vulkan._render_pass_list d' !! Vulkan.render_pass pass_impl)
      /\ is_Some (Vulkan._framebuffer_list d' !! Vulkan.fbo pass_impl)
  else
    out = 0
    /\ Vulkan._render_pass_list d' = Vulkan._render_pass_list d
    /\ Vulkan._framebuffer_list d' = Vulkan._framebuffer_list d
    /\ Vulkan.render_passes d' = Vulkan.render_passes d
    /\ exists formats n result pass,
         (result ≠ Vulkan.VK_SUCCESS
          /\ Vulkan.log d' = Vulkan.log d ++ [Vulkan.ev_vkCreateRenderPass formats n result pass])
         \/ (exists views w h layers result' framebuffer,
               result' ≠ Vulkan.VK_SUCCESS
               /\ Vulkan.log d'
                  = Vulkan.log d
                    ++ [Vulkan.ev_vkCreateRenderPass formats n Vulkan.VK_SUCCESS pass;
                        Vulkan.ev_vkCreateFramebuffer pass views w h layers result' framebuffer;
                        Vulkan.ev_vkDestroyRenderPass pass]).
Proof.
  intros H. unfold Vulkan.create_render_pass in H.
  apply bind_Some in H as ([b0 n] & _ & H).
  apply bind_Some in H as (b & _ & H).
  destruct (Vulkan.vkCreateRenderPass drv _ _ _) as [result pass].
  destruct (bool_decide (result ≠ Vulkan.VK_SUCCESS)) eqn:Hres.
  { apply bool_decide_eq_true_1 in Hres. injection H as <- <- <-.
    repeat split. do 4 eexists. left. split; [exact Hres|reflexivity]. }
  apply bool_decide_eq_false_1 in Hres. apply dec_stable in Hres. subst result.
  destruct (Vulkan.vkCreateFramebuffer drv _ _ _) as [result' framebuffer].
  destruct (bool_decide (result' ≠ Vulkan.VK_SUCCESS)) eqn:Hres'.
  { apply bool_decide_eq_true_1 in Hres'. injection H as <- <- <-.
    repeat split. eexists. eexists. exists 0. eexists. right. do 6 eexists.
    split; [exact Hres'|].
    simpl. rewrite <- !app_assoc. reflexivity. }
  injection H as <- <- <-. eexists. split; [apply lookup_insert_eq|].
  split; apply emplace_is_Some.
Qed.

(** A pass made by [create_render_pass] from fresh native objects is
    one the attachment queries handle: one non-null view for each of
    its at most nine attachments. *)
Lemma vulkan_create_render_pass_queryable (drv : Vulkan.driver) (convert_format : Z -> Z)
    (desc : Vulkan.render_pass_desc) (d d' : Vulkan.device_impl) (out : Z) :
  Vulkan.create_render_pass drv convert_format desc d = Some (d', out, true) ->
  exists pass_impl info pass_info,
    Vulkan.render_passes d' !! out = Some pass_impl
    /\ (Vulkan._framebuffer_list d !! Vulkan.fbo pass_impl = None ->
        Vulkan._framebuffer_list d' !! Vulkan.fbo pass_impl = Some info)
    /\ (Vulkan._render_pass_list d !! Vulkan.render_pass pass_impl = None ->
        Vulkan._render_pass_list d' !! Vulkan.render_pass pass_impl = Some pass_info)
    /\ length (Vulkan.attachments pass_info) = length (Vulkan.fbo_attachments info)
    /\ Forall (fun v => v ≠ 0) (Vulkan.fbo_attachments info)
    /\ Z.of_nat (length (Vulkan.attachments pass_info)) < 2 ^ 32.
Proof.
  intros H. unfold Vulkan.create_render_pass in H.
  apply bind_Some in H as ([b0 n] & Hcol & H).
  apply bind_Some in H as (b & Hdep & H).
  assert (Hb : builder_ok 9 b).
  { assert (H0 : builder_ok 8 b0).
    { apply (add_colors_ok convert_format d desc 8 0 n Vulkan.empty_builder b0 0 Hcol).
      repeat split; [constructor | simpl; lia]. }
    destruct (bool_decide (Vulkan.depth_stencil desc ≠ 0)) eqn:Hds.
    - apply bool_decide_eq_true_1 in Hds.
      eapply add_attachment_ok; [exact Hdep|exact Hds|exact H0].
    - injection Hdep as <-. destruct H0 as (H1 & H2 & H3). repeat split; [exact H1|exact H2|lia]. }
  destruct (Vulkan.vkCreateRenderPass drv _ _ _) as [result pass].
  destruct (bool_decide (result ≠ Vulkan.VK_SUCCESS)); [discriminate|].
  destruct (Vulkan.vkCreateFramebuffer drv _ _ _) as [result' framebuffer].
  destruct (bool_decide (result' ≠ Vulkan.VK_SUCCESS)); [discriminate|].
  injection H as <- <-.
  destruct Hb as (Hlen & Hnz & Hn).
  exists {| Vulkan.fbo := framebuffer; Vulkan.render_pass := pass;
            Vulkan.render_area_width := Vulkan.width b;
            Vulkan.render_area_height := Vulkan.height b |},
         (Vulkan.fbo_data b), (Vulkan.pass_data b).
  split; [apply lookup_insert_eq|].
  split; [intros Hf; simpl; apply emplace_fresh; exact Hf|].
  split; [intros Hf; simpl; apply emplace_fresh; exact Hf|].
  split; [exact Hlen|]. split; [exact Hnz|]. lia.
Qed.

(** The attachment queries on a pass that [create_render_pass] has just
    made from fresh native objects: the count for a type is the number
    of matching attachments, every index below it yields a non-null
    view, and the count itself as index fails with the zero view. *)
Corollary vulkan_created_pass_attachments (drv : Vulkan.driver) (convert_format : Z -> Z)
    (desc : Vulkan.render_pass_desc) (d d' : Vulkan.device_impl) (out type : Z) :
  Vulkan.create_render_pass drv convert_format desc d = Some (d', out, true) ->
  (forall k, Vulkan._framebuffer_list d !! k = None) ->
  (forall k, Vulkan._render_pass_list d !! k = None) ->
  exists N : nat,
    Vulkan.get_attachment_count d' out type = Some (Z.of_nat N)
    /\ (forall i : nat, (i < N)%nat ->
          exists v, Vulkan.get_attachment d' out type (Z.of_nat i) = Some (v, true) /\ v ≠ 0)
    /\ Vulkan.get_attachment d' out type (Z.of_nat N) = Some (0, false).
Proof.
  intros Hcreate Hfb Hrp.
  destruct (vulkan_create_render_pass_queryable _ _ _ _ _ _ Hcreate)
    as (pass_impl & info & pass_info & Hp & Hf & Hr & Hlen & Hnz & Hbound).
  specialize (Hf (Hfb _)). specialize (Hr (Hrp _)).
  destruct (attachment_loops_spec (Vulkan.attachments pass_info) (Vulkan.fbo_attachments info)
              type Hlen Hnz Hbound) as (Hcount & Hlt & Heq).
  assert (Hget : forall index,
            Vulkan.get_attachment d' out type index
            = Vulkan.find_attachment (Vulkan.attachments pass_info) 0
                (Vulkan.fbo_attachments info) type index).
  { intros index. unfold Vulkan.get_attachment. rewrite Hp. simpl. rewrite Hf. simpl.
    rewrite Hr. reflexivity. }
  eexists. split; [|split].
  - unfold Vulkan.get_attachment_count. rewrite Hp. simpl. rewrite Hr. simpl.
    rewrite Hcount. reflexivity.
  - intros i Hi. destruct (lookup_lt_is_Some_2 _ _ Hi) as [v Hv].
    exists v. rewrite Hget. apply Hlt. exact Hv.
  - rewrite Hget. exact Heq.
Qed.

(** ** Render passes, uploads and views of the Vulkan device *)

Lemma add_attachment_shape (d : Vulkan.device_impl) (v format layout type : Z)
    (b b' : Vulkan.pass_builder) :
  Vulkan.add_attachment d v format layout type b = Some b' ->
  Vulkan.formats b' = Vulkan.formats b ++ [format]
  /\ Vulkan.attachments (Vulkan.pass_data b')
     = Vulkan.attachments (Vulkan.pass_data b)
       ++ [{| Vulkan.initial_layout := layout; Vulkan.clear_flags := 0;
              Vulkan.format_flags := Vulkan.aspect_flags_from_format format |}]
  /\ Vulkan.fbo_attachments (Vulkan.fbo_data b') = Vulkan.fbo_attachments (Vulkan.fbo_data b) ++ [v]
  /\ Vulkan.attachment_types (Vulkan.fbo_data b')
     = Vulkan.attachment_types (Vulkan.fbo_data b) ++ [type].
Proof.
  intros H. unfold Vulkan.add_attachment in H.
  apply bind_Some in H as (vi & _ & H).
  apply bind_Some in H as (ri & _ & H).
  apply bind_Some in H as (ii & _ & H).
  injection H as <-. simpl. repeat split; reflexivity.
Qed.

Lemma add_colors_shape (convert_format : Z -> Z) (d : Vulkan.device_impl)
    (desc : Vulkan.render_pass_desc) (fuel : nat) (i : nat) (k : Z)
    (b b' : Vulkan.pass_builder) :
  Vulkan.add_colors convert_format d desc fuel (Z.of_nat i) b = Some (b', k) ->
  exists m : nat,
    (m <= fuel)%nat /\ k = Z.of_nat (i + m)
    /\ length (take m (drop i (Vulkan.render_targets desc))) = m
    /\ length (take m (drop i (Vulkan.render_targets_format desc))) = m
    /\ Forall (fun v => v ≠ 0) (take m (drop i (Vulkan.render_targets desc)))
    /\ ((m < fuel)%nat -> Vulkan.render_targets desc !! (i + m)%nat = Some 0)
    /\ Vulkan.formats b'
       = Vulkan.formats b ++ map convert_format (take m (drop i (Vulkan.render_targets_format desc)))
    /\ Vulkan.attachments (Vulkan.pass_data b')
       = Vulkan.attachments (Vulkan.pass_data b)
         ++ map (color_attachment convert_format)
              (take m (drop i (Vulkan.render_targets_format desc)))
    /\ Vulkan.fbo_attachments (Vulkan.fbo_data b')
       = Vulkan.fbo_attachments (Vulkan.fbo_data b)
         ++ take m (drop i (Vulkan.render_targets desc))
    /\ Vulkan.attachment_types (Vulkan.fbo_data b')
       = Vulkan.attachment_types (Vulkan.fbo_data b)
         ++ replicate m Vulkan.VK_IMAGE_ASPECT_COLOR_BIT.
Proof.
  revert i b. induction fuel as [|fuel IH]; intros i b H.
  - injection H as <- <-. exists 0%nat. rewrite !take_0, !app_nil_r. simpl.
    repeat split; try reflexivity; try lia. constructor.
  - simpl in H. apply bind_Some in H as (v & Hv & H).
    rewrite vector_get_lookup in Hv by lia. rewrite Nat2Z.id in Hv.
    destruct (bool_decide (v = 0)) eqn:Hz.
    + apply bool_decide_eq_true_1 in Hz. subst v. injection H as <- <-.
      exists 0%nat. rewrite !take_0, !app_nil_r. simpl.
      repeat split; try reflexivity; try lia; try constructor.
      intros _. rewrite Nat.add_0_r. exact Hv.
    + apply bool_decide_eq_false_1 in Hz.
      apply bind_Some in H as (f & Hf & H).
      rewrite vector_get_lookup in Hf by lia. rewrite Nat2Z.id in Hf.
      apply bind_Some in H as (b1 & Hadd & H).
      apply add_attachment_shape in Hadd as (Hfm & Hat & Hfa & Hty).
      replace (Z.of_nat i + 1) with (Z.of_nat (S i)) in H by lia.
      apply IH in H as (m & Hm & Hk & Hl1 & Hl2 & Hnz & Hstop & Hfm' & Hat' & Hfa' & Hty').
      exists (S m).
      rewrite (drop_S _ _ _ Hv), (drop_S _ _ _ Hf). simpl.
      rewrite Hfm', Hat', Hfa', Hty', Hfm, Hat, Hfa, Hty, <- !app_assoc. simpl.
      repeat split; try reflexivity; try lia.
      * constructor; assumption.
      * intros Hlt. replace (i + S m)%nat with (S i + m)%nat by lia. apply Hstop. lia.
Qed.

Lemma create_render_pass_success (drv : Vulkan.driver) (convert_format : Z -> Z)
    (desc : Vulkan.render_pass_desc) (d d' : Vulkan.device_impl) (out : Z) :
  Vulkan.create_render_pass drv convert_format desc d = Some (d', out, true) ->
  exists n pass framebuffer, created_pass drv convert_format desc d d' out n pass framebuffer.
Proof.
  intros H. unfold Vulkan.create_render_pass in H.
  apply bind_Some in H as ([b0 k] & Hcol & H).
  apply bind_Some in H as (b & Hdep & H).
  apply (add_colors_shape convert_format d desc 8 0%nat) in Hcol
    as (n & Hn & Hk & Hl1 & Hl2 & Hnz & Hstop & Hfm & Hat & Hfa & Hty).
  rewrite !drop_0 in *. simpl in Hk, Hfm, Hat, Hfa, Hty, Hstop. subst k.
  destruct (Vulkan.vkCreateRenderPass drv (Vulkan.log d) (Vulkan.formats b) (Z.of_nat n))
    as [result pass] eqn:Hrp.
  destruct (bool_decide (result ≠ Vulkan.VK_SUCCESS)) eqn:Hres; [discriminate|].
  apply bool_decide_eq_false_1 in Hres. apply dec_stable in Hres. subst result.
  rewrite Nat2Z.id in H.
  match type of H with
  | context [Vulkan.vkCreateFramebuffer drv ?l ?p ?v] =>
      destruct (Vulkan.vkCreateFramebuffer drv l p v) as [result' framebuffer] eqn:Hfb
  end.
  destruct (bool_decide (result' ≠ Vulkan.VK_SUCCESS)) eqn:Hres'; [discriminate|].
  apply bool_decide_eq_false_1 in Hres'. apply dec_stable in Hres'. subst result'.
  injection H as <- <-.
  exists n, pass, framebuffer. unfold created_pass.
  assert (Hshape :
    Vulkan.attachments (Vulkan.pass_data b)
    = map (color_attachment convert_format) (take n (Vulkan.render_targets_format desc))
      ++ (if bool_decide (Vulkan.depth_stencil desc ≠ 0)
          then [depth_stencil_attachment convert_format desc] else [])
    /\ Vulkan.fbo_attachments (Vulkan.fbo_data b)
       = take n (Vulkan.render_targets desc)
         ++ (if bool_decide (Vulkan.depth_stencil desc ≠ 0)
             then [Vulkan.depth_stencil desc] else [])
    /\ Vulkan.attachment_types (Vulkan.fbo_data b)
       = replicate n Vulkan.VK_IMAGE_ASPECT_COLOR_BIT
         ++ (if bool_decide (Vulkan.depth_stencil desc ≠ 0)
             then [Vulkan.aspect_flags_from_format
                     (convert_format (Vulkan.depth_stencil_format desc))] else [])).
  { destruct (bool_decide (Vulkan.depth_stencil desc ≠ 0)).
    - apply add_attachment_shape in Hdep as (_ & Hat1 & Hfa1 & Hty1).
      rewrite Hat1, Hfa1, Hty1, Hat, Hfa, Hty. repeat split; reflexivity.
    - injection Hdep as <-. rewrite Hat, Hfa, Hty, !app_nil_r. repeat split; reflexivity. }
  destruct Hshape as (Sat & Sfa & Sty).
  split; [exact Hn|]. split; [exact Hl1|]. split; [exact Hl2|]. split; [exact Hnz|].
  split; [exact Hstop|].
  split; [do 3 eexists; rewrite Hrp; reflexivity|].
  split; [do 3 eexists; rewrite Hfb; reflexivity|].
  split; [eexists; reflexivity|].
  split; [reflexivity|]. split; [reflexivity|]. split; [reflexivity|].
  split; [do 2 eexists; reflexivity|].
  split; [exists (Vulkan.pass_data b); split; [reflexivity|exact Sat]|].
  split; [exists (Vulkan.fbo_data b); split; [reflexivity|split; [exact Sfa|exact Sty]]|].
  do 4 eexists. simpl. rewrite <- app_assoc. reflexivity.
Qed.

Lemma matching_views_app (atts1 atts2 : list Vulkan.attachment) (v1 v2 : list Z) (type : Z) :
  length atts1 = length v1 ->
  Vulkan.matching_views (atts1 ++ atts2) (v1 ++ v2) type
  = Vulkan.matching_views atts1 v1 type ++ Vulkan.matching_views atts2 v2 type.
Proof.
  revert v1. induction atts1 as [|a atts1 IH]; intros [|w v1] Hlen; try discriminate.
  - reflexivity.
  - simpl. injection Hlen as Hlen. rewrite (IH v1 Hlen).
    destruct (bool_decide _); reflexivity.
Qed.

Lemma matching_views_all (atts : list Vulkan.attachment) (views : list Z) (type : Z) :
  length atts = length views ->
  Forall (fun a => Z.land (Vulkan.format_flags a) (uint32 type) ≠ 0) atts ->
  Vulkan.matching_views atts views type = views.
Proof.
  revert views. induction atts as [|a atts IH]; intros [|w views] Hlen Hall; try discriminate.
  - reflexivity.
  - simpl. injection Hlen as Hlen. inversion Hall as [|? ? Ha Hrest]; subst.
    rewrite (bool_decide_eq_true_2 _ Ha), (IH views Hlen Hrest). reflexivity.
Qed.

Lemma matching_views_none (atts : list Vulkan.attachment) (views : list Z) (type : Z) :
  Forall (fun a => Z.land (Vulkan.format_flags a) (uint32 type) = 0) atts ->
  Vulkan.matching_views atts views type = [].
Proof.
  revert views. induction atts as [|a atts IH]; intros views Hall; [reflexivity|].
  destruct views as [|w views]; [reflexivity|]. simpl.
  inversion Hall as [|? ? Ha Hrest]; subst.
  rewrite bool_decide_eq_false_2 by (intros Hn; apply Hn; exact Ha).
  apply IH. exact Hrest.
Qed.

(** The attachment queries on a pass that [create_render_pass] made,
    reduced to the two loops over the lists it registered. *)
Lemma created_pass_queries (drv : Vulkan.driver) (convert_format : Z -> Z)
    (desc : Vulkan.render_pass_desc) (d d' : Vulkan.device_impl) (out : Z) (n : nat)
    (pass framebuffer : Z) :
  created_pass drv convert_format desc d d' out n pass framebuffer ->
  (forall l f c, Vulkan._render_pass_list d !! snd (Vulkan.vkCreateRenderPass drv l f c) = None) ->
  (forall l p v, Vulkan._framebuffer_list d !! snd (Vulkan.vkCreateFramebuffer drv l p v) = None) ->
  let ds := bool_decide (Vulkan.depth_stencil desc ≠ 0) in
  let atts := map (color_attachment convert_format) (take n (Vulkan.render_targets_format desc))
              ++ (if ds then [depth_stencil_attachment convert_format desc] else []) in
  let views := take n (Vulkan.render_targets desc)
               ++ (if ds then [Vulkan.depth_stencil desc] else []) in
  (forall type index,
      Vulkan.get_attachment d' out type index = Vulkan.find_attachment atts 0 views type index)
  /\ (forall type,
        Vulkan.get_attachment_count d' out type = Some (Vulkan.count_attachments atts type 0)).
Proof.
  intros (Hn & Hl1 & Hl2 & Hnz & Hstop & (l1 & f1 & c1 & Hpass) & (l2 & p2 & v2 & Hfbo) & _
          & _ & _ & _ & (w & h & Hrps) & (pd & Hrpl & Hatts) & (fd & Hfbl & Hviews & _) & _)
         Hfresh1 Hfresh2 ds atts views.
  assert (Hpd : Vulkan._render_pass_list d' !! pass = Some pd).
  { rewrite Hrpl. apply emplace_fresh. subst pass. apply Hfresh1. }
  assert (Hfd : Vulkan._framebuffer_list d' !! framebuffer = Some fd).
  { rewrite Hfbl. apply emplace_fresh. subst framebuffer. apply Hfresh2. }
  split.
  - intros type index. unfold Vulkan.get_attachment.
    rewrite Hrps, lookup_insert_eq. simpl. rewrite Hfd. simpl. rewrite Hpd. simpl.
    rewrite Hatts, Hviews. reflexivity.
  - intros type. unfold Vulkan.get_attachment_count.
    rewrite Hrps, lookup_insert_eq. simpl. rewrite Hpd. simpl. rewrite Hatts. reflexivity.
Qed.

Lemma aspect_flags_from_format_cases (format : Z) :
  Vulkan.aspect_flags_from_format format = 1 \/ Vulkan.aspect_flags_from_format format = 2
  \/ Vulkan.aspect_flags_from_format format = 4 \/ Vulkan.aspect_flags_from_format format = 6.
Proof.
  unfold Vulkan.aspect_flags_from_format.
  destruct (_ && _); [right; left; reflexivity|].
  destruct (bool_decide _); [right; right; left; reflexivity|].
  destruct (_ && _); [right; right; right; reflexivity|left; reflexivity].
Qed.

(** X1: a render pass made by [create_render_pass] of the Vulkan
    backend gives back, through the attachment queries, exactly the
    views it was created from.  With render targets of color formats, a
    depth-stencil view (if any) of a depth or stencil format, and a
    driver that hands out handles not yet in the tables: the color count
    is the number [n] of leading non-null render targets, color index
    [i < n] yields [render_targets[i]], color index [n] fails with the
    zero view, and the depth-stencil view is attachment 0 of its own
    aspect, the only one. *)
Theorem vulkan_created_pass_returns_its_views (drv : Vulkan.driver) (convert_format : Z -> Z)
    (desc : Vulkan.render_pass_desc) (d d' : Vulkan.device_impl) (out : Z) :
  Vulkan.create_render_pass drv convert_format desc d = Some (d', out, true) ->
  (forall l f c, Vulkan._render_pass_list d !! snd (Vulkan.vkCreateRenderPass drv l f c) = None) ->
  (forall l p v, Vulkan._framebuffer_list d !! snd (Vulkan.vkCreateFramebuffer drv l p v) = None) ->
  (forall (i : nat) v f,
      Vulkan.render_targets desc !! i = Some v -> v ≠ 0 ->
      Vulkan.render_targets_format desc !! i = Some f ->
      Vulkan.aspect_flags_from_format (convert_format f) = Vulkan.VK_IMAGE_ASPECT_COLOR_BIT) ->
  (Vulkan.depth_stencil desc ≠ 0 ->
   Vulkan.aspect_flags_from_format (convert_format (Vulkan.depth_stencil_format desc))
   ≠ Vulkan.VK_IMAGE_ASPECT_COLOR_BIT) ->
  exists n : nat,
    (n <= 8)%nat
    /\ (forall i : nat, (i < n)%nat ->
          exists v, Vulkan.render_targets desc !! i = Some v /\ v ≠ 0
                    /\ Vulkan.get_attachment d' out Vulkan.VK_IMAGE_ASPECT_COLOR_BIT (Z.of_nat i)
                       = Some (v, true))
    /\ ((n < 8)%nat -> Vulkan.render_targets desc !! n = Some 0)
    /\ Vulkan.get_attachment_count d' out Vulkan.VK_IMAGE_ASPECT_COLOR_BIT = Some (Z.of_nat n)
    /\ Vulkan.get_attachment d' out Vulkan.VK_IMAGE_ASPECT_COLOR_BIT (Z.of_nat n)
       = Some (0, false)
    /\ (Vulkan.depth_stencil desc ≠ 0 ->
        let aspect := Vulkan.aspect_flags_from_format
                        (convert_format (Vulkan.depth_stencil_format desc)) in
        Vulkan.get_attachment d' out aspect 0 = Some (Vulkan.depth_stencil desc, true)
        /\ Vulkan.get_attachment_count d' out aspect = Some 1
        /\ Vulkan.get_attachment d' out aspect 1 = Some (0, false)).
Proof.
  intros Hcreate Hfresh1 Hfresh2 Hcolor Hdepth.
  change Vulkan.VK_IMAGE_ASPECT_COLOR_BIT with 1 in *.
  destruct (create_render_pass_success _ _ _ _ _ _ Hcreate) as (n & pass & framebuffer & Hcp).
  destruct (created_pass_queries _ _ _ _ _ _ _ _ _ Hcp Hfresh1 Hfresh2) as (Hget & Hcount).
  destruct Hcp as (Hn & Hl1 & Hl2 & Hnz & Hstop & _).
  set (cviews := take n (Vulkan.render_targets desc)) in *.
  set (cfmts := take n (Vulkan.render_targets_format desc)) in *.
  set (catts := map (color_attachment convert_format) cfmts) in *.
  assert (Hlc : length catts = length cviews).
  { subst catts. rewrite length_map. lia. }
  (* every color attachment has the color aspect *)
  assert (Hcat : Forall (fun a => Vulkan.format_flags a = 1) catts).
  { subst catts. apply Forall_forall. intros a Ha.
    apply list_elem_of_fmap in Ha as (f & -> & Hf).
    apply list_elem_of_lookup in Hf as (i & Hi).
    assert (Hin : (i < n)%nat).
    { apply lookup_lt_Some in Hi. subst cfmts. lia. }
    subst cfmts. rewrite lookup_take_lt in Hi by exact Hin.
    destruct (lookup_lt_is_Some_2 cviews i ltac:(lia)) as [v Hv].
    assert (Hvz : v ≠ 0).
    { rewrite Forall_forall in Hnz. apply Hnz. apply list_elem_of_lookup. exists i. exact Hv. }
    subst cviews. rewrite lookup_take_lt in Hv by exact Hin.
    simpl. exact (Hcolor i v f Hv Hvz Hi). }
  set (ds := bool_decide (Vulkan.depth_stencil desc ≠ 0)) in *.
  set (datts := if ds then [depth_stencil_attachment convert_format desc] else []) in *.
  set (dviews := if ds then [Vulkan.depth_stencil desc] else []) in *.
  assert (Hld : length datts = length dviews) by (subst datts dviews; destruct ds; reflexivity).
  assert (Hdnz : Forall (fun v => v ≠ 0) dviews).
  { subst dviews ds. destruct (bool_decide _) eqn:E; [|constructor].
    apply bool_decide_eq_true_1 in E. repeat constructor. exact E. }
  assert (Hlen : length (catts ++ datts) = length (cviews ++ dviews)).
  { rewrite !length_app. lia. }
  assert (Hnzall : Forall (fun v => v ≠ 0) (cviews ++ dviews)).
  { apply Forall_app. split; assumption. }
  assert (Hbound : Z.of_nat (length (catts ++ datts)) < 2 ^ 32).
  { rewrite length_app, Hlc, Hl1. subst datts. destruct ds; simpl; lia. }
  exists n. split; [exact Hn|].
  (* the color queries *)
  assert (Hmc : Vulkan.matching_views (catts ++ datts) (cviews ++ dviews) 1 = cviews).
  { rewrite matching_views_app by exact Hlc.
    rewrite matching_views_all; [|exact Hlc|].
    2:{ eapply Forall_impl; [exact Hcat|]. intros a Ha. simpl in Ha. rewrite Ha. discriminate. }
    rewrite matching_views_none; [apply app_nil_r|].
    subst datts ds. destruct (bool_decide _) eqn:E; [|constructor].
    apply bool_decide_eq_true_1 in E. specialize (Hdepth E).
    repeat constructor. simpl.
    destruct (aspect_flags_from_format_cases
                (convert_format (Vulkan.depth_stencil_format desc))) as [H|[H|[H|H]]];
      rewrite H in *; [contradiction|reflexivity..]. }
  destruct (attachment_loops_spec (catts ++ datts) (cviews ++ dviews) 1 Hlen Hnzall Hbound)
    as (Hc1 & Hlt1 & Heq1).
  rewrite Hmc in Hc1, Hlt1, Heq1. rewrite Hl1 in Hc1, Heq1.
  split.
  { intros i Hi. destruct (lookup_lt_is_Some_2 cviews i ltac:(lia)) as [v Hv].
    exists v. destruct (Hlt1 i v Hv) as (Hf & Hvz).
    split; [subst cviews; rewrite lookup_take_lt in Hv by exact Hi; exact Hv|].
    split; [exact Hvz|]. rewrite Hget. exact Hf. }
  split; [exact Hstop|].
  split; [rewrite Hcount, Hc1; reflexivity|].
  split; [rewrite Hget; exact Heq1|].
  (* the depth-stencil queries *)
  intros Hds aspect.
  assert (Hdsb : ds = true) by (subst ds; apply bool_decide_eq_true_2; exact Hds).
  specialize (Hdepth Hds). fold aspect in Hdepth.
  assert (Hasp : aspect = 2 \/ aspect = 4 \/ aspect = 6).
  { destruct (aspect_flags_from_format_cases
                (convert_format (Vulkan.depth_stencil_format desc))) as [H|[H|[H|H]]];
      fold aspect in H; [contradiction|tauto..]. }
  assert (Hu : uint32 aspect = aspect).
  { apply uint32_small. destruct Hasp as [H|[H|H]]; rewrite H; lia. }
  assert (Hc0 : Z.land 1 aspect = 0).
  { destruct Hasp as [H|[H|H]]; rewrite H; reflexivity. }
  assert (Hd0 : Z.land aspect aspect ≠ 0).
  { destruct Hasp as [H|[H|H]]; rewrite H; discriminate. }
  assert (Hmd : Vulkan.matching_views (catts ++ datts) (cviews ++ dviews) aspect
                = [Vulkan.depth_stencil desc]).
  { rewrite matching_views_app by exact Hlc.
    rewrite matching_views_none.
    2:{ eapply Forall_impl; [exact Hcat|]. intros a Ha. simpl in Ha. rewrite Ha, Hu.
        exact Hc0. }
    subst datts dviews. rewrite Hdsb. simpl.
    fold aspect. rewrite Hu.
    rewrite bool_decide_eq_true_2; [reflexivity|exact Hd0]. }
  destruct (attachment_loops_spec (catts ++ datts) (cviews ++ dviews) aspect Hlen Hnzall Hbound)
    as (Hc2 & Hlt2 & Heq2).
  rewrite Hmd in Hc2, Hlt2, Heq2.
  split; [|split].
  - rewrite Hget. exact (proj1 (Hlt2 0%nat _ eq_refl)).
  - rewrite Hcount, Hc2. reflexivity.
  - rewrite Hget. exact Heq2.
Qed.

(** Two color targets and a depth-stencil target on a driver that
    grants every request. *)
Lemma vulkan_created_pass_returns_its_views_witness :
  exists d',
    Vulkan.create_render_pass vk_granting (fun f => f) vk_pass_desc vk_with_views
    = Some (d', 0xA0, true)
    /\ Vulkan.get_attachment d' 0xA0 1 0 = Some (0x501, true)
    /\ Vulkan.get_attachment d' 0xA0 1 1 = Some (0x502, true)
    /\ Vulkan.get_attachment d' 0xA0 1 2 = Some (0, false)
    /\ Vulkan.get_attachment d' 0xA0 6 0 = Some (0x503, true).
Proof.
  eexists. split; [reflexivity|].
  destruct (vulkan_created_pass_returns_its_views vk_granting (fun f => f) vk_pass_desc
              vk_with_views _ 0xA0 eq_refl) as (n & Hn & Hlt & Hstop & Hcount & Heq & Hds).
  - reflexivity.
  - reflexivity.
  - intros i v f Hv Hnz Hf.
    do 8 (destruct i as [|i]; [simpl in Hv, Hf; simplify_eq; try reflexivity; contradiction|]).
    discriminate.
  - discriminate.
  - vm_compute. repeat split; reflexivity.
Defined.

(** X2: [destroy_render_pass] of the Vulkan backend undoes
    [create_render_pass].  When the driver and [operator new] hand out
    handles that are not in use, destroying the pass that was just
    created brings the three tables back to what they were, leaves the
    resource and view registries alone, and destroys the render pass and
    the framebuffer that were created, each once and in that order;
    afterwards the handle designates no pass object any more.  The zero
    handle is a no-op. *)
Theorem vulkan_destroy_render_pass_undoes_create (drv : Vulkan.driver)
    (convert_format : Z -> Z) (desc : Vulkan.render_pass_desc)
    (d d' : Vulkan.device_impl) (out : Z) :
  Vulkan.create_render_pass drv convert_format desc d = Some (d', out, true) ->
  (forall l f c, Vulkan._render_pass_list d !! snd (Vulkan.vkCreateRenderPass drv l f c) = None) ->
  (forall l p v, Vulkan._framebuffer_list d !! snd (Vulkan.vkCreateFramebuffer drv l p v) = None) ->
  (forall l, Vulkan.render_passes d !! Vulkan.operator_new drv l = None
             /\ Vulkan.operator_new drv l ≠ 0) ->
  exists d'' pass framebuffer,
    VulkanDevice.destroy_render_pass out d' = Some d''
    /\ Vulkan._render_pass_list d'' = Vulkan._render_pass_list d
    /\ Vulkan._framebuffer_list d'' = Vulkan._framebuffer_list d
    /\ Vulkan.render_passes d'' = Vulkan.render_passes d
    /\ Vulkan._resources d'' = Vulkan._resources d
    /\ Vulkan._views d'' = Vulkan._views d
    /\ (exists fs n views w h layers,
          Vulkan.log d''
          = Vulkan.log d
            ++ [Vulkan.ev_vkCreateRenderPass fs n Vulkan.VK_SUCCESS pass;
                Vulkan.ev_vkCreateFramebuffer pass views w h layers Vulkan.VK_SUCCESS
                  framebuffer;
                Vulkan.ev_vkDestroyRenderPass pass;
                Vulkan.ev_vkDestroyFramebuffer framebuffer])
    /\ (forall type index, Vulkan.get_attachment d'' out type index = None)
    /\ Vulkan.get_attachment_count d'' out 1 = None
    /\ VulkanDevice.destroy_render_pass 0 d'' = Some d''.
Proof.
  intros Hcreate Hfresh1 Hfresh2 Hnew.
  destruct (create_render_pass_success _ _ _ _ _ _ Hcreate) as (n & pass & framebuffer & Hcp).
  destruct Hcp as (_ & _ & _ & _ & _ & (l1 & f1 & c1 & Hpass) & (l2 & p2 & v2 & Hfbo)
                   & (l3 & Hout) & Hres & Hviews & _ & (w & h & Hrps) & (pd & Hrpl & _)
                   & (fd & Hfbl & _) & (fs & w' & h' & layers & Hlog)).
  destruct (Hnew l3) as (Hnone & Hnz). rewrite <- Hout in Hnone, Hnz.
  unfold VulkanDevice.destroy_render_pass.
  rewrite (bool_decide_eq_false_2 _ Hnz). rewrite Hrps, lookup_insert_eq. simpl.
  eexists. exists pass, framebuffer. split; [reflexivity|]. simpl.
  assert (Hp0 : Vulkan._render_pass_list d !! pass = None) by (subst pass; apply Hfresh1).
  assert (Hf0 : Vulkan._framebuffer_list d !! framebuffer = None)
    by (subst framebuffer; apply Hfresh2).
  split.
  { rewrite Hrpl. unfold Vulkan.emplace. rewrite Hp0. apply delete_insert_id. exact Hp0. }
  split.
  { rewrite Hfbl. unfold Vulkan.emplace. rewrite Hf0. apply delete_insert_id. exact Hf0. }
  split; [rewrite Hrps; apply delete_insert_id; exact Hnone|].
  split; [exact Hres|]. split; [exact Hviews|].
  split.
  { do 6 eexists. rewrite Hlog, <- app_assoc. reflexivity. }
  split.
  { intros type index. unfold Vulkan.get_attachment. simpl.
    rewrite Hrps, lookup_delete_eq. reflexivity. }
  split.
  { unfold Vulkan.get_attachment_count. simpl. rewrite Hrps, lookup_delete_eq. reflexivity. }
  reflexivity.
Qed.

Lemma vulkan_destroy_render_pass_undoes_create_witness :
  exists d' d'',
    Vulkan.create_render_pass vk_granting (fun f => f) vk_pass_desc vk_with_views
    = Some (d', 0xA0, true)
    /\ VulkanDevice.destroy_render_pass 0xA0 d' = Some d''
    /\ Vulkan._render_pass_list d'' = ∅ /\ Vulkan._framebuffer_list d'' = ∅
    /\ Vulkan.render_passes d'' = ∅.
Proof.
  eexists. 
  destruct (vulkan_destroy_render_pass_undoes_create vk_granting (fun f => f) vk_pass_desc
              vk_with_views _ 0xA0 eq_refl)
    as (d'' & pass & framebuffer & Hd & Hrp & Hfb & Hps & _).
  - reflexivity.
  - reflexivity.
  - intros l. split; [reflexivity|discriminate].
  - exists d''. split; [reflexivity|]. split; [exact Hd|].
    split; [exact Hrp|]. split; [exact Hfb|exact Hps].
Defined.

Lemma fill_upload_buffer_no_lifetime (sd : Vulkan.subresource_data) (w h dep r s t : Z) :
  Forall (fun e => is_buffer_lifetime_event e = false)
    (Vulkan.fill_upload_buffer sd w h dep r s t).
Proof.
  unfold Vulkan.fill_upload_buffer. destruct (_ && _).
  - repeat constructor.
  - apply Forall_forall. intros e He.
    apply list_elem_of_In, in_flat_map in He as (z & _ & He).
    apply in_map_iff in He as (y & <- & _). reflexivity.
Qed.

(** X3: [upload_texture_region] of the Vulkan backend never leaks its
    staging buffer and never touches the registry.  For a registered
    image and a null box or a box of six coordinates the call returns;
    either the staging buffer could not be created, which is logged and
    nothing else happens, or the buffer is created, mapped, and
    destroyed as the last step, whether or not the mapping succeeded;
    when it succeeded the memory is unmapped before; no other buffer is
    created or destroyed in between. *)
Theorem vulkan_upload_texture_region_releases_staging (drv : Vulkan.driver)
    (format_bpp : Z -> Z) (sd : Vulkan.subresource_data) (dst sub : Z)
    (dst_box : option (list Z)) (d : Vulkan.device_impl)
    (dst_data : Vulkan.resource_data) (info : Vulkan.VkImageCreateInfo) :
  Vulkan.lookup_resource d dst = Some dst_data ->
  Vulkan.create_info dst_data = Vulkan.image_create_info info ->
  match dst_box with Some box => length box = 6%nat | None => True end ->
  exists d' evs,
    Vulkan.upload_texture_region drv format_bpp sd dst sub dst_box d = Some d'
    /\ Vulkan._resources d' = Vulkan._resources d
    /\ Vulkan._views d' = Vulkan._views d
    /\ Vulkan.log d' = Vulkan.log d ++ evs
    /\ ((exists bi ai r b m,
           r ≠ Vulkan.VK_SUCCESS
           /\ evs = [Vulkan.ev_vmaCreateBuffer bi ai r b m; Vulkan.ev_LOG_ERROR])
        \/ (exists bi ai b m r rest,
              evs = Vulkan.ev_vmaCreateBuffer bi ai Vulkan.VK_SUCCESS b m
                    :: Vulkan.ev_vmaMapMemory m r
                    :: rest ++ [Vulkan.ev_vmaDestroyBuffer b m]
              /\ (r ≠ Vulkan.VK_SUCCESS -> rest = [])
              /\ (r = Vulkan.VK_SUCCESS -> In (Vulkan.ev_vmaUnmapMemory m) rest)
              /\ Forall (fun e => is_buffer_lifetime_event e = false) rest)).
Proof.
  intros Hl Hi Hbox. unfold Vulkan.upload_texture_region. rewrite Hl. simpl. rewrite Hi. simpl.
  assert (Hdims : exists w h dep,
            match dst_box with
            | Some box =>
                b0 ← vector_get box 0; b1 ← vector_get box 1; b2 ← vector_get box 2;
                b3 ← vector_get box 3; b4 ← vector_get box 4; b5 ← vector_get box 5;
                Some (uint32 (b3 - b0), uint32 (b4 - b1), uint32 (b5 - b2))
            | None => Some (Vulkan.extent_width info, Vulkan.extent_height info,
                            uint32 (Vulkan.extent_depth info * Vulkan.arrayLayers info))
            end = Some (w, h, dep)).
  { destruct dst_box as [box|]; [|do 3 eexists; reflexivity].
    destruct box as [|b0 [|b1 [|b2 [|b3 [|b4 [|b5 [|? ?]]]]]]]; try discriminate.
    do 3 eexists. reflexivity. }
  destruct Hdims as (w & h & dep & ->). simpl.
  destruct (Vulkan.vmaCreateBuffer drv _ _ _) as [[result buf] mem].
  destruct (bool_decide (result ≠ Vulkan.VK_SUCCESS)) eqn:Hres.
  { apply bool_decide_eq_true_1 in Hres.
    eexists. eexists. split; [reflexivity|]. split; [reflexivity|]. split; [reflexivity|].
    split; [simpl; rewrite <- app_assoc; reflexivity|].
    left. do 5 eexists. split; [exact Hres|reflexivity]. }
  apply bool_decide_eq_false_1 in Hres. apply dec_stable in Hres. subst result.
  match goal with
  | |- context [bool_decide (fst ?x = Vulkan.VK_SUCCESS)] => set (mr := fst x)
  end.
  destruct (bool_decide (mr = Vulkan.VK_SUCCESS)) eqn:Hmap.
  - apply bool_decide_eq_true_1 in Hmap.
    match goal with
    | |- context [Vulkan.fill_upload_buffer ?a ?b ?c ?e ?f ?g ?h] =>
        set (fill := Vulkan.fill_upload_buffer a b c e f g h)
    end.
    assert (Hfill : Forall (fun e => is_buffer_lifetime_event e = false) fill)
      by apply fill_upload_buffer_no_lifetime.
    clearbody fill.
    match goal with
    | |- context [Vulkan.first_immediate ?qs] =>
        destruct (Vulkan.first_immediate qs) as [[q cl]|] eqn:Hq
    end.
    + eexists. eexists. split; [reflexivity|]. split; [reflexivity|]. split; [reflexivity|].
      split; [simpl; rewrite <- !app_assoc; reflexivity|].
      right. do 2 eexists. exists buf, mem, mr.
      exists (fill ++ [Vulkan.ev_vmaUnmapMemory mem;
                       Vulkan.ev_copy_buffer_to_texture cl buf dst sub;
                       Vulkan.ev_flush_and_wait cl (Vulkan.queue q)]).
      split; [simpl; rewrite <- !app_assoc; reflexivity|].
      split; [intros Hn; contradiction|]. split.
      * intros _. apply in_or_app. right. left. reflexivity.
      * apply Forall_app. split; [exact Hfill|repeat constructor].
    + eexists. eexists. split; [reflexivity|]. split; [reflexivity|]. split; [reflexivity|].
      split; [simpl; rewrite <- !app_assoc; reflexivity|].
      right. do 2 eexists. exists buf, mem, mr.
      exists (fill ++ [Vulkan.ev_vmaUnmapMemory mem]).
      split; [simpl; rewrite <- !app_assoc; reflexivity|].
      split; [intros Hn; contradiction|]. split.
      * intros _. apply in_or_app. right. left. reflexivity.
      * apply Forall_app. split; [exact Hfill|repeat constructor].
  - apply bool_decide_eq_false_1 in Hmap.
    eexists. eexists. split; [reflexivity|]. split; [reflexivity|]. split; [reflexivity|].
    split; [simpl; rewrite <- !app_assoc; reflexivity|].
    right. do 2 eexists. exists buf, mem, mr, []. split; [reflexivity|].
    split; [reflexivity|]. split; [intros Hn; contradiction|constructor].
Qed.

(** An upload of a whole 256x256 image, once with an allocator that
    grants the staging buffer and once with one that does not. *)
Lemma vulkan_upload_texture_region_releases_staging_witness :
  (exists d',
      Vulkan.upload_texture_region vk_granting (fun _ => 4) vk_pixels 0x30 0 None
        vk_with_app_image = Some d'
      /\ Vulkan._resources d' = Vulkan._resources vk_with_app_image
      /\ last (Vulkan.log d') = Some (Vulkan.ev_vmaDestroyBuffer 0x20 0x21))
  /\ (exists d',
        Vulkan.upload_texture_region vk_no_staging (fun _ => 4) vk_pixels 0x30 0
          (Some [0; 0; 0; 16; 16; 1]) vk_with_app_image = Some d'
        /\ Vulkan._resources d' = Vulkan._resources vk_with_app_image
        /\ last (Vulkan.log d') = Some Vulkan.ev_LOG_ERROR).
Proof.
  split.
  - destruct (vulkan_upload_texture_region_releases_staging vk_granting (fun _ => 4) vk_pixels
                0x30 0 None vk_with_app_image vk_app_image _ eq_refl eq_refl I)
      as (d' & evs & Hrun & Hres & _).
    exists d'. split; [exact Hrun|]. split; [exact Hres|].
    vm_compute in Hrun. injection Hrun as <-. reflexivity.
  - destruct (vulkan_upload_texture_region_releases_staging vk_no_staging (fun _ => 4) vk_pixels
                0x30 0 (Some [0; 0; 0; 16; 16; 1]) vk_with_app_image vk_app_image _
                eq_refl eq_refl eq_refl)
      as (d' & evs & Hrun & Hres & _).
    exists d'. split; [exact Hrun|]. split; [exact Hres|].
    vm_compute in Hrun. injection Hrun as <-. reflexivity.
Defined.

(** X4: a failing [create_resource] of the Vulkan backend is atomic.
    When it returns false it has written the zero handle, the registry,
    the views and the queues are as before, and it has made at most one
    native call: the creation that failed (none for a resource type it
    does not know). *)
Theorem vulkan_create_resource_failure_atomic (drv : Vulkan.driver)
    (convert_resource_desc_buffer : Vulkan.resource_desc -> Vulkan.VkBufferCreateInfo)
    (convert_resource_desc_image : Vulkan.resource_desc -> Vulkan.VkImageCreateInfo)
    (format_bpp : Z -> Z) (desc : Vulkan.resource_desc)
    (initial_data : option (list Vulkan.subresource_data)) (initial_state : Z)
    (d d' : Vulkan.device_impl) (out : Z) :
  Vulkan.create_resource drv convert_resource_desc_buffer convert_resource_desc_image format_bpp
    desc initial_data initial_state d = Some (d', out, false) ->
  out = 0
  /\ Vulkan._resources d' = Vulkan._resources d
  /\ Vulkan._views d' = Vulkan._views d
  /\ Vulkan._queues d' = Vulkan._queues d
  /\ (Vulkan.log d' = Vulkan.log d
      \/ exists e,
           Vulkan.log d' = Vulkan.log d ++ [e]
           /\ match e with
              | Vulkan.ev_vkCreateBuffer _ r _ | Vulkan.ev_vmaCreateBuffer _ _ r _ _
              | Vulkan.ev_vkCreateImage _ r _ | Vulkan.ev_vmaCreateImage _ _ r _ _ =>
                  r ≠ Vulkan.VK_SUCCESS
              | _ => False
              end).
Proof.
  unfold Vulkan.create_resource. intros H.
  assert (Himg : forall info,
            (let '(d1, result, object, allocation) :=
               Vulkan.native_create_image drv (Vulkan.desc_heap desc) info d in
             if bool_decide (result = Vulkan.VK_SUCCESS) then
               let d2 := Vulkan.register_image object info allocation true d1 in
               if bool_decide (initial_state ≠ Vulkan.resource_usage_undefined) then
                 match Vulkan.first_immediate (Vulkan._queues d2) with
                 | Some (q, cl) =>
                     d3 ← Vulkan.initialize_image drv format_bpp desc initial_data
                            initial_state cl object d2;
                     Some (Vulkan.emit [Vulkan.ev_flush_immediate_command_list (Vulkan.queue q)] d3,
                           object, true)
                 | None => Some (d2, object, true)
                 end
               else Some (d2, object, true)
             else Some (d1, 0, false)) = Some (d', out, false) ->
            out = 0
            /\ Vulkan._resources d' = Vulkan._resources d
            /\ Vulkan._views d' = Vulkan._views d
            /\ Vulkan._queues d' = Vulkan._queues d
            /\ (Vulkan.log d' = Vulkan.log d
                \/ exists e,
                     Vulkan.log d' = Vulkan.log d ++ [e]
                     /\ match e with
                        | Vulkan.ev_vkCreateBuffer _ r _ | Vulkan.ev_vmaCreateBuffer _ _ r _ _
                        | Vulkan.ev_vkCreateImage _ r _ | Vulkan.ev_vmaCreateImage _ _ r _ _ =>
                            r ≠ Vulkan.VK_SUCCESS
                        | _ => False
                        end)).
  { intros info. unfold Vulkan.native_create_image.
    destruct (decide (Vulkan.desc_heap desc = Vulkan.heap_unknown)).
    - destruct (Vulkan.vkCreateImage drv _ _) as [r o].
      destruct (bool_decide (r = Vulkan.VK_SUCCESS)) eqn:Hr.
      + destruct (bool_decide (initial_state ≠ _)); [|discriminate].
        destruct (Vulkan.first_immediate _) as [[q cl]|]; [|discriminate].
        intros H'. apply bind_Some in H' as (d3 & _ & H'). discriminate.
      + apply bool_decide_eq_false_1 in Hr. intros H'. injection H' as <- <-.
        repeat split. right. eexists. split; [reflexivity|exact Hr].
    - destruct (Vulkan.vmaCreateImage drv _ _ _) as [[r o] a].
      destruct (bool_decide (r = Vulkan.VK_SUCCESS)) eqn:Hr.
      + destruct (bool_decide (initial_state ≠ _)); [|discriminate].
        destruct (Vulkan.first_immediate _) as [[q cl]|]; [|discriminate].
        intros H'. apply bind_Some in H' as (d3 & _ & H'). discriminate.
      + apply bool_decide_eq_false_1 in Hr. intros H'. injection H' as <- <-.
        repeat split. right. eexists. split; [reflexivity|exact Hr]. }
  destruct (Vulkan.desc_type desc).
  - injection H as <- <-. repeat split. left. reflexivity.
  - unfold Vulkan.native_create_buffer in H.
    destruct (decide (Vulkan.desc_heap desc = Vulkan.heap_unknown)).
    + destruct (Vulkan.vkCreateBuffer drv _ _) as [r o].
      destruct (bool_decide (r = Vulkan.VK_SUCCESS)) eqn:Hr; [discriminate|].
      apply bool_decide_eq_false_1 in Hr. injection H as <- <-.
      repeat split. right. eexists. split; [reflexivity|exact Hr].
    + destruct (Vulkan.vmaCreateBuffer drv _ _ _) as [[r o] a].
      destruct (bool_decide (r = Vulkan.VK_SUCCESS)) eqn:Hr; [discriminate|].
      apply bool_decide_eq_false_1 in Hr. injection H as <- <-.
      repeat split. right. eexists. split; [reflexivity|exact Hr].
  - exact (Himg _ H).
  - exact (Himg _ H).
  - exact (Himg _ H).
  - injection H as <- <-. repeat split. left. reflexivity.
Qed.

(** A buffer request on an allocator out of memory. *)
Lemma vulkan_create_resource_failure_atomic_witness :
  exists d',
    Vulkan.create_resource vk_no_staging (fun _ => vk_buffer_info) (fun _ => vk_image_info)
      (fun _ => 4) vk_buffer_desc None 0 vk_with_app_image = Some (d', 0, false)
    /\ Vulkan._resources d' = Vulkan._resources vk_with_app_image.
Proof.
  eexists. split; [reflexivity|].
  apply (vulkan_create_resource_failure_atomic vk_no_staging (fun _ => vk_buffer_info)
           (fun _ => vk_image_info) (fun _ => 4) vk_buffer_desc None 0 vk_with_app_image _ 0).
  reflexivity.
Defined.

(** X5: [map_resource] followed by [unmap_resource] is balanced on the
    allocator and invisible to the registry.  For a registered resource
    with an allocation the pair issues one [vmaMapMemory] and one
    [vmaUnmapMemory] on that allocation and nothing else (the unmapping
    is issued whether or not the mapping succeeded); for one without
    (a resource of the application) neither function makes any call and
    the mapping reports failure. *)
Theorem vulkan_map_unmap_balanced (drv : Vulkan.driver) (d : Vulkan.device_impl)
    (resource subresource data0 : Z) (row_pitch slice_pitch : option Z)
    (res_data : Vulkan.resource_data) :
  Vulkan.lookup_resource d resource = Some res_data ->
  exists d1 res ok d2,
    Vulkan.map_resource drv resource subresource data0 row_pitch slice_pitch d
    = Some (d1, res, ok)
    /\ VulkanDevice.unmap_resource resource subresource d1 = Some d2
    /\ Vulkan._resources d2 = Vulkan._resources d
    /\ (if bool_decide (Vulkan.allocation res_data = Vulkan.VK_NULL_HANDLE)
        then d2 = d /\ ok = false
        else exists result,
               Vulkan.log d2
               = Vulkan.log d
                 ++ [Vulkan.ev_vmaMapMemory (Vulkan.allocation res_data) result;
                     Vulkan.ev_vmaUnmapMemory (Vulkan.allocation res_data)]
               /\ ok = bool_decide (result = Vulkan.VK_SUCCESS)).
Proof.
  intros Hl. unfold Vulkan.map_resource, VulkanDevice.unmap_resource. rewrite Hl. simpl.
  destruct (bool_decide (Vulkan.allocation res_data = Vulkan.VK_NULL_HANDLE)) eqn:Ha.
  - apply bool_decide_eq_true_1 in Ha.
    rewrite (bool_decide_eq_false_2 (Vulkan.allocation res_data ≠ 0))
      by (intros Hn; apply Hn; exact Ha).
    do 4 eexists. split; [reflexivity|]. unfold Vulkan.lookup_resource in *. rewrite Hl. simpl.
    rewrite (bool_decide_eq_false_2 (Vulkan.allocation res_data ≠ 0))
      by (intros Hn; apply Hn; exact Ha).
    split; [reflexivity|]. split; [reflexivity|]. split; reflexivity.
  - apply bool_decide_eq_false_1 in Ha.
    rewrite (bool_decide_eq_true_2 (Vulkan.allocation res_data ≠ 0)) by exact Ha.
    destruct (Vulkan.vmaMapMemory drv (Vulkan.log d) (Vulkan.allocation res_data)) as [r w].
    do 4 eexists. split; [reflexivity|]. unfold Vulkan.lookup_resource in *. simpl.
    rewrite Hl. simpl.
    rewrite (bool_decide_eq_true_2 (Vulkan.allocation res_data ≠ 0)) by exact Ha.
    split; [reflexivity|]. split; [reflexivity|].
    exists r. split; [simpl; rewrite <- app_assoc; reflexivity|reflexivity].
Qed.

Lemma vulkan_map_unmap_balanced_witness :
  exists d1 res ok d2,
    Vulkan.map_resource vk_granting 0x30 0 0xDEAD (Some 77) None vk_with_app_image
    = Some (d1, res, ok)
    /\ VulkanDevice.unmap_resource 0x30 0 d1 = Some d2
    /\ d2 = vk_with_app_image /\ ok = false.
Proof.
  destruct (vulkan_map_unmap_balanced vk_granting vk_with_app_image 0x30 0 0xDEAD (Some 77) None
              vk_app_image eq_refl) as (d1 & res & ok & d2 & Hm & Hu & _ & Hd).
  exists d1, res, ok, d2. split; [exact Hm|]. split; [exact Hu|]. exact Hd.
Defined.

(** X6: [get_subresource_index] numbers the subresources of a
    registered image without collision.  For an image of [m] mip levels
    and [n] array layers with [m * n] below [2^32], a mip level below [m]
    and a layer [baseArrayLayer + layer] below [n] give an index below
    [m * n] from which the mip level and the layer can be read back (as
    remainder and quotient by [m]), so that different subresources get
    different indices.  A handle that is not registered throws. *)
Theorem vulkan_get_subresource_index_injective (d : Vulkan.device_impl) (image : Z)
    (data : Vulkan.resource_data) (info : Vulkan.VkImageCreateInfo)
    (mipLevel baseArrayLayer layer : Z) :
  Vulkan._resources d !! image = Some data ->
  Vulkan.create_info data = Vulkan.image_create_info info ->
  0 <= mipLevel < Vulkan.mipLevels info ->
  0 <= baseArrayLayer -> 0 <= layer ->
  baseArrayLayer + layer < Vulkan.arrayLayers info ->
  Vulkan.mipLevels info * Vulkan.arrayLayers info <= 2 ^ 32 ->
  exists index,
    VulkanDevice.get_subresource_index d image mipLevel baseArrayLayer layer = Some index
    /\ 0 <= index < Vulkan.mipLevels info * Vulkan.arrayLayers info
    /\ index mod Vulkan.mipLevels info = mipLevel
    /\ index / Vulkan.mipLevels info = baseArrayLayer + layer
    /\ (forall other, Vulkan._resources d !! other = None ->
          VulkanDevice.get_subresource_index d other mipLevel baseArrayLayer layer = None).
Proof.
  intros Hl Hi Hmip Hb Hla Hlayer Hbound.
  unfold VulkanDevice.get_subresource_index. rewrite Hl. simpl. rewrite Hi. simpl.
  set (m := Vulkan.mipLevels info) in *. set (n := Vulkan.arrayLayers info) in *.
  assert (Hmn : (baseArrayLayer + layer) * m + m <= m * n) by nia.
  assert (Hn32 : n <= 2 ^ 32) by nia.
  rewrite (uint32_small (baseArrayLayer + layer)) by lia.
  rewrite (uint32_small ((baseArrayLayer + layer) * m)) by nia.
  rewrite uint32_small by nia.
  eexists. split; [reflexivity|]. split; [nia|]. split; [|split].
  - rewrite Z.mod_add by lia. apply Z.mod_small. lia.
  - rewrite Z.div_add by lia. rewrite Z.div_small by lia. lia.
  - intros other Ho. rewrite Ho. reflexivity.
Qed.

(** Mip level 2 of layer 1 + 2 of an image with three mip levels and
    four layers. *)
Lemma vulkan_get_subresource_index_injective_witness :
  exists index,
    VulkanDevice.get_subresource_index vk_with_mip_array 0x32 2 1 2 = Some index
    /\ 0 <= index < 3 * 4 /\ index mod 3 = 2 /\ index / 3 = 1 + 2.
Proof.
  destruct (vulkan_get_subresource_index_injective vk_with_mip_array 0x32 _ _ 2 1 2
              eq_refl eq_refl) as (index & Hi & Hr & Hm & Hd & _); [simpl; lia..|].
  exists index. split; [exact Hi|]. split; [exact Hr|]. split; [exact Hm|exact Hd].
Defined.

(** X7: the life of a resource view of the Vulkan backend.  A view
    that [create_resource_view] hands out (not null, not yet in the
    registry) is valid, is owned by the abstraction and leads back to the
    image or buffer it was created on; [destroy_resource_view] destroys
    the native view with the call that fits its kind, after which the
    handle is no longer valid, the view registry is what it was before
    the creation, and destroying the view a second time throws. *)
Theorem vulkan_resource_view_lifetime (vk : VulkanDevice.dispatch_table)
    (api : VulkanDevice.api_enumerators)
    (convert_image : OpenGL.resource_view_desc -> VulkanDevice.VkImageViewCreateInfo)
    (convert_buffer : OpenGL.resource_view_desc -> VulkanDevice.VkBufferViewCreateInfo)
    (resource usage_type : Z) (desc : OpenGL.resource_view_desc)
    (s s' : VulkanDevice.device) (out : Z) (data : Vulkan.resource_data) :
  Vulkan.lookup_resource (VulkanDevice.impl s) resource = Some data ->
  VulkanDevice.create_resource_view vk api convert_image convert_buffer resource usage_type desc s
  = Some (s', out, true) ->
  out ≠ 0 ->
  Vulkan._views (VulkanDevice.impl s) !! out = None ->
  VulkanDevice.is_resource_view_handle_valid (VulkanDevice.impl s') out = true
  /\ VulkanDevice.get_resource_from_view (VulkanDevice.impl s') out = Some (Vulkan.object data)
  /\ Vulkan.lookup_resource_view (VulkanDevice.impl s') out
     = Some {| Vulkan.view := out; Vulkan.is_image_view := Vulkan.is_image data;
               Vulkan.view_resource := Vulkan.object data; Vulkan.view_owned := true |}
  /\ Vulkan._resources (VulkanDevice.impl s') = Vulkan._resources (VulkanDevice.impl s)
  /\ exists s'' create,
       VulkanDevice.destroy_resource_view out s' = Some s''
       /\ VulkanDevice.is_resource_view_handle_valid (VulkanDevice.impl s'') out = false
       /\ Vulkan._views (VulkanDevice.impl s'') = Vulkan._views (VulkanDevice.impl s)
       /\ VulkanDevice.calls s''
          = VulkanDevice.calls s
            ++ [create;
                if Vulkan.is_image data then VulkanDevice.ev_vkDestroyImageView out
                else VulkanDevice.ev_vkDestroyBufferView out]
       /\ VulkanDevice.destroy_resource_view out s'' = None.
Proof.
  intros Hl Hcreate Hnz Hfresh. unfold VulkanDevice.create_resource_view in Hcreate.
  rewrite Hl in Hcreate. simpl in Hcreate.
  unfold VulkanDevice.is_resource_view_handle_valid, VulkanDevice.get_resource_from_view,
    VulkanDevice.destroy_resource_view, Vulkan.lookup_resource_view.
  rewrite (bool_decide_eq_false_2 _ Hnz).
  destruct (Vulkan.is_image data).
  - destruct (VulkanDevice.CreateImageView vk _ _) as [result image_view].
    destruct (bool_decide (result = Vulkan.VK_SUCCESS)); [|discriminate].
    injection Hcreate as <- <-. cbn [VulkanDevice.impl VulkanDevice.with_impl
      VulkanDevice.record VulkanDevice.register_image_view VulkanDevice.with_views
      Vulkan._views Vulkan._resources VulkanDevice.iv_image VulkanDevice.calls].
    rewrite (emplace_fresh _ _ _ Hfresh).
    split; [apply bool_decide_eq_true_2; eexists; reflexivity|].
    split; [reflexivity|]. split; [reflexivity|]. split; [reflexivity|].
    eexists. eexists. split; [reflexivity|].
    cbn [VulkanDevice.impl VulkanDevice.with_impl VulkanDevice.record VulkanDevice.with_views
      Vulkan._views Vulkan._resources VulkanDevice.calls Vulkan.is_image_view Vulkan.view].
    rewrite lookup_delete_eq.
    split; [apply bool_decide_eq_false_2; intros [x Hx]; discriminate|].
    split; [unfold VulkanDevice.register_image_view, VulkanDevice.register_buffer_view,
              VulkanDevice.with_views, Vulkan.emplace; cbn [Vulkan._views];
            rewrite Hfresh; apply delete_insert_id; exact Hfresh|].
    split; [rewrite <- app_assoc; reflexivity|reflexivity].
  - destruct (VulkanDevice.CreateBufferView vk _ _) as [result buffer_view].
    destruct (bool_decide (result = Vulkan.VK_SUCCESS)); [|discriminate].
    injection Hcreate as <- <-. cbn [VulkanDevice.impl VulkanDevice.with_impl
      VulkanDevice.record VulkanDevice.register_buffer_view VulkanDevice.with_views
      Vulkan._views Vulkan._resources VulkanDevice.bv_buffer VulkanDevice.calls].
    rewrite (emplace_fresh _ _ _ Hfresh).
    split; [apply bool_decide_eq_true_2; eexists; reflexivity|].
    split; [reflexivity|]. split; [reflexivity|]. split; [reflexivity|].
    eexists. eexists. split; [reflexivity|].
    cbn [VulkanDevice.impl VulkanDevice.with_impl VulkanDevice.record VulkanDevice.with_views
      Vulkan._views Vulkan._resources VulkanDevice.calls Vulkan.is_image_view Vulkan.view].
    rewrite lookup_delete_eq.
    split; [apply bool_decide_eq_false_2; intros [x Hx]; discriminate|].
    split; [unfold VulkanDevice.register_image_view, VulkanDevice.register_buffer_view,
              VulkanDevice.with_views, Vulkan.emplace; cbn [Vulkan._views];
            rewrite Hfresh; apply delete_insert_id; exact Hfresh|].
    split; [rewrite <- app_assoc; reflexivity|reflexivity].
Qed.


(** A view of the application's image [0x30], created and destroyed. *)
Lemma vulkan_resource_view_lifetime_witness :
  exists s',
    VulkanDevice.create_resource_view vk_dispatch vk_api_values vk_convert_image_view
      vk_convert_buffer_view 0x30 0 vk_view_desc (vk_device vk_with_app_image)
    = Some (s', 0x510, true)
    /\ VulkanDevice.is_resource_view_handle_valid (VulkanDevice.impl s') 0x510 = true
    /\ VulkanDevice.get_resource_from_view (VulkanDevice.impl s') 0x510 = Some 0x30.
Proof.
  eexists. split; [reflexivity|].
  destruct (vulkan_resource_view_lifetime vk_dispatch vk_api_values vk_convert_image_view
              vk_convert_buffer_view 0x30 0 vk_view_desc (vk_device vk_with_app_image) _ 0x510
              vk_app_image eq_refl eq_refl) as (Hvalid & Hres & _).
  - discriminate.
  - reflexivity.
  - split; [exact Hvalid|exact Hres].
Defined.

(** X8: a failing [create_resource_view] of the Vulkan backend is
    atomic: it has written the zero handle, left the device as it was
    and made one native call, the creation that failed.  On a resource
    that is not registered the function does not return: the lookup
    throws. *)
Theorem vulkan_create_resource_view_failure_atomic (vk : VulkanDevice.dispatch_table)
    (api : VulkanDevice.api_enumerators)
    (convert_image : OpenGL.resource_view_desc -> VulkanDevice.VkImageViewCreateInfo)
    (convert_buffer : OpenGL.resource_view_desc -> VulkanDevice.VkBufferViewCreateInfo)
    (resource usage_type : Z) (desc : OpenGL.resource_view_desc) (s : VulkanDevice.device) :
  (forall s' out,
      VulkanDevice.create_resource_view vk api convert_image convert_buffer resource usage_type
        desc s = Some (s', out, false) ->
      out = 0
      /\ VulkanDevice.impl s' = VulkanDevice.impl s
      /\ exists c,
           VulkanDevice.calls s' = VulkanDevice.calls s ++ [c]
           /\ match c with
              | VulkanDevice.ev_vkCreateImageView _ r _
              | VulkanDevice.ev_vkCreateBufferView _ r _ => r ≠ Vulkan.VK_SUCCESS
              | _ => False
              end)
  /\ (Vulkan._resources (VulkanDevice.impl s) !! resource = None ->
      VulkanDevice.create_resource_view vk api convert_image convert_buffer resource usage_type
        desc s = None).
Proof.
  split.
  - intros s' out H. unfold VulkanDevice.create_resource_view in H.
    apply bind_Some in H as (data & _ & H).
    destruct (Vulkan.is_image data).
    + destruct (VulkanDevice.CreateImageView vk _ _) as [result image_view].
      destruct (bool_decide (result = Vulkan.VK_SUCCESS)) eqn:Hr; [discriminate|].
      apply bool_decide_eq_false_1 in Hr. injection H as <- <-.
      split; [reflexivity|]. split; [reflexivity|].
      eexists. split; [reflexivity|exact Hr].
    + destruct (VulkanDevice.CreateBufferView vk _ _) as [result buffer_view].
      destruct (bool_decide (result = Vulkan.VK_SUCCESS)) eqn:Hr; [discriminate|].
      apply bool_decide_eq_false_1 in Hr. injection H as <- <-.
      split; [reflexivity|]. split; [reflexivity|].
      eexists. split; [reflexivity|exact Hr].
  - intros Hnone. unfold VulkanDevice.create_resource_view, Vulkan.lookup_resource.
    rewrite Hnone. reflexivity.
Qed.

(** A view request on a driver that is out of memory, and one on a
    handle that was never registered. *)
Lemma vulkan_create_resource_view_failure_atomic_witness :
  (exists s',
      VulkanDevice.create_resource_view vk_dispatch_failing vk_api_values vk_convert_image_view
        vk_convert_buffer_view 0x30 0 vk_view_desc (vk_device vk_with_app_image)
      = Some (s', 0, false)
      /\ VulkanDevice.impl s' = vk_with_app_image)
  /\ VulkanDevice.create_resource_view vk_dispatch_failing vk_api_values vk_convert_image_view
       vk_convert_buffer_view 0x99 0 vk_view_desc (vk_device vk_with_app_image) = None.
Proof.
  split.
  - eexists. split; [reflexivity|].
    apply (proj1 (vulkan_create_resource_view_failure_atomic vk_dispatch_failing vk_api_values
                    vk_convert_image_view vk_convert_buffer_view 0x30 0 vk_view_desc
                    (vk_device vk_with_app_image)) _ 0).
    reflexivity.
  - apply (proj2 (vulkan_create_resource_view_failure_atomic vk_dispatch_failing vk_api_values
                    vk_convert_image_view vk_convert_buffer_view 0x99 0 vk_view_desc
                    (vk_device vk_with_app_image))).
    reflexivity.
Defined.

(** ** Pipeline layouts, pipelines and transient pools of the Vulkan device *)







Lemma created_modules_app (cs1 cs2 : list VulkanDevice.call) :
  created_modules (cs1 ++ cs2) = created_modules cs1 ++ created_modules cs2.
Proof. unfold created_modules. apply flat_map_app. Qed.

(** The blocks that create the shader modules: they only create
    modules, and [shader_stage_info] gains exactly the modules whose
    creation succeeded, in order. *)
Lemma create_stages_spec (vk : VulkanDevice.dispatch_table)
    (stages : list (Z * VulkanDevice.shader_desc)) (info info1 : list (Z * Z))
    (s s1 : VulkanDevice.device) (ok : bool) :
  VulkanDevice.create_stages vk stages info s = (s1, info1, ok) ->
  VulkanDevice.impl s1 = VulkanDevice.impl s
  /\ VulkanDevice._pipeline_layout_list s1 = VulkanDevice._pipeline_layout_list s
  /\ exists cs,
       VulkanDevice.calls s1 = VulkanDevice.calls s ++ cs
       /\ Forall (fun c => is_module_creation c = true) cs
       /\ (length cs <= length stages)%nat
       /\ map snd info1 = map snd info ++ created_modules cs.
Proof.
  revert info s. induction stages as [|[stage desc] stages IH]; intros info s H.
  - injection H as <- <- <-. split; [reflexivity|]. split; [reflexivity|].
    exists []. rewrite !app_nil_r. repeat split; try reflexivity. constructor.
  - simpl in H. destruct (bool_decide (VulkanDevice.code_size desc ≠ 0)).
    + unfold VulkanDevice.create_shader_module in H.
      destruct (VulkanDevice.CreateShaderModule vk _ _ _ _) as [result module].
      destruct (bool_decide (result = Vulkan.VK_SUCCESS)) eqn:Hr.
      * apply IH in H as (Hi & Hp & cs & Hc & Hall & Hlen & Hm).
        split; [exact Hi|]. split; [exact Hp|].
        eexists (_ :: cs). split; [rewrite Hc; simpl; rewrite <- app_assoc; reflexivity|].
        split; [constructor; [reflexivity|exact Hall]|]. split; [simpl; lia|].
        rewrite Hm, map_app. simpl. rewrite Hr, <- app_assoc. reflexivity.
      * injection H as <- <- <-. split; [reflexivity|]. split; [reflexivity|].
        eexists [_]. split; [reflexivity|].
        split; [repeat constructor|]. split; [simpl; lia|].
        simpl. rewrite Hr. rewrite app_nil_r. reflexivity.
    + apply IH in H as (Hi & Hp & cs & Hc & Hall & Hlen & Hm).
      split; [exact Hi|]. split; [exact Hp|].
      exists cs. split; [exact Hc|]. split; [exact Hall|]. split; [simpl; lia|exact Hm].
Qed.

(** X10: [create_graphics_pipeline] of the Vulkan backend releases the
    shader modules it created on every return path.  Whatever the
    outcome, the device registries are untouched and the calls made are:
    at most five shader-module creations, then at most one
    [vkCreateGraphicsPipelines] (whose stages are exactly the modules
    created successfully), then one [vkDestroyShaderModule] for each
    module created successfully, in creation order.  Without the
    pipeline creation call, or when it fails, the result is false with
    the zero handle; a null render-pass template fails before any call. *)
Theorem vulkan_create_graphics_pipeline_releases_modules (vk : VulkanDevice.dispatch_table)
    (api : VulkanDevice.api_enumerators) (convert_format : Z -> Z)
    (desc : VulkanDevice.pipeline_desc) (s s' : VulkanDevice.device) (out : Z) (ok : bool) :
  VulkanDevice.create_graphics_pipeline vk api convert_format desc s = Some (s', out, ok) ->
  VulkanDevice.impl s' = VulkanDevice.impl s
  /\ VulkanDevice._pipeline_layout_list s' = VulkanDevice._pipeline_layout_list s
  /\ (ok = false -> out = 0)
  /\ exists cs pipe,
       VulkanDevice.calls s'
       = VulkanDevice.calls s ++ cs ++ pipe
         ++ map VulkanDevice.ev_vkDestroyShaderModule (created_modules cs)
       /\ Forall (fun c => is_module_creation c = true) cs
       /\ (length cs <= 5)%nat
       /\ ((pipe = [] /\ ok = false)
           \/ exists info result object,
                pipe = [VulkanDevice.ev_vkCreateGraphicsPipelines info result object]
                /\ map snd (VulkanDevice.gp_stages info) = created_modules cs
                /\ ok = bool_decide (result = Vulkan.VK_SUCCESS)
                /\ (ok = true -> out = object))
       /\ (VulkanDevice.render_pass_template desc = 0 -> cs = [] /\ pipe = []).
Proof.
  intros H. unfold VulkanDevice.create_graphics_pipeline in H.
  destruct (bool_decide (VulkanDevice.render_pass_template desc = 0)) eqn:Hrt.
  { injection H as <- <- <-. split; [reflexivity|]. split; [reflexivity|].
    split; [reflexivity|]. exists [], []. simpl. rewrite app_nil_r.
    split; [reflexivity|]. split; [constructor|]. split; [lia|].
    split; [left; split; reflexivity|]. intros _. split; reflexivity. }
  apply bool_decide_eq_false_1 in Hrt.
  destruct (VulkanDevice.create_stages vk (VulkanDevice.graphics_stages desc) [] s)
    as [[s1 info] ok1] eqn:Hst.
  apply create_stages_spec in Hst as (Hi & Hp & cs & Hc & Hall & Hlen & Hm).
  simpl in Hm, Hlen.
  assert (Hfail : forall s2 : VulkanDevice.device,
            s2 = VulkanDevice.destroy_stages info s1 ->
            VulkanDevice.impl s2 = VulkanDevice.impl s
            /\ VulkanDevice._pipeline_layout_list s2 = VulkanDevice._pipeline_layout_list s
            /\ exists cs pipe,
                 VulkanDevice.calls s2
                 = VulkanDevice.calls s ++ cs ++ pipe
                   ++ map VulkanDevice.ev_vkDestroyShaderModule (created_modules cs)
                 /\ Forall (fun c => is_module_creation c = true) cs
                 /\ (length cs <= 5)%nat
                 /\ ((pipe = [] /\ false = false)
                     \/ exists info result object,
                          pipe = [VulkanDevice.ev_vkCreateGraphicsPipelines info result object]
                          /\ map snd (VulkanDevice.gp_stages info) = created_modules cs
                          /\ false = bool_decide (result = Vulkan.VK_SUCCESS)
                          /\ (false = true -> 0 = object))
                 /\ (VulkanDevice.render_pass_template desc = 0 -> cs = [] /\ pipe = [])).
  { intros s2 ->. split; [exact Hi|]. split; [exact Hp|].
    exists cs, []. split.
    { unfold VulkanDevice.destroy_stages. simpl. rewrite Hc, <- Hm, <- app_assoc.
      rewrite map_map. reflexivity. }
    split; [exact Hall|]. split; [exact Hlen|].
    split; [left; split; reflexivity|]. intros Hz. contradiction. }
  destruct ok1; cbn [negb] in H.
  2:{ injection H as <- <- <-.
      destruct (Hfail _ eq_refl) as (H1 & H2 & H3).
      split; [exact H1|]. split; [exact H2|]. split; [reflexivity|exact H3]. }
  destruct (VulkanDevice.convert_dynamic_states _ _) as [dyn_states|].
  2:{ injection H as <- <- <-.
      destruct (Hfail _ eq_refl) as (H1 & H2 & H3).
      split; [exact H1|]. split; [exact H2|]. split; [reflexivity|exact H3]. }
  apply bind_Some in H as (layout_result & _ & H).
  destruct layout_result as [[vertex_bindings vertex_attributes]|].
  2:{ injection H as <- <- <-.
      destruct (Hfail _ eq_refl) as (H1 & H2 & H3).
      split; [exact H1|]. split; [exact H2|]. split; [reflexivity|exact H3]. }
  apply bind_Some in H as (pass_impl & _ & H).
  apply bind_Some in H as (framebuffer_data & _ & H).
  destruct (VulkanDevice.CreateGraphicsPipelines vk _ _) as [result object] eqn:Hnative.
  assert (Hdone : forall (s2 : VulkanDevice.device) create_info o okv,
            s2 = VulkanDevice.destroy_stages info
                   (VulkanDevice.record
                      [VulkanDevice.ev_vkCreateGraphicsPipelines create_info result object] s1) ->
            VulkanDevice.gp_stages create_info = info ->
            okv = bool_decide (result = Vulkan.VK_SUCCESS) ->
            (okv = true -> o = object) ->
            VulkanDevice.impl s2 = VulkanDevice.impl s
            /\ VulkanDevice._pipeline_layout_list s2 = VulkanDevice._pipeline_layout_list s
            /\ exists cs pipe,
                 VulkanDevice.calls s2
                 = VulkanDevice.calls s ++ cs ++ pipe
                   ++ map VulkanDevice.ev_vkDestroyShaderModule (created_modules cs)
                 /\ Forall (fun c => is_module_creation c = true) cs
                 /\ (length cs <= 5)%nat
                 /\ ((pipe = [] /\ okv = false)
                     \/ exists info result' object',
                          pipe = [VulkanDevice.ev_vkCreateGraphicsPipelines info result' object']
                          /\ map snd (VulkanDevice.gp_stages info) = created_modules cs
                          /\ okv = bool_decide (result' = Vulkan.VK_SUCCESS)
                          /\ (okv = true -> o = object'))
                 /\ (VulkanDevice.render_pass_template desc = 0 -> cs = [] /\ pipe = [])).
  { intros s2 create_info o okv -> Hstages Hokv Ho. split; [exact Hi|]. split; [exact Hp|].
    exists cs, [VulkanDevice.ev_vkCreateGraphicsPipelines create_info result object]. split.
    { unfold VulkanDevice.destroy_stages. simpl. rewrite Hc, <- Hm, <- !app_assoc.
      rewrite map_map. reflexivity. }
    split; [exact Hall|]. split; [exact Hlen|].
    split; [|intros Hz; contradiction].
    right. exists create_info, result, object.
    split; [reflexivity|]. split; [rewrite Hstages; exact Hm|]. split; [exact Hokv|exact Ho]. }
  destruct (bool_decide (result = Vulkan.VK_SUCCESS)) eqn:Hr.
  - injection H as <- <- <-.
    match goal with
    | |- VulkanDevice.impl ?s2 = _ /\ _ =>
        destruct (Hdone s2 _ object true eq_refl eq_refl eq_refl (fun _ => eq_refl))
          as (H1 & H2 & H3)
    end.
    split; [exact H1|]. split; [exact H2|]. split; [discriminate|exact H3].
  - injection H as <- <- <-.
    match goal with
    | |- VulkanDevice.impl ?s2 = _ /\ _ =>
        destruct (Hdone s2 _ 0 false eq_refl eq_refl eq_refl) as (H1 & H2 & H3);
          [discriminate|]
    end.
    split; [exact H1|]. split; [exact H2|]. split; [reflexivity|exact H3].
Qed.

(** A pipeline with a vertex and a pixel shader against the pass
    [0xA0]: on a driver that grants everything, and on one that runs out
    of memory after the first shader module. *)
Lemma vulkan_create_graphics_pipeline_releases_modules_witness :
  (exists s',
      VulkanDevice.create_graphics_pipeline vk_dispatch vk_api_values (fun f => f)
        vk_pipeline_desc (vk_device vk_with_pass) = Some (s', 0x810, true)
      /\ VulkanDevice.impl s' = vk_with_pass
      /\ map is_module_creation (VulkanDevice.calls s') = [true; true; false; false; false]
      /\ drop 3 (VulkanDevice.calls s')
         = [VulkanDevice.ev_vkDestroyShaderModule 0x700;
            VulkanDevice.ev_vkDestroyShaderModule 0x701])
  /\ (exists s',
        VulkanDevice.create_graphics_pipeline vk_dispatch_failing vk_api_values (fun f => f)
          vk_pipeline_desc (vk_device vk_with_pass) = Some (s', 0, false)
        /\ VulkanDevice.impl s' = vk_with_pass
        /\ drop 2 (VulkanDevice.calls s') = [VulkanDevice.ev_vkDestroyShaderModule 0x700]).
Proof.
  split.
  - assert (Hrun : exists s',
              VulkanDevice.create_graphics_pipeline vk_dispatch vk_api_values (fun f => f)
                vk_pipeline_desc (vk_device vk_with_pass) = Some (s', 0x810, true))
      by (eexists; reflexivity).
    destruct Hrun as (s' & Hrun). exists s'.
    destruct (vulkan_create_graphics_pipeline_releases_modules _ _ _ _ _ _ _ _ Hrun)
      as (Himpl & _).
    split; [exact Hrun|]. split; [exact Himpl|].
    vm_compute in Hrun. injection Hrun as <-. split; reflexivity.
  - assert (Hrun : exists s',
              VulkanDevice.create_graphics_pipeline vk_dispatch_failing vk_api_values
                (fun f => f) vk_pipeline_desc (vk_device vk_with_pass) = Some (s', 0, false))
      by (eexists; reflexivity).
    destruct Hrun as (s' & Hrun). exists s'.
    destruct (vulkan_create_graphics_pipeline_releases_modules _ _ _ _ _ _ _ _ Hrun)
      as (Himpl & _).
    split; [exact Hrun|]. split; [exact Himpl|].
    vm_compute in Hrun. injection Hrun as <-. reflexivity.
Defined.

Lemma find_binding_Some (vbs : list VulkanDevice.VkVertexInputBindingDescription) (x : Z)
    (it : VulkanDevice.VkVertexInputBindingDescription) :
  VulkanDevice.find_binding vbs x = Some it -> it ∈ vbs /\ VulkanDevice.vib_binding it = x.
Proof.
  unfold VulkanDevice.find_binding. intros H. apply find_some in H as (Hin & Hb).
  split; [apply list_elem_of_In; exact Hin|]. apply bool_decide_eq_true_1 in Hb. exact Hb.
Qed.

Lemma find_binding_None (vbs : list VulkanDevice.VkVertexInputBindingDescription) (x : Z) :
  VulkanDevice.find_binding vbs x = None -> x ∉ map VulkanDevice.vib_binding vbs.
Proof.
  unfold VulkanDevice.find_binding. intros H Hin.
  apply list_elem_of_fmap in Hin as (b & -> & Hb).
  apply list_elem_of_In in Hb.
  pose proof (find_none _ _ H b Hb) as Hn. simpl in Hn.
  apply bool_decide_eq_false_1 in Hn. apply Hn. reflexivity.
Qed.

(** The loop over the input layout, from element [i] on. *)
Lemma convert_input_layout_spec (api : VulkanDevice.api_enumerators) (convert_format : Z -> Z)
    (elements : list VulkanDevice.input_layout_element) :
  forall (fuel i : nat) vbs vas r,
    input_layout_inv convert_format elements i vbs vas ->
    VulkanDevice.convert_input_layout api convert_format fuel (Z.of_nat i) elements vbs vas
    = Some r ->
    match r with
    | Some (vbs', vas') =>
        exists n : nat,
          (i <= n <= i + fuel)%nat
          /\ input_layout_inv convert_format elements n vbs' vas'
          /\ (forall e, e ∈ drop i (take n elements) ->
                VulkanDevice.element_format e ≠ VulkanDevice.format_unknown api)
          /\ ((n < i + fuel)%nat ->
              exists e, elements !! n = Some e
                        /\ VulkanDevice.element_format e = VulkanDevice.format_unknown api)
    | None =>
        exists (k j : nat) ek ej,
          (k < j < i + fuel)%nat
          /\ elements !! k = Some ek /\ elements !! j = Some ej
          /\ VulkanDevice.buffer_binding ek = VulkanDevice.buffer_binding ej
          /\ binding_of ek ≠ binding_of ej
    end.
Proof.
  induction fuel as [|fuel IH]; intros i vbs vas r Hinv H.
  - injection H as <-. exists i. split; [lia|]. split; [exact Hinv|].
    split; [|intros Hlt; lia].
    intros e He. rewrite drop_ge in He by (destruct Hinv as (_ & _ & Hl & _); lia).
    inversion He.
  - simpl in H. apply bind_Some in H as (element & He & H).
    rewrite vector_get_lookup in He by lia. rewrite Nat2Z.id in He.
    destruct (bool_decide (VulkanDevice.element_format element = _)) eqn:Hfmt.
    + apply bool_decide_eq_true_1 in Hfmt. injection H as <-.
      exists i. split; [lia|]. split; [exact Hinv|]. split.
      * intros e Hin. rewrite drop_ge in Hin by (destruct Hinv as (_ & _ & Hl & _); lia).
        inversion Hin.
      * intros _. exists element. split; [exact He|exact Hfmt].
    + apply bool_decide_eq_false_1 in Hfmt.
      destruct Hinv as (Hnd & Hvas & Hlen & Hseen & Hfrom).
      replace (Z.of_nat i + 1) with (Z.of_nat (S i)) in H by lia.
      assert (Htake : take (S i) elements = take i elements ++ [element])
        by (apply take_S_r; exact He).
      assert (Hnext : forall vbs',
                NoDup (map VulkanDevice.vib_binding vbs') ->
                binding_of element ∈ vbs' ->
                (forall b, b ∈ vbs -> b ∈ vbs') ->
                (forall b, b ∈ vbs' -> b ∈ vbs \/ b = binding_of element) ->
                input_layout_inv convert_format elements (S i) vbs'
                  (vas ++ [attribute_of convert_format element])).
      { intros vbs' Hnd' Hin' Hsub Hsup. unfold input_layout_inv.
        rewrite Htake, map_app, length_app, Hlen. simpl.
        split; [exact Hnd'|]. split; [rewrite Hvas; reflexivity|]. split; [lia|]. split.
        - intros e Hin. apply elem_of_app in Hin as [Hin|Hin].
          + apply Hsub, Hseen. exact Hin.
          + apply list_elem_of_singleton in Hin. subst e. exact Hin'.
        - intros b Hb. destruct (Hsup b Hb) as [Hold| ->].
          + destruct (Hfrom b Hold) as (k & e & Hk & Hke & Hbe).
            exists k, e. split; [lia|]. split; assumption.
          + exists i, element. split; [lia|]. split; [exact He|reflexivity]. }
      assert (Hdrop : forall n, (S i <= n)%nat ->
                forall e, e ∈ drop i (take n elements) ->
                          e = element \/ e ∈ drop (S i) (take n elements)).
      { intros n Hn e Hin.
        assert (Hl : take n elements !! i = Some element)
          by (rewrite lookup_take_lt by lia; exact He).
        rewrite (drop_S _ _ _ Hl) in Hin. apply elem_of_cons in Hin. exact Hin. }
      destruct (VulkanDevice.find_binding vbs (VulkanDevice.buffer_binding element))
        as [it|] eqn:Hfind.
      * apply find_binding_Some in Hfind as (Hit & Hbind).
        destruct (bool_decide (VulkanDevice.vib_inputRate it ≠ _)
                  || bool_decide (VulkanDevice.vib_stride it ≠ _)) eqn:Hconf.
        -- injection H as <-.
           destruct (Hfrom it Hit) as (k & ek & Hk & Hke & Hbe).
           exists k, i, ek, element. split; [lia|]. split; [exact Hke|]. split; [exact He|].
           subst it. split; [exact Hbind|].
           intros Heq. rewrite Heq in Hconf. simpl in Hconf.
           apply orb_true_iff in Hconf as [Hc|Hc]; apply bool_decide_eq_true_1 in Hc;
             apply Hc; reflexivity.
        -- apply orb_false_iff in Hconf as (Hc1 & Hc2).
           apply bool_decide_eq_false_1 in Hc1. apply dec_stable in Hc1.
           apply bool_decide_eq_false_1 in Hc2. apply dec_stable in Hc2.
           assert (Hitb : it = binding_of element).
           { destruct it as [b st ra]. unfold binding_of. simpl in *. subst. reflexivity. }
           apply IH in H.
           ++ destruct r as [[vbs' vas']|].
              ** destruct H as (n & Hn & Hinv' & Hfmts & Hstop).
                 exists n. split; [lia|]. split; [exact Hinv'|]. split.
                 --- intros e Hin. destruct (Hdrop n ltac:(lia) e Hin) as [->|Hin'];
                       [exact Hfmt|apply Hfmts; exact Hin'].
                 --- intros Hlt. apply Hstop. lia.
              ** destruct H as (k & j & ek & ej & Hkj & Hrest).
                 exists k, j, ek, ej. split; [lia|exact Hrest].
           ++ apply Hnext; [exact Hnd|rewrite <- Hitb; exact Hit|auto|auto].
      * apply find_binding_None in Hfind.
        apply IH in H.
        -- destruct r as [[vbs' vas']|].
           ++ destruct H as (n & Hn & Hinv' & Hfmts & Hstop).
              exists n. split; [lia|]. split; [exact Hinv'|]. split.
              ** intros e Hin. destruct (Hdrop n ltac:(lia) e Hin) as [->|Hin'];
                   [exact Hfmt|apply Hfmts; exact Hin'].
              ** intros Hlt. apply Hstop. lia.
           ++ destruct H as (k & j & ek & ej & Hkj & Hrest).
              exists k, j, ek, ej. split; [lia|exact Hrest].
        -- apply Hnext.
           ++ rewrite map_app. simpl. apply NoDup_app. split; [exact Hnd|].
              split; [|apply NoDup_singleton].
              intros x Hx Hx'. apply list_elem_of_singleton in Hx'. subst x.
              apply Hfind. exact Hx.
           ++ apply elem_of_app. right. apply list_elem_of_singleton. reflexivity.
           ++ intros b Hb. apply elem_of_app. left. exact Hb.
           ++ intros b Hb. apply elem_of_app in Hb as [Hb|Hb]; [left; exact Hb|].
              right. apply list_elem_of_singleton in Hb. exact Hb.
Qed.

(** X11: the vertex input state that [create_graphics_pipeline] of the
    Vulkan backend hands to the driver is well formed.  Whenever the
    function calls [vkCreateGraphicsPipelines], the binding numbers of
    the vertex bindings are pairwise distinct, every vertex attribute
    refers to one of these bindings, the attributes are those of the
    input-layout elements before the first element of unknown format (at
    most 16), and each of these elements finds its stride and input rate
    in the binding of its buffer; so an input layout in which two
    elements disagree on the stride or input rate of the same buffer
    never reaches the driver.  The dynamic states always begin with
    scissor and viewport. *)
Theorem vulkan_graphics_pipeline_vertex_input (vk : VulkanDevice.dispatch_table)
    (api : VulkanDevice.api_enumerators) (convert_format : Z -> Z)
    (desc : VulkanDevice.pipeline_desc) (s s' : VulkanDevice.device) (out : Z) (ok : bool)
    (info : VulkanDevice.VkGraphicsPipelineCreateInfo) (result object : Z) :
  VulkanDevice.create_graphics_pipeline vk api convert_format desc s = Some (s', out, ok) ->
  In (VulkanDevice.ev_vkCreateGraphicsPipelines info result object)
     (drop (length (VulkanDevice.calls s)) (VulkanDevice.calls s')) ->
  NoDup (map VulkanDevice.vib_binding (VulkanDevice.gp_vertex_bindings info))
  /\ (forall a, a ∈ VulkanDevice.gp_vertex_attributes info ->
        VulkanDevice.via_binding a
        ∈ map VulkanDevice.vib_binding (VulkanDevice.gp_vertex_bindings info))
  /\ take 2 (VulkanDevice.gp_dynamic_states info)
     = [VulkanDevice.VK_DYNAMIC_STATE_SCISSOR; VulkanDevice.VK_DYNAMIC_STATE_VIEWPORT]
  /\ exists n : nat,
       (n <= 16)%nat
       /\ VulkanDevice.gp_vertex_attributes info
          = map (attribute_of convert_format) (take n (VulkanDevice.input_layout desc))
       /\ (forall e, e ∈ take n (VulkanDevice.input_layout desc) ->
             VulkanDevice.element_format e ≠ VulkanDevice.format_unknown api
             /\ binding_of e ∈ VulkanDevice.gp_vertex_bindings info)
       /\ (forall e1 e2, e1 ∈ take n (VulkanDevice.input_layout desc) ->
             e2 ∈ take n (VulkanDevice.input_layout desc) ->
             VulkanDevice.buffer_binding e1 = VulkanDevice.buffer_binding e2 ->
             VulkanDevice.stride e1 = VulkanDevice.stride e2)
       /\ ((n < 16)%nat ->
           exists e, VulkanDevice.input_layout desc !! n = Some e
                     /\ VulkanDevice.element_format e = VulkanDevice.format_unknown api).
Proof.
  intros H Hin. unfold VulkanDevice.create_graphics_pipeline in H.
  destruct (bool_decide (VulkanDevice.render_pass_template desc = 0)).
  { injection H as <- <- <-. rewrite drop_all in Hin. destruct Hin. }
  destruct (VulkanDevice.create_stages vk (VulkanDevice.graphics_stages desc) [] s)
    as [[s1 stage_info] ok1] eqn:Hst.
  apply create_stages_spec in Hst as (_ & _ & cs & Hc & Hall & _ & _).
  assert (Hnot : forall c : VulkanDevice.call,
            In c cs \/ In c (map (fun si : Z * Z => VulkanDevice.ev_vkDestroyShaderModule (snd si))
                               stage_info) ->
            c ≠ VulkanDevice.ev_vkCreateGraphicsPipelines info result object).
  { intros c [Hc1|Hc2] ->.
    - rewrite Forall_forall in Hall. apply list_elem_of_In in Hc1.
      specialize (Hall _ Hc1). discriminate.
    - apply in_map_iff in Hc2 as (si & Hsi & _). discriminate. }
  assert (Hfail : In (VulkanDevice.ev_vkCreateGraphicsPipelines info result object)
                    (drop (length (VulkanDevice.calls s))
                       (VulkanDevice.calls (VulkanDevice.destroy_stages stage_info s1))) ->
                  False).
  { unfold VulkanDevice.destroy_stages. simpl. rewrite Hc, <- app_assoc, drop_app_length.
    intros Hi. apply in_app_or in Hi. eapply Hnot; [exact Hi|reflexivity]. }
  destruct ok1; cbn [negb] in H.
  2:{ injection H as <- <- <-. destruct (Hfail Hin). }
  destruct (VulkanDevice.convert_dynamic_states _ _) as [dyn_states|] eqn:Hdyn.
  2:{ injection H as <- <- <-. destruct (Hfail Hin). }
  apply bind_Some in H as (layout_result & Hlayout & H).
  destruct layout_result as [[vertex_bindings vertex_attributes]|].
  2:{ injection H as <- <- <-. destruct (Hfail Hin). }
  apply bind_Some in H as (pass_impl & _ & H).
  apply bind_Some in H as (framebuffer_data & _ & H).
  destruct (VulkanDevice.CreateGraphicsPipelines vk _ _) as [result' object'].
  assert (Hinfo : VulkanDevice.gp_vertex_bindings info = vertex_bindings
                  /\ VulkanDevice.gp_vertex_attributes info = vertex_attributes
                  /\ VulkanDevice.gp_dynamic_states info = dyn_states).
  { assert (Hcalls : exists ci o',
              VulkanDevice.calls s'
              = VulkanDevice.calls s
                ++ cs ++ [VulkanDevice.ev_vkCreateGraphicsPipelines ci result' o']
                ++ map (fun si : Z * Z => VulkanDevice.ev_vkDestroyShaderModule (snd si))
                     stage_info
              /\ VulkanDevice.gp_vertex_bindings ci = vertex_bindings
              /\ VulkanDevice.gp_vertex_attributes ci = vertex_attributes
              /\ VulkanDevice.gp_dynamic_states ci = dyn_states).
    { destruct (bool_decide (result' = Vulkan.VK_SUCCESS)); injection H as <- _ _;
        eexists; eexists;
        (split; [unfold VulkanDevice.destroy_stages; simpl; rewrite Hc, <- !app_assoc;
                 reflexivity|]);
        split; [reflexivity|split; reflexivity|reflexivity|split; reflexivity]. }
    destruct Hcalls as (ci & o' & Hcalls & H1 & H2 & H3).
    rewrite Hcalls, drop_app_length in Hin.
    apply in_app_or in Hin as [Hin|Hin]; [exfalso; eapply Hnot; [left; exact Hin|reflexivity]|].
    apply in_app_or in Hin as [Hin|Hin];
      [|exfalso; eapply Hnot; [right; exact Hin|reflexivity]].
    destruct Hin as [Heq|[]]. injection Heq as <- _ _. split; [exact H1|]. split; assumption. }
  destruct Hinfo as (-> & -> & ->).
  pose proof (convert_input_layout_spec api convert_format (VulkanDevice.input_layout desc)
                16 0%nat [] [] (Some (vertex_bindings, vertex_attributes))) as Hspec.
  destruct Hspec as (n & Hn & (Hnd & Hvas & Hlen & Hseen & Hfrom) & Hfmts & Hstop).
  { unfold input_layout_inv. simpl. split; [constructor|]. split; [reflexivity|].
    split; [reflexivity|]. split; [intros e He; inversion He|intros b Hb; inversion Hb]. }
  { exact Hlayout. }
  split; [exact Hnd|]. split.
  { intros a Ha. rewrite Hvas in Ha. apply list_elem_of_fmap in Ha as (e & -> & He).
    apply list_elem_of_fmap. exists (binding_of e). split; [reflexivity|].
    apply Hseen. exact He. }
  split.
  { clear -Hdyn.
    assert (Hgen : forall states acc r,
              VulkanDevice.convert_dynamic_states states acc = Some r ->
              exists rest, r = acc ++ rest).
    { induction states as [|st states IH]; intros acc r Hr.
      - injection Hr as <-. exists []. rewrite app_nil_r. reflexivity.
      - destruct st; simpl in Hr;
          try (apply IH in Hr as (rest & ->); eexists; rewrite <- app_assoc; reflexivity);
          try discriminate.
        injection Hr as <-. exists []. rewrite app_nil_r. reflexivity. }
    apply Hgen in Hdyn as (rest & ->). reflexivity. }
  exists n. split; [lia|]. split; [exact Hvas|]. split.
  { intros e He. split; [|apply Hseen; exact He].
    apply Hfmts. rewrite drop_0. exact He. }
  split; [|intros Hlt; apply Hstop; lia].
  intros e1 e2 He1 He2 Hb.
  pose proof (Hseen _ He1) as Hb1. pose proof (Hseen _ He2) as Hb2.
  assert (Heq : binding_of e1 = binding_of e2).
  { apply list_elem_of_lookup in Hb1 as (i1 & Hi1). apply list_elem_of_lookup in Hb2 as (i2 & Hi2).
    assert (i1 = i2).
    { eapply NoDup_lookup; [exact Hnd| |].
      - rewrite list_lookup_fmap, Hi1. reflexivity.
      - rewrite list_lookup_fmap, Hi2. simpl. f_equal. symmetry. exact Hb. }
    subst i2. rewrite Hi1 in Hi2. congruence. }
  unfold binding_of in Heq. congruence.
Qed.

(** The two attributes of [vk_pipeline_desc] share one binding. *)
Lemma vulkan_graphics_pipeline_vertex_input_witness :
  exists s',
    VulkanDevice.create_graphics_pipeline vk_dispatch vk_api_values (fun f => f)
      vk_pipeline_desc (vk_device vk_with_pass) = Some (s', 0x810, true)
    /\ In (VulkanDevice.ev_vkCreateGraphicsPipelines vk_pipeline_create_info
             Vulkan.VK_SUCCESS 0x810) (VulkanDevice.calls s')
    /\ NoDup (map VulkanDevice.vib_binding
                (VulkanDevice.gp_vertex_bindings vk_pipeline_create_info)).
Proof.
  assert (Hrun : exists s',
            VulkanDevice.create_graphics_pipeline vk_dispatch vk_api_values (fun f => f)
              vk_pipeline_desc (vk_device vk_with_pass) = Some (s', 0x810, true))
    by (eexists; reflexivity).
  destruct Hrun as (s' & Hrun). exists s'.
  assert (Hin : In (VulkanDevice.ev_vkCreateGraphicsPipelines vk_pipeline_create_info
                      Vulkan.VK_SUCCESS 0x810) (VulkanDevice.calls s')).
  { pose proof Hrun as Hc. vm_compute in Hc. injection Hc as <-.
    right. right. left. reflexivity. }
  destruct (vulkan_graphics_pipeline_vertex_input _ _ _ _ _ _ _ _ _ _ _ Hrun Hin)
    as (Hnd & _).
  split; [exact Hrun|]. split; [exact Hin|exact Hnd].
Defined.

Lemma uint32_mod_4 (z : Z) : uint32 z mod 4 = z mod 4.
Proof.
  unfold uint32. apply Z.mod_mod_divide. exists (2 ^ 30). reflexivity.
Qed.

(** X12: the transient descriptor pools of the Vulkan backend form a
    ring of four.  Without the push-descriptor extension, the [k]-th
    call of [advance_transient_descriptor_pool] after index [i] resets
    pool number [(i + k) mod 4] and nothing else, also when the 32-bit
    index wraps around (4 divides [2^32]); so four calls in a row reset
    each of the four pools exactly once, and a pool is not reset again
    before the three others have been.  With the extension the function
    does nothing. *)
Theorem vulkan_transient_pool_ring (s : VulkanDevice.device) (n : nat) :
  length (VulkanDevice._transient_descriptor_pool s) = 4%nat ->
  0 <= VulkanDevice._transient_index s < 2 ^ 32 ->
  if VulkanDevice.CmdPushDescriptorSetKHR s then advance_times n s = Some s
  else
    exists s',
      advance_times n s = Some s'
      /\ VulkanDevice._transient_index s'
         = uint32 (VulkanDevice._transient_index s + Z.of_nat n)
      /\ VulkanDevice.calls s'
         = VulkanDevice.calls s
           ++ map (fun k => VulkanDevice.ev_vkResetDescriptorPool
                              (pool_after (VulkanDevice._transient_descriptor_pool s)
                                 (VulkanDevice._transient_index s) (S k)))
                (seq 0 n)
      /\ VulkanDevice._transient_descriptor_pool s' = VulkanDevice._transient_descriptor_pool s
      /\ VulkanDevice.impl s' = VulkanDevice.impl s
      /\ (n = 4%nat ->
          map (fun k => pool_after (VulkanDevice._transient_descriptor_pool s)
                          (VulkanDevice._transient_index s) (S k)) (seq 0 4)
          ≡ₚ VulkanDevice._transient_descriptor_pool s).
Proof.
  intros Hlen Hidx.
  destruct (VulkanDevice.CmdPushDescriptorSetKHR s) eqn:Hpush.
  { induction n as [|n IH]; [reflexivity|]. simpl.
    unfold VulkanDevice.advance_transient_descriptor_pool. rewrite Hpush. simpl. exact IH. }
  assert (Hloop : forall (m : nat) (t : VulkanDevice.device),
            VulkanDevice.CmdPushDescriptorSetKHR t = false ->
            length (VulkanDevice._transient_descriptor_pool t) = 4%nat ->
            0 <= VulkanDevice._transient_index t < 2 ^ 32 ->
            exists t',
              advance_times m t = Some t'
              /\ VulkanDevice._transient_index t'
                 = uint32 (VulkanDevice._transient_index t + Z.of_nat m)
              /\ VulkanDevice.calls t'
                 = VulkanDevice.calls t
                   ++ map (fun k => VulkanDevice.ev_vkResetDescriptorPool
                                      (pool_after (VulkanDevice._transient_descriptor_pool t)
                                         (VulkanDevice._transient_index t) (S k)))
                        (seq 0 m)
              /\ VulkanDevice._transient_descriptor_pool t'
                 = VulkanDevice._transient_descriptor_pool t
              /\ VulkanDevice.impl t' = VulkanDevice.impl t).
  { induction m as [|m IH]; intros t Hp Hl Hi.
    - exists t. simpl. rewrite Z.add_0_r, app_nil_r, uint32_small by exact Hi.
      repeat split; reflexivity.
    - simpl. unfold VulkanDevice.advance_transient_descriptor_pool. rewrite Hp.
      set (index := uint32 (VulkanDevice._transient_index t + 1)).
      assert (Hm4 : 0 <= index mod 4 < 4) by (apply Z.mod_pos_bound; lia).
      destruct (lookup_lt_is_Some_2 (VulkanDevice._transient_descriptor_pool t)
                  (Z.to_nat (index mod 4)) ltac:(lia)) as [pool Hpool].
      rewrite vector_get_lookup by lia. rewrite Hpool. simpl.
      match goal with
      | |- context [advance_times m ?t1] =>
          destruct (IH t1) as (t' & Hrun & Hi' & Hc' & Hp' & Him')
      end; [exact Hp|exact Hl|simpl; unfold index, uint32; apply Z.mod_pos_bound; lia|].
      exists t'. split; [exact Hrun|]. simpl in Hi', Hc', Hp', Him'.
      split.
      { rewrite Hi'. unfold index, uint32.
        rewrite Zplus_mod_idemp_l. f_equal. lia. }
      split.
      { assert (Hshift : forall a,
                  (index + a) mod 4 = (VulkanDevice._transient_index t + (1 + a)) mod 4).
        { intros a. rewrite <- (Zplus_mod_idemp_l index). unfold index. rewrite uint32_mod_4.
          rewrite Zplus_mod_idemp_l. f_equal. lia. }
        rewrite Hc', <- app_assoc. f_equal.
        change (seq 0 (S m)) with (0%nat :: seq 1 m).
        rewrite <- seq_shift, map_map. simpl. f_equal.
        - unfold pool_after. f_equal.
          replace ((VulkanDevice._transient_index t + Z.of_nat 1) mod 4) with (index mod 4).
          + rewrite Hpool. reflexivity.
          + unfold index. rewrite uint32_mod_4. f_equal.
        - apply map_ext. intros k. unfold pool_after. cbn [VulkanDevice._transient_index
            VulkanDevice.record VulkanDevice.with_transient_index
            VulkanDevice._transient_descriptor_pool].
          fold index. rewrite Hshift.
          replace (1 + Z.of_nat (S k)) with (Z.of_nat (S (S k))) by lia. reflexivity. }
      split; [exact Hp'|exact Him']. }
  destruct (Hloop n s Hpush Hlen Hidx) as (s' & Hrun & Hi & Hc & Hp & Him).
  exists s'. split; [exact Hrun|]. split; [exact Hi|]. split; [exact Hc|].
  split; [exact Hp|]. split; [exact Him|].
  intros _.
  destruct (VulkanDevice._transient_descriptor_pool s) as [|p0 [|p1 [|p2 [|p3 [|? ?]]]]];
    try discriminate.
  unfold pool_after. simpl.
  assert (Hcases : VulkanDevice._transient_index s mod 4 = 0
                   \/ VulkanDevice._transient_index s mod 4 = 1
                   \/ VulkanDevice._transient_index s mod 4 = 2
                   \/ VulkanDevice._transient_index s mod 4 = 3).
  { pose proof (Z.mod_pos_bound (VulkanDevice._transient_index s) 4 ltac:(lia)). lia. }
  assert (Hk : forall k, (VulkanDevice._transient_index s + k) mod 4
                         = (VulkanDevice._transient_index s mod 4 + k) mod 4).
  { intros k. rewrite Zplus_mod_idemp_l. reflexivity. }
  rewrite !Hk.
  destruct Hcases as [E|[E|[E|E]]]; rewrite E; simpl.
  - apply (Permutation_app_comm [p1; p2; p3] [p0]).
  - apply (Permutation_app_comm [p2; p3] [p0; p1]).
  - apply (Permutation_app_comm [p3] [p0; p1; p2]).
  - reflexivity.
Qed.

(** Four advances across the wrap-around of the index: the pools are
    reset in the order 3, 0, 1, 2 and the index ends at 2. *)
Lemma vulkan_transient_pool_ring_witness :
  exists s',
    advance_times 4 vk_device_near_wrap = Some s'
    /\ VulkanDevice._transient_index s' = 2
    /\ VulkanDevice.calls s'
       = [VulkanDevice.ev_vkResetDescriptorPool 0xD3; VulkanDevice.ev_vkResetDescriptorPool 0xD0;
          VulkanDevice.ev_vkResetDescriptorPool 0xD1; VulkanDevice.ev_vkResetDescriptorPool 0xD2].
Proof.
  pose proof (vulkan_transient_pool_ring vk_device_near_wrap 4 eq_refl) as H.
  simpl in H. destruct H as (s' & Hrun & Hi & Hc & _); [lia|].
  exists s'. split; [exact Hrun|]. split; [exact Hi|exact Hc].
Defined.

(** ** Sequences of attachment-binding calls of Direct3D 9 *)

Lemma pass_pairs_app (j k : nat) (pass : Z) :
  pass_pairs j pass ++ pass_pairs k pass = pass_pairs (j + k) pass.
Proof. induction j as [|j IH]; [reflexivity|]. simpl. rewrite IH. reflexivity. Qed.

(** One call keeps the device well formed and raises at most one pair
    of pass events. *)
Lemma d3d9_step_pairs (GetDesc : Z -> Z * Z) (c : d3d9_call) (dev : D3D9.Direct3DDevice9) :
  d3d9_target_bound dev -> d3d9_in_range c ->
  exists dev' evs (j : nat),
    d3d9_step GetDesc c dev = Some dev'
    /\ d3d9_target_bound dev'
    /\ D3D9._current_pass dev' = D3D9._current_pass dev
    /\ D3D9.events dev' = D3D9.events dev ++ evs
    /\ (j <= 1)%nat
    /\ List.filter is_pass_event evs = pass_pairs j (D3D9._current_pass dev).
Proof.
  intros (Hlen & p0 & Hp0 & Hnz) Hc. destruct c as [hr i p|hr p]; cbn [d3d9_step].
  - cbn [d3d9_in_range] in Hc. unfold D3D9.SetRenderTarget.
    destruct (D3D9.SUCCEEDED hr) eqn:Hhr.
    2:{ exists dev, [], 0%nat. cbn. rewrite app_nil_r.
        repeat split; try reflexivity; try lia. exists p0. split; assumption. }
    destruct (Hc eq_refl) as (Hi & Hi0).
    destruct (lookup_lt_is_Some_2 (D3D9.rtv (D3D9.current_pass dev)) (Z.to_nat i))
      as [prev Hprev]; [lia|].
    rewrite vector_get_lookup by lia. rewrite Hprev. cbn [mbind option_bind].
    unfold D3D9.set_rtv, vector_set.
    destruct (decide (i = 0)) as [->|Hi'].
    + specialize (Hi0 eq_refl).
      change (Z.to_nat 0) with 0%nat in *. rewrite Hp0 in Hprev. injection Hprev as <-.
      rewrite (bool_decide_eq_true_2 (p0 ≠ 0)) by exact Hnz.
      rewrite (bool_decide_eq_true_2 (0 = 0)) by reflexivity.
      rewrite (bool_decide_eq_true_2 (p ≠ 0)) by exact Hi0.
      cbn [D3D9.raise D3D9.current_pass D3D9.rtv D3D9._current_pass D3D9.events].
      rewrite decide_True by lia. cbn [mbind option_bind fmap option_fmap option_map fst].
      eexists. eexists. exists 1%nat. split; [reflexivity|].
      cbn [D3D9.raise D3D9.current_pass D3D9.rtv D3D9._current_pass D3D9.events D3D9.dsv].
      split; [|split; [reflexivity|split; [|split; [lia|]]]].
      * split; [cbn; rewrite length_insert; exact Hlen|].
        exists p. split; [|exact Hi0]. cbn. apply list_lookup_insert_eq. lia.
      * rewrite <- !app_assoc. reflexivity.
      * reflexivity.
    + rewrite (bool_decide_eq_false_2 (i = 0)) by exact Hi'.
      assert (Hsame : (if bool_decide (prev ≠ 0) then dev else dev) = dev)
        by (destruct (bool_decide _); reflexivity).
      rewrite Hsame. rewrite decide_True by lia. cbn [mbind option_bind].
      assert (Hb : d3d9_target_bound
                     {| D3D9._current_pass := D3D9._current_pass dev;
                        D3D9.current_pass :=
                          {| D3D9.rtv := <[Z.to_nat i := p]> (D3D9.rtv (D3D9.current_pass dev));
                             D3D9.dsv := D3D9.dsv (D3D9.current_pass dev) |};
                        D3D9.events := D3D9.events dev |}).
      { split; [cbn; rewrite length_insert; exact Hlen|].
        exists p0. split; [|exact Hnz]. cbn.
        rewrite list_lookup_insert_ne by lia. exact Hp0. }
      destruct (bool_decide (p ≠ 0)).
      * eexists. eexists. exists 0%nat.
        cbn [fmap option_fmap option_map fst]. split; [reflexivity|].
        split; [exact Hb|]. split; [reflexivity|]. split; [reflexivity|].
        split; [lia|reflexivity].
      * eexists. exists [], 0%nat.
        cbn [fmap option_fmap option_map fst]. split; [reflexivity|].
        split; [exact Hb|]. split; [reflexivity|]. split; [cbn; rewrite app_nil_r; reflexivity|].
        split; [lia|reflexivity].
  - unfold D3D9.SetDepthStencilSurface.
    destruct (D3D9.SUCCEEDED hr && bool_decide (p ≠ D3D9.dsv (D3D9.current_pass dev))).
    + eexists. eexists. exists 1%nat. cbn [fst]. split; [reflexivity|].
      cbn [D3D9.raise D3D9.set_dsv D3D9.current_pass D3D9.rtv D3D9._current_pass D3D9.events].
      split; [|split; [reflexivity|split; [|split; [lia|]]]].
      * split; [exact Hlen|]. exists p0. split; assumption.
      * rewrite <- app_assoc. reflexivity.
      * reflexivity.
    + exists dev, [], 0%nat. cbn. rewrite app_nil_r.
      repeat split; try reflexivity; try lia. exists p0. split; assumption.
Qed.

(** X13: the render-pass events of Direct3D 9 stay paired over any
    sequence of attachment-binding calls.  On a device with a color
    target in slot 0, every sequence of [SetRenderTarget] and
    [SetDepthStencilSurface] calls -- each, where the native call
    succeeded, naming one of the eight slots and no null target for
    slot 0 -- returns, leaves a target in slot 0, and raises as pass
    events nothing but pairs of a [finish_render_pass] followed at once
    by a [begin_render_pass] of the same pass object, at most one pair
    per call: a pass is never closed twice nor opened twice in a row. *)
Theorem d3d9_pass_events_paired (GetDesc : Z -> Z * Z) (cs : list d3d9_call)
    (dev : D3D9.Direct3DDevice9) :
  d3d9_target_bound dev ->
  Forall d3d9_in_range cs ->
  exists dev' (k : nat),
    d3d9_run GetDesc cs dev = Some dev'
    /\ d3d9_target_bound dev'
    /\ D3D9._current_pass dev' = D3D9._current_pass dev
    /\ (k <= length cs)%nat
    /\ List.filter is_pass_event (D3D9.emitted dev dev')
       = pass_pairs k (D3D9._current_pass dev).
Proof.
  intros Hb Hcs.
  assert (Hgen : exists dev' evs (k : nat),
            d3d9_run GetDesc cs dev = Some dev'
            /\ d3d9_target_bound dev'
            /\ D3D9._current_pass dev' = D3D9._current_pass dev
            /\ (k <= length cs)%nat
            /\ D3D9.events dev' = D3D9.events dev ++ evs
            /\ List.filter is_pass_event evs = pass_pairs k (D3D9._current_pass dev)).
  { revert dev Hb. induction Hcs as [|c cs Hc Hcs IH]; intros dev Hb.
    - exists dev, [], 0%nat. cbn. rewrite app_nil_r. repeat split; try reflexivity.
      + apply Hb.
      + apply Hb.
    - destruct (d3d9_step_pairs GetDesc c dev Hb Hc)
        as (dev1 & evs1 & j & Hstep & Hb1 & Hcp1 & Hev1 & Hj & Hf1).
      destruct (IH dev1 Hb1) as (dev' & evs & k & Hrun & Hb' & Hcp & Hk & Hev & Hf).
      exists dev', (evs1 ++ evs), (j + k)%nat.
      cbn [d3d9_run]. rewrite Hstep.
      split; [exact Hrun|]. split; [exact Hb'|]. split; [congruence|].
      split; [cbn [length]; lia|].
      split; [rewrite Hev, Hev1, <- app_assoc; reflexivity|].
      rewrite List.filter_app, Hf1, Hf, Hcp1. apply pass_pairs_app. }
  destruct Hgen as (dev' & evs & k & Hrun & Hb' & Hcp & Hk & Hev & Hf).
  exists dev', k. split; [exact Hrun|]. split; [exact Hb'|]. split; [exact Hcp|].
  split; [exact Hk|].
  unfold D3D9.emitted. rewrite Hev, drop_app_length. exact Hf.
Qed.

(** Five calls on the bound device: a rebind of slot 0, a failed call, a
    new depth-stencil surface, a second color target, the same
    depth-stencil surface again.  Two pairs of pass events. *)
Lemma d3d9_pass_events_paired_witness :
  exists dev',
    d3d9_run (fun _ => (640, 480))
      [call_SetRenderTarget 0 0 0x1100; call_SetRenderTarget (-1) 9 0;
       call_SetDepthStencilSurface 0 0x2100; call_SetRenderTarget 0 1 0x1200;
       call_SetDepthStencilSurface 0 0x2100] d3d9_bound = Some dev'
    /\ List.filter is_pass_event (D3D9.emitted d3d9_bound dev')
       = [D3D9.finish_render_pass; D3D9.begin_render_pass 0x5000;
          D3D9.finish_render_pass; D3D9.begin_render_pass 0x5000].
Proof.
  destruct (d3d9_pass_events_paired (fun _ => (640, 480))
              [call_SetRenderTarget 0 0 0x1100; call_SetRenderTarget (-1) 9 0;
               call_SetDepthStencilSurface 0 0x2100; call_SetRenderTarget 0 1 0x1200;
               call_SetDepthStencilSurface 0 0x2100] d3d9_bound)
    as (dev' & k & Hrun & _ & _ & _ & _).
  - split; [reflexivity|]. exists 0x1000. split; [reflexivity|discriminate].
  - repeat constructor; simpl; try discriminate; intros; try lia.
  - exists dev'. split; [exact Hrun|].
    vm_compute in Hrun. injection Hrun as <-. reflexivity.
Defined.

(** ** Render passes of the OpenGL backend *)







(** ** Handles of the OpenGL backend *)

Lemma testbit_small (a k n : Z) : 0 <= a < 2 ^ k -> 0 <= k <= n -> Z.testbit a n = false.
Proof.
  intros Ha Hk. rewrite <- (Z.mod_small a (2 ^ k)) by exact Ha.
  apply Z.mod_pow2_bits_high. exact Hk.
Qed.

(** The bits of a packed handle. *)
Lemma gl_pack_bits (high low flags n : Z) :
  0 <= low < 2 ^ 32 -> 0 <= flags < 2 ^ 8 -> 0 <= n ->
  Z.testbit (gl_pack high low flags) n
  = if n <? 32 then Z.testbit low n
    else if n <? 40 then Z.testbit flags (n - 32)
    else Z.testbit high (n - 40).
Proof.
  intros Hl Hf Hn. unfold gl_pack.
  rewrite !Z.lor_spec, !Z.shiftl_spec by exact Hn.
  destruct (n <? 32) eqn:H32; [apply Z.ltb_lt in H32|apply Z.ltb_ge in H32].
  - rewrite (Z.testbit_neg_r high), (Z.testbit_neg_r flags) by lia. reflexivity.
  - rewrite (testbit_small low 32 n) by lia. rewrite orb_false_r.
    destruct (n <? 40) eqn:H40; [apply Z.ltb_lt in H40|apply Z.ltb_ge in H40].
    + rewrite (Z.testbit_neg_r high) by lia. reflexivity.
    + rewrite (testbit_small flags 8 (n - 32)) by lia. apply orb_false_r.
Qed.

Lemma gl_pack_target (high low flags : Z) :
  0 <= low < 2 ^ 32 -> 0 <= flags < 2 ^ 8 ->
  Z.shiftr (gl_pack high low flags) 40 = high.
Proof.
  intros Hl Hf. apply Z.bits_inj'. intros n Hn.
  rewrite Z.shiftr_spec by exact Hn. rewrite gl_pack_bits by lia.
  rewrite (proj2 (Z.ltb_ge (n + 40) 32)) by lia.
  rewrite (proj2 (Z.ltb_ge (n + 40) 40)) by lia.
  f_equal. lia.
Qed.

Lemma gl_pack_object (high low flags : Z) :
  0 <= low < 2 ^ 32 -> 0 <= flags < 2 ^ 8 ->
  Z.land (gl_pack high low flags) 0xFFFFFFFF = low.
Proof.
  intros Hl Hf. change 0xFFFFFFFF with (Z.ones 32). apply Z.bits_inj'. intros n Hn.
  rewrite Z.land_spec, gl_pack_bits by lia.
  destruct (n <? 32) eqn:H32; [apply Z.ltb_lt in H32|apply Z.ltb_ge in H32].
  - rewrite Z.ones_spec_low by lia. apply andb_true_r.
  - rewrite Z.ones_spec_high by lia. rewrite (testbit_small low 32 n) by lia.
    apply andb_false_r.
Qed.

(** Bit 32 of a packed handle is the lowest flag. *)
Lemma gl_pack_shared (high low flags : Z) :
  0 <= low < 2 ^ 32 -> 0 <= flags < 2 ^ 8 ->
  Z.land (gl_pack high low flags) 0x100000000 = 0 <-> Z.testbit flags 0 = false.
Proof.
  intros Hl Hf. change 0x100000000 with (2 ^ 32). split.
  - intros H.
    assert (Hb : Z.testbit (Z.land (gl_pack high low flags) (2 ^ 32)) 32 = false)
      by (rewrite H; apply Z.bits_0).
    rewrite Z.land_spec, gl_pack_bits, Z.pow2_bits_true in Hb by lia.
    change (32 <? 32) with false in Hb. change (32 <? 40) with true in Hb.
    change (32 - 32) with 0 in Hb. cbv iota in Hb. rewrite andb_true_r in Hb. exact Hb.
  - intros H. apply Z.bits_inj'. intros n Hn.
    rewrite Z.land_spec, Z.bits_0, Z.pow2_bits_eqb by lia.
    destruct (32 =? n) eqn:Hn32; [|apply andb_false_r].
    apply Z.eqb_eq in Hn32. subst n. rewrite gl_pack_bits by lia.
    change (32 <? 32) with false. change (32 <? 40) with true. change (32 - 32) with 0.
    cbv iota. rewrite H. reflexivity.
Qed.

(** Clearing the flags of a packed handle. *)
Lemma gl_pack_clear_flags (high low flags : Z) :
  0 <= high < 2 ^ 24 -> 0 <= low < 2 ^ 32 -> 0 <= flags < 2 ^ 8 ->
  Z.land (gl_pack high low flags) 0xFFFFFF00FFFFFFFF = gl_pack high low 0.
Proof.
  intros Hh Hl Hf.
  change 0xFFFFFF00FFFFFFFF with (Z.ldiff (Z.ones 64) (Z.shiftl (Z.ones 8) 32)).
  apply Z.bits_inj'. intros n Hn.
  rewrite Z.land_spec, Z.ldiff_spec, Z.shiftl_spec, !gl_pack_bits by lia.
  destruct (n <? 32) eqn:H32; [apply Z.ltb_lt in H32|apply Z.ltb_ge in H32].
  - rewrite Z.ones_spec_low by lia. rewrite (Z.testbit_neg_r (Z.ones 8)) by lia.
    cbn. apply andb_true_r.
  - destruct (n <? 40) eqn:H40; [apply Z.ltb_lt in H40|apply Z.ltb_ge in H40].
    + rewrite (Z.ones_spec_low 8) by lia. rewrite Z.bits_0. cbn.
      rewrite andb_false_r. apply andb_false_r.
    + rewrite (Z.ones_spec_high 8) by lia.
      destruct (Z.lt_ge_cases n 64) as [H64|H64].
      * rewrite Z.ones_spec_low by lia. cbn. apply andb_true_r.
      * rewrite (testbit_small high 24 (n - 40)) by lia. reflexivity.
Qed.

(** The target of every view type is a texture target that
    [destroy_resource] deletes as a texture. *)
Lemma view_target_is_texture (t : OpenGL.resource_view_type) (target : Z) :
  OpenGL.view_target t = Some target ->
  0 <= target < 2 ^ 24
  /\ OpenGLDevice.is_buffer_target target = false
  /\ OpenGLDevice.is_texture_object_target target = true.
Proof.
  destruct t; intros H; try discriminate; injection H as <-; vm_compute;
    (split; [split; [discriminate|reflexivity]|split; reflexivity]).
Qed.

(** X15: who owns the object of a view of the OpenGL backend.  With
    handles packed as the accessors read them (target from bit 40, flags
    from bit 32, object name below), a successful [create_resource_view]
    on a resource handle, outside of an add-on event, has one of two
    outcomes.  Either it issued nothing and the view shares the object
    of the resource: then [destroy_resource_view] issues nothing, so the
    resource outlives its views, and [get_resource_from_view] gives the
    resource back.  Or it generated a texture for the view: then
    [destroy_resource_view] deletes exactly this texture, and
    [get_resource_from_view] answers with the view's own texture, not
    with the resource the view was made from. *)
Theorem opengl_view_ownership
    (convert_format : Z -> Z) (format_to_default_typed : Z -> Z -> Z)
    (make_resource_view_handle : Z -> Z -> Z -> Z)
    (get_tex_level_param : Z -> Z -> Z -> Z -> Z)
    (gen_name prev_object resource_target resource_object : Z)
    (desc : OpenGL.resource_view_desc) (out out' : Z) (d d' : OpenGL.device_impl) :
  (forall target object extra_bits,
     make_resource_view_handle target object extra_bits = gl_pack target object extra_bits) ->
  0 <= resource_target < 2 ^ 24 ->
  0 <= resource_object < 2 ^ 32 ->
  0 <= gen_name < 2 ^ 32 ->
  OpenGL.create_resource_view convert_format format_to_default_typed make_resource_view_handle
    get_tex_level_param false gen_name prev_object (gl_pack resource_target resource_object 0)
    desc out d = (d', out', true) ->
  (d' = d
   /\ OpenGLDevice.destroy_resource_view out' = None
   /\ OpenGLDevice.get_resource_from_view out' = gl_pack resource_target resource_object 0)
  \/ (exists target rest,
        OpenGL.view_target (OpenGL.view_type desc) = Some target
        /\ OpenGL.gl_log d' = OpenGL.gl_log d ++ OpenGL.glGenTextures gen_name :: rest
        /\ OpenGLDevice.destroy_resource_view out' = Some (OpenGLDevice.glDeleteTextures gen_name)
        /\ OpenGLDevice.get_resource_from_view out' = gl_pack target gen_name 0).
Proof.
  intros Hpack Ht Ho Hg H. unfold OpenGL.create_resource_view in H.
  rewrite !Hpack in H.
  rewrite gl_pack_target, gl_pack_object in H by lia.
  rewrite (uint32_small resource_target) in H by lia.
  assert (Hshared : forall flags : Z,
            flags = 1 \/ flags = 3 ->
            OpenGLDevice.destroy_resource_view (gl_pack resource_target resource_object flags)
            = None
            /\ OpenGLDevice.get_resource_from_view
                 (gl_pack resource_target resource_object flags)
               = gl_pack resource_target resource_object 0).
  { intros flags Hf. split.
    - unfold OpenGLDevice.destroy_resource_view. rewrite bool_decide_eq_false_2; [reflexivity|].
      intros Hz. apply gl_pack_shared in Hz; [|lia|lia].
      destruct Hf as [-> | ->]; discriminate.
    - unfold OpenGLDevice.get_resource_from_view. apply gl_pack_clear_flags; lia. }
  assert (Hflags : forall b : bool, Z.lor 1 (if b then 2 else 0) = 1 \/ Z.lor 1 (if b then 2 else 0) = 3)
    by (intros [|]; [right|left]; reflexivity).
  destruct (bool_decide (resource_target = OpenGL.GL_RENDERBUFFER)
            || bool_decide (resource_target = OpenGL.GL_FRAMEBUFFER_DEFAULT)).
  { injection H as <- <-. left. split; [reflexivity|]. apply Hshared. apply Hflags. }
  destruct (OpenGL.view_target (OpenGL.view_type desc)) as [target|] eqn:Hvt; [|discriminate].
  destruct (view_target_is_texture _ _ Hvt) as (Htr & Hnb & Htex).
  rewrite ?Hpack in H.
  destruct (bool_decide (convert_format (OpenGL.view_format desc) = OpenGL.GL_NONE));
    [discriminate|].
  destruct (bool_decide (target = resource_target)) eqn:Hsame.
  - apply bool_decide_eq_true_1 in Hsame. subst target. cbn [andb] in H.
    destruct (_ && _).
    + injection H as <- <-. left. split; [reflexivity|]. apply Hshared. apply Hflags.
    + right. exists resource_target.
      assert (Hown : forall (b : bool),
                OpenGLDevice.destroy_resource_view
                  (gl_pack resource_target gen_name (if b then 2 else 0))
                = Some (OpenGLDevice.glDeleteTextures gen_name)
                /\ OpenGLDevice.get_resource_from_view
                     (gl_pack resource_target gen_name (if b then 2 else 0))
                   = gl_pack resource_target gen_name 0).
      { intros b.
        assert (Hb : 0 <= (if b then 2 else 0) < 2 ^ 8) by (destruct b; lia).
        split.
        - unfold OpenGLDevice.destroy_resource_view, OpenGLDevice.destroy_resource.
          rewrite bool_decide_eq_true_2 by (apply gl_pack_shared; [lia|lia|destruct b; reflexivity]).
          rewrite gl_pack_target, gl_pack_object by lia. rewrite Hnb, Htex. reflexivity.
        - unfold OpenGLDevice.get_resource_from_view. apply gl_pack_clear_flags; lia. }
      destruct (bool_decide (resource_target ≠ OpenGL.GL_TEXTURE_BUFFER));
        injection H as <- <-; eexists; (split; [reflexivity|]);
        (split; [cbn; rewrite <- app_assoc; reflexivity|]); apply Hown.
  - right. exists target. cbn [andb] in H.
    assert (Hown : forall (b : bool),
              OpenGLDevice.destroy_resource_view (gl_pack target gen_name (if b then 2 else 0))
              = Some (OpenGLDevice.glDeleteTextures gen_name)
              /\ OpenGLDevice.get_resource_from_view
                   (gl_pack target gen_name (if b then 2 else 0))
                 = gl_pack target gen_name 0).
    { intros b.
      assert (Hb : 0 <= (if b then 2 else 0) < 2 ^ 8) by (destruct b; lia).
      split.
      - unfold OpenGLDevice.destroy_resource_view, OpenGLDevice.destroy_resource.
        rewrite bool_decide_eq_true_2 by (apply gl_pack_shared; [lia|lia|destruct b; reflexivity]).
        rewrite gl_pack_target, gl_pack_object by lia. rewrite Hnb, Htex. reflexivity.
      - unfold OpenGLDevice.get_resource_from_view. apply gl_pack_clear_flags; lia. }
    destruct (bool_decide (target ≠ OpenGL.GL_TEXTURE_BUFFER));
      injection H as <- <-; eexists; (split; [reflexivity|]);
      (split; [cbn; rewrite <- app_assoc; reflexivity|]); apply Hown.
Qed.

(** A 2D-array view of the 2D texture 5: texture 9 is generated for
    it; destroying the view deletes texture 9, and the resource of the
    view is texture 9 under the array target. *)
Lemma opengl_view_ownership_witness :
  exists d',
    OpenGL.create_resource_view (fun _ => 0x8058) (fun f _ => f) gl_pack (fun _ _ _ _ => 0x8058)
      false 9 0 (gl_pack OpenGL.GL_TEXTURE_2D 5 0) gl_view_desc_array 0 gl_no_depth
    = (d', gl_pack OpenGL.GL_TEXTURE_2D_ARRAY 9 0, true)
    /\ OpenGLDevice.destroy_resource_view (gl_pack OpenGL.GL_TEXTURE_2D_ARRAY 9 0)
       = Some (OpenGLDevice.glDeleteTextures 9)
    /\ OpenGLDevice.get_resource_from_view (gl_pack OpenGL.GL_TEXTURE_2D_ARRAY 9 0)
       = gl_pack OpenGL.GL_TEXTURE_2D_ARRAY 9 0.
Proof.
  eexists. split; [reflexivity|].
  destruct (opengl_view_ownership (fun _ => 0x8058) (fun f _ => f) gl_pack
              (fun _ _ _ _ => 0x8058) 9 0 OpenGL.GL_TEXTURE_2D 5 gl_view_desc_array 0
              (gl_pack OpenGL.GL_TEXTURE_2D_ARRAY 9 0) gl_no_depth _
              (fun _ _ _ => eq_refl)
              ltac:(vm_compute; split; [discriminate|reflexivity])
              ltac:(vm_compute; split; [discriminate|reflexivity])
              ltac:(vm_compute; split; [discriminate|reflexivity])
              eq_refl)
    as [(_ & Hd & _) | (target & rest & Hvt & _ & Hd & Hr)].
  - vm_compute in Hd. discriminate.
  - injection Hvt as <-. split; [exact Hd|exact Hr].
Defined.

(** ** The layer hooks of the Vulkan backend *)


(** X16: the life of an application buffer under the layer.  With
    add-ons that leave the resource registry alone and do not replace
    the buffer, [vkCreateBuffer] returns what the next layer answered;
    on failure the registry is as before; on success the buffer (a
    handle not in use) is registered, not owned and without allocation,
    before [init_resource] is raised.  [vkDestroyBuffer] then raises
    [destroy_resource], takes the buffer out of the registry, which is
    as it was before the creation, and calls the next layer last; the
    same call once more does not return (the registry lookup throws), as
    does the destruction of any handle that is not registered. *)
Theorem vulkan_hooked_buffer_lifetime (drv : Vulkan.driver)
    (convert_resource_desc : Vulkan.VkBufferCreateInfo -> Vulkan.resource_desc)
    (invoke_create_resource :
       Vulkan.resource_desc -> Z -> Vulkan.device_impl -> Vulkan.device_impl * Z * bool)
    (invoke_init_resource :
       Vulkan.resource_desc -> Z -> Z -> Vulkan.device_impl -> Vulkan.device_impl)
    (invoke_destroy_resource : Z -> Vulkan.device_impl -> Vulkan.device_impl)
    (info : Vulkan.VkBufferCreateInfo) (d d1 : Vulkan.device_impl) (result buffer : Z) :
  (forall desc st d0,
     Vulkan._resources (fst (fst (invoke_create_resource desc st d0))) = Vulkan._resources d0) ->
  (forall desc st h d0,
     Vulkan._resources (invoke_init_resource desc st h d0) = Vulkan._resources d0) ->
  (forall h d0, Vulkan._resources (invoke_destroy_resource h d0) = Vulkan._resources d0) ->
  snd (invoke_create_resource (convert_resource_desc info) Vulkan.resource_usage_undefined d)
  = false ->
  VulkanHooks.vkCreateBuffer drv convert_resource_desc invoke_create_resource
    invoke_init_resource info d = (d1, result, buffer) ->
  Vulkan._resources d !! buffer = None ->
  (exists l, Vulkan.vkCreateBuffer drv l info = (result, buffer))
  /\ (result < 0 -> Vulkan._resources d1 = Vulkan._resources d)
  /\ (result >= 0 ->
      (exists d0,
         d1 = invoke_init_resource (convert_resource_desc info) Vulkan.resource_usage_undefined
                buffer d0
         /\ Vulkan.lookup_resource d0 buffer
            = Some {| Vulkan.object := buffer;
                      Vulkan.create_info := Vulkan.buffer_create_info info;
                      Vulkan.allocation := Vulkan.VK_NULL_HANDLE;
                      Vulkan.owned := false |})
      /\ Vulkan.lookup_resource d1 buffer
         = Some {| Vulkan.object := buffer;
                   Vulkan.create_info := Vulkan.buffer_create_info info;
                   Vulkan.allocation := Vulkan.VK_NULL_HANDLE;
                   Vulkan.owned := false |}
      /\ exists d2,
           VulkanHooks.vkDestroyBuffer invoke_destroy_resource buffer d1 = Some d2
           /\ Vulkan._resources d2 = Vulkan._resources d
           /\ Vulkan.log d2
              = Vulkan.log (invoke_destroy_resource buffer d1)
                ++ [Vulkan.ev_unregister_resource buffer; Vulkan.ev_vkDestroyBuffer buffer]
           /\ VulkanHooks.vkDestroyBuffer invoke_destroy_resource buffer d2 = None)
  /\ (forall h d0, Vulkan.lookup_resource d0 h = None ->
        VulkanHooks.vkDestroyBuffer invoke_destroy_resource h d0 = None).
Proof.
  intros Hc Hi Hd Hnot H Hfresh. unfold VulkanHooks.vkCreateBuffer in H.
  specialize (Hc (convert_resource_desc info) Vulkan.resource_usage_undefined d).
  destruct (invoke_create_resource _ _ d) as [[da replacement] handled].
  simpl in Hnot, Hc. subst handled.
  destruct (Vulkan.vkCreateBuffer drv (Vulkan.log da) info) as [r b] eqn:Hnative.
  split; [|split; [|split]].
  - exists (Vulkan.log da). rewrite Hnative.
    destruct (bool_decide (r >= Vulkan.VK_SUCCESS)); injection H as _ <- <-; reflexivity.
  - intros Hneg.
    destruct (bool_decide (r >= Vulkan.VK_SUCCESS)) eqn:Hr.
    + apply bool_decide_eq_true_1 in Hr. injection H as _ <- _.
      unfold Vulkan.VK_SUCCESS in Hr. lia.
    + injection H as <- _ _. exact Hc.
  - intros Hpos.
    destruct (bool_decide (r >= Vulkan.VK_SUCCESS)) eqn:Hr.
    2:{ apply bool_decide_eq_false_1 in Hr. injection H as _ <- _.
        unfold Vulkan.VK_SUCCESS in Hr. lia. }
    injection H as <- <- <-.
    set (d0 := Vulkan.register_buffer b info Vulkan.VK_NULL_HANDLE false
                 (Vulkan.emit [Vulkan.ev_vkCreateBuffer info r b] da)).
    set (data := {| Vulkan.object := b;
                    Vulkan.create_info := Vulkan.buffer_create_info info;
                    Vulkan.allocation := Vulkan.VK_NULL_HANDLE;
                    Vulkan.owned := false |}).
    assert (Hreg : Vulkan._resources d0 = <[b := data]> (Vulkan._resources d)).
    { subst d0. simpl. unfold Vulkan.emplace. rewrite Hc, Hfresh. reflexivity. }
    assert (Hl0 : Vulkan.lookup_resource d0 b = Some data).
    { unfold Vulkan.lookup_resource. rewrite Hreg. apply lookup_insert_eq. }
    assert (Hl1 : Vulkan.lookup_resource
                    (invoke_init_resource (convert_resource_desc info)
                       Vulkan.resource_usage_undefined b d0) b = Some data).
    { unfold Vulkan.lookup_resource. rewrite Hi. exact Hl0. }
    split; [exists d0; split; [reflexivity|exact Hl0]|].
    split; [exact Hl1|].
    unfold VulkanHooks.vkDestroyBuffer at 1. rewrite Hl1. cbn [mbind option_bind Vulkan.owned].
    eexists. split; [reflexivity|].
    split; [|split].
    + cbn [VulkanDevice.unregister_buffer Vulkan.emit Vulkan.with_resources Vulkan._resources].
      rewrite Hd, Hi, Hreg. apply delete_insert_id. exact Hfresh.
    + cbn [VulkanDevice.unregister_buffer Vulkan.emit Vulkan.with_resources Vulkan.log].
      rewrite <- app_assoc. reflexivity.
    + unfold VulkanHooks.vkDestroyBuffer, Vulkan.lookup_resource.
      cbn [VulkanDevice.unregister_buffer Vulkan.emit Vulkan.with_resources Vulkan._resources].
      rewrite lookup_delete_eq. reflexivity.
  - intros h d0 Hnone. unfold VulkanHooks.vkDestroyBuffer. rewrite Hnone. reflexivity.
Qed.

(** A buffer of the application on a device without add-ons: created,
    registered, destroyed once; the second destruction does not
    return. *)
Lemma vulkan_hooked_buffer_lifetime_witness :
  exists d1 d2,
    VulkanHooks.vkCreateBuffer vk_granting vk_hook_desc no_create_resource no_init_resource
      vk_buffer_info vk_fresh = (d1, 0, 0x10)
    /\ Vulkan.is_resource_handle_valid d1 0x10 = true
    /\ VulkanHooks.vkDestroyBuffer no_destroy_resource 0x10 d1 = Some d2
    /\ Vulkan._resources d2 = ∅
    /\ VulkanHooks.vkDestroyBuffer no_destroy_resource 0x10 d2 = None
    /\ VulkanHooks.vkDestroyBuffer no_destroy_resource 0 d2 = None.
Proof.
  destruct (vulkan_hooked_buffer_lifetime vk_granting vk_hook_desc no_create_resource
              no_init_resource no_destroy_resource vk_buffer_info vk_fresh
              (fst (fst (VulkanHooks.vkCreateBuffer vk_granting vk_hook_desc no_create_resource
                           no_init_resource vk_buffer_info vk_fresh))) 0 0x10)
    as (_ & _ & Hok & Hnone).
  - reflexivity.
  - reflexivity.
  - reflexivity.
  - reflexivity.
  - reflexivity.
  - reflexivity.
  - destruct Hok as (_ & Hl & d2 & Hdestroy & Hreg & _ & Hagain); [lia|].
    eexists. exists d2. split; [reflexivity|].
    split; [reflexivity|]. split; [exact Hdestroy|]. split; [exact Hreg|].
    split; [exact Hagain|]. apply Hnone. unfold Vulkan.lookup_resource. rewrite Hreg.
    reflexivity.
Defined.



(** The record of an attachment keeps the aspects of its format,
    whatever its load operations are. *)
Lemma attachment_of_format_flags (a : VulkanHooks.VkAttachmentDescription) :
  Vulkan.format_flags (VulkanHooks.attachment_of a)
  = Vulkan.aspect_flags_from_format (VulkanHooks.att_format a).
Proof. reflexivity. Qed.

Lemma matching_views_of_aspect (descs : list VulkanHooks.VkAttachmentDescription)
    (views : list Z) (type : Z) :
  Vulkan.matching_views (map VulkanHooks.attachment_of descs) views type
  = views_of_aspect descs views type.
Proof.
  revert views. induction descs as [|a descs IH]; intros views; [reflexivity|].
  destruct views as [|v views]; [reflexivity|].
  cbn [map Vulkan.matching_views views_of_aspect]. rewrite attachment_of_format_flags, IH.
  reflexivity.
Qed.

(** The loop of [vkCreateRenderPass] over all the attachments. *)
Lemma hooked_render_pass_loop (descs : list VulkanHooks.VkAttachmentDescription) :
  Z.of_nat (length descs) < 2 ^ 32 ->
  for_range (length descs) 0
    (fun attachment attachments =>
       a ← vector_get descs attachment;
       Some (attachments ++ [VulkanHooks.attachment_of a]))
    [] = Some (map VulkanHooks.attachment_of descs).
Proof.
  intros Hn.
  destruct (for_range_invariant
              (fun j acc => acc = map VulkanHooks.attachment_of (take (Z.to_nat j) descs))
              (fun attachment attachments =>
                 a ← vector_get descs attachment;
                 Some (attachments ++ [VulkanHooks.attachment_of a]))
              (length descs) 0 []) as (acc & Hrun & Hacc).
  - lia.
  - lia.
  - reflexivity.
  - intros j acc Hj ->.
    destruct (lookup_lt_is_Some_2 descs (Z.to_nat j)) as [a Ha]; [lia|].
    rewrite vector_get_lookup by lia. rewrite Ha. cbn [mbind option_bind].
    eexists. split; [reflexivity|].
    replace (Z.to_nat (j + 1)) with (S (Z.to_nat j)) by lia.
    rewrite (take_S_r _ _ _ Ha), map_app. reflexivity.
  - rewrite Hrun, Hacc. rewrite take_ge by lia. reflexivity.
Qed.

(** The loop of [vkCreateFramebuffer] for a framebuffer with as many
    attachments as its render pass. *)
Lemma hooked_framebuffer_loop (atts : list Vulkan.attachment) (views : list Z) :
  length views = length atts -> Z.of_nat (length views) < 2 ^ 32 ->
  for_range (length views) 0
    (fun i data =>
       v ← vector_get views i;
       a ← vector_get atts i;
       vs ← vector_set (Vulkan.fbo_attachments data) i v;
       types ← vector_set (Vulkan.attachment_types data) i (Vulkan.format_flags a);
       Some {| Vulkan.fbo_attachments := vs; Vulkan.attachment_types := types |})
    {| Vulkan.fbo_attachments := replicate (length views) 0;
       Vulkan.attachment_types := replicate (length views) 0 |}
  = Some {| Vulkan.fbo_attachments := views;
            Vulkan.attachment_types := map Vulkan.format_flags atts |}.
Proof.
  intros Hlen Hn. set (n := length views).
  destruct (for_range_invariant
              (fun j data =>
                 Vulkan.fbo_attachments data
                 = take (Z.to_nat j) views ++ replicate (n - Z.to_nat j) 0
                 /\ Vulkan.attachment_types data
                    = take (Z.to_nat j) (map Vulkan.format_flags atts)
                      ++ replicate (n - Z.to_nat j) 0)
              (fun i data =>
                 v ← vector_get views i;
                 a ← vector_get atts i;
                 vs ← vector_set (Vulkan.fbo_attachments data) i v;
                 types ← vector_set (Vulkan.attachment_types data) i (Vulkan.format_flags a);
                 Some {| Vulkan.fbo_attachments := vs; Vulkan.attachment_types := types |})
              n 0
              {| Vulkan.fbo_attachments := replicate n 0;
                 Vulkan.attachment_types := replicate n 0 |}) as (data & Hrun & Hv & Ht).
  - lia.
  - subst n. lia.
  - split; cbn; rewrite Nat.sub_0_r; reflexivity.
  - intros j data Hj (Hv & Ht).
    destruct (lookup_lt_is_Some_2 views (Z.to_nat j)) as [v Hvj]; [subst n; lia|].
    destruct (lookup_lt_is_Some_2 atts (Z.to_nat j)) as [a Haj]; [subst n; lia|].
    rewrite !vector_get_lookup by lia. rewrite Hvj, Haj. cbn [mbind option_bind].
    assert (Hl1 : length (Vulkan.fbo_attachments data) = n).
    { rewrite Hv, length_app, length_take, length_replicate. subst n. lia. }
    assert (Hl2 : length (Vulkan.attachment_types data) = n).
    { rewrite Ht, length_app, length_take, length_map, length_replicate. subst n. lia. }
    unfold vector_set. rewrite !decide_True by lia. cbn [mbind option_bind].
    eexists. split; [reflexivity|].
    replace (Z.to_nat (j + 1)) with (S (Z.to_nat j)) by lia.
    cbn [Vulkan.fbo_attachments Vulkan.attachment_types].
    assert (Hins : forall (l : list Z) (x : Z) (cur : list Z),
              l !! Z.to_nat j = Some x -> (length l = n)%nat ->
              cur = take (Z.to_nat j) l ++ replicate (n - Z.to_nat j) 0 ->
              <[Z.to_nat j := x]> cur
              = take (S (Z.to_nat j)) l ++ replicate (n - S (Z.to_nat j)) 0).
    { intros l x cur Hx Hll ->.
      assert (Hjn : (Z.to_nat j < n)%nat) by lia.
      rewrite (take_S_r _ _ _ Hx).
      replace (n - Z.to_nat j)%nat with (S (n - S (Z.to_nat j))) by lia.
      cbn [replicate]. rewrite <- app_assoc. cbn [app].
      rewrite insert_app_r_alt by (rewrite length_take; lia).
      rewrite length_take. replace (Z.to_nat j - Z.to_nat j `min` length l)%nat with 0%nat by lia.
      reflexivity. }
    split.
    + apply (Hins views v); [exact Hvj|reflexivity|exact Hv].
    + apply (Hins (map Vulkan.format_flags atts) (Vulkan.format_flags a)).
      * rewrite list_lookup_fmap, Haj. reflexivity.
      * rewrite length_map. subst n. lia.
      * exact Ht.
  - rewrite Hrun. f_equal. destruct data as [vs ts]. cbn in Hv, Ht.
    replace (Z.to_nat (0 + Z.of_nat n)) with n in * by lia.
    rewrite Nat.sub_diag in *. cbn [replicate] in *. rewrite app_nil_r in *.
    rewrite take_ge in Hv by (subst n; lia).
    rewrite take_ge in Ht by (rewrite length_map; subst n; lia).
    subst. reflexivity.
Qed.

(** X18: the attachments of an application framebuffer are found by
    the aspects of the render pass's formats.  After the
    [vkCreateRenderPass] and [vkCreateFramebuffer] hooks have seen a
    render pass and a framebuffer with one non-null view per attachment
    of the pass (both handles not in use), a pass object that pairs them
    answers the queries of the device from the formats alone, whatever
    the load operations are: [get_attachment_count] is the number of
    attachments whose format has an aspect of the requested type, and
    [get_attachment] returns the views of these attachments in
    declaration order and fails with the zero view past the last one.
    The destroy hooks take both records out again.  For a render pass
    that is not registered, [vkCreateFramebuffer] does not return once
    the next layer has succeeded (the lookup throws). *)
Theorem vulkan_hooked_framebuffer_attachments (d : Vulkan.device_impl)
    (renderPass framebuffer pass r1 r2 : Z)
    (descs : list VulkanHooks.VkAttachmentDescription) (views : list Z)
    (pass_impl : Vulkan.render_pass_impl) :
  r1 >= Vulkan.VK_SUCCESS -> r2 >= Vulkan.VK_SUCCESS ->
  length views = length descs ->
  Z.of_nat (length descs) < 2 ^ 32 ->
  Forall (fun v => v ≠ 0) views ->
  Vulkan._render_pass_list d !! renderPass = None ->
  Vulkan._framebuffer_list d !! framebuffer = None ->
  Vulkan.render_passes d !! pass = Some pass_impl ->
  Vulkan.fbo pass_impl = framebuffer ->
  Vulkan.render_pass pass_impl = renderPass ->
  (forall n vs, VulkanHooks.vkCreateFramebuffer r2 framebuffer renderPass n vs d = None)
  /\ exists d1 d2,
       VulkanHooks.vkCreateRenderPass r1 renderPass (Z.of_nat (length descs)) descs d
       = Some (d1, r1)
       /\ VulkanHooks.vkCreateFramebuffer r2 framebuffer renderPass (Z.of_nat (length views))
            views d1 = Some (d2, r2)
       /\ (forall type,
             let matching := views_of_aspect descs views type in
             Vulkan.get_attachment_count d2 pass type = Some (Z.of_nat (length matching))
             /\ (forall (i : nat) (v : Z), matching !! i = Some v ->
                   Vulkan.get_attachment d2 pass type (Z.of_nat i) = Some (v, true))
             /\ Vulkan.get_attachment d2 pass type (Z.of_nat (length matching))
                = Some (0, false))
       /\ Vulkan._render_pass_list
            (VulkanHooks.vkDestroyRenderPass renderPass
               (VulkanHooks.vkDestroyFramebuffer framebuffer d2))
          = Vulkan._render_pass_list d
       /\ Vulkan._framebuffer_list
            (VulkanHooks.vkDestroyRenderPass renderPass
               (VulkanHooks.vkDestroyFramebuffer framebuffer d2))
          = Vulkan._framebuffer_list d.
Proof.
  intros Hr1 Hr2 Hlen Hn Hnz Hfp Hff Hp Hfbo Hrp.
  split.
  { intros n vs. unfold VulkanHooks.vkCreateFramebuffer.
    rewrite bool_decide_eq_true_2 by exact Hr2.
    unfold VulkanDevice.lookup_render_pass. rewrite Hfp. reflexivity. }
  set (atts := map VulkanHooks.attachment_of descs).
  set (d1 := VulkanDevice.register_render_pass renderPass {| Vulkan.attachments := atts |} d).
  set (fdata := {| Vulkan.fbo_attachments := views;
                   Vulkan.attachment_types := map Vulkan.format_flags atts |}).
  set (d2 := VulkanDevice.register_framebuffer framebuffer fdata d1).
  assert (Hl1 : Vulkan._render_pass_list d1 = <[renderPass := {| Vulkan.attachments := atts |}]>
                                                (Vulkan._render_pass_list d)).
  { subst d1. cbn. unfold Vulkan.emplace. rewrite Hfp. reflexivity. }
  assert (Hl2 : Vulkan._framebuffer_list d2 = <[framebuffer := fdata]>
                                                (Vulkan._framebuffer_list d)).
  { subst d2 d1. cbn. unfold Vulkan.emplace. rewrite Hff. reflexivity. }
  exists d1, d2. split; [|split; [|split; [|split]]].
  - unfold VulkanHooks.vkCreateRenderPass. rewrite bool_decide_eq_true_2 by exact Hr1.
    rewrite Nat2Z.id, hooked_render_pass_loop by exact Hn. reflexivity.
  - unfold VulkanHooks.vkCreateFramebuffer. rewrite bool_decide_eq_true_2 by exact Hr2.
    unfold VulkanDevice.lookup_render_pass. rewrite Hl1, lookup_insert_eq.
    cbn [mbind option_bind Vulkan.attachments]. rewrite Nat2Z.id.
    rewrite (hooked_framebuffer_loop atts views).
    + reflexivity.
    + subst atts. rewrite length_map. exact Hlen.
    + lia.
  - intros type matching.
    assert (Hla : length atts = length views) by (subst atts; rewrite length_map; lia).
    assert (Hb : Z.of_nat (length atts) < 2 ^ 32) by lia.
    destruct (attachment_loops_spec atts views type Hla Hnz Hb) as (Hcount & Hlt & Heq).
    subst atts. rewrite matching_views_of_aspect in Hcount, Hlt, Heq. fold matching in Hcount, Hlt, Heq.
    assert (Hget : forall index,
              Vulkan.get_attachment d2 pass type index
              = Vulkan.find_attachment (map VulkanHooks.attachment_of descs) 0 views type index).
    { intros index. unfold Vulkan.get_attachment.
      replace (Vulkan.render_passes d2) with (Vulkan.render_passes d) by reflexivity.
      rewrite Hp. cbn [mbind option_bind]. rewrite Hfbo, Hl2, lookup_insert_eq.
      cbn [mbind option_bind]. rewrite Hrp.
      replace (Vulkan._render_pass_list d2) with (Vulkan._render_pass_list d1) by reflexivity.
      rewrite Hl1, lookup_insert_eq. reflexivity. }
    split; [|split].
    + unfold Vulkan.get_attachment_count.
      replace (Vulkan.render_passes d2) with (Vulkan.render_passes d) by reflexivity.
      rewrite Hp. cbn [mbind option_bind]. rewrite Hrp.
      replace (Vulkan._render_pass_list d2) with (Vulkan._render_pass_list d1) by reflexivity.
      rewrite Hl1, lookup_insert_eq. cbn [mbind option_bind Vulkan.attachments].
      rewrite Hcount. reflexivity.
    + intros i v Hv. rewrite Hget. apply Hlt. exact Hv.
    + rewrite Hget. exact Heq.
  - unfold VulkanHooks.vkDestroyRenderPass, VulkanHooks.vkDestroyFramebuffer.
    cbn [VulkanDevice.unregister_render_pass VulkanDevice.unregister_framebuffer
         Vulkan.with_render_pass_list Vulkan.with_framebuffer_list Vulkan._render_pass_list].
    replace (Vulkan._render_pass_list d2) with (Vulkan._render_pass_list d1) by reflexivity.
    rewrite Hl1. apply delete_insert_id. exact Hfp.
  - unfold VulkanHooks.vkDestroyRenderPass, VulkanHooks.vkDestroyFramebuffer.
    cbn [VulkanDevice.unregister_render_pass VulkanDevice.unregister_framebuffer
         Vulkan.with_render_pass_list Vulkan.with_framebuffer_list Vulkan._framebuffer_list].
    rewrite Hl2. apply delete_insert_id. exact Hff.
Qed.

(** Two color attachments, the second one loaded rather than cleared,
    and a depth-stencil attachment: the pass has two color views and
    one view for depth. *)
Lemma vulkan_hooked_framebuffer_attachments_witness :
  exists d1 d2,
    VulkanHooks.vkCreateRenderPass 0 0x80 3 vk_app_attachments vk_app_pass = Some (d1, 0)
    /\ VulkanHooks.vkCreateFramebuffer 0 0x90 0x80 3 [0x501; 0x502; 0x503] d1 = Some (d2, 0)
    /\ Vulkan.get_attachment_count d2 0xA0 1 = Some 2
    /\ Vulkan.get_attachment d2 0xA0 1 1 = Some (0x502, true)
    /\ Vulkan.get_attachment d2 0xA0 2 0 = Some (0x503, true)
    /\ Vulkan.get_attachment d2 0xA0 2 1 = Some (0, false).
Proof.
  destruct (vulkan_hooked_framebuffer_attachments vk_app_pass 0x80 0x90 0xA0 0 0
              vk_app_attachments [0x501; 0x502; 0x503]
              {| Vulkan.fbo := 0x90; Vulkan.render_pass := 0x80;
                 Vulkan.render_area_width := 640; Vulkan.render_area_height := 480 |})
    as (_ & d1 & d2 & H1 & H2 & Hq & _).
  - unfold Vulkan.VK_SUCCESS. lia.
  - unfold Vulkan.VK_SUCCESS. lia.
  - reflexivity.
  - simpl. lia.
  - repeat constructor; discriminate.
  - reflexivity.
  - reflexivity.
  - reflexivity.
  - reflexivity.
  - reflexivity.
  - exists d1, d2. split; [exact H1|]. split; [exact H2|].
    destruct (Hq 1) as (Hc & Hi & _). destruct (Hq 2) as (_ & Hd & He).
    split; [exact Hc|]. split; [exact (Hi 1%nat 0x502 eq_refl)|].
    split; [exact (Hd 0%nat 0x503 eq_refl)|exact He].
Defined.

(** ** Compute pipelines and the life of a pipeline layout *)



(** The loop over the set layouts leaves the table of pipeline layouts
    alone. *)
Lemma resolve_set_layouts_table (vk : VulkanDevice.dispatch_table)
    (desc : VulkanDevice.pipeline_layout_desc) (n : nat) :
  forall (i dummy : Z) (internal : list Z) (s : VulkanDevice.device) (r : VulkanDevice.resolved),
    VulkanDevice.resolve_set_layouts vk n i desc dummy internal s = Some r ->
    match r with
    | VulkanDevice.returned_false s1 | VulkanDevice.resolved_layouts _ _ s1 =>
        VulkanDevice._pipeline_layout_list s1 = VulkanDevice._pipeline_layout_list s
        /\ VulkanDevice.impl s1 = VulkanDevice.impl s
    end.
Proof.
  induction n as [|n IH]; intros i dummy internal s r H.
  - injection H as <-. split; reflexivity.
  - cbn [VulkanDevice.resolve_set_layouts] in H.
    apply bind_Some in H as (handle & _ & H).
    destruct (bool_decide (handle = 0)).
    + destruct (bool_decide (dummy = Vulkan.VK_NULL_HANDLE)).
      * destruct (VulkanDevice.CreateDescriptorSetLayout vk _ _) as [result object].
        destruct (bool_decide (result ≠ Vulkan.VK_SUCCESS)).
        -- injection H as <-. split; reflexivity.
        -- apply bind_Some in H as (internal' & _ & H). apply IH in H.
           destruct r; exact H.
      * apply bind_Some in H as (internal' & _ & H). apply IH in H. exact H.
    + apply bind_Some in H as (internal' & _ & H). apply IH in H. exact H.
Qed.

(** X20: [destroy_pipeline_layout] of the Vulkan backend undoes
    [create_pipeline_layout].  After a successful creation that
    returned a handle not in use, the set layouts are recorded under the
    handle; the destruction removes the record, so that the table of
    pipeline layouts is as before the creation, and hands the handle to
    [vkDestroyPipelineLayout] as its only call.  The destruction of a
    handle without a record leaves the table as it is and makes the same
    call. *)
Theorem vulkan_pipeline_layout_lifetime (vk : VulkanDevice.dispatch_table)
    (desc : VulkanDevice.pipeline_layout_desc) (s s1 : VulkanDevice.device) (out : Z) :
  VulkanDevice.create_pipeline_layout vk desc s = Some (s1, out, true) ->
  VulkanDevice._pipeline_layout_list s !! out = None ->
  is_Some (VulkanDevice._pipeline_layout_list s1 !! out)
  /\ VulkanDevice._pipeline_layout_list (VulkanDevice.destroy_pipeline_layout out s1)
     = VulkanDevice._pipeline_layout_list s
  /\ VulkanDevice.impl (VulkanDevice.destroy_pipeline_layout out s1) = VulkanDevice.impl s
  /\ VulkanDevice.calls (VulkanDevice.destroy_pipeline_layout out s1)
     = VulkanDevice.calls s1 ++ [VulkanDevice.ev_vkDestroyPipelineLayout out]
  /\ (forall handle, VulkanDevice._pipeline_layout_list s !! handle = None ->
        VulkanDevice._pipeline_layout_list (VulkanDevice.destroy_pipeline_layout handle s)
        = VulkanDevice._pipeline_layout_list s
        /\ VulkanDevice.calls (VulkanDevice.destroy_pipeline_layout handle s)
           = VulkanDevice.calls s ++ [VulkanDevice.ev_vkDestroyPipelineLayout handle]).
Proof.
  intros H Hfresh. unfold VulkanDevice.create_pipeline_layout in H.
  apply bind_Some in H as (r & Hres & H).
  apply resolve_set_layouts_table in Hres.
  destruct r as [s0|dummy internal s0]; [discriminate|].
  destruct Hres as (Htab & Himpl).
  apply bind_Some in H as (ranges & _ & H).
  destruct (VulkanDevice.CreatePipelineLayout vk _ _ _) as [result object].
  destruct (bool_decide (result = Vulkan.VK_SUCCESS)); [|discriminate].
  injection H as <- <-.
  cbn [VulkanDevice.destroy_pipeline_layout VulkanDevice.record
       VulkanDevice.with_pipeline_layout_list VulkanDevice._pipeline_layout_list
       VulkanDevice.impl VulkanDevice.calls].
  rewrite Htab. split; [|split; [|split; [|split]]].
  - rewrite lookup_insert_eq. eexists. reflexivity.
  - apply delete_insert_id. exact Hfresh.
  - exact Himpl.
  - reflexivity.
  - intros handle Hnone. split; [|reflexivity].
    apply delete_id. exact Hnone.
Qed.

(** The layout of the two-set description, created and destroyed. *)
Lemma vulkan_pipeline_layout_lifetime_witness :
  exists s1,
    VulkanDevice.create_pipeline_layout vk_dispatch vk_layout_desc (vk_device vk_fresh)
    = Some (s1, 0x610, true)
    /\ is_Some (VulkanDevice._pipeline_layout_list s1 !! 0x610)
    /\ VulkanDevice._pipeline_layout_list (VulkanDevice.destroy_pipeline_layout 0x610 s1) = ∅.
Proof.
  eexists. split; [reflexivity|].
  destruct (vulkan_pipeline_layout_lifetime vk_dispatch vk_layout_desc (vk_device vk_fresh)
              _ 0x610 eq_refl eq_refl) as (Hreg & Htab & _).
  split; [exact Hreg|exact Htab].
Defined.
